(** * Edugen: the content-generation job lifecycle

    A shallow embedding of the Django backend under [backend/projects]
    (models.py, serializers.py, views.py, tasks.py, utils.py), of
    [backend/users/models.py] and of [backend/chat], with the properties
    of the request handlers, the generation and audio jobs, text
    extraction, cost accounting, voice selection, the upload and the
    deletion of documents, and the chat.

    Conventions of the embedding:
    - Python values that travel in request bodies and option dictionaries
      are [pyvalue]s; a [dict] is a finite map from strings to them.
    - Code that touches the database, the object store, the local file
      system or an external service runs in the monad [M], which threads a
      state and may raise an [exn]; [try_except] and [try_finally] are
      Python's statements of the same name. A task keeps its model
      instance as a local object next to the [world], so that the
      [except] clause sees the assignments made before the exception.
    - What lies outside the repository (settings, S3, OpenAI, PyPDF2,
      python-docx, python-pptx, edge-tts, the DRF field coercions, Celery's
      task identifiers, failures of the database server on the profile
      table) is collected in the record [env]; every theorem quantifies
      over it, and it may change from one request or task run to the next.
    - The table of generated content is a list of rows. A write to it
      fails only where the database would refuse the row: on the foreign
      key to the project and on [unique_together].
    - A view or a task runs from start to end without interleaving.
    - A [DecimalField] with four decimal places is an integer number of
      ten-thousandths. A Python [float] is a binary64 number of the
      Standard Library's [SpecFloat], with its rounding to nearest (ties
      to even), its infinities and its NaN; an [int] is unbounded. The
      prices of [settings.OPENAI_PRICING] are floats.
    - The chat app keeps its tables in a state of its own, [chat_db],
      next to the [world]; its code runs on the pair of the two. *)

From Stdlib Require Import ZArith QArith Qround Qpower Lia.
From Stdlib Require Import Floats.SpecFloat.
From Stdlib Require Import Strings.String Strings.Ascii Numbers.DecimalString.
From stdpp Require Import base option list gmap strings fin_maps.

Local Open Scope string_scope.

(* ===================================================================== *)
(** * Python values and dictionaries *)
(* ===================================================================== *)

Inductive pyvalue :=
| VNone
| VBool (b : bool)
| VInt (n : Z)
| VStr (s : string).

#[global] Instance pyvalue_eq_dec : EqDecision pyvalue.
Proof. solve_decision. Defined.

Abbreviation dict := (gmap string pyvalue).

(** [d.get(k, dflt)] *)
Definition dict_get (d : dict) (k : string) (dflt : pyvalue) : pyvalue :=
  default dflt (d !! k).

(** [d.get(k)], which is [None] for a missing key *)
Definition dict_get_none (d : dict) (k : string) : pyvalue :=
  dict_get d k VNone.

(** Truth value of a Python object in a condition. *)
Definition truthy (v : pyvalue) : bool :=
  match v with
  | VNone => false
  | VBool b => b
  | VInt n => negb (n =? 0)%Z
  | VStr s => negb (String.eqb s "")
  end.

Definition str_nat (n : nat) : string := NilZero.string_of_uint (Nat.to_uint n).
Definition str_Z (n : Z) : string := NilZero.string_of_int (Z.to_int n).

(** [str(v)], as an f-string renders it *)
Definition py_str (v : pyvalue) : string :=
  match v with
  | VNone => "None"
  | VBool true => "True"
  | VBool false => "False"
  | VInt n => str_Z n
  | VStr s => s
  end.

(* ===================================================================== *)
(** * String operations used by the source *)
(* ===================================================================== *)

Fixpoint string_drop (n : nat) (s : string) : string :=
  match n, s with
  | O, _ => s
  | S n', String _ s' => string_drop n' s'
  | S _, EmptyString => EmptyString
  end.

(** [s[:n]] *)
Fixpoint string_take (n : nat) (s : string) : string :=
  match n, s with
  | O, _ => EmptyString
  | S n', String c s' => String c (string_take n' s')
  | S _, EmptyString => EmptyString
  end.

(** [s.startswith(p)] *)
Definition startswith (s p : string) : bool := String.prefix p s.

(** [s.endswith(p)] *)
Definition endswith (s p : string) : bool :=
  let n := String.length s in
  let m := String.length p in
  (m <=? n)%nat && String.eqb (string_drop (n - m) s) p.

(** [s.split(sep, 1)[1]]: what follows the first occurrence of [sep];
    the index is out of range when [sep] does not occur. *)
Fixpoint split1_tail (sep s : string) : option string :=
  if String.prefix sep s then Some (string_drop (String.length sep) s)
  else match s with
       | EmptyString => None
       | String _ s' => split1_tail sep s'
       end.

Fixpoint basename_go (acc s : string) : string :=
  match s with
  | EmptyString => acc
  | String c s' =>
      if Ascii.eqb c "/"%char then basename_go EmptyString s'
      else basename_go (acc +:+ String c EmptyString) s'
  end.

(** [os.path.basename(p)] *)
Definition basename (p : string) : string := basename_go EmptyString p.

(** [str.isspace] on one character (code points below 256). *)
Definition py_isspace (c : ascii) : bool :=
  let n := nat_of_ascii c in
  ((9 <=? n) && (n <=? 13) || (28 <=? n) && (n <=? 32)
   || (n =? 133) || (n =? 160))%nat.

Fixpoint all_space (s : string) : bool :=
  match s with
  | EmptyString => true
  | String c s' => py_isspace c && all_space s'
  end.

(** [not s.strip()] *)
Definition strip_is_empty (s : string) : bool := all_space s.

(** Truth value of an optional string ([None] and [""] are false). *)
Definition str_truthy (o : option string) : bool :=
  match o with
  | None => false
  | Some s => negb (String.eqb s "")
  end.

(* ===================================================================== *)
(** * Exceptions and the state-and-exception monad *)
(* ===================================================================== *)

Inductive exn :=
| DoesNotExist (model : string)
| MultipleObjectsReturned
| IntegrityError
| Http404
| ValidationError (field : string)
| ValueError (msg : string)
| IndexError
| KeyError (key : string)
| AttributeError
| TypeError
| NameError (name : string)
| OverflowError
| FileNotFoundError (path : string)
| ServiceError (service : string).

Inductive result (A : Type) :=
| Ok (a : A)
| Raise (e : exn).
Arguments Ok {A} a.
Arguments Raise {A} e.

#[global] Instance result_fmap : FMap result :=
  fun A B f r => match r with Ok a => Ok (f a) | Raise e => Raise e end.

Definition M (S A : Type) : Type := S -> result A * S.

Definition ret {S A} (a : A) : M S A := fun s => (Ok a, s).

Definition raise {S A} (e : exn) : M S A := fun s => (Raise e, s).

Definition bind {S A B} (m : M S A) (k : A -> M S B) : M S B :=
  fun s => match m s with
           | (Ok a, s') => k a s'
           | (Raise e, s') => (Raise e, s')
           end.

Notation "'let*' x ':=' c 'in' k" := (bind c (fun x => k))
  (at level 10, x pattern, c at level 100, k at level 200).
Notation "c1 '>>' c2" := (bind c1 (fun _ => c2))
  (at level 100, c2 at level 200, right associativity).

(** [try: body  except Exception as e: handler(e)] *)
Definition try_except {S A} (body : M S A) (handler : exn -> M S A) : M S A :=
  fun s => match body s with
           | (Ok a, s') => (Ok a, s')
           | (Raise e, s') => handler e s'
           end.

(** [try: body  finally: final]: [final] always runs; an exception of
    [final] replaces the outcome of [body]. *)
Definition try_finally {S A} (body : M S A) (final : M S unit) : M S A :=
  fun s => match body s with
           | (r, s') => match final s' with
                        | (Ok _, s'') => (r, s'')
                        | (Raise e, s'') => (Raise e, s'')
                        end
           end.

Definition of_result {S A} (r : result A) : M S A := fun s => (r, s).

Definition gets {S A} (f : S -> A) : M S A := fun s => (Ok (f s), s).

Definition modify {S} (f : S -> S) : M S unit := fun s => (Ok tt, f s).

(** An exception an external call may be made to raise. *)
Definition fault {S} (o : option exn) : M S unit :=
  match o with
  | None => ret tt
  | Some e => raise e
  end.

(** Code of the global state run where a local object [L] is in scope. *)
Definition liftW {W L A} (m : M W A) : M (W * L) A :=
  fun s => match m (fst s) with (r, w') => (r, (w', snd s)) end.

Definition get_local {W L} : M (W * L) L := gets snd.

Definition set_local {W L} (f : L -> L) : M (W * L) unit :=
  modify (fun s => (fst s, f (snd s))).

Definition with_local {W L A} (l : L) (m : M (W * L) A) : M W A :=
  fun w => match m (w, l) with (r, s') => (r, fst s') end.

(* ===================================================================== *)
(** * Python numbers *)
(* ===================================================================== *)

(** A [float] is a binary64 number: 53 bits of precision, exponents up
    to 1024. *)
Abbreviation float := spec_float.

#[global] Instance float_eq_dec : EqDecision float.
Proof. solve_decision. Defined.

(** [x * y] and [x + y] on floats: the exact result rounded to nearest,
    ties to even; an overflow gives an infinity and raises nothing. *)
Definition float_mul (x y : float) : float := SFmul 53 1024 x y.

Definition float_add (x y : float) : float := SFadd 53 1024 x y.

(** The conversion of an [int] operand that stands next to a [float]
    one: the nearest float, ties to even, and [OverflowError] for an
    [int] that rounds beyond the largest float. *)
Definition float_of_int (n : Z) : result float :=
  match binary_normalize 53 1024 n 0 false with
  | S754_infinity _ => Raise OverflowError
  | x => Ok x
  end.

(** [n * x] for an [int] and a [float] *)
Definition int_mul_float (n : Z) (x : float) : result float :=
  match float_of_int n with
  | Ok n' => Ok (float_mul n' x)
  | Raise e => Raise e
  end.

(** A cost is an [int] (the literal [0]) or a [float]. *)
Inductive number :=
| NInt (n : Z)
| NFloat (x : float).

(** [a + b] *)
Definition num_add (a b : number) : result number :=
  match a, b with
  | NInt m, NInt n => Ok (NInt (m + n))
  | NInt m, NFloat y =>
      match float_of_int m with
      | Ok x => Ok (NFloat (float_add x y))
      | Raise e => Raise e
      end
  | NFloat x, NInt n =>
      match float_of_int n with
      | Ok y => Ok (NFloat (float_add x y))
      | Raise e => Raise e
      end
  | NFloat x, NFloat y => Ok (NFloat (float_add x y))
  end.

(** [a > 0]; false for a NaN. *)
Definition num_gt_zero (a : number) : bool :=
  match a with
  | NInt n => (0 <? n)%Z
  | NFloat x => SFltb (S754_zero false) x
  end.

(** The rational a finite float denotes (and zero for the others). *)
Definition float_value (x : float) : Q :=
  match x with
  | S754_finite s m e =>
      ((if s then inject_Z (Z.neg m) else inject_Z (Z.pos m)) * 2 ^ e)%Q
  | _ => 0%Q
  end.

Definition number_value (a : number) : Q :=
  match a with
  | NInt n => inject_Z n
  | NFloat x => float_value x
  end.

(* ===================================================================== *)
(** * Cost accounting: [utils.calculate_cost] *)
(* ===================================================================== *)

(** [response.usage] of a completion *)
Record Usage := {
  prompt_tokens : Z;
  completion_tokens : Z
}.

(** [settings.OPENAI_PRICING]: per model, a dictionary of prices. *)
Abbreviation pricing_table := (gmap string (gmap string float)).

(** The operands are evaluated from left to right: the first product is
    formed before [pricing['output']] is looked up. *)
Definition calculate_cost (OPENAI_PRICING : pricing_table)
    (model_name : string) (usage : Usage) : result number :=
  match OPENAI_PRICING !! model_name with
  | None => Ok (NFloat (S754_zero false))            (* 0.0 *)
  | Some pricing =>
      if bool_decide (pricing = ∅) then Ok (NFloat (S754_zero false))
      else
        match pricing !! "input" with
        | None => Raise (KeyError "input")
        | Some price_in =>
            match int_mul_float (prompt_tokens usage) price_in with
            | Raise e => Raise e
            | Ok prompt_cost =>
                match pricing !! "output" with
                | None => Raise (KeyError "output")
                | Some price_out =>
                    match int_mul_float (completion_tokens usage) price_out with
                    | Raise e => Raise e
                    | Ok completion_cost =>
                        Ok (NFloat (float_add prompt_cost completion_cost))
                    end
                end
            end
        end
  end.

(* ===================================================================== *)
(** * Voice selection: [utils.generate_podcast_audio_from_script] *)
(* ===================================================================== *)

Definition voice_map : list ((string * string * string) * string) :=
  [ (* American English *)
    (("american", "female", "neutral"), "en-US-AriaNeural");
    (("american", "female", "enthusiastic"), "en-US-JennyNeural");
    (("american", "female", "formal"), "en-US-SaraNeural");
    (("american", "female", "conversational"), "en-US-AriaNeural");
    (("american", "male", "neutral"), "en-US-GuyNeural");
    (("american", "male", "enthusiastic"), "en-US-BrianNeural");
    (("american", "male", "formal"), "en-US-DavisNeural");
    (("american", "male", "conversational"), "en-US-GuyNeural");
    (* British English *)
    (("british", "female", "neutral"), "en-GB-SoniaNeural");
    (("british", "female", "enthusiastic"), "en-GB-LibbyNeural");
    (("british", "female", "formal"), "en-GB-SoniaNeural");
    (("british", "female", "conversational"), "en-GB-MaisieNeural");
    (("british", "male", "neutral"), "en-GB-RyanNeural");
    (("british", "male", "enthusiastic"), "en-GB-ThomasNeural");
    (("british", "male", "formal"), "en-GB-RyanNeural");
    (("british", "male", "conversational"), "en-GB-AlfieNeural");
    (* Indian English *)
    (("indian", "female", "neutral"), "en-IN-NeerjaNeural");
    (("indian", "female", "enthusiastic"), "en-IN-NeerjaNeural");
    (("indian", "female", "formal"), "en-IN-NeerjaNeural");
    (("indian", "female", "conversational"), "en-IN-NeerjaNeural");
    (("indian", "male", "neutral"), "en-IN-PrabhatNeural");
    (("indian", "male", "enthusiastic"), "en-IN-PrabhatNeural");
    (("indian", "male", "formal"), "en-IN-PrabhatNeural");
    (("indian", "male", "conversational"), "en-IN-PrabhatNeural");
    (* Australian English *)
    (("australian", "female", "neutral"), "en-AU-NatashaNeural");
    (("australian", "female", "enthusiastic"), "en-AU-NatashaNeural");
    (("australian", "female", "formal"), "en-AU-NatashaNeural");
    (("australian", "female", "conversational"), "en-AU-NatashaNeural");
    (("australian", "male", "neutral"), "en-AU-WilliamNeural");
    (("australian", "male", "enthusiastic"), "en-AU-WilliamNeural");
    (("australian", "male", "formal"), "en-AU-WilliamNeural");
    (("australian", "male", "conversational"), "en-AU-WilliamNeural");
    (* Canadian English *)
    (("canadian", "female", "neutral"), "en-CA-ClaraNeural");
    (("canadian", "female", "enthusiastic"), "en-CA-ClaraNeural");
    (("canadian", "female", "formal"), "en-CA-ClaraNeural");
    (("canadian", "female", "conversational"), "en-CA-ClaraNeural");
    (("canadian", "male", "neutral"), "en-CA-LiamNeural");
    (("canadian", "male", "enthusiastic"), "en-CA-LiamNeural");
    (("canadian", "male", "formal"), "en-CA-LiamNeural");
    (("canadian", "male", "conversational"), "en-CA-LiamNeural")
  ].

(** The tuple [(voice_accent, voice_gender, voice_style)] as a key of
    [voice_map]: the keys of the table are triples of strings, so a triple
    with a component that is not a string equals none of them. *)
Definition voice_key (accent gender style : pyvalue)
    : option (string * string * string) :=
  match accent, gender, style with
  | VStr a, VStr g, VStr s => Some (a, g, s)
  | _, _, _ => None
  end.

(** Lookup in a dictionary literal: with a repeated key the last entry
    stands. *)
Fixpoint literal_lookup {K V} `{EqDecision K} (k : K) (l : list (K * V))
    : option V :=
  match l with
  | [] => None
  | (k', v) :: l' =>
      match literal_lookup k l' with
      | Some w => Some w
      | None => if decide (k = k') then Some v else None
      end
  end.

Definition default_voice : string := "en-US-AriaNeural".

(** [voice_map.get((voice_accent, voice_gender, voice_style),
    "en-US-AriaNeural")] *)
Definition voice_name_of (accent gender style : pyvalue) : string :=
  match voice_key accent gender style with
  | Some k => default default_voice (literal_lookup k voice_map)
  | None => default_voice
  end.

(** The first four lines of [generate_podcast_audio_from_script]. *)
Definition select_voice (options : dict) : string :=
  let voice_style := dict_get options "voice_style" (VStr "neutral") in
  let voice_gender := dict_get options "voice_gender" (VStr "female") in
  let voice_accent := dict_get options "voice_accent" (VStr "american") in
  voice_name_of voice_accent voice_gender voice_style.

(* ===================================================================== *)
(** * Data model: [projects/models.py], [users/models.py] *)
(* ===================================================================== *)

Record Project := {
  pid : nat;                            (* the primary key [id] *)
  user : nat;                           (* foreign key to the owner *)
  title : string;
  original_file_name : option string;
  s3_file_key : string
}.

Inductive ContentType := PRESENTATION | FLASHCARDS | MCQ_SET | PODCAST.

#[global] Instance ContentType_eq_dec : EqDecision ContentType.
Proof. solve_decision. Defined.

(** The stored value of each choice. *)
Definition ContentType_value (c : ContentType) : string :=
  match c with
  | PRESENTATION => "PPT"
  | FLASHCARDS => "FLASH"
  | MCQ_SET => "MCQ"
  | PODCAST => "POD"
  end.

Definition ContentType_choices : list ContentType :=
  [PRESENTATION; FLASHCARDS; MCQ_SET; PODCAST].

Inductive TaskStatus := PENDING | SUCCESS | FAILURE.

#[global] Instance TaskStatus_eq_dec : EqDecision TaskStatus.
Proof. solve_decision. Defined.

Record GeneratedContent := {
  gc_id : nat;                          (* the primary key [id] *)
  project_id : nat;                     (* foreign key [project] *)
  content_type : ContentType;
  s3_url : option string;               (* null until success *)
  task_id : option string;
  task_status : TaskStatus
}.

(** [Meta.unique_together = ('project', 'content_type')] *)
Definition unique_key (r : GeneratedContent) : nat * ContentType :=
  (project_id r, content_type r).

Definition with_s3_url (u : option string) (r : GeneratedContent) : GeneratedContent :=
  {| gc_id := gc_id r; project_id := project_id r; content_type := content_type r;
     s3_url := u; task_id := task_id r; task_status := task_status r |}.

Definition with_task_id (t : option string) (r : GeneratedContent) : GeneratedContent :=
  {| gc_id := gc_id r; project_id := project_id r; content_type := content_type r;
     s3_url := s3_url r; task_id := t; task_status := task_status r |}.

Definition with_task_status (st : TaskStatus) (r : GeneratedContent) : GeneratedContent :=
  {| gc_id := gc_id r; project_id := project_id r; content_type := content_type r;
     s3_url := s3_url r; task_id := task_id r; task_status := st |}.

(** [UserProfile.token_balance]: [DecimalField(max_digits=10,
    decimal_places=4, default=5.00)], in ten-thousandths. *)
Definition default_token_balance : Z := 50000.

(* ===================================================================== *)
(** * The world: database, object store, local files, broker, trace *)
(* ===================================================================== *)

(** A Celery task message. *)
Inductive task :=
| GenerateContentTask (generated_content_id : nat) (generations_options : dict)
| GenerateAudioTask (generated_content_id : nat) (generation_options : dict).

(** Calls that leave the process. *)
Inductive event :=
| EvS3Delete (key : string)
| EvS3Download (key : string)
| EvS3Upload (key : string)
| EvChatCompletion (model prompt : string)
| EvImageGeneration (model : string)
| EvSpeech (voice : string)
| EvDelay (t : task).

Record world := {
  projects : list Project;              (* table projects_project *)
  contents : list GeneratedContent;     (* table projects_generatedcontent *)
  next_pk : nat;                        (* its primary-key sequence *)
  profiles : gmap nat Z;                (* users_userprofile: user -> balance *)
  bucket : gmap string string;          (* the S3 bucket: key -> blob *)
  files : gmap string string;           (* local files: path -> bytes *)
  queue : list task;                    (* tasks handed to the broker *)
  trace : list event                    (* external calls, oldest first *)
}.

Definition set_projects (f : list Project -> list Project) (w : world) : world :=
  {| projects := f (projects w); contents := contents w; next_pk := next_pk w;
     profiles := profiles w; bucket := bucket w; files := files w;
     queue := queue w; trace := trace w |}.

Definition set_contents (f : list GeneratedContent -> list GeneratedContent)
    (w : world) : world :=
  {| projects := projects w; contents := f (contents w); next_pk := next_pk w;
     profiles := profiles w; bucket := bucket w; files := files w;
     queue := queue w; trace := trace w |}.

Definition set_next_pk (f : nat -> nat) (w : world) : world :=
  {| projects := projects w; contents := contents w; next_pk := f (next_pk w);
     profiles := profiles w; bucket := bucket w; files := files w;
     queue := queue w; trace := trace w |}.

Definition set_profiles (f : gmap nat Z -> gmap nat Z) (w : world) : world :=
  {| projects := projects w; contents := contents w; next_pk := next_pk w;
     profiles := f (profiles w); bucket := bucket w; files := files w;
     queue := queue w; trace := trace w |}.

Definition set_bucket (f : gmap string string -> gmap string string)
    (w : world) : world :=
  {| projects := projects w; contents := contents w; next_pk := next_pk w;
     profiles := profiles w; bucket := f (bucket w); files := files w;
     queue := queue w; trace := trace w |}.

Definition set_files (f : gmap string string -> gmap string string)
    (w : world) : world :=
  {| projects := projects w; contents := contents w; next_pk := next_pk w;
     profiles := profiles w; bucket := bucket w; files := f (files w);
     queue := queue w; trace := trace w |}.

Definition set_queue (f : list task -> list task) (w : world) : world :=
  {| projects := projects w; contents := contents w; next_pk := next_pk w;
     profiles := profiles w; bucket := bucket w; files := files w;
     queue := f (queue w); trace := trace w |}.

Definition set_trace (f : list event -> list event) (w : world) : world :=
  {| projects := projects w; contents := contents w; next_pk := next_pk w;
     profiles := profiles w; bucket := bucket w; files := files w;
     queue := queue w; trace := f (trace w) |}.

Definition emit (e : event) : M world unit :=
  modify (set_trace (fun t => (t ++ [e])%list)).

(* ===================================================================== *)
(** * The environment: settings and external collaborators *)
(* ===================================================================== *)

(** [response.choices[0].message.content] and [response.usage] *)
Record ChatCompletion := {
  message_content : string;
  usage : Usage
}.

(** A parsed JSON document. *)
#[local] Unset Elimination Schemes.
Inductive json :=
| JNull
| JBool (b : bool)
| JNum (n : Z)
| JStr (s : string)
| JArr (items : list json)
| JObj (members : list (string * json)).
#[local] Set Elimination Schemes.

Record env := {
  (* settings *)
  OPENAI_PRICING : pricing_table;
  AWS_STORAGE_BUCKET_NAME : string;
  (* boto3: an exception the call raises, if any *)
  s3_delete_fault : string -> option exn;
  s3_download_fault : string -> option exn;
  s3_upload_fault : string -> option exn;
  (* the database server: failures of statements on users_userprofile *)
  profile_query_fault : nat -> option exn;
  profile_save_fault : nat -> option exn;
  (* numeric(10,4) minus a double, as the database rounds it *)
  decimal_sub : Z -> number -> Z;
  (* PyPDF2, python-docx, the utf-8 codec *)
  PdfReader_pages : string -> result (list (option string));
  Document_paragraphs : string -> result (list string);
  decode_utf8 : string -> result string;
  (* OpenAI *)
  chat_completions_create : string -> string -> result ChatCompletion;
  images_generate_fault : string -> option exn;
  (* the json module *)
  json_loads : string -> result json;
  json_dump : json -> string;
  (* python-pptx: adding one slide for a [slide_info]; saving the deck *)
  pptx_add_slide : json -> option exn;
  pptx_save : list json -> string;
  (* edge-tts: the MP3 for a text and a voice *)
  edge_tts_save : pyvalue -> string -> result string;
  (* Celery: the identifier of the n-th task handed to the broker *)
  uuid4 : nat -> string;
  (* Django REST framework: [int(str)] of IntegerField and the accepted
     spellings of BooleanField *)
  int_of_str : string -> option Z;
  boolean_of_value : pyvalue -> option bool
}.

(* ===================================================================== *)
(** * The ORM operations the source calls *)
(* ===================================================================== *)

Definition has_pk (i : nat) (r : GeneratedContent) : bool := (gc_id r =? i)%nat.

Definition has_key (k : nat * ContentType) (r : GeneratedContent) : bool :=
  bool_decide (unique_key r = k).

(** [GeneratedContent.objects.get(id=...)] *)
Definition objects_get (i : nat) : M world GeneratedContent :=
  fun w => match filter (fun r => has_pk i r = true) (contents w) with
           | [] => (Raise (DoesNotExist "GeneratedContent"), w)
           | [r] => (Ok r, w)
           | _ => (Raise MultipleObjectsReturned, w)
           end.

(** Following a foreign key to [Project]. *)
Definition get_project (i : nat) : M world Project :=
  fun w => match filter (fun p => pid p = i) (projects w) with
           | p :: _ => (Ok p, w)
           | [] => (Raise (DoesNotExist "Project"), w)
           end.

(** What the database checks on a row of projects_generatedcontent: the
    foreign key and [unique_together]. *)
Definition row_admissible (r : GeneratedContent) (w : world) : bool :=
  existsb (fun p => (pid p =? project_id r)%nat) (projects w)
  && forallb (fun x => has_pk (gc_id r) x || negb (has_key (unique_key r) x))
       (contents w).

(** [instance.save()]: an UPDATE of the row with this primary key, and an
    INSERT when there is none. *)
Definition save (r : GeneratedContent) : M world unit :=
  fun w =>
    if row_admissible r w then
      if existsb (has_pk (gc_id r)) (contents w) then
        (Ok tt, set_contents (map (fun x => if has_pk (gc_id r) x then r else x)) w)
      else
        (Ok tt, set_contents (fun l => (l ++ [r])%list) w)
    else (Raise IntegrityError, w).

(** [GeneratedContent.objects.update_or_create(project=..., content_type=...,
    defaults={'task_status': PENDING, 's3_url': None})] *)
Definition update_or_create (project : Project) (ct : ContentType)
    : M world (GeneratedContent * bool) :=
  let* found := gets (fun w => filter (fun r => has_key (pid project, ct) r = true)
                                 (contents w)) in
  match found with
  | [] =>
      let* pk := gets next_pk in
      let r := {| gc_id := pk; project_id := pid project; content_type := ct;
                  s3_url := None; task_id := None; task_status := PENDING |} in
      let* taken := gets (fun w => existsb (has_pk pk) (contents w)) in
      if (taken : bool) then raise IntegrityError
      else
        modify (set_next_pk S) >>
        save r >>
        ret (r, true)
  | [r0] =>
      let r := with_s3_url None (with_task_status PENDING r0) in
      save r >>
      ret (r, false)
  | _ => raise MultipleObjectsReturned
  end.

(** [UserProfile.objects.get_or_create(user=user)]: the profile's balance
    and whether the row was created. *)
Definition get_or_create (E : env) (u : nat) : M world (Z * bool) :=
  fault (profile_query_fault E u) >>
  let* found := gets (fun w => profiles w !! u) in
  match found with
  | Some balance => ret (balance, false)
  | None =>
      modify (set_profiles (fun m => <[u := default_token_balance]> m)) >>
      ret (default_token_balance, true)
  end.

(** [user_profile.token_balance = F('token_balance') - total_cost;
    user_profile.save()]: the subtraction happens in the database. *)
Definition deduct_tokens (E : env) (u : nat) (total_cost : number) : M world unit :=
  fault (profile_save_fault E u) >>
  let* found := gets (fun w => profiles w !! u) in
  match found with
  | Some balance =>
      modify (set_profiles (fun m => <[u := decimal_sub E balance total_cost]> m))
  | None => raise (DoesNotExist "UserProfile")
  end.

(** [project.delete()], with [on_delete=models.CASCADE] on the content. *)
Definition delete_project (p : Project) : M world unit :=
  modify (set_contents (filter (fun r => project_id r ≠ pid p))) >>
  modify (set_projects (filter (fun q => pid q ≠ pid p))).

(* ===================================================================== *)
(** * Object storage and local files *)
(* ===================================================================== *)

(** [s3_client.delete_object(Bucket=..., Key=key)] *)
Definition s3_delete_object (E : env) (key : string) : M world unit :=
  emit (EvS3Delete key) >>
  fault (s3_delete_fault E key) >>
  modify (set_bucket (delete key)).

(** [s3_client.download_file(bucket, key, local_path)] *)
Definition s3_download_file (E : env) (key local_path : string) : M world unit :=
  emit (EvS3Download key) >>
  fault (s3_download_fault E key) >>
  let* blob := gets (fun w => bucket w !! key) in
  match blob with
  | Some b => modify (set_files (fun m => <[local_path := b]> m))
  | None => raise (ServiceError "s3")
  end.

(** [s3_client.upload_file(local_path, bucket, key)] *)
Definition s3_upload_file (E : env) (local_path key : string) : M world unit :=
  let* f := gets (fun w => files w !! local_path) in
  match f with
  | None => raise (FileNotFoundError local_path)
  | Some b =>
      emit (EvS3Upload key) >>
      fault (s3_upload_fault E key) >>
      modify (set_bucket (fun m => <[key := b]> m))
  end.

(** [open(path).read()] *)
Definition read_file (path : string) : M world string :=
  let* f := gets (fun w => files w !! path) in
  match f with
  | Some b => ret b
  | None => raise (FileNotFoundError path)
  end.

(** [with open(path, 'w') as f: f.write(data)] *)
Definition write_file (path data : string) : M world unit :=
  modify (set_files (fun m => <[path := data]> m)).

(** [if os.path.exists(path): os.remove(path)] *)
Definition remove_if_exists (path : string) : M world unit :=
  modify (set_files (delete path)).

(* ===================================================================== *)
(** * [projects/utils.py] *)
(* ===================================================================== *)

Definition dquote : string := String (ascii_of_nat 34) EmptyString.
Definition newline : string := String (ascii_of_nat 10) EmptyString.
Definition quoted (s : string) : string := dquote +:+ s +:+ dquote.

(** The character budget of a prompt: [text_content[:8000]]. *)
Definition prompt_budget : nat := 8 * 1000.

(** [download_file_from_s3(s3_key)] *)
Definition download_file_from_s3 (E : env) (s3_key : string) : M world string :=
  let* s3_key :=
    (if startswith s3_key "http" then
       match split1_tail ".com/" s3_key with
       | Some k => ret k
       | None => raise IndexError
       end
     else ret s3_key) in
  let temp_dir := "/tmp/downloads/" in
  let local_path := temp_dir +:+ basename s3_key in
  s3_download_file E s3_key local_path >>
  ret local_path.

(** [extract_text_from_file(file_path)]: a [try] with a [finally] and no
    [except]. *)
Definition extract_text_from_file (E : env) (file_path : string) : M world string :=
  try_finally
    (if endswith file_path ".pdf" then
       let* f := read_file file_path in
       let* pages := of_result (PdfReader_pages E f) in
       ret (String.concat EmptyString (map (default EmptyString) pages))
     else if endswith file_path ".docx" then
       let* f := read_file file_path in
       let* paragraphs := of_result (Document_paragraphs E f) in
       ret (String.concat EmptyString (map (fun para => para +:+ newline) paragraphs))
     else if endswith file_path ".txt" then
       let* f := read_file file_path in
       of_result (decode_utf8 E f)
     else ret EmptyString)
    (remove_if_exists file_path).

Definition is_JStr (j : json) : bool :=
  match j with JStr _ => true | _ => false end.

(** [j.get(k, dflt)] on a parsed document: only an object has [get]. *)
Definition json_get (j : json) (k : string) (dflt : json) : result json :=
  match j with
  | JObj members => Ok (default dflt (literal_lookup k members))
  | _ => Raise AttributeError
  end.

(** [for x in j]: the items of an array, the keys of an object, the
    characters of a string. *)
Definition json_iter (j : json) : result (list json) :=
  match j with
  | JArr items => Ok items
  | JObj members => Ok (map (fun m => JStr (fst m)) members)
  | JStr s => Ok (map (fun c => JStr (String c EmptyString)) (list_ascii_of_string s))
  | _ => Raise TypeError
  end.

(** [generate_image_for_slide]: the module imports neither [base64] nor
    [BytesIO], so the line after the API call raises [NameError] and the
    [except] branch returns [(None, 0)]. *)
Definition generate_image_for_slide (E : env) (slide_title slide_content : json)
    : M world (option string * number) :=
  try_except
    ((* ' '.join(slide_content[:2]) *)
     (match slide_content with
      | JArr items => if forallb is_JStr (take 2 items) then ret tt else raise TypeError
      | JStr _ => ret tt
      | _ => raise TypeError
      end) >>
     emit (EvImageGeneration "dall-e-3") >>
     fault (images_generate_fault E "dall-e-3") >>
     raise (NameError "base64"))
    (fun e => ret (None, NInt 0)).

(** One turn of the loop over [slides_data]. *)
Definition add_slide (E : env) (include_images : bool) (total_cost : number)
    (slide_info : json) : M world number :=
  let* total_cost :=
    (if include_images then
       let* slide_title := of_result (json_get slide_info "title" JNull) in
       let* slide_content := of_result (json_get slide_info "content" (JArr [])) in
       let* im := generate_image_for_slide E slide_title slide_content in
       of_result (num_add total_cost (snd im))
     else ret total_cost) in
  fault (pptx_add_slide E slide_info) >>
  ret total_cost.

Fixpoint add_slides (E : env) (include_images : bool) (total_cost : number)
    (slides : list json) : M world number :=
  match slides with
  | [] => ret total_cost
  | slide_info :: rest =>
      let* total_cost := add_slide E include_images total_cost slide_info in
      add_slides E include_images total_cost rest
  end.

(** The prompt of [generate_ppt_from_text]. *)
Definition ppt_prompt (slide_count : pyvalue) (text_content : string) : string :=
  "
    Based on the following text, create content for EXACTLY " +:+
  py_str slide_count +:+
  " presentation slides.
    Return a valid JSON object only, with a single key " +:+
  quoted "slides" +:+
  " which is a list of objects.
    Each object must have three keys: " +:+ quoted "title" +:+
  " (string), " +:+ quoted "content" +:+
  " (a list of 4-5 strings for bullet points), and " +:+
  quoted "speaker_notes" +:+
  " (a detailed paragraph).
    CRITICAL: All content must be specific to the uploaded document.
    TEXT: ---
    " +:+ string_take prompt_budget text_content +:+
  "
    ---
    ".

(** The prompt of [generate_flashcards_from_text]. *)
Definition flashcards_prompt (card_count card_type difficulty : pyvalue)
    (text_content : string) : string :=
  "
    Based on the following text, generate EXACTLY  " +:+
  py_str card_count +:+ " flashcards. The card type should be " +:+
  py_str card_type +:+ " and the difficulty should be " +:+
  py_str difficulty +:+
  ".
    Return a valid JSON object only, with a single key " +:+
  quoted "flashcards" +:+
  " which is a list of objects.
    Each object must have three keys: " +:+ quoted "question" +:+
  " (string), " +:+ quoted "answer" +:+ " (a concise string), " +:+
  quoted "topic" +:+ " (a relevant keyword), " +:+ quoted "difficulty" +:+
  " (difficulty level of question, can be easy, medium, hard).
    TEXT: ---
    " +:+ string_take prompt_budget text_content +:+
  "
    ---
    ".

(** The prompt of [generate_mcqs_from_text]. *)
Definition mcqs_prompt (questions_count questions_type difficulty : pyvalue)
    (text_content : string) : string :=
  "
Based on the following text, generate EXACTLY " +:+
  py_str questions_count +:+ " MCQs. The question type should be " +:+
  py_str questions_type +:+ " and the difficulty should be " +:+
  py_str difficulty +:+
  ".

Return a valid JSON object only, with a single key " +:+ quoted "mcqs" +:+
  ", which is a list of question objects.

Each object in the " +:+ quoted "mcqs" +:+
  " list must have the following fields:
1. " +:+ quoted "question_text" +:+
  " (string): The question itself.
2. " +:+ quoted "options" +:+
  " (list of 4 objects): Each object must have:
   - " +:+ quoted "option_text" +:+
  " (string): The option text.
   - " +:+ quoted "is_correct" +:+
  " (boolean): Whether this is the correct answer.
   Exactly one option must have " +:+ quoted "is_correct" +:+
  ": true.
3. " +:+ quoted "explanation" +:+
  " (string): A brief explanation of why the correct option is correct.
4. " +:+ quoted "difficulty" +:+ " (string): One of " +:+ quoted "easy" +:+
  ", " +:+ quoted "medium" +:+ ", or " +:+ quoted "hard" +:+
  ".
5. " +:+ quoted "bloom_level" +:+
  " (string): The Bloom's taxonomy level of the question. One of:
   - " +:+ quoted "Remember" +:+ ", " +:+ quoted "Understand" +:+ ", " +:+
  quoted "Apply" +:+ ", " +:+ quoted "Analyze" +:+ ", " +:+
  quoted "Evaluate" +:+ ", " +:+ quoted "Create" +:+
  "
6. " +:+ quoted "topic" +:+
  " (string): A brief topic or concept this question relates to.

TEXT: ---
" +:+ string_take prompt_budget text_content +:+
  "
---
".

Definition presentation_path : string := "/tmp/presentations/presentation.pptx".
Definition flashcards_path : string := "/tmp/flashcards/flashcards.json".
Definition mcqs_path : string := "/tmp/mcqs/mcqs.json".
Definition podcast_path : string := "/tmp/podcasts/podcast.mp3".

(** [openai.chat.completions.create(model=..., messages=[prompt], ...)] *)
Definition chat_completion (E : env) (model prompt : string) : M world ChatCompletion :=
  emit (EvChatCompletion model prompt) >>
  of_result (chat_completions_create E model prompt).

(** [generate_ppt_from_text(text_content, options)] *)
Definition generate_ppt_from_text (E : env) (text_content : string) (options : dict)
    : M world (string * number) :=
  let slide_count := dict_get options "slide_count" (VInt 8) in
  let include_images := dict_get options "include_images" (VBool false) in
  let prompt := ppt_prompt slide_count text_content in
  let* response := chat_completion E "gpt-5-nano" prompt in
  let* slide_data_json := of_result (json_loads E (message_content response)) in
  let* slides_data := of_result (json_get slide_data_json "slides" (JArr [])) in
  let text_usage := usage response in
  let* total_cost := of_result (calculate_cost (OPENAI_PRICING E) "gpt-5-nano" text_usage) in
  let* slides := of_result (json_iter slides_data) in
  let* total_cost := add_slides E (truthy include_images) total_cost slides in
  let output_path := presentation_path in
  write_file output_path (pptx_save E slides) >>
  ret (output_path, total_cost).

(** [generate_flashcards_from_text(text_content, options)] *)
Definition generate_flashcards_from_text (E : env) (text_content : string)
    (options : dict) : M world (string * number) :=
  let card_count := dict_get options "cards_count" (VInt 20) in
  let card_type := dict_get options "card_type" (VStr "qa") in
  let difficulty := dict_get options "difficulty" (VStr "mixed") in
  let prompt := flashcards_prompt card_count card_type difficulty text_content in
  let* response := chat_completion E "gpt-5-nano" prompt in
  let* flashcard_data_json := of_result (json_loads E (message_content response)) in
  let* total_cost :=
    of_result (calculate_cost (OPENAI_PRICING E) "gpt-5-nano" (usage response)) in
  let output_path := flashcards_path in
  write_file output_path (json_dump E flashcard_data_json) >>
  ret (output_path, total_cost).

(** [generate_mcqs_from_text(text_content, options)] *)
Definition generate_mcqs_from_text (E : env) (text_content : string)
    (options : dict) : M world (string * number) :=
  let questions_count := dict_get options "questions_count" (VInt 15) in
  let questions_type := dict_get options "questions_type" (VStr "single_correct") in
  let difficulty := dict_get options "difficulty" (VStr "mixed") in
  let prompt := mcqs_prompt questions_count questions_type difficulty text_content in
  let* response := chat_completion E "gpt-5-nano" prompt in
  let* mcq_data_json := of_result (json_loads E (message_content response)) in
  let* total_cost :=
    of_result (calculate_cost (OPENAI_PRICING E) "gpt-5-nano" (usage response)) in
  let output_path := mcqs_path in
  write_file output_path (json_dump E mcq_data_json) >>
  ret (output_path, total_cost).

(** [generate_podcast_audio_from_script(script_data, options)] *)
Definition generate_podcast_audio_from_script (E : env) (script_data : pyvalue)
    (options : dict) : M world string :=
  let voice_name := select_voice options in
  let output_path := podcast_path in
  emit (EvSpeech voice_name) >>
  let* mp3 := of_result (edge_tts_save E script_data voice_name) in
  write_file output_path mp3 >>
  ret output_path.

(* ===================================================================== *)
(** * [projects/tasks.py] *)
(* ===================================================================== *)

(** [os.remove(path)] *)
Definition remove_file (path : string) : M world unit :=
  let* f := gets (fun w => files w !! path) in
  match f with
  | Some _ => modify (set_files (delete path))
  | None => raise (FileNotFoundError path)
  end.

(** The block under [if content_record.s3_url:], shared by both tasks: the
    old object is deleted inside a [try] whose [except] only prints. *)
Definition delete_old_object (E : env) (content_record : GeneratedContent)
    : M world unit :=
  if str_truthy (s3_url content_record) then
    try_except
      (let* old_s3_key :=
         (match split1_tail ".com/" (default EmptyString (s3_url content_record)) with
          | Some k => ret k
          | None => raise IndexError
          end) in
       s3_delete_object E old_s3_key)
      (fun e => ret tt)
  else ret tt.

(** The [except Exception as e:] clause of both tasks. *)
Definition mark_failure_and_reraise {A} (e : exn)
    : M (world * GeneratedContent) A :=
  set_local (with_task_status FAILURE) >>
  let* content_record := get_local in
  liftW (save content_record) >>
  raise e.

(** Lines 44 to 83 of [generate_content_task]: from the download to the
    upload. The block reads [content_record] and does not assign to it; it
    yields [final_file_path] and [generated_s3_key]. *)
Definition produce_artifact (E : env) (project : Project) (owner : nat)
    (content_record : GeneratedContent) (generations_options : dict)
    : M world (string * string) :=
  (* 1. Download the original file from S3 *)
  let* local_file_path := download_file_from_s3 E (s3_file_key project) in
  (* 2. Extract text from the file *)
  let* text_content := extract_text_from_file E local_file_path in
  if strip_is_empty text_content then
    raise (ValueError "Extracted text is empty. Cannot generate content.")
  else
  (* 3. Call the appropriate AI generation function *)
  let* (final_file_path, total_cost) :=
    (match content_type content_record with
     | PRESENTATION =>
         let* r := generate_ppt_from_text E text_content generations_options in
         ret (Some (fst r), snd r)
     | FLASHCARDS =>
         let* r := generate_flashcards_from_text E text_content generations_options in
         ret (Some (fst r), snd r)
     | MCQ_SET =>
         let* r := generate_mcqs_from_text E text_content generations_options in
         ret (Some (fst r), snd r)
     | PODCAST => ret (None, NInt 0)
     end) in
  (if num_gt_zero total_cost then deduct_tokens E owner total_cost
   else ret tt) >>
  if negb (str_truthy final_file_path) then
    raise (ValueError "Content generation failed.")
  else
  let final_file_path := default EmptyString final_file_path in
  (* 4. Upload the newly generated file back to S3 *)
  let generated_s3_key :=
    "generated/" +:+ str_nat (pid project) +:+ "/"
    +:+ str_nat (gc_id content_record) +:+ "_" +:+ basename final_file_path in
  s3_upload_file E final_file_path generated_s3_key >>
  ret (final_file_path, generated_s3_key).

(** The URL stored on success. *)
Definition public_url (E : env) (generated_s3_key : string) : string :=
  "https://" +:+ AWS_STORAGE_BUCKET_NAME E +:+ ".s3.amazonaws.com/"
  +:+ generated_s3_key.

(** [generate_content_task(generated_content_id, generations_options)] *)
Definition generate_content_task (E : env) (generated_content_id : nat)
    (generations_options : dict) : M world string :=
  let* content_record := objects_get generated_content_id in
  delete_old_object E content_record >>
  let* project := get_project (project_id content_record) in
  let owner := user project in
  let* (user_profile, created) := get_or_create E owner in
  with_local content_record
    (try_except
       (let* (final_file_path, generated_s3_key) :=
          liftW (produce_artifact E project owner content_record
                   generations_options) in
        (* 5. Update the record with SUCCESS status and the final S3 URL *)
        set_local (with_s3_url (Some (public_url E generated_s3_key))) >>
        set_local (with_task_status SUCCESS) >>
        let* saved := get_local in
        liftW (save saved) >>
        (* Clean up the local generated file *)
        liftW (remove_if_exists final_file_path) >>
        ret "Task Completed Successfully")
       mark_failure_and_reraise).

(** [generate_audio_task(generated_content_id, generation_options)] *)
Definition generate_audio_task (E : env) (generated_content_id : nat)
    (generation_options : dict) : M world string :=
  let* content_record := objects_get generated_content_id in
  let script_text := dict_get_none generation_options "script_text" in
  delete_old_object E content_record >>
  with_local content_record
    (try_except
       (if negb (truthy script_text) then
          raise (ValueError "Script text cannot be empty.")
        else
        let* audio_file_path :=
          liftW (generate_podcast_audio_from_script E script_text generation_options) in
        let* project := liftW (get_project (project_id content_record)) in
        let generated_s3_key :=
          "generated/" +:+ str_nat (pid project) +:+ "/"
          +:+ str_nat (gc_id content_record) +:+ "_podcast.mp3" in
        liftW (s3_upload_file E audio_file_path generated_s3_key) >>
        set_local (with_s3_url (Some (public_url E generated_s3_key))) >>
        set_local (with_task_status SUCCESS) >>
        let* saved := get_local in
        liftW (save saved) >>
        liftW (remove_file audio_file_path) >>
        ret "Audio task completed.")
       mark_failure_and_reraise).

(* ===================================================================== *)
(** * [projects/serializers.py] *)
(* ===================================================================== *)

(** [serializers.ChoiceField(choices=..., default=...)]: the input is
    looked up by its [str]; a field with no default is required. *)
Definition ChoiceField (choices : list string) (dflt : option string)
    (name : string) (data : dict) : result pyvalue :=
  match data !! name with
  | None =>
      match dflt with
      | Some d => Ok (VStr d)
      | None => Raise (ValidationError name)
      end
  | Some VNone => Raise (ValidationError name)
  | Some v =>
      if bool_decide (py_str v ∈ choices) then Ok (VStr (py_str v))
      else Raise (ValidationError name)
  end.

(** [serializers.IntegerField(min_value=..., max_value=..., default=...)] *)
Definition IntegerField (E : env) (min_value max_value dflt : Z)
    (name : string) (data : dict) : result pyvalue :=
  match data !! name with
  | None => Ok (VInt dflt)
  | Some v =>
      let parsed :=
        match v with
        | VInt n => Some n
        | VStr s => int_of_str E s
        | _ => None
        end in
      match parsed with
      | Some n =>
          if ((min_value <=? n) && (n <=? max_value))%Z then Ok (VInt n)
          else Raise (ValidationError name)
      | None => Raise (ValidationError name)
      end
  end.

(** [serializers.BooleanField(default=...)] *)
Definition BooleanField (E : env) (dflt : bool) (name : string) (data : dict)
    : result pyvalue :=
  match data !! name with
  | None => Ok (VBool dflt)
  | Some (VBool b) => Ok (VBool b)
  | Some VNone => Raise (ValidationError name)
  | Some v =>
      match boolean_of_value E v with
      | Some b => Ok (VBool b)
      | None => Raise (ValidationError name)
      end
  end.

Fixpoint lstrip (s : string) : string :=
  match s with
  | EmptyString => EmptyString
  | String c s' => if py_isspace c then lstrip s' else s
  end.

Fixpoint rstrip (s : string) : string :=
  match s with
  | EmptyString => EmptyString
  | String c s' =>
      match rstrip s' with
      | EmptyString => if py_isspace c then EmptyString else String c EmptyString
      | r => String c r
      end
  end.

(** [serializers.CharField()]: required, not blank, whitespace trimmed. *)
Definition CharField (name : string) (data : dict) : result pyvalue :=
  match data !! name with
  | Some (VStr s) =>
      if strip_is_empty s then Raise (ValidationError name)
      else Ok (VStr (rstrip (lstrip s)))
  | Some (VInt n) => Ok (VStr (str_Z n))
  | _ => Raise (ValidationError name)
  end.

Definition podcast_lengths : list string := ["quick"; "medium"; "comprehensive"].
Definition content_focuses : list string := ["full_document"; "key_concepts"; "summary"].
Definition voice_styles : list string :=
  ["neutral"; "enthusiastic"; "formal"; "conversational"].
Definition voice_genders : list string := ["male"; "female"].
Definition voice_accents : list string :=
  ["american"; "british"; "indian"; "australian"; "canadian"].
Definition difficulties : list string := ["easy"; "medium"; "hard"; "mixed"].

(** The result of [is_valid(raise_exception=True)]: [validated_data], or
    the validation error. Only declared fields reach [validated_data]. *)
Definition PresentationGenerateSerializer (E : env) (data : dict) : result dict :=
  match ChoiceField [ContentType_value PRESENTATION] None "content_type" data,
        IntegerField E 3 20 10 "slides_count" data,
        BooleanField E false "include_images" data with
  | Ok ct, Ok n, Ok b =>
      Ok (<["content_type" := ct]>
          (<["slides_count" := n]> (<["include_images" := b]> ∅)))
  | Raise e, _, _ | _, Raise e, _ | _, _, Raise e => Raise e
  end.

Definition FlashcardGenerateSerializer (E : env) (data : dict) : result dict :=
  match ChoiceField [ContentType_value FLASHCARDS] None "content_type" data,
        IntegerField E 5 50 20 "cards_count" data,
        ChoiceField ["qa"; "true_false"; "fill_blank"] (Some "qa") "card_type" data,
        ChoiceField difficulties (Some "mixed") "difficulty" data with
  | Ok ct, Ok n, Ok t, Ok d =>
      Ok (<["content_type" := ct]>
          (<["cards_count" := n]> (<["card_type" := t]> (<["difficulty" := d]> ∅))))
  | Raise e, _, _, _ | _, Raise e, _, _ | _, _, Raise e, _ | _, _, _, Raise e =>
      Raise e
  end.

Definition MCQGenerateSerializer (E : env) (data : dict) : result dict :=
  match ChoiceField [ContentType_value MCQ_SET] None "content_type" data,
        IntegerField E 5 30 15 "questions_count" data,
        ChoiceField ["single_correct"; "multiple_correct"; "true_false"]
          (Some "single_correct") "questions_type" data,
        ChoiceField difficulties (Some "mixed") "difficulty" data with
  | Ok ct, Ok n, Ok t, Ok d =>
      Ok (<["content_type" := ct]>
          (<["questions_count" := n]>
           (<["questions_type" := t]> (<["difficulty" := d]> ∅))))
  | Raise e, _, _, _ | _, Raise e, _, _ | _, _, Raise e, _ | _, _, _, Raise e =>
      Raise e
  end.

Definition PodcastGenerateSerializer (E : env) (data : dict) : result dict :=
  match ChoiceField [ContentType_value PODCAST] None "content_type" data,
        ChoiceField podcast_lengths (Some "medium") "podcast_length" data,
        ChoiceField content_focuses (Some "full_document") "content_focus" data,
        ChoiceField voice_styles (Some "neutral") "voice_style" data,
        ChoiceField voice_genders (Some "female") "voice_gender" data,
        ChoiceField voice_accents (Some "american") "voice_accent" data with
  | Ok ct, Ok l, Ok f, Ok s, Ok g, Ok a =>
      Ok (<["content_type" := ct]>
          (<["podcast_length" := l]>
           (<["content_focus" := f]>
            (<["voice_style" := s]>
             (<["voice_gender" := g]> (<["voice_accent" := a]> ∅))))))
  | Raise e, _, _, _, _, _ | _, Raise e, _, _, _, _ | _, _, Raise e, _, _, _
  | _, _, _, Raise e, _, _ | _, _, _, _, Raise e, _ | _, _, _, _, _, Raise e =>
      Raise e
  end.

Definition PodcastAudioGenerateSerializer (E : env) (data : dict) : result dict :=
  match ChoiceField (map ContentType_value ContentType_choices) None
          "content_type" data,
        CharField "script_text" data,
        ChoiceField voice_styles (Some "neutral") "voice_style" data,
        ChoiceField voice_genders (Some "female") "voice_gender" data,
        ChoiceField voice_accents (Some "american") "voice_accent" data with
  | Ok ct, Ok t, Ok s, Ok g, Ok a =>
      Ok (<["content_type" := ct]>
          (<["script_text" := t]>
           (<["voice_style" := s]>
            (<["voice_gender" := g]> (<["voice_accent" := a]> ∅)))))
  | Raise e, _, _, _, _ | _, Raise e, _, _, _ | _, _, Raise e, _, _
  | _, _, _, Raise e, _ | _, _, _, _, Raise e =>
      Raise e
  end.

(* ===================================================================== *)
(** * [projects/views.py] *)
(* ===================================================================== *)

Record Response := {
  status_code : nat;
  data : dict
}.

(** [ProjectViewSet.get_object]: the project with this key among those of
    the caller, or a 404. *)
Definition get_object (request_user pk : nat) : M world Project :=
  fun w => match filter (fun p => user p = request_user ∧ pid p = pk) (projects w) with
           | p :: _ => (Ok p, w)
           | [] => (Raise Http404, w)
           end.

(** The float literal [0.09]: the double nearest to 9/100. *)
Definition minimum_balance : Q := 3242591731706757 # 36028797018963968.

(** [user_profile.token_balance < 0.09]: Python compares a [Decimal] with
    a float by their exact values. *)
Definition below_minimum_balance (token_balance : Z) : bool :=
  negb (Qle_bool minimum_balance (token_balance # 10000)).

(** [serializer_map.get(content_type)] *)
Definition serializer_map (content_type_ : pyvalue)
    : option (ContentType * (env -> dict -> result dict)) :=
  match content_type_ with
  | VStr s =>
      if String.eqb s (ContentType_value PRESENTATION)
      then Some (PRESENTATION, PresentationGenerateSerializer)
      else if String.eqb s (ContentType_value FLASHCARDS)
      then Some (FLASHCARDS, FlashcardGenerateSerializer)
      else if String.eqb s (ContentType_value MCQ_SET)
      then Some (MCQ_SET, MCQGenerateSerializer)
      else if String.eqb s (ContentType_value PODCAST)
      then Some (PODCAST, PodcastGenerateSerializer)
      else None
  | _ => None
  end.

(** [task.delay(...)]: the message goes to the broker; the task runs
    later, on a worker. *)
Definition delay (E : env) (t : task) : M world string :=
  let* n := gets (fun w => length (queue w)) in
  emit (EvDelay t) >>
  modify (set_queue (fun q => (q ++ [t])%list)) >>
  ret (uuid4 E n).

Definition error_response (msg : string) : Response :=
  {| status_code := 400; data := <["error" := VStr msg]> ∅ |}.

Definition accepted_response (msg task_id_ : string) (content_id : nat) : Response :=
  {| status_code := 202;
     data := <["message" := VStr msg]>
             (<["task_id" := VStr task_id_]>
              (<["content_id" := VInt (Z.of_nat content_id)]> ∅)) |}.

(** [ProjectViewSet.generate_content] *)
Definition generate_content (E : env) (request_user pk : nat) (request_data : dict)
    : M world Response :=
  let* project := get_object request_user pk in
  let content_type_ := dict_get_none request_data "content_type" in
  let owner := user project in
  let* (token_balance, created) := get_or_create E owner in
  if below_minimum_balance token_balance then
    ret (error_response "Insufficient tokens")
  else
  match serializer_map content_type_ with
  | None => ret (error_response ("Invalid content type: " +:+ py_str content_type_))
  | Some (ct, serializer_class) =>
      let* generations_options := of_result (serializer_class E request_data) in
      (* 1. Create the GeneratedContent record first, with a PENDING status. *)
      let* (content_record, created) := update_or_create project ct in
      (* 2. Start the Celery task, passing the new record's ID. *)
      let* task_id_ := delay E (GenerateContentTask (gc_id content_record)
                                  generations_options) in
      (* 3. Save the task ID to the record. *)
      save (with_task_id (Some task_id_) content_record) >>
      ret (accepted_response
             ("Content generation for '" +:+ py_str content_type_ +:+ "' started.")
             task_id_ (gc_id content_record))
  end.

(** [ProjectViewSet.generate_podcast_audio] *)
Definition generate_podcast_audio (E : env) (request_user pk : nat)
    (request_data : dict) : M world Response :=
  let* project := get_object request_user pk in
  let* validated_data := of_result (PodcastAudioGenerateSerializer E request_data) in
  let* (content_record, created) := update_or_create project PODCAST in
  let* task_id_ := delay E (GenerateAudioTask (gc_id content_record) validated_data) in
  save (with_task_id (Some task_id_) content_record) >>
  ret (accepted_response "Podcast audio generation started." task_id_
         (gc_id content_record)).

(** [ProjectViewSet.destroy] *)
Definition destroy (E : env) (request_user pk : nat) : M world Response :=
  let* project := get_object request_user pk in
  (if negb (String.eqb (s3_file_key project) EmptyString) then
     try_except (s3_delete_object E (s3_file_key project)) (fun e => ret tt)
   else ret tt) >>
  delete_project project >>
  ret {| status_code := 204; data := ∅ |}.

(* ===================================================================== *)
(** * The system: requests and worker runs, one at a time *)
(* ===================================================================== *)

(** What can happen to the database of the projects app: the three views
    that write it, and a worker running a task. ([generate_podcast_script]
    and the read-only views do not write a [GeneratedContent] row.) *)
Inductive action :=
| GenerateContent (request_user pk : nat) (request_data : dict)
| GeneratePodcastAudio (request_user pk : nat) (request_data : dict)
| Destroy (request_user pk : nat)
| RunTask (t : task).

Definition run_task (E : env) (t : task) : M world string :=
  match t with
  | GenerateContentTask i o => generate_content_task E i o
  | GenerateAudioTask i o => generate_audio_task E i o
  end.

(** The state after an action; an exception is the framework's error
    response (or Celery's failure record) and leaves the state as the
    action left it. The environment may differ from action to action. *)
Definition step (w : world) (a : env * action) : world :=
  match a with
  | (E, GenerateContent u pk d) => snd (generate_content E u pk d w)
  | (E, GeneratePodcastAudio u pk d) => snd (generate_podcast_audio E u pk d w)
  | (E, Destroy u pk) => snd (destroy E u pk w)
  | (E, RunTask t) => snd (run_task E t w)
  end.

Definition run (w : world) (l : list (env * action)) : world :=
  fold_left step l w.

(** [GeneratedContent.objects.filter(project=p, content_type=k).count()] *)
Definition count_content (w : world) (p : nat) (k : ContentType) : nat :=
  length (filter (fun r => has_key (p, k) r = true) (contents w)).

(** The row with primary key [i], if any. *)
Definition content_row (w : world) (i : nat) : option GeneratedContent :=
  head (filter (fun r => has_pk i r = true) (contents w)).

(** The calls to the language model in a trace. *)
Definition is_ai_call (e : event) : bool :=
  match e with
  | EvChatCompletion _ _ | EvImageGeneration _ => true
  | _ => false
  end.

Definition ai_calls (w : world) : list event := List.filter is_ai_call (trace w).

(* ===================================================================== *)
(** * Observations and invariants *)
(* ===================================================================== *)

(** The table after an UPDATE that writes [r] over the row with its key. *)
Definition replace_row (r : GeneratedContent) (rows : list GeneratedContent)
    : list GeneratedContent :=
  map (fun x => if has_pk (gc_id r) x then r else x) rows.

(** Steps 1 and 2 of the pipeline on their own: the text the job extracts
    from the project's document. *)
Definition source_text (E : env) (project : Project) : M world string :=
  let* local_file_path := download_file_from_s3 E (s3_file_key project) in
  extract_text_from_file E local_file_path.

(** The state in which the pipeline of [generate_content_task] starts:
    after the cleanup of the prior artifact and the profile fetch. *)
Definition pipeline_start (E : env) (content_record : GeneratedContent)
    (project : Project) (w : world) : world :=
  snd (get_or_create E (user project) (snd (delete_old_object E content_record w))).

(** The tables of the projects app with the primary-key sequence. *)
Definition db (w : world) : list Project * list GeneratedContent * nat :=
  (projects w, contents w, next_pk w).

(** The invariant of the content table: primary keys are unique, and so
    are [(project, content_type)] pairs. *)
Definition table_ok (rows : list GeneratedContent) : Prop :=
  NoDup (map gc_id rows) /\ NoDup (map unique_key rows).

(** The invariant of the content table, as a property of the world. *)
Definition content_table_ok (w : world) : Prop := table_ok (contents w).

(** Primary keys handed out so far are below the sequence's next value. *)
Definition sequence_ok (w : world) : Prop :=
  Forall (fun r => gc_id r < next_pk w) (contents w).

(** A well-formed world. *)
Definition world_ok (w : world) : Prop :=
  table_ok (contents w) /\ sequence_ok w.

(** The world is well formed and the primary key [i] has been issued. *)
Definition issued (i : nat) (w : world) : Prop :=
  world_ok w /\ i < next_pk w.

(** The same while a task holds the row with key [i] as its local object. *)
Definition issued_local (i : nat) (s : world * GeneratedContent) : Prop :=
  issued i (fst s) /\ gc_id (snd s) = i.

(** Two worlds that differ at most in the token balances: everything else
    is equal, and the same users have a profile. *)
Definition same_but_balances (w1 w2 : world) : Prop :=
  projects w1 = projects w2 /\ contents w1 = contents w2
  /\ next_pk w1 = next_pk w2 /\ bucket w1 = bucket w2 /\ files w1 = files w2
  /\ queue w1 = queue w2 /\ trace w1 = trace w2
  /\ dom (profiles w1) = dom (profiles w2).

(* ===================================================================== *)
(** * Reasoning about computations *)
(* ===================================================================== *)

(** [stable f m]: running [m] leaves the observation [f] of the state as it
    was, whether [m] returns or raises. *)
Definition stable {S X A} (f : S -> X) (m : M S A) : Prop :=
  forall s, f (snd (m s)) = f s.

(** [preserves I m]: the property [I] of the state survives [m], whether
    [m] returns or raises. *)
Definition preserves {S A} (I : S -> Prop) (m : M S A) : Prop :=
  forall s, I s -> I (snd (m s)).

(** [triple P m Q X]: from a state satisfying [P], [m] returns a value and
    a state satisfying [Q], or raises an exception with a state satisfying
    [X]. Computations are total, so this is a total-correctness triple. *)
Definition triple {S A} (P : S -> Prop) (m : M S A)
    (Q : A -> S -> Prop) (X : exn -> S -> Prop) : Prop :=
  forall s, P s ->
    match m s with
    | (Ok a, s') => Q a s'
    | (Raise e, s') => X e s'
    end.

(** [keeps_world_ok P m]: from a state satisfying [P], the world is well
    formed after [m], whether [m] returns or raises. *)
Definition keeps_world_ok {A} (P : world -> Prop) (m : M world A) : Prop :=
  triple P m (fun _ w => world_ok w) (fun _ w => world_ok w).

(** [related RS RA m1 m2]: from states related by [RS], [m1] and [m2]
    either both return, with values related by [RA], or both raise the
    same exception; the final states are related by [RS] again. *)
Definition related {S A} (RS : S -> S -> Prop) (RA : A -> A -> Prop)
    (m1 m2 : M S A) : Prop :=
  forall s1 s2, RS s1 s2 ->
    match m1 s1, m2 s2 with
    | (Ok a1, s1'), (Ok a2, s2') => RA a1 a2 /\ RS s1' s2'
    | (Raise e1, s1'), (Raise e2, s2') => e1 = e2 /\ RS s1' s2'
    | _, _ => False
    end.

(** A computation whose outcome and effects do not depend on the token
    balances. *)
Definition balance_blind {A} (m : M world A) : Prop :=
  related same_but_balances eq m m.

(* ===================================================================== *)
(** * A concrete environment and worlds, for the examples *)
(* ===================================================================== *)

(** The floats [5e-08], [4e-07] and [0.04]. *)
Definition price_5e_8 : float := S754_finite false 7555786372591432 (-77).
Definition price_4e_7 : float := S754_finite false 7555786372591432 (-74).
Definition price_0_04 : float := S754_finite false 5764607523034235 (-57).

Definition example_pricing : pricing_table :=
  <["gpt-5-nano" := <["input" := price_5e_8]> (<["output" := price_4e_7]> ∅)]>
  (<["dall-e-3" := <["standard_1024x1024" := price_0_04]> ∅]> ∅).

Definition example_slides : json :=
  JObj [("slides",
         JArr [JObj [("title", JStr "Light"); ("content", JArr [JStr "Photons"]);
                     ("speaker_notes", JStr "Start here.")]])].

(** An environment in which every collaborator answers, except for the
    faults given: of the S3 delete, download and upload calls, of the
    profile query, and of the PDF parser. *)
Definition example_env (delete_fault download_fault upload_fault query_fault : option exn)
    (pdf : string -> result (list (option string))) : env :=
  {| OPENAI_PRICING := example_pricing;
     AWS_STORAGE_BUCKET_NAME := "edugen";
     s3_delete_fault := fun _ => delete_fault;
     s3_download_fault := fun _ => download_fault;
     s3_upload_fault := fun _ => upload_fault;
     profile_query_fault := fun _ => query_fault;
     profile_save_fault := fun _ => None;
     decimal_sub := fun b c => (b - Qfloor (number_value c * 10000 + (1 # 2)))%Z;
     PdfReader_pages := pdf;
     Document_paragraphs := fun f => Ok [f];
     decode_utf8 := fun f => Ok f;
     chat_completions_create := fun model prompt =>
       Ok {| message_content := "{...}";
             usage := {| prompt_tokens := 2000; completion_tokens := 1000 |} |};
     images_generate_fault := fun _ => None;
     json_loads := fun _ => Ok example_slides;
     json_dump := fun _ => "{...}";
     pptx_add_slide := fun _ => None;
     pptx_save := fun _ => "PK...";
     edge_tts_save := fun _ _ => Ok "ID3...";
     uuid4 := fun n => "task-" +:+ str_nat n;
     int_of_str := fun _ => None;
     boolean_of_value := fun _ => None |}.

Definition calm_env : env :=
  example_env None None None None (fun f => Ok [Some f]).

(** Environments with one collaborator failing. *)
Definition database_down_env : env :=
  example_env None None None (Some (ServiceError "database")) (fun f => Ok [Some f]).

Definition upload_down_env : env :=
  example_env None None (Some (ServiceError "s3")) None (fun f => Ok [Some f]).

Definition delete_down_env : env :=
  example_env (Some (ServiceError "s3")) None None None (fun f => Ok [Some f]).

Definition broken_pdf_env : env :=
  example_env None None None None (fun f => Raise (ServiceError "PyPDF2")).

Definition example_project : Project :=
  {| pid := 1; user := 7; title := "Biology";
     original_file_name := Some "notes.txt";
     s3_file_key := "uploads/7/notes.txt" |}.

(** One user with one uploaded document and a balance of [balance]
    ten-thousandths; no content yet. *)
Definition example_world (balance : Z) : world :=
  {| projects := [example_project];
     contents := [];
     next_pk := 1;
     profiles := <[7%nat := balance]> ∅;
     bucket := <["uploads/7/notes.txt" := "Light becomes sugar."]> ∅;
     files := ∅;
     queue := [];
     trace := [] |}.

(** The empty database. *)
Definition empty_world : world :=
  {| projects := []; contents := []; next_pk := 1; profiles := ∅;
     bucket := ∅; files := ∅; queue := []; trace := [] |}.

Definition presentation_request (slides_count : Z) : dict :=
  <["content_type" := VStr "PPT"]> (<["slides_count" := VInt slides_count]> ∅).

Definition podcast_request : dict :=
  <["content_type" := VStr "POD"]> ∅.

(** The example world after the user has asked for a presentation: the
    row is pending and the task is queued. *)
Definition requested_world : world :=
  snd (generate_content calm_env 7 1 (presentation_request 8) (example_world 50000)).

(** ... and after a worker has run that task: the row has a URL. *)
Definition delivered_world : world :=
  snd (generate_content_task calm_env 1 (presentation_request 8) requested_world).

(** The example world after the request, with the balance since spent. *)
Definition overdrawn_world : world :=
  set_profiles (fun m => <[7%nat := 0%Z]> m) requested_world.

(** The example world after the user has asked for a podcast through the
    generic endpoint. *)
Definition podcast_requested_world : world :=
  snd (generate_content calm_env 7 1 podcast_request (example_world 50000)).

(** A project whose document is a PDF, and the example world with it. *)
Definition pdf_project : Project :=
  {| pid := 2; user := 7; title := "Scans";
     original_file_name := Some "scan.pdf";
     s3_file_key := "uploads/7/scan.pdf" |}.

Definition pdf_world (scan : string) : world :=
  set_contents (fun _ => [ {| gc_id := 1; project_id := 2; content_type := FLASHCARDS;
                              s3_url := None; task_id := Some "task-0";
                              task_status := PENDING |} ])
    (set_projects (fun _ => [pdf_project])
       (set_bucket (fun m => <["uploads/7/scan.pdf" := scan]> m) (example_world 50000))).

(* ===================================================================== *)
(** * More of [projects/utils.py]: the podcast script *)
(* ===================================================================== *)

(** The character budget of the script prompt: [text_content[:6000]]. *)
Definition script_budget : nat := 6 * 1000.

(** [str(x)] of an optional string, as an f-string renders it. *)
Definition py_str_opt (o : option string) : string :=
  match o with
  | Some s => s
  | None => "None"
  end.

Definition length_instruction_of (podcast_length : pyvalue) : string :=
  if bool_decide (podcast_length = VStr "quick") then
    "Create a 2-3 minute podcast script focusing on key takeaways and essential points."
  else if bool_decide (podcast_length = VStr "comprehensive") then
    "Create a 7-10 minute podcast script with detailed explanations and comprehensive coverage."
  else (* medium *)
    "Create a 4-6 minute podcast script balancing key concepts with engaging explanations.".

Definition focus_instruction_of (content_focus : pyvalue) : string :=
  if bool_decide (content_focus = VStr "key_concepts") then
    "Focus primarily on the most important concepts, definitions, and core ideas."
  else if bool_decide (content_focus = VStr "summary") then
    "Provide a comprehensive summary hitting all major points concisely."
  else (* full_document *)
    "Cover the full document content in an engaging, structured manner.".

(** The prompt of [generate_podcast_script_from_text]. *)
Definition podcast_script_prompt (length_instruction focus_instruction : string)
    (document_title : option string) (text_content : string) : string :=
  "
        Please analyze this document and create an engaging podcast script based on the content.
        
        " +:+ length_instruction +:+
  "
        " +:+ focus_instruction +:+
  "
        
        ***Return a valid JSON object only, with a single key " +:+
  quoted "script" +:+
  " which is an object.***
        ***The script object must have three keys: " +:+ quoted "title" +:+
  " (string), " +:+ quoted "description" +:+ " (string), and " +:+
  quoted "body" +:+
  " (a long string with the full podcast script).***
        
        SCRIPT WRITING GUIDELINES:
        1. Write in a conversational, engaging tone as if speaking directly to the listener
        2. Use natural speech patterns with appropriate pauses (indicated by commas and periods)
        3. Include smooth transitions between topics
        4. Explain complex concepts in simple, accessible language
        5. Use rhetorical questions to engage the listener
        6. Include brief examples or analogies when helpful
        7. Maintain an educational yet entertaining style
        8. Structure the content logically with clear flow
        9. Include verbal signposts like " +:+ quoted "First," +:+ " " +:+
  quoted "Next," +:+ " " +:+ quoted "Finally," +:+
  " etc.
        10. End with actionable takeaways or thought-provoking questions
        
        INTRO TEMPLATE:
        " +:+
  quoted "Welcome to this learning session on [topic]. I'm excited to share some fascinating insights about [subject] that will help you understand [key benefit]. Let's dive right in!" +:+
  "
        
        CONCLUSION TEMPLATE:
        " +:+
  quoted "To wrap up today's session, we've covered [key points]. The main takeaway is [core message]. I hope this helps you [practical application]. Thanks for listening, and keep learning!" +:+
  "
        
        Document title: " +:+ py_str_opt document_title +:+
  "
        Document content: " +:+ string_take script_budget text_content +:+
  "...
        
        Create a script that transforms this written content into an engaging audio learning experience.
        ".

(** [generate_podcast_script_from_text(text_content, options, document_title)] *)
Definition generate_podcast_script_from_text (E : env) (text_content : string)
    (options : dict) (document_title : option string) : M world (json * Usage) :=
  let podcast_length := dict_get options "podcast_length" (VStr "medium") in
  let content_focus := dict_get options "content_focus" (VStr "full_document") in
  let length_instruction := length_instruction_of podcast_length in
  let focus_instruction := focus_instruction_of content_focus in
  let script_prompt :=
    podcast_script_prompt length_instruction focus_instruction document_title
      text_content in
  let* response := chat_completion E "gpt-5-nano" script_prompt in
  let* parsed := of_result (json_loads E (message_content response)) in
  let* script_data := of_result (json_get parsed "script" (JObj [])) in
  ret (script_data, usage response).

(* ===================================================================== *)
(** * More of [projects/serializers.py] and [projects/views.py] *)
(* ===================================================================== *)

Definition PodcastScriptGenerateSerializer (E : env) (data : dict) : result dict :=
  match ChoiceField (map ContentType_value ContentType_choices) None
          "content_type" data,
        ChoiceField podcast_lengths (Some "medium") "podcast_length" data,
        ChoiceField content_focuses (Some "full_document") "content_focus" data with
  | Ok ct, Ok l, Ok f =>
      Ok (<["content_type" := ct]>
          (<["podcast_length" := l]> (<["content_focus" := f]> ∅)))
  | Raise e, _, _ | _, Raise e, _ | _, _, Raise e => Raise e
  end.

(** What [generate_podcast_script] answers: an error response, or the
    script itself with status 200. *)
Inductive script_response :=
| ScriptRejected (r : Response)
| ScriptOk (script_data : json).

(** The first read of [request.user.profile]: a query for the profile of
    the user. *)
Definition fetch_profile (E : env) (u : nat) : M world unit :=
  fault (profile_query_fault E u) >>
  let* found := gets (fun w => profiles w !! u) in
  match found with
  | Some _ => ret tt
  | None => raise (DoesNotExist "UserProfile")
  end.

(** [ProjectViewSet.generate_podcast_script] *)
Definition generate_podcast_script (E : env) (request_user pk : nat)
    (request_data : dict) : M world script_response :=
  let* project := get_object request_user pk in
  let* validated_data := of_result (PodcastScriptGenerateSerializer E request_data) in
  let owner := user project in
  let* (token_balance, created) := get_or_create E owner in
  if below_minimum_balance token_balance then
    ret (ScriptRejected (error_response "Insufficient tokens"))
  else
  (* This is a fast operation, so we can do it synchronously *)
  let* local_path := download_file_from_s3 E (s3_file_key project) in
  let* text_content := extract_text_from_file E local_path in
  let* (script_data, usage_) :=
    generate_podcast_script_from_text E text_content validated_data
      (original_file_name project) in
  let* cost := of_result (calculate_cost (OPENAI_PRICING E) "gpt-5-nano" usage_) in
  fetch_profile E request_user >>
  deduct_tokens E request_user cost >>
  (* Return script directly to frontend *)
  ret (ScriptOk script_data).

(** An uploaded file of a multipart request: its name, which Django has
    already reduced to a base name, and its bytes. *)
Record UploadedFile := {
  file_name : string;
  file_content : string
}.

(** [serializers.FileField()]: required, with a name, not empty. *)
Definition FileField (name : string) (file : option UploadedFile)
    : result UploadedFile :=
  match file with
  | None => Raise (ValidationError name)
  | Some f =>
      if String.eqb (file_name f) EmptyString then Raise (ValidationError name)
      else if String.eqb (file_content f) EmptyString then Raise (ValidationError name)
      else Ok f
  end.

(** [s3_client.upload_fileobj(file_obj, bucket, key)] *)
Definition s3_upload_fileobj (E : env) (file_obj : UploadedFile) (key : string)
    : M world unit :=
  emit (EvS3Upload key) >>
  fault (s3_upload_fault E key) >>
  modify (set_bucket (fun m => <[key := file_content file_obj]> m)).

(** [str(e)] of an exception: its argument. *)
Definition exn_str (e : exn) : string :=
  match e with
  | DoesNotExist model => model +:+ " matching query does not exist."
  | MultipleObjectsReturned | IntegrityError | Http404
  | IndexError | AttributeError | TypeError => EmptyString
  | OverflowError => "int too large to convert to float"
  | ValidationError field => field
  | ValueError msg => msg
  | KeyError key => "'" +:+ key +:+ "'"
  | NameError name => "name '" +:+ name +:+ "' is not defined"
  | FileNotFoundError path => path
  | ServiceError service => service
  end.

(** [ProjectViewSet.upload_file]; [region] is
    [settings.AWS_S3_REGION_NAME]. *)
Definition upload_file (E : env) (region : string) (request_user : nat)
    (file : option UploadedFile) : M world Response :=
  let* file_obj := of_result (FileField "file" file) in
  let s3_key := "uploads/" +:+ str_nat request_user +:+ "/" +:+ file_name file_obj in
  let* failed :=
    try_except (s3_upload_fileobj E file_obj s3_key >> ret None)
      (fun e => ret (Some e)) in
  match failed with
  | Some e =>
      ret {| status_code := 500;
             data := <["error" := VStr ("Failed to upload to S3: " +:+ exn_str e)]> ∅ |}
  | None =>
  let s3_url :=
    "https://" +:+ AWS_STORAGE_BUCKET_NAME E +:+ ".s3." +:+ region
    +:+ ".amazonaws.com/" +:+ s3_key in
  ret {| status_code := 200;
         data := <["s3_file_key" := VStr s3_url]>
                 (<["original_file_name" := VStr (file_name file_obj)]> ∅) |}
  end.

(** [GeneratedContentViewSet.get_queryset]:
    [GeneratedContent.objects.filter(project__user=request.user)] *)
Definition content_queryset (request_user : nat) (w : world) : list GeneratedContent :=
  filter (fun r => Exists (fun p => pid p = project_id r /\ user p = request_user)
                     (projects w))
    (contents w).

(** [GeneratedContentViewSet.retrieve]: the row with this key in the
    caller's queryset, or a 404. *)
Definition content_retrieve (request_user pk : nat) : M world GeneratedContent :=
  fun w => match filter (fun r => gc_id r = pk) (content_queryset request_user w) with
           | r :: _ => (Ok r, w)
           | [] => (Raise Http404, w)
           end.

(** A string without the character [/]. *)
Fixpoint no_slash (s : string) : bool :=
  match s with
  | EmptyString => true
  | String c s' => negb (Ascii.eqb c "/"%char) && no_slash s'
  end.

(** The calls to the speech engine in a trace. *)
Definition is_speech_call (e : event) : bool :=
  match e with
  | EvSpeech _ => true
  | _ => false
  end.

(** The external calls of a trace that are not the hand-over of a task to
    the broker. *)
Definition is_io_call (e : event) : bool :=
  match e with
  | EvDelay _ => false
  | _ => true
  end.

(* ===================================================================== *)
(** * More requests, for the examples *)
(* ===================================================================== *)

Definition images_request : dict :=
  <["content_type" := VStr "PPT"]> (<["include_images" := VBool true]> ∅).

Definition flashcards_request (cards_count : Z) : dict :=
  <["content_type" := VStr "FLASH"]> (<["cards_count" := VInt cards_count]> ∅).

Definition mcq_request (difficulty : string) : dict :=
  <["content_type" := VStr "MCQ"]> (<["difficulty" := VStr difficulty]> ∅).

(** Requests that name every option; the serializers return them as they
    are. *)
Definition full_flashcards_request : dict :=
  <["content_type" := VStr "FLASH"]>
  (<["cards_count" := VInt 12]>
   (<["card_type" := VStr "true_false"]> (<["difficulty" := VStr "hard"]> ∅))).

Definition full_mcq_request : dict :=
  <["content_type" := VStr "MCQ"]>
  (<["questions_count" := VInt 10]>
   (<["questions_type" := VStr "multiple_correct"]>
    (<["difficulty" := VStr "hard"]> ∅))).

(** Voice options: a triple of the table, and the accent "french". *)
Definition british_voice : dict :=
  <["voice_accent" := VStr "british"]>
  (<["voice_gender" := VStr "male"]> (<["voice_style" := VStr "conversational"]> ∅)).

Definition french_voice : dict :=
  <["voice_accent" := VStr "french"]>
  (<["voice_gender" := VStr "female"]> (<["voice_style" := VStr "neutral"]> ∅)).

Definition audio_request (script : string) : dict :=
  <["content_type" := VStr "POD"]>
  (<["script_text" := VStr script]>
   (<["voice_accent" := VStr "indian"]> (<["voice_gender" := VStr "male"]> ∅))).

(** What [PodcastAudioGenerateSerializer] makes of [audio_request]. *)
Definition audio_options (script : string) : dict :=
  <["content_type" := VStr "POD"]>
  (<["script_text" := VStr script]>
   (<["voice_style" := VStr "neutral"]>
    (<["voice_gender" := VStr "male"]> (<["voice_accent" := VStr "indian"]> ∅)))).

(** The example world after the user has sent a script to be read. *)
Definition audio_requested_world : world :=
  snd (generate_podcast_audio calm_env 7 1 (audio_request "Welcome.")
         (example_world 50000)).

Definition podcast_row : GeneratedContent :=
  {| gc_id := 1; project_id := 1; content_type := PODCAST;
     s3_url := None; task_id := Some "task-0"; task_status := PENDING |}.

(** The calls to the speech engine, and all external calls but the
    hand-over of a task, made so far. *)
Definition speech_calls (w : world) : list event :=
  List.filter is_speech_call (trace w).

Definition io_calls (w : world) : list event := List.filter is_io_call (trace w).

(** The row a task works on. *)
Definition task_row (t : task) : nat :=
  match t with
  | GenerateContentTask i _ | GenerateAudioTask i _ => i
  end.

(** [w] differs from [w0], as far as the database goes, at most in the
    row with primary key [i]. *)
Definition differs_in_row (i : nat) (w0 w : world) : Prop :=
  projects w = projects w0 /\ next_pk w = next_pk w0
  /\ (contents w = contents w0
      \/ exists r, gc_id r = i /\ contents w = replace_row r (contents w0)).

(** Referential integrity: the project of every content row exists. *)
Definition references_ok (w : world) : Prop :=
  Forall (fun r => Exists (fun p => pid p = project_id r) (projects w)) (contents w).

(** A second user's project next to the example project, with a podcast
    of its own. *)
Definition other_project : Project :=
  {| pid := 2; user := 8; title := "Physics";
     original_file_name := Some "waves.txt";
     s3_file_key := "uploads/8/waves.txt" |}.

Definition shared_world : world :=
  set_projects (fun l => (l ++ [other_project])%list)
    (set_contents
       (fun l => (l ++ [ {| gc_id := 2; project_id := 2; content_type := PODCAST;
                            s3_url := Some "https://edugen.s3.amazonaws.com/generated/2/2_podcast.mp3";
                            task_id := Some "task-1"; task_status := SUCCESS |} ])%list)
       (set_next_pk (fun _ => 3)
          (set_bucket
             (fun m => <["generated/1/1_presentation.pptx" := "PK..."]>
                       (<["uploads/8/waves.txt" := "Waves carry energy."]> m))
             delivered_world))).

(** What a request handler must leave to the worker: the external calls
    other than the hand-over, the bucket and the local files. *)
Definition io_state (w : world) : list event * gmap string string * gmap string string :=
  (io_calls w, bucket w, files w).

(** A script request, and a project whose document has an extension the
    extraction does not know. *)
Definition script_request : dict :=
  <["content_type" := VStr "POD"]> (<["podcast_length" := VStr "quick"]> ∅).

Definition script_options : dict :=
  <["content_type" := VStr "POD"]>
  (<["podcast_length" := VStr "quick"]> (<["content_focus" := VStr "full_document"]> ∅)).

Definition image_project : Project :=
  {| pid := 3; user := 7; title := "Diagram";
     original_file_name := Some "cell.png";
     s3_file_key := "uploads/7/cell.png" |}.

Definition image_world : world :=
  set_projects (fun _ => [image_project])
    (set_bucket (fun m => <["uploads/7/cell.png" := "PNG..."]> m) (example_world 50000)).

(** What the script handler must leave alone: the tables of the projects
    app with the key sequence, the queue and the bucket. *)
Definition handler_frame (w : world)
    : (list Project * list GeneratedContent * nat) * list task * gmap string string :=
  (db w, queue w, bucket w).

(** An upload, and the example world after a flashcard request. *)
Definition example_upload : UploadedFile :=
  {| file_name := "notes.txt"; file_content := "Light becomes sugar." |}.

Definition flashcards_requested_world : world :=
  snd (generate_content calm_env 7 1 (flashcards_request 12) (example_world 50000)).

Definition flashcards_row : GeneratedContent :=
  {| gc_id := 1; project_id := 1; content_type := FLASHCARDS;
     s3_url := None; task_id := Some "task-0"; task_status := PENDING |}.

(** A project that holds the URL [upload_file] answered with. *)
Definition url_project : Project :=
  {| pid := 4; user := 7; title := "Chemistry";
     original_file_name := Some "notes.txt";
     s3_file_key := "https://edugen.s3.eu-west-1.amazonaws.com/uploads/7/notes.txt" |}.

Definition url_world : world :=
  set_projects (fun _ => [url_project]) (example_world 50000).

(* ===================================================================== *)
(** * The chat app: [chat/models.py], [chat/serializers.py],
      [chat/views.py], [chat/tasks.py] *)
(* ===================================================================== *)

(** [ChatSession]: one per project ([OneToOneField]), with the user who
    opened it. *)
Record ChatSession := {
  cs_id : nat;
  cs_project : nat;
  cs_user : nat
}.

Inductive SenderType := USER | AI.

Record ChatMessage := {
  cm_session : nat;
  cm_sender : SenderType;
  cm_message : string
}.

(** The tables of the chat app and the chat tasks handed to the broker;
    messages are kept in the order of [created_at]. *)
Record chat_db := {
  sessions : list ChatSession;          (* table chat_chatsession *)
  next_session : nat;                   (* its primary-key sequence *)
  chat_messages : list ChatMessage;     (* table chat_chatmessage *)
  chat_queue : list (nat * string)      (* get_ai_chat_response_task.delay(...) *)
}.

Definition add_session (s : ChatSession) (d : chat_db) : chat_db :=
  {| sessions := (sessions d ++ [s])%list; next_session := S (next_session d);
     chat_messages := chat_messages d; chat_queue := chat_queue d |}.

Definition add_message (m : ChatMessage) (d : chat_db) : chat_db :=
  {| sessions := sessions d; next_session := next_session d;
     chat_messages := (chat_messages d ++ [m])%list; chat_queue := chat_queue d |}.

Definition enqueue_chat (t : nat * string) (d : chat_db) : chat_db :=
  {| sessions := sessions d; next_session := next_session d;
     chat_messages := chat_messages d; chat_queue := (chat_queue d ++ [t])%list |}.

(** [serializers.IntegerField()]: required, no bounds. *)
Definition RequiredIntegerField (E : env) (name : string) (data : dict) : result Z :=
  match data !! name with
  | Some (VInt n) => Ok n
  | Some (VStr s) =>
      match int_of_str E s with
      | Some n => Ok n
      | None => Raise (ValidationError name)
      end
  | _ => Raise (ValidationError name)
  end.

(** [PostMessageSerializer]: the validated [project_id] and [message]. *)
Definition PostMessageSerializer (E : env) (data : dict) : result (Z * string) :=
  match RequiredIntegerField E "project_id" data, CharField "message" data with
  | Ok n, Ok v => Ok (n, py_str v)
  | Raise e, _ | _, Raise e => Raise e
  end.

(** [ChatSession.objects.get_or_create(project_id=..., user=...)]: the
    lookup is by project and user; the INSERT is checked by the database
    (the project exists, no other session has it, the key is free). *)
Definition session_get_or_create (project_id : Z) (u : nat)
    : M (world * chat_db) (ChatSession * bool) :=
  let* d := get_local in
  match filter (fun s => Z.of_nat (cs_project s) = project_id /\ cs_user s = u)
          (sessions d) with
  | [s] => ret (s, false)
  | _ :: _ :: _ => raise MultipleObjectsReturned
  | [] =>
      let* known :=
        liftW (gets (fun w => existsb (fun p => (Z.of_nat (pid p) =? project_id)%Z)
                                (projects w))) in
      let taken :=
        existsb (fun s => (Z.of_nat (cs_project s) =? project_id)%Z) (sessions d) in
      let used := existsb (fun s => (cs_id s =? next_session d)%nat) (sessions d) in
      if (known : bool) && negb taken && negb used then
        let s := {| cs_id := next_session d; cs_project := Z.to_nat project_id;
                    cs_user := u |} in
        set_local (add_session s) >>
        ret (s, true)
      else raise IntegrityError
  end.

(** [ChatSessionViewSet.post_message] *)
Definition post_message (E : env) (request_user : nat) (request_data : dict)
    : M (world * chat_db) Response :=
  let* (project_id, message_text) :=
    of_result (PostMessageSerializer E request_data) in
  (* Find or create the chat session for the project *)
  let* (session, created) := session_get_or_create project_id request_user in
  (* Save the user's message *)
  set_local (add_message {| cm_session := cs_id session; cm_sender := USER;
                            cm_message := message_text |}) >>
  (* Start the background task to get the AI's response *)
  set_local (enqueue_chat (cs_id session, message_text)) >>
  ret {| status_code := 202;
         data := <["message" := VStr "Message received, AI is responding."]>
                 (<["session_id" := VInt (Z.of_nat (cs_id session))]> ∅) |}.

(** The character budget of the chat prompt: [document_context[:6000]]. *)
Definition chat_budget : nat := 6 * 1000.

(** The prompt of [get_ai_chat_response_task]. *)
Definition chat_prompt (document_context user_message : string) : string :=
  "
    You are a helpful assistant. A user is asking a question about a document.
    Here is the context from the document:
    ---
    " +:+
  string_take chat_budget document_context +:+
  "
    ---
    Here is the user's question: " +:+
  dquote +:+
  user_message +:+
  dquote +:+
  "

    Please provide a clear and helpful answer based on the document context.
    ".

(** [get_ai_chat_response_task(chat_session_id, user_message)] *)
Definition get_ai_chat_response_task (E : env) (chat_session_id : nat)
    (user_message : string) : M (world * chat_db) string :=
  let* d := get_local in
  match filter (fun s => cs_id s = chat_session_id) (sessions d) with
  | [] => raise (DoesNotExist "ChatSession")
  | _ :: _ :: _ => raise MultipleObjectsReturned
  | [session] =>
      let* project := liftW (get_project (cs_project session)) in
      (* 1. Get the document context *)
      let* local_file_path := liftW (download_file_from_s3 E (s3_file_key project)) in
      let* document_context := liftW (extract_text_from_file E local_file_path) in
      (* 2. Construct the prompt *)
      let prompt := chat_prompt document_context user_message in
      (* 3. Call OpenAI API *)
      let* response := liftW (chat_completion E "gpt-5-nano" prompt) in
      (* 4. Save the AI's response *)
      set_local (add_message {| cm_session := cs_id session; cm_sender := AI;
                                cm_message := message_content response |}) >>
      ret "AI response generated successfully."
  end.

(** No chat yet. *)
Definition empty_chat : chat_db :=
  {| sessions := []; next_session := 1; chat_messages := []; chat_queue := [] |}.

Definition chat_request (project_id : Z) (message : string) : dict :=
  <["project_id" := VInt project_id]> (<["message" := VStr message]> ∅).

(** The chat state after user 8 has asked about project 1, which is user
    7's. *)
Definition asked_chat : chat_db :=
  snd (snd (post_message calm_env 8 (chat_request 1 "What is light?")
              (example_world 50000, empty_chat))).

(** [d] holds everything [d0] holds, in the same order, and possibly more
    at the end. *)
Definition chat_extends (d0 d : chat_db) : Prop :=
  sessions d0 `prefix_of` sessions d
  /\ chat_messages d0 `prefix_of` chat_messages d
  /\ chat_queue d0 `prefix_of` chat_queue d.

(** What the chat app has no business with: the tables of the projects
    app, the balances and the queue of generation tasks. *)
Definition ledger (w : world)
    : (list Project * list GeneratedContent * nat) * gmap nat Z * list task :=
  (db w, profiles w, queue w).
(* ===================================================================== *)
(** * The string operations on examples *)
(* ===================================================================== *)

Example endswith_pdf : endswith "/tmp/downloads/scan.pdf" ".pdf" = true.
Proof. reflexivity. Qed.

Example endswith_is_case_sensitive : endswith "/tmp/downloads/SCAN.PDF" ".pdf" = false.
Proof. reflexivity. Qed.

Example endswith_longer_suffix : endswith "pdf" ".pdf" = false.
Proof. reflexivity. Qed.

Example basename_of_key : basename "uploads/7/notes.txt" = "notes.txt".
Proof. reflexivity. Qed.

Example split1_tail_of_url :
  split1_tail ".com/" "https://edugen.s3.amazonaws.com/generated/1/1_mcqs.json"
  = Some "generated/1/1_mcqs.json".
Proof. reflexivity. Qed.

Example split1_tail_without_separator : split1_tail ".com/" "uploads/7/notes.txt" = None.
Proof. reflexivity. Qed.

Example strip_of_blank_text :
  strip_is_empty (" " +:+ newline +:+ String (ascii_of_nat 9) EmptyString) = true.
Proof. reflexivity. Qed.

Example strip_of_text : strip_is_empty " a " = false /\ rstrip (lstrip " a ") = "a".
Proof. split; reflexivity. Qed.

Example str_of_numbers : str_nat 120 = "120" /\ py_str (VInt (-8)) = "-8".
Proof. split; reflexivity. Qed.

(* ===================================================================== *)
(** * Lemmas on the combinators *)
(* ===================================================================== *)

Section Combinators.
Context {S X : Type} (f : S -> X).

Lemma stable_ret {A} (a : A) : stable f (ret a).
Proof. intros s. reflexivity. Qed.

Lemma stable_raise {A} (e : exn) : stable f (@raise S A e).
Proof. intros s. reflexivity. Qed.

Lemma stable_of_result {A} (r : result A) : stable f (of_result r).
Proof. intros s. reflexivity. Qed.

Lemma stable_gets {A} (g : S -> A) : stable f (gets g).
Proof. intros s. reflexivity. Qed.

Lemma stable_fault (o : option exn) : stable f (fault o).
Proof. intros s. destruct o; reflexivity. Qed.

Lemma stable_modify (g : S -> S) :
  (forall s, f (g s) = f s) -> stable f (modify g).
Proof. intros H s. apply H. Qed.

Lemma stable_bind {A B} (m : M S A) (k : A -> M S B) :
  stable f m -> (forall a, stable f (k a)) -> stable f (bind m k).
Proof.
  intros Hm Hk s. unfold bind. specialize (Hm s).
  destruct (m s) as [[a | e] s1]; simpl in *.
  - rewrite Hk. exact Hm.
  - exact Hm.
Qed.

Lemma stable_try_except {A} (m : M S A) (h : exn -> M S A) :
  stable f m -> (forall e, stable f (h e)) -> stable f (try_except m h).
Proof.
  intros Hm Hh s. unfold try_except. specialize (Hm s).
  destruct (m s) as [[a | e] s1]; simpl in *.
  - exact Hm.
  - rewrite Hh. exact Hm.
Qed.

Lemma stable_try_finally {A} (m : M S A) (c : M S unit) :
  stable f m -> stable f c -> stable f (try_finally m c).
Proof.
  intros Hm Hc s. unfold try_finally. specialize (Hm s).
  destruct (m s) as [r s1]. specialize (Hc s1).
  destruct (c s1) as [[u | e] s2]; simpl in *; congruence.
Qed.
End Combinators.

Lemma stable_liftW {W L X A} (f : W -> X) (m : M W A) :
  stable f m -> stable (fun s : W * L => f (fst s)) (liftW m).
Proof.
  intros Hm s. unfold liftW. specialize (Hm (fst s)).
  destruct (m (fst s)) as [r w']. exact Hm.
Qed.

Lemma stable_local_liftW {W L A} (m : M W A) :
  stable (fun s : W * L => snd s) (liftW m).
Proof. intros s. unfold liftW. destruct (m (fst s)). reflexivity. Qed.

Section Triples.
Context {S : Type}.

Lemma triple_ret {A} (a : A) (Q : A -> S -> Prop) X :
  triple (Q a) (ret a) Q X.
Proof. intros s H. exact H. Qed.

Lemma triple_raise {A} (e : exn) (Q : A -> S -> Prop) X :
  triple (X e) (raise e) Q X.
Proof. intros s H. exact H. Qed.

Lemma triple_bind {A B} (m : M S A) (k : A -> M S B) P Q R X :
  triple P m Q X -> (forall a, triple (Q a) (k a) R X) ->
  triple P (bind m k) R X.
Proof.
  intros Hm Hk s HP. unfold bind. specialize (Hm s HP).
  destruct (m s) as [[a | e] s1]; [exact (Hk a s1 Hm) | exact Hm].
Qed.

Lemma triple_try_except {A} (m : M S A) (h : exn -> M S A) P Q Y X :
  triple P m Q Y -> (forall e, triple (Y e) (h e) Q X) ->
  triple P (try_except m h) Q X.
Proof.
  intros Hm Hh s HP. unfold try_except. specialize (Hm s HP).
  destruct (m s) as [[a | e] s1]; [exact Hm | exact (Hh e s1 Hm)].
Qed.

Lemma triple_weaken {A} (m : M S A) (P P' : S -> Prop)
    (Q Q' : A -> S -> Prop) (X X' : exn -> S -> Prop) :
  triple P' m Q' X' ->
  (forall s, P s -> P' s) ->
  (forall a s, Q' a s -> Q a s) ->
  (forall e s, X' e s -> X e s) ->
  triple P m Q X.
Proof.
  intros Hm HP HQ HX s H. specialize (Hm s (HP s H)).
  destruct (m s) as [[a | e] s1]; auto.
Qed.

(** A property of an observation that [m] leaves alone survives [m]. *)
Lemma triple_stable {A Y} (f : S -> Y) (m : M S A) (I : Y -> Prop) :
  stable f m ->
  triple (fun s => I (f s)) m (fun _ s => I (f s)) (fun _ s => I (f s)).
Proof.
  intros Hm s H. specialize (Hm s).
  destruct (m s) as [[a | e] s1]; simpl in Hm; rewrite Hm; exact H.
Qed.
End Triples.

(* ===================================================================== *)
(** * Floats *)
(* ===================================================================== *)

(** A float that is not below zero: a zero, a positive number, the
    positive infinity or a NaN. *)
Lemma binary_round_aux_not_neg (mx ex : Z) (lx : location) :
  SFltb (binary_round_aux 53 1024 false mx ex lx) (S754_zero false) = false.
Proof.
  unfold binary_round_aux.
  destruct (shr_fexp 53 1024 mx ex lx) as [mrs' e'].
  destruct (shr_fexp 53 1024 _ e' loc_Exact) as [mrs'' e''].
  destruct (shr_m mrs'') as [| m | m]; [reflexivity | | reflexivity].
  destruct (Z.leb e'' (1024 - 53)); reflexivity.
Qed.

Lemma binary_round_not_neg (m : positive) (e : Z) :
  SFltb (binary_round 53 1024 false m e) (S754_zero false) = false.
Proof.
  unfold binary_round.
  destruct (shl_align m e _) as [mz ez]. apply binary_round_aux_not_neg.
Qed.

Lemma float_of_int_not_neg (n : Z) (x : float) :
  (0 <= n)%Z -> float_of_int n = Ok x -> SFltb x (S754_zero false) = false.
Proof.
  intros Hn. unfold float_of_int, binary_normalize.
  destruct n as [| p | p]; [intros [= <-]; reflexivity | | lia].
  pose proof (binary_round_not_neg p 0) as H.
  destruct (binary_round 53 1024 false p 0); intros [= <-]; exact H.
Qed.

Lemma float_mul_not_neg (x y : float) :
  SFltb x (S754_zero false) = false -> SFltb y (S754_zero false) = false ->
  SFltb (float_mul x y) (S754_zero false) = false.
Proof.
  destruct x as [[|] | [|] | | [|] mx ex], y as [[|] | [|] | | [|] my ey];
    try discriminate; intros _ _; try reflexivity.
  apply binary_round_aux_not_neg.
Qed.

Lemma float_add_not_neg (x y : float) :
  SFltb x (S754_zero false) = false -> SFltb y (S754_zero false) = false ->
  SFltb (float_add x y) (S754_zero false) = false.
Proof.
  destruct x as [[|] | [|] | | [|] mx ex], y as [[|] | [|] | | [|] my ey];
    try discriminate; intros _ _; try reflexivity.
  unfold float_add, SFadd, cond_Zopp, binary_normalize.
  destruct (shl_align mx ex _) as [m1 e1], (shl_align my ey _) as [m2 e2].
  cbn [fst]. change (Z.pos m1 + Z.pos m2)%Z with (Z.pos (m1 + m2)).
  apply binary_round_not_neg.
Qed.

Lemma digits2_pos_iter_xO (p k : positive) :
  digits2_pos (Pos.iter xO p k) = (digits2_pos p + k)%positive.
Proof.
  induction k as [| k IH] using Pos.peano_ind.
  - simpl. lia.
  - rewrite Pos.iter_succ. simpl. rewrite IH. lia.
Qed.

Lemma iter_xO_value (p k : positive) :
  Z.pos (Pos.iter xO p k) = (Z.pos p * 2 ^ Z.pos k)%Z.
Proof.
  induction k as [| k IH] using Pos.peano_ind.
  - simpl. lia.
  - rewrite Pos.iter_succ, Pos2Z.inj_xO, IH, Pos2Z.inj_succ, Z.pow_succ_r; lia.
Qed.

Lemma digits2_pos_lower (p : positive) :
  (2 ^ (Z.pos (digits2_pos p) - 1) <= Z.pos p)%Z.
Proof.
  induction p as [p IH | p IH |]; simpl digits2_pos.
  - rewrite Pos2Z.inj_succ.
    replace (Z.succ (Z.pos (digits2_pos p)) - 1)%Z
      with (Z.succ (Z.pos (digits2_pos p) - 1)) by lia.
    rewrite Z.pow_succ_r by lia. lia.
  - rewrite Pos2Z.inj_succ.
    replace (Z.succ (Z.pos (digits2_pos p)) - 1)%Z
      with (Z.succ (Z.pos (digits2_pos p) - 1)) by lia.
    rewrite Z.pow_succ_r by lia. lia.
  - simpl. lia.
Qed.

Lemma digits2_pos_small (p : positive) :
  (Z.pos p < 2 ^ 53)%Z -> (Z.pos (digits2_pos p) <= 53)%Z.
Proof.
  intros Hp. pose proof (digits2_pos_lower p) as Hl.
  assert (H : (2 ^ (Z.pos (digits2_pos p) - 1) < 2 ^ 53)%Z) by lia.
  apply Z.pow_lt_mono_r_iff in H; lia.
Qed.

(** A mantissa of 53 bits with an exponent in range is left as it is. *)
Lemma binary_round_aux_canonical (s : bool) (m : positive) (e : Z) :
  digits2_pos m = 53%positive -> (-1074 <= e <= 971)%Z ->
  binary_round_aux 53 1024 s (Z.pos m) e loc_Exact = S754_finite s m e.
Proof.
  intros Hd He.
  assert (H0 : (fexp 53 1024 (Zdigits2 (Z.pos m) + e) - e = 0)%Z).
  { unfold fexp, emin. simpl Zdigits2. rewrite Hd. lia. }
  unfold binary_round_aux, shr_fexp. rewrite H0. cbn [shr shr_record_of_loc].
  cbn [shr_m loc_of_shr_record round_nearest_even]. rewrite H0. cbn [shr shr_m].
  destruct (Z.leb_spec e (1024 - 53)); [reflexivity | lia].
Qed.

(** An integer below [2 ^ 53] is a float. *)
Lemma binary_round_small (s : bool) (p : positive) :
  (Z.pos p < 2 ^ 53)%Z ->
  exists m e, binary_round 53 1024 s p 0 = S754_finite s m e
              /\ (e <= 0)%Z /\ Z.pos m = (Z.pos p * 2 ^ (- e))%Z.
Proof.
  intros Hp. pose proof (digits2_pos_small p Hp) as Hd.
  unfold binary_round.
  assert (Hf : fexp 53 1024 (Z.pos (digits2_pos p) + 0) = (Z.pos (digits2_pos p) - 53)%Z).
  { unfold fexp, emin. lia. }
  rewrite Hf. unfold shl_align.
  destruct (Z.eq_dec (Z.pos (digits2_pos p)) 53%Z) as [Heq | Hne].
  - rewrite Heq. simpl. exists p, 0%Z.
    rewrite binary_round_aux_canonical; [| congruence | lia].
    split; [reflexivity |]. split; [lia |]. simpl. lia.
  - set (k := Z.to_pos (53 - Z.pos (digits2_pos p))).
    assert (Hk : (Z.pos (digits2_pos p) - 53 - 0 = Z.neg k)%Z) by (unfold k; lia).
    rewrite Hk. exists (Pos.iter xO p k), (Z.pos (digits2_pos p) - 53)%Z.
    rewrite binary_round_aux_canonical.
    + split; [reflexivity |]. split; [lia |]. rewrite iter_xO_value.
      f_equal. f_equal. unfold k. lia.
    + rewrite digits2_pos_iter_xO. unfold k. lia.
    + lia.
Qed.

Lemma float_value_exact (s : bool) (m p : positive) (e : Z) :
  (e <= 0)%Z -> Z.pos m = (Z.pos p * 2 ^ (- e))%Z ->
  (float_value (S754_finite s m e) == inject_Z (if s then Z.neg p else Z.pos p))%Q.
Proof.
  intros He Hm. unfold float_value.
  assert (H2 : (2 ^ e == / inject_Z (2 ^ (- e)))%Q).
  { rewrite Zpower_Qpower by lia. rewrite <- Qpower_opp.
    replace (- - e)%Z with e by lia. reflexivity. }
  assert (Hnz : ~ (inject_Z (2 ^ (- e)) == 0)%Q).
  { unfold Qeq. simpl. pose proof (Z.pow_pos_nonneg 2 (- e)). lia. }
  rewrite H2.
  destruct s.
  - change (Z.neg m) with (- Z.pos m)%Z. change (Z.neg p) with (- Z.pos p)%Z.
    rewrite Hm, <- Z.mul_opp_l, inject_Z_mult. field. exact Hnz.
  - rewrite Hm, inject_Z_mult. field. exact Hnz.
Qed.

(** Token counts of fewer than 54 bits convert exactly. *)
Lemma float_of_int_small (n : Z) :
  (Z.abs n < 2 ^ 53)%Z ->
  exists x, float_of_int n = Ok x /\ (float_value x == inject_Z n)%Q.
Proof.
  intros Hn. unfold float_of_int, binary_normalize.
  destruct n as [| p | p].
  - exists (S754_zero false). split; reflexivity.
  - destruct (binary_round_small false p Hn) as (m & e & -> & He & Hm).
    exists (S754_finite false m e). split; [reflexivity |].
    exact (float_value_exact false m p e He Hm).
  - destruct (binary_round_small true p Hn) as (m & e & -> & He & Hm).
    exists (S754_finite true m e). split; [reflexivity |].
    exact (float_value_exact true m p e He Hm).
Qed.

Lemma float_of_int_Ok (n : Z) (x : float) :
  float_of_int n = Ok x ->
  binary_normalize 53 1024 n 0 false = x /\ forall s, x <> S754_infinity s.
Proof.
  unfold float_of_int.
  destruct (binary_normalize 53 1024 n 0 false); intros [= <-]; split;
    try reflexivity; discriminate.
Qed.

Lemma float_of_int_infinity (n : Z) (e : exn) :
  float_of_int n = Raise e ->
  exists s, binary_normalize 53 1024 n 0 false = S754_infinity s.
Proof.
  unfold float_of_int.
  destruct (binary_normalize 53 1024 n 0 false); try discriminate. eauto.
Qed.

Lemma float_of_int_Raise (n : Z) (e : exn) :
  float_of_int n = Raise e -> e = OverflowError /\ (2 ^ 53 <= Z.abs n)%Z.
Proof.
  intros H. split.
  - unfold float_of_int in H.
    destruct (binary_normalize 53 1024 n 0 false); congruence.
  - destruct (Z_lt_le_dec (Z.abs n) (2 ^ 53)) as [Hlt | Hle]; [| exact Hle].
    destruct (float_of_int_small n Hlt) as (x & Hx & _). congruence.
Qed.

(* ===================================================================== *)
(** * Cost accounting *)
(* ===================================================================== *)

(** With a price pair for the model, the cost is the sum of the two
    products, or the exception of the first token count that does not
    convert. *)
Lemma calculate_cost_price_pair (table : pricing_table) model_name pricing
    price_in price_out (u : Usage) :
  table !! model_name = Some pricing ->
  pricing !! "input" = Some price_in ->
  pricing !! "output" = Some price_out ->
  calculate_cost table model_name u
  = match float_of_int (prompt_tokens u), float_of_int (completion_tokens u) with
    | Ok p, Ok c =>
        Ok (NFloat (float_add (float_mul p price_in) (float_mul c price_out)))
    | Raise e, _ | Ok _, Raise e => Raise e
    end.
Proof.
  intros Hm Hin Hout. unfold calculate_cost, int_mul_float. rewrite Hm.
  destruct (bool_decide (pricing = ∅)) eqn:Hempty.
  - apply bool_decide_eq_true in Hempty. subst pricing.
    rewrite lookup_empty in Hin. discriminate.
  - rewrite Hin, Hout.
    destruct (float_of_int (prompt_tokens u)); [| reflexivity].
    destruct (float_of_int (completion_tokens u)); reflexivity.
Qed.

(** C5, as amended. [calculate_cost] is a function of the price table,
    the model identifier and the usage record alone (it takes no state
    and returns none). For a model whose price entry holds an input and
    an output price it converts the two token counts to floats (to the
    nearest float, ties to even) and returns the float sum of the two
    float products [float(prompt_tokens) * input_price] and
    [float(completion_tokens) * output_price], each rounded to nearest;
    when a token count is too large to convert, it raises
    [OverflowError]. Token counts below [2 ^ 53] in magnitude convert
    exactly, and then a cost is returned. For a model with no price entry
    it returns [0.0], whatever the usage. *)
Theorem calculate_cost_spec (table : pricing_table) (model_name : string) (u : Usage) :
  (forall pricing price_in price_out,
      table !! model_name = Some pricing ->
      pricing !! "input" = Some price_in ->
      pricing !! "output" = Some price_out ->
      let p := binary_normalize 53 1024 (prompt_tokens u) 0 false in
      let c := binary_normalize 53 1024 (completion_tokens u) 0 false in
      let cost := SFadd 53 1024 (SFmul 53 1024 p price_in) (SFmul 53 1024 c price_out) in
      calculate_cost table model_name u
      = match p, c with
        | S754_infinity _, _ | _, S754_infinity _ => Raise OverflowError
        | _, _ => Ok (NFloat cost)
        end
      /\ ((Z.abs (prompt_tokens u) < 2 ^ 53)%Z ->
          (Z.abs (completion_tokens u) < 2 ^ 53)%Z ->
          (float_value p == inject_Z (prompt_tokens u))%Q
          /\ (float_value c == inject_Z (completion_tokens u))%Q
          /\ calculate_cost table model_name u = Ok (NFloat cost)))
  /\ (table !! model_name = None ->
      calculate_cost table model_name u = Ok (NFloat (S754_zero false))).
Proof.
  split.
  - intros pricing price_in price_out Hm Hin Hout p c cost.
    pose proof (calculate_cost_price_pair table model_name pricing price_in
                  price_out u Hm Hin Hout) as Hcost.
    split.
    + rewrite Hcost. unfold float_of_int. fold p c.
      destruct p, c; reflexivity.
    + intros Hp Hc.
      destruct (float_of_int_small _ Hp) as (p' & Hp1 & Hp2).
      destruct (float_of_int_small _ Hc) as (c' & Hc1 & Hc2).
      rewrite Hcost, Hp1, Hc1.
      apply float_of_int_Ok in Hp1 as [Hp1 _]. apply float_of_int_Ok in Hc1 as [Hc1 _].
      fold p in Hp1. fold c in Hc1. subst p' c'. auto.
  - intros Hm. unfold calculate_cost. rewrite Hm. reflexivity.
Qed.

Lemma calculate_cost_spec_witness :
  calculate_cost example_pricing "gpt-5-nano"
    {| prompt_tokens := 2000; completion_tokens := 1000 |}
  = Ok (NFloat (S754_finite false 4611686018427388 (-63)))
  /\ calculate_cost example_pricing "gpt-4o"
       {| prompt_tokens := 2000; completion_tokens := 1000 |}
     = Ok (NFloat (S754_zero false)).
Proof.
  split.
  - pose proof (calculate_cost_spec example_pricing "gpt-5-nano"
                  {| prompt_tokens := 2000; completion_tokens := 1000 |}) as [H _].
    specialize (H (<["input" := price_5e_8]> (<["output" := price_4e_7]> ∅))
                  price_5e_8 price_4e_7).
    destruct H as [H _]; [vm_compute; reflexivity .. |].
    exact H.
  - apply (proj2 (calculate_cost_spec example_pricing "gpt-4o"
                    {| prompt_tokens := 2000; completion_tokens := 1000 |})).
    vm_compute. reflexivity.
Defined.

(** C5 as stated fails. The cost of 2000 prompt tokens at [5e-08] and
    1000 completion tokens at [4e-07] is the float [0.0005], which is not
    the sum of the two exact products; and a token count beyond the range
    of the floats makes [calculate_cost] raise instead of returning. *)
Lemma calculate_cost_rounds_and_overflows :
  (exists x,
      calculate_cost example_pricing "gpt-5-nano"
        {| prompt_tokens := 2000; completion_tokens := 1000 |} = Ok (NFloat x)
      /\ ~ (float_value x
            == inject_Z 2000 * float_value price_5e_8
               + inject_Z 1000 * float_value price_4e_7)%Q)
  /\ calculate_cost example_pricing "gpt-5-nano"
       {| prompt_tokens := 2 ^ 1024; completion_tokens := 1000 |}
     = Raise OverflowError.
Proof.
  split; [| vm_compute; reflexivity].
  exists (S754_finite false 4611686018427388 (-63)).
  split; [vm_compute; reflexivity |].
  vm_compute. discriminate.
Qed.

(** An entry of the table that is not a price pair (the image model's
    entry is keyed by image size) makes [calculate_cost] raise. *)
Example calculate_cost_image_model :
  calculate_cost example_pricing "dall-e-3"
    {| prompt_tokens := 1; completion_tokens := 1 |} = Raise (KeyError "input").
Proof. vm_compute. reflexivity. Qed.

(** The test [token_balance < 0.09] against the float literal agrees, on
    balances with four decimal places, with the test against 9/100. *)
Lemma below_minimum_balance_iff (token_balance : Z) :
  below_minimum_balance token_balance = true <-> (token_balance # 10000 < 9 # 100)%Q.
Proof.
  unfold below_minimum_balance, minimum_balance, Qle_bool, Qlt. simpl.
  rewrite negb_true_iff, Z.leb_gt. lia.
Qed.

(* ===================================================================== *)
(** * Voice selection *)
(* ===================================================================== *)

Lemma literal_lookup_notin {K V} `{EqDecision K} (k : K) (l : list (K * V)) :
  k ∉ map fst l -> literal_lookup k l = None.
Proof.
  induction l as [| [k' v'] l IH]; simpl; intros Hk; [reflexivity |].
  apply not_elem_of_cons in Hk as [Hne Hk].
  rewrite (IH Hk). destruct (decide (k = k')); [contradiction | reflexivity].
Qed.

Lemma literal_lookup_elem_of {K V} `{EqDecision K} (k : K) (v : V) (l : list (K * V)) :
  NoDup (map fst l) -> (k, v) ∈ l -> literal_lookup k l = Some v.
Proof.
  induction l as [| [k' v'] l IH]; simpl; intros Hnd Hin.
  - inversion Hin.
  - apply NoDup_cons in Hnd as [Hk' Hnd].
    apply elem_of_cons in Hin as [Heq | Hin].
    + inversion Heq; subst k' v'.
      rewrite (literal_lookup_notin k l Hk').
      destruct (decide (k = k)); [reflexivity | contradiction].
    + rewrite (IH Hnd Hin). reflexivity.
Qed.

Lemma voice_map_keys_NoDup : NoDup (map fst voice_map).
Proof. apply (bool_decide_unpack _). vm_compute. exact I. Qed.

(** C8. The voice is resolved through the fixed table. The triple is read
    from the options under [voice_accent], [voice_gender] and
    [voice_style] (an option that is absent counts as "american",
    "female", "neutral"); a triple in the table resolves to its entry,
    any triple not in the table (accent "french", say) resolves to the
    default voice en-US-AriaNeural, and
    [generate_podcast_audio_from_script] hands the resolved voice to the
    synthesis engine, whose failure is the only exception it can raise. *)
Theorem voice_resolution :
  (forall options a g s v,
      dict_get options "voice_accent" (VStr "american") = VStr a ->
      dict_get options "voice_gender" (VStr "female") = VStr g ->
      dict_get options "voice_style" (VStr "neutral") = VStr s ->
      ((a, g, s), v) ∈ voice_map ->
      select_voice options = v)
  /\ (forall options,
      (forall a g s,
          dict_get options "voice_accent" (VStr "american") = VStr a ->
          dict_get options "voice_gender" (VStr "female") = VStr g ->
          dict_get options "voice_style" (VStr "neutral") = VStr s ->
          (a, g, s) ∉ map fst voice_map) ->
      select_voice options = "en-US-AriaNeural")
  /\ select_voice french_voice = "en-US-AriaNeural"
  /\ (forall E script_data options w,
      generate_podcast_audio_from_script E script_data options w
      = let w1 := set_trace (fun t => (t ++ [EvSpeech (select_voice options)])%list) w in
        match edge_tts_save E script_data (select_voice options) with
        | Ok mp3 => (Ok podcast_path, set_files (fun m => <[podcast_path := mp3]> m) w1)
        | Raise e => (Raise e, w1)
        end).
Proof.
  split; [| split; [| split]].
  - intros options a g s v Ha Hg Hs Hin.
    unfold select_voice, voice_name_of. rewrite Ha, Hg, Hs. cbv beta iota delta [voice_key].
    rewrite (literal_lookup_elem_of _ v _ voice_map_keys_NoDup Hin). reflexivity.
  - intros options Hout. unfold select_voice, voice_name_of.
    destruct (voice_key _ _ _) as [[[a g] s] |] eqn:Hk; [| reflexivity].
    unfold voice_key in Hk.
    destruct (dict_get options "voice_accent" (VStr "american")) as [| | | a'];
      try discriminate.
    destruct (dict_get options "voice_gender" (VStr "female")) as [| | | g'];
      try discriminate.
    destruct (dict_get options "voice_style" (VStr "neutral")) as [| | | s'];
      try discriminate.
    injection Hk as <- <- <-.
    rewrite (literal_lookup_notin _ voice_map (Hout a' g' s' eq_refl eq_refl eq_refl)).
    reflexivity.
  - vm_compute. reflexivity.
  - intros E script_data options w.
    unfold generate_podcast_audio_from_script, bind, emit, modify, of_result,
      write_file, ret. simpl.
    destruct (edge_tts_save E script_data (select_voice options)); reflexivity.
Qed.

Lemma voice_resolution_witness :
  select_voice british_voice = "en-GB-AlfieNeural"
  /\ select_voice french_voice = "en-US-AriaNeural".
Proof.
  split.
  - apply (proj1 voice_resolution british_voice "british" "male" "conversational");
      try (vm_compute; reflexivity).
    apply (bool_decide_unpack _). vm_compute. exact I.
  - apply (proj1 (proj2 voice_resolution)). intros a g s [= <-] [= <-] [= <-].
    apply (bool_decide_unpack _). vm_compute. exact I.
Defined.

(* ===================================================================== *)
(** * The request handler: balance pre-check *)
(* ===================================================================== *)

Lemma get_object_run (request_user pk : nat) (w : world) (p : Project) :
  fst (get_object request_user pk w) = Ok p ->
  get_object request_user pk w = (Ok p, w)
  /\ p ∈ projects w /\ user p = request_user /\ pid p = pk.
Proof.
  unfold get_object.
  destruct (filter _ (projects w)) as [| q l] eqn:Hf; simpl; intros H; [discriminate |].
  injection H as ->. split; [reflexivity |].
  assert (Hin : p ∈ filter (fun p => user p = request_user /\ pid p = pk) (projects w))
    by (rewrite Hf; left).
  apply list_elem_of_filter in Hin as [[Hu Hp] Hin]. auto.
Qed.

Lemma get_or_create_existing (E : env) (u : nat) (w : world) (b : Z) :
  profile_query_fault E u = None ->
  profiles w !! u = Some b ->
  get_or_create E u w = (Ok (b, false), w).
Proof.
  intros Hf Hb. unfold get_or_create, bind, fault, gets. rewrite Hf. simpl.
  rewrite Hb. reflexivity.
Qed.

(** C3. A generation request of a caller whose token balance is strictly
    below 0.09 is answered with the insufficient-funds error and leaves
    the world as it was: no task is handed to the broker, and no
    [GeneratedContent] row is created or changed. *)
Theorem insufficient_balance_rejected (E : env) (request_user pk : nat)
    (request_data : dict) (w : world) (p : Project) (token_balance : Z) :
  fst (get_object request_user pk w) = Ok p ->
  profile_query_fault E (user p) = None ->
  profiles w !! user p = Some token_balance ->
  (token_balance # 10000 < 9 # 100)%Q ->
  let out := generate_content E request_user pk request_data w in
  fst out = Ok (error_response "Insufficient tokens")
  /\ snd out = w
  /\ queue (snd out) = queue w
  /\ contents (snd out) = contents w.
Proof.
  intros Hp Hf Hb Hlt out.
  assert (Hout : out = (Ok (error_response "Insufficient tokens"), w)).
  { unfold out, generate_content, bind.
    destruct (get_object_run _ _ _ _ Hp) as [-> _].
    rewrite (get_or_create_existing E (user p) w token_balance Hf Hb).
    apply below_minimum_balance_iff in Hlt. rewrite Hlt. reflexivity. }
  rewrite Hout. simpl. auto.
Qed.

Lemma insufficient_balance_rejected_witness :
  let out := generate_content calm_env 7 1 (presentation_request 8) (example_world 500) in
  fst out = Ok (error_response "Insufficient tokens")
  /\ snd out = example_world 500
  /\ queue (snd out) = queue (example_world 500)
  /\ contents (snd out) = contents (example_world 500).
Proof.
  apply (insufficient_balance_rejected calm_env 7 1 (presentation_request 8)
           (example_world 500) example_project 500).
  - vm_compute. reflexivity.
  - reflexivity.
  - vm_compute. reflexivity.
  - vm_compute. reflexivity.
Defined.

(** At the threshold itself the request is not rejected for its balance. *)
Example balance_at_threshold_accepted :
  status_code <$> fst (generate_content calm_env 7 1 (presentation_request 8)
                         (example_world 900)) = Ok 202.
Proof. vm_compute. reflexivity. Qed.

(* ===================================================================== *)
(** * The presentation serializer and the slide count *)
(* ===================================================================== *)

Lemma IntegerField_Ok (E : env) lo hi dflt name (data : dict) v :
  IntegerField E lo hi dflt name data = Ok v ->
  (lo <= dflt <= hi)%Z ->
  exists n, v = VInt n /\ (lo <= n <= hi)%Z
            /\ forall m, data !! name = Some (VInt m) -> n = m.
Proof.
  unfold IntegerField. intros H Hd.
  destruct (data !! name) as [x |].
  - destruct (match x with VInt n => Some n | VStr s => int_of_str E s | _ => None end)
      as [n |] eqn:Hparse; [| discriminate].
    destruct ((lo <=? n)%Z && (n <=? hi)%Z) eqn:Hr; [| discriminate].
    injection H as <-. exists n. split; [reflexivity |].
    apply andb_true_iff in Hr as [H1 H2].
    apply Z.leb_le in H1. apply Z.leb_le in H2.
    split; [lia |]. intros m Hm. injection Hm as ->. simpl in Hparse. congruence.
  - injection H as <-. exists dflt. split; [reflexivity |]. split; [lia |].
    intros m Hm. discriminate.
Qed.

Lemma BooleanField_Ok (E : env) dflt name (data : dict) v :
  BooleanField E dflt name data = Ok v -> exists b, v = VBool b.
Proof.
  unfold BooleanField. intros H.
  destruct (data !! name) as [[| b | n | s] |]; try discriminate;
    try (destruct (boolean_of_value E _); [| discriminate]);
    injection H as <-; eauto.
Qed.

Lemma PresentationGenerateSerializer_Ok (E : env) (data vd : dict) :
  PresentationGenerateSerializer E data = Ok vd ->
  exists ct n b,
    vd = <["content_type" := ct]>
           (<["slides_count" := VInt n]> (<["include_images" := VBool b]> ∅))
    /\ (3 <= n <= 20)%Z
    /\ forall m, data !! "slides_count" = Some (VInt m) -> n = m.
Proof.
  unfold PresentationGenerateSerializer. intros H.
  destruct (ChoiceField _ None "content_type" data) as [ct | e1] eqn:H1;
    destruct (IntegerField E 3 20 10 "slides_count" data) as [sc | e2] eqn:H2;
    destruct (BooleanField E false "include_images" data) as [ii | e3] eqn:H3;
    try discriminate.
  injection H as <-.
  apply IntegerField_Ok in H2 as (n & -> & Hn & Hm); [| lia].
  apply BooleanField_Ok in H3 as (b & ->).
  exists ct, n, b. auto.
Qed.

Lemma add_slides_trace (E : env) (include_images : bool) (slides : list json) :
  forall total_cost w, exists rest,
    trace (snd (add_slides E include_images total_cost slides w))
    = (trace w ++ rest)%list.
Proof.
  induction slides as [| slide_info slides IH]; intros total_cost w; simpl.
  - exists []. rewrite app_nil_r. reflexivity.
  - unfold bind at 1.
    assert (Hone : exists rest1,
               trace (snd (add_slide E include_images total_cost slide_info w))
               = (trace w ++ rest1)%list).
    { unfold add_slide, bind, of_result, generate_image_for_slide, try_except,
        emit, modify, fault, ret, raise.
      destruct include_images; simpl.
      - destruct (json_get slide_info "title" JNull) as [t | ?]; simpl;
          [| exists []; rewrite app_nil_r; reflexivity].
        destruct (json_get slide_info "content" (JArr [])) as [c | ?]; simpl;
          [| exists []; rewrite app_nil_r; reflexivity].
        assert (Hc : (exists u : unit, True) -> True) by auto.
        destruct c as [| | | | items |]; simpl;
          try (destruct (forallb is_JStr (take 2 items)); simpl);
          try (destruct (images_generate_fault E "dall-e-3"); simpl);
          destruct (num_add total_cost (NInt 0)); simpl;
          try (destruct (pptx_add_slide E slide_info); simpl);
          first [ exists [EvImageGeneration "dall-e-3"]; reflexivity
                | exists []; rewrite app_nil_r; reflexivity ].
      - destruct (pptx_add_slide E slide_info); simpl;
          exists []; rewrite app_nil_r; reflexivity. }
    destruct Hone as [rest1 H1].
    destruct (add_slide E include_images total_cost slide_info w) as [[c | e] w1];
      simpl in *.
    + destruct (IH c w1) as [rest2 H2]. exists (rest1 ++ rest2)%list.
      rewrite H2, H1. symmetry. apply app_assoc.
    + exists rest1. exact H1.
Qed.

(** C9. Whatever [slides_count] (between 3 and 20) a presentation request
    carries, and although the validated options hold it under the key
    [slides_count], the slide generator reads the key [slide_count], finds
    none, and builds its prompt for exactly 8 slides: its first external
    call is the completion request with that prompt. *)
Theorem presentation_slide_count_ignored (E : env) (request_data vd : dict) :
  PresentationGenerateSerializer E request_data = Ok vd ->
  (exists n, vd !! "slides_count" = Some (VInt n) /\ (3 <= n <= 20)%Z
             /\ forall m, request_data !! "slides_count" = Some (VInt m) -> n = m)
  /\ vd !! "slide_count" = None
  /\ dict_get vd "slide_count" (VInt 8) = VInt 8
  /\ forall text_content w, exists rest,
       trace (snd (generate_ppt_from_text E text_content vd w))
       = (trace w
          ++ EvChatCompletion "gpt-5-nano" (ppt_prompt (VInt 8) text_content)
          :: rest)%list.
Proof.
  intros Hvd.
  apply PresentationGenerateSerializer_Ok in Hvd as (ct & n & b & -> & Hn & Hm).
  assert (Hnone : (<["content_type" := ct]>
                     (<["slides_count" := VInt n]>
                        (<["include_images" := VBool b]> (∅ : dict))))
                  !! "slide_count" = None).
  { rewrite !lookup_insert_ne by discriminate. apply lookup_empty. }
  split; [| split; [| split]].
  - exists n. split; [| auto].
    rewrite lookup_insert_ne by discriminate. apply lookup_insert_eq.
  - exact Hnone.
  - unfold dict_get. rewrite Hnone. reflexivity.
  - intros text_content w.
    unfold generate_ppt_from_text, dict_get. rewrite Hnone. simpl default.
    unfold chat_completion, bind, emit, modify, of_result, write_file, ret. simpl.
    set (w1 := set_trace _ w).
    assert (Ht1 : trace w1
                  = (trace w ++ [EvChatCompletion "gpt-5-nano"
                                   (ppt_prompt (VInt 8) text_content)])%list)
      by reflexivity.
    clearbody w1.
    destruct (chat_completions_create E "gpt-5-nano" _) as [response | e]; simpl;
      [| exists []; exact Ht1].
    destruct (json_loads E (message_content response)) as [j | e]; simpl;
      [| exists []; exact Ht1].
    destruct (json_get j "slides" (JArr [])) as [sd | e]; simpl;
      [| exists []; exact Ht1].
    destruct (calculate_cost _ _ _) as [c | e]; simpl; [| exists []; exact Ht1].
    destruct (json_iter sd) as [slides | e]; simpl; [| exists []; exact Ht1].
    match goal with
    | |- context [add_slides E ?i c slides w1] =>
        destruct (add_slides_trace E i slides c w1) as [rest Hrest];
        destruct (add_slides E i c slides w1) as [[c' | e] w2]
    end; simpl in *; exists rest; rewrite Hrest, Ht1;
      symmetry; apply (app_assoc _ [_] rest).
Qed.

Lemma presentation_slide_count_ignored_witness :
  dict_get (<["content_type" := VStr "PPT"]>
              (<["slides_count" := VInt 15]>
                 (<["include_images" := VBool false]> ∅)))
    "slide_count" (VInt 8) = VInt 8.
Proof.
  apply (presentation_slide_count_ignored calm_env (presentation_request 15)).
  vm_compute. reflexivity.
Defined.

(* ===================================================================== *)
(** * What each operation leaves alone *)
(* ===================================================================== *)

Ltac stable_step :=
  first
    [ apply stable_ret | apply stable_raise | apply stable_of_result
    | apply stable_gets | apply stable_fault
    | apply stable_modify; intros; reflexivity
    | apply stable_bind; [| intros]
    | apply stable_try_except; [| intros]
    | apply stable_try_finally
    | match goal with
      | |- stable _ (match ?x with _ => _ end) => destruct x
      | |- stable _ (if ?b then _ else _) => destruct b
      end ].

Ltac stable_auto := repeat stable_step; eauto.

Section StableDb.
Context (E : env).

Lemma db_emit e : stable db (emit e).
Proof. unfold emit. stable_auto. Qed.

Lemma db_s3_delete_object key : stable db (s3_delete_object E key).
Proof. unfold s3_delete_object, emit. stable_auto. Qed.

Lemma db_s3_download_file key path : stable db (s3_download_file E key path).
Proof. unfold s3_download_file, emit. stable_auto. Qed.

Lemma db_s3_upload_file path key : stable db (s3_upload_file E path key).
Proof. unfold s3_upload_file, emit. stable_auto. Qed.

Lemma db_read_file path : stable db (read_file path).
Proof. unfold read_file. stable_auto. Qed.

Lemma db_write_file path d : stable db (write_file path d).
Proof. unfold write_file. stable_auto. Qed.

Lemma db_remove_if_exists path : stable db (remove_if_exists path).
Proof. unfold remove_if_exists. stable_auto. Qed.

Lemma db_remove_file path : stable db (remove_file path).
Proof. unfold remove_file. stable_auto. Qed.

Lemma db_objects_get i : stable db (objects_get i).
Proof.
  intros w. unfold objects_get.
  destruct (filter _ (contents w)) as [| r [| r' l]]; reflexivity.
Qed.

Lemma db_get_project i : stable db (get_project i).
Proof. intros w. unfold get_project. destruct (filter _ (projects w)); reflexivity. Qed.

Lemma db_get_object u pk : stable db (get_object u pk).
Proof. intros w. unfold get_object. destruct (filter _ (projects w)); reflexivity. Qed.

Lemma db_get_or_create u : stable db (get_or_create E u).
Proof. unfold get_or_create. stable_auto. Qed.

Lemma db_deduct_tokens u c : stable db (deduct_tokens E u c).
Proof. unfold deduct_tokens. stable_auto. Qed.

Lemma db_delay t : stable db (delay E t).
Proof. unfold delay, emit. stable_auto. Qed.

Lemma db_download_file_from_s3 key : stable db (download_file_from_s3 E key).
Proof. unfold download_file_from_s3. stable_auto; try apply db_s3_download_file. Qed.

Lemma db_extract_text_from_file path : stable db (extract_text_from_file E path).
Proof.
  unfold extract_text_from_file. stable_auto;
    try first [apply db_read_file | apply db_remove_if_exists].
Qed.

Lemma db_chat_completion model prompt : stable db (chat_completion E model prompt).
Proof. unfold chat_completion, emit. stable_auto. Qed.

Lemma db_generate_image_for_slide t c : stable db (generate_image_for_slide E t c).
Proof. unfold generate_image_for_slide, emit. stable_auto. Qed.

Lemma db_add_slide i c s : stable db (add_slide E i c s).
Proof. unfold add_slide. stable_auto; try apply db_generate_image_for_slide. Qed.

Lemma db_add_slides i slides : forall c, stable db (add_slides E i c slides).
Proof.
  induction slides as [| s slides IH]; intros c; simpl.
  - apply stable_ret.
  - apply stable_bind; [apply db_add_slide | intros; apply IH].
Qed.

Lemma db_generate_ppt_from_text text options :
  stable db (generate_ppt_from_text E text options).
Proof.
  unfold generate_ppt_from_text. stable_auto;
    try first [apply db_chat_completion | apply db_add_slides | apply db_write_file].
Qed.

Lemma db_generate_flashcards_from_text text options :
  stable db (generate_flashcards_from_text E text options).
Proof.
  unfold generate_flashcards_from_text. stable_auto;
    try first [apply db_chat_completion | apply db_write_file].
Qed.

Lemma db_generate_mcqs_from_text text options :
  stable db (generate_mcqs_from_text E text options).
Proof.
  unfold generate_mcqs_from_text. stable_auto;
    try first [apply db_chat_completion | apply db_write_file].
Qed.

Lemma db_generate_podcast_audio_from_script script options :
  stable db (generate_podcast_audio_from_script E script options).
Proof.
  unfold generate_podcast_audio_from_script. stable_auto;
    try first [apply db_emit | apply db_write_file].
Qed.

Lemma db_delete_old_object c : stable db (delete_old_object E c).
Proof. unfold delete_old_object. stable_auto; try apply db_s3_delete_object. Qed.

Lemma db_produce_artifact p owner c options :
  stable db (produce_artifact E p owner c options).
Proof.
  unfold produce_artifact. stable_auto;
    try first [ apply db_download_file_from_s3 | apply db_extract_text_from_file
          | apply db_generate_ppt_from_text | apply db_generate_flashcards_from_text
          | apply db_generate_mcqs_from_text | apply db_deduct_tokens
          | apply db_s3_upload_file | apply db_add_slides ].
Qed.
End StableDb.

(* ===================================================================== *)
(** * Running a computation step by step *)
(* ===================================================================== *)

Lemma run_bind_Ok {S A B} (m : M S A) (k : A -> M S B) s a s' :
  m s = (Ok a, s') -> bind m k s = k a s'.
Proof. intros H. unfold bind. rewrite H. reflexivity. Qed.

Lemma run_bind_Raise {S A B} (m : M S A) (k : A -> M S B) s e s' :
  m s = (Raise e, s') -> bind m k s = (Raise e, s').
Proof. intros H. unfold bind. rewrite H. reflexivity. Qed.

Lemma objects_get_Ok (i : nat) (w : world) (c : GeneratedContent) :
  fst (objects_get i w) = Ok c ->
  objects_get i w = (Ok c, w)
  /\ filter (fun r => has_pk i r = true) (contents w) = [c]
  /\ gc_id c = i /\ c ∈ contents w.
Proof.
  unfold objects_get.
  destruct (filter _ (contents w)) as [| r [| r' l]] eqn:Hf; simpl; intros H;
    try discriminate.
  injection H as ->. split; [reflexivity |]. split; [reflexivity |].
  assert (Hin : c ∈ filter (fun r => has_pk i r = true) (contents w))
    by (rewrite Hf; left).
  apply list_elem_of_filter in Hin as [Hpk Hin]. split; [| exact Hin].
  unfold has_pk in Hpk. apply Nat.eqb_eq in Hpk. exact Hpk.
Qed.

Lemma get_project_Ok (i : nat) (w : world) (p : Project) :
  fst (get_project i w) = Ok p ->
  p ∈ projects w /\ pid p = i
  /\ forall w', projects w' = projects w -> get_project i w' = (Ok p, w').
Proof.
  unfold get_project.
  destruct (filter _ (projects w)) as [| q l] eqn:Hf; simpl; intros H; [discriminate |].
  injection H as ->.
  assert (Hin : p ∈ filter (fun p => pid p = i) (projects w)) by (rewrite Hf; left).
  apply list_elem_of_filter in Hin as [Hp Hin].
  split; [exact Hin |]. split; [exact Hp |].
  intros w' Hw'. rewrite Hw', Hf. reflexivity.
Qed.

Lemma get_or_create_Ok (E : env) (u : nat) (w : world) :
  profile_query_fault E u = None ->
  exists b created,
    get_or_create E u w = (Ok (b, created), snd (get_or_create E u w))
    /\ is_Some (profiles (snd (get_or_create E u w)) !! u).
Proof.
  intros Hf. unfold get_or_create, bind, fault, gets, modify, ret. rewrite Hf. simpl.
  destruct (profiles w !! u) as [b |] eqn:Hb; simpl.
  - exists b, false. rewrite Hb. eauto.
  - exists default_token_balance, true. split; [reflexivity |].
    rewrite lookup_insert_eq. eauto.
Qed.

Lemma get_or_create_Raise (E : env) (u : nat) (w : world) (e : exn) :
  profile_query_fault E u = Some e ->
  get_or_create E u w = (Raise e, w).
Proof.
  intros Hf. unfold get_or_create, bind, fault, raise. rewrite Hf. reflexivity.
Qed.

(** The cleanup of the prior artifact never raises. *)
Lemma delete_old_object_Ok (E : env) (c : GeneratedContent) (w : world) :
  delete_old_object E c w = (Ok tt, snd (delete_old_object E c w)).
Proof.
  unfold delete_old_object.
  destruct (str_truthy (s3_url c)); [| reflexivity].
  unfold try_except.
  destruct (bind _ _ w) as [[[] | e] w1]; reflexivity.
Qed.

(* ===================================================================== *)
(** * Rows, keys and [save] *)
(* ===================================================================== *)

Lemma unique_key_inj (rows : list GeneratedContent) (x y : GeneratedContent) :
  NoDup (map unique_key rows) -> x ∈ rows -> y ∈ rows ->
  unique_key x = unique_key y -> x = y.
Proof.
  induction rows as [| r rows IH]; simpl; intros Hnd Hx Hy Hk.
  - inversion Hx.
  - apply NoDup_cons in Hnd as [Hr Hnd].
    assert (Hfresh : forall z, z ∈ rows -> unique_key z <> unique_key r).
    { intros z Hz Heq. apply Hr. rewrite <- Heq.
      apply list_elem_of_In, in_map, list_elem_of_In, Hz. }
    apply elem_of_cons in Hx as [-> | Hx]; apply elem_of_cons in Hy as [-> | Hy].
    + reflexivity.
    + exfalso. apply (Hfresh y Hy). symmetry. exact Hk.
    + exfalso. apply (Hfresh x Hx). exact Hk.
    + apply IH; assumption.
Qed.

Lemma row_admissible_update (r c : GeneratedContent) (p : Project) (w : world) :
  p ∈ projects w -> pid p = project_id r ->
  c ∈ contents w -> gc_id r = gc_id c -> unique_key r = unique_key c ->
  NoDup (map unique_key (contents w)) ->
  row_admissible r w = true.
Proof.
  intros Hp Hpid Hc Hid Hkey Hnd. unfold row_admissible.
  apply andb_true_iff. split.
  - apply existsb_exists. exists p. split; [apply list_elem_of_In, Hp |].
    apply Nat.eqb_eq. exact Hpid.
  - apply forallb_forall. intros x Hx. apply list_elem_of_In in Hx.
    unfold has_key. destruct (bool_decide (unique_key x = unique_key r)) eqn:Hd.
    + apply bool_decide_eq_true in Hd.
      assert (x = c) as -> by (apply (unique_key_inj (contents w)); congruence).
      unfold has_pk. rewrite Hid, Nat.eqb_refl. reflexivity.
    + rewrite orb_true_r. reflexivity.
Qed.

Lemma row_admissible_db (r : GeneratedContent) (w w' : world) :
  db w' = db w -> row_admissible r w' = row_admissible r w.
Proof.
  intros H. injection H as Hp Hc _. unfold row_admissible. rewrite Hp, Hc. reflexivity.
Qed.

Lemma save_update (r c : GeneratedContent) (w : world) :
  row_admissible r w = true -> c ∈ contents w -> gc_id r = gc_id c ->
  save r w = (Ok tt, set_contents (replace_row r) w).
Proof.
  intros Hadm Hc Hid. unfold save. rewrite Hadm.
  assert (Hex : existsb (has_pk (gc_id r)) (contents w) = true).
  { apply existsb_exists. exists c. split; [apply list_elem_of_In, Hc |].
    unfold has_pk. rewrite Hid. apply Nat.eqb_refl. }
  rewrite Hex. reflexivity.
Qed.

Lemma filter_replace_row (r : GeneratedContent) (rows : list GeneratedContent) :
  filter (fun x => has_pk (gc_id r) x = true) (replace_row r rows)
  = map (fun _ => r) (filter (fun x => has_pk (gc_id r) x = true) rows).
Proof.
  induction rows as [| x rows IH]; [reflexivity |].
  unfold replace_row in *. simpl. rewrite !filter_cons.
  destruct (has_pk (gc_id r) x) eqn:Hx.
  - assert (Hr : has_pk (gc_id r) r = true) by (unfold has_pk; apply Nat.eqb_refl).
    destruct (decide (has_pk (gc_id r) r = true)); [| contradiction].
    destruct (decide (true = true)); [| contradiction].
    simpl. rewrite IH. reflexivity.
  - rewrite Hx. destruct (decide (false = true)); [discriminate |]. exact IH.
Qed.

Lemma content_row_replace (r c : GeneratedContent) (w : world) :
  filter (fun x => has_pk (gc_id r) x = true) (contents w) = [c] ->
  content_row (set_contents (replace_row r) w) (gc_id r) = Some r.
Proof.
  intros Hf. unfold content_row. simpl. rewrite filter_replace_row, Hf. reflexivity.
Qed.

(* ===================================================================== *)
(** * The generation job, given that it finds its row, project and profile *)
(* ===================================================================== *)

(** The state in which the pipeline starts: after the cleanup and the
    profile fetch. *)
Lemma generate_content_task_run (E : env) (i : nat) (options : dict) (w : world)
    (c : GeneratedContent) (p : Project) :
  table_ok (contents w) ->
  fst (objects_get i w) = Ok c ->
  fst (get_project (project_id c) w) = Ok p ->
  profile_query_fault E (user p) = None ->
  let w2 := snd (get_or_create E (user p) (snd (delete_old_object E c w))) in
  db w2 = db w
  /\ generate_content_task E i options w
     = match produce_artifact E p (user p) c options w2 with
       | (Ok (final_file_path, generated_s3_key), w3) =>
           (Ok "Task Completed Successfully",
            set_files (delete final_file_path)
              (set_contents
                 (replace_row (with_task_status SUCCESS
                                 (with_s3_url (Some (public_url E generated_s3_key)) c)))
                 w3))
       | (Raise e, w3) =>
           (Raise e, set_contents (replace_row (with_task_status FAILURE c)) w3)
       end.
Proof.
  intros [_ Hkeys] Hget Hproj Hfault w2.
  destruct (objects_get_Ok _ _ _ Hget) as (Hrun & Hfil & Hid & Hin).
  destruct (get_project_Ok _ _ _ Hproj) as (Hp & Hpid & Hproj').
  pose proof (delete_old_object_Ok E c w) as Hdel.
  set (w1 := snd (delete_old_object E c w)) in *.
  assert (Hdb1 : db w1 = db w) by apply db_delete_old_object.
  destruct (get_or_create_Ok E (user p) w1 Hfault) as (b & created & Hprof & _).
  fold w2 in Hprof.
  assert (Hdb2 : db w2 = db w).
  { unfold w2. rewrite (db_get_or_create E (user p) w1). exact Hdb1. }
  split; [exact Hdb2 |].
  unfold generate_content_task.
  rewrite (run_bind_Ok _ _ _ _ _ Hrun).
  rewrite (run_bind_Ok _ _ _ _ _ Hdel).
  rewrite (run_bind_Ok _ _ _ _ _ (Hproj' w1 (f_equal (fun d => fst (fst d)) Hdb1))).
  rewrite (run_bind_Ok _ _ _ _ _ Hprof).
  pose proof (db_produce_artifact E p (user p) c options w2) as Hdb3.
  unfold with_local, try_except, liftW, bind. cbn [fst snd].
  destruct (produce_artifact E p (user p) c options w2) as [[[path key] | e] w3];
    cbn [fst snd] in *.
  - assert (Hdb : db w3 = db w) by congruence.
    injection Hdb as Hprojects Hcontents _.
    unfold set_local, get_local, gets, modify, ret. cbn [fst snd].
    rewrite (save_update _ c w3); [reflexivity | | congruence | reflexivity].
    rewrite (row_admissible_db _ w w3) by congruence.
    apply (row_admissible_update _ c p); auto.
  - assert (Hdb : db w3 = db w) by congruence.
    injection Hdb as Hprojects Hcontents _.
    unfold mark_failure_and_reraise, set_local, get_local, gets, modify, raise,
      liftW, bind. cbn [fst snd].
    rewrite (save_update _ c w3); [reflexivity | | congruence | reflexivity].
    rewrite (row_admissible_db _ w w3) by congruence.
    apply (row_admissible_update _ c p); auto.
Qed.

(* ===================================================================== *)
(** * Calls to the language model *)
(* ===================================================================== *)

Lemma ai_emit (e : event) : is_ai_call e = false -> stable ai_calls (emit e).
Proof.
  intros He w. unfold ai_calls, emit, modify. simpl.
  rewrite List.filter_app. simpl. rewrite He. apply app_nil_r.
Qed.

Section StableAi.
Context (E : env).

Lemma ai_s3_delete_object key : stable ai_calls (s3_delete_object E key).
Proof. unfold s3_delete_object. stable_auto. apply ai_emit. reflexivity. Qed.

Lemma ai_s3_download_file key path : stable ai_calls (s3_download_file E key path).
Proof. unfold s3_download_file. stable_auto. apply ai_emit. reflexivity. Qed.

Lemma ai_get_or_create u : stable ai_calls (get_or_create E u).
Proof. unfold get_or_create. stable_auto. Qed.

Lemma ai_delete_old_object c : stable ai_calls (delete_old_object E c).
Proof. unfold delete_old_object. stable_auto. apply ai_emit. reflexivity. Qed.

Lemma ai_source_text p : stable ai_calls (source_text E p).
Proof. unfold source_text. stable_auto. apply ai_emit. reflexivity. Qed.

Lemma ai_pipeline_start c p w : ai_calls (pipeline_start E c p w) = ai_calls w.
Proof.
  unfold pipeline_start. rewrite ai_get_or_create. apply ai_delete_old_object.
Qed.
End StableAi.

(* ===================================================================== *)
(** * The pipeline when no text, or no generator, is available *)
(* ===================================================================== *)

Lemma produce_artifact_no_text (E : env) (p : Project) (owner : nat)
    (c : GeneratedContent) (options : dict) (w : world) :
  match fst (source_text E p w) with
  | Ok text_content => strip_is_empty text_content = true
  | Raise _ => True
  end ->
  exists e, produce_artifact E p owner c options w = (Raise e, snd (source_text E p w)).
Proof.
  unfold produce_artifact, source_text, bind.
  destruct (download_file_from_s3 E (s3_file_key p) w) as [[path | e] w1]; simpl;
    [| eauto].
  destruct (extract_text_from_file E path w1) as [[text | e] w2]; simpl; [| eauto].
  intros ->. unfold raise. eauto.
Qed.

Lemma produce_artifact_podcast (E : env) (p : Project) (owner : nat)
    (c : GeneratedContent) (options : dict) (w : world) (text_content : string) :
  content_type c = PODCAST ->
  fst (source_text E p w) = Ok text_content ->
  strip_is_empty text_content = false ->
  produce_artifact E p owner c options w
  = (Raise (ValueError "Content generation failed."), snd (source_text E p w)).
Proof.
  intros Hct. unfold produce_artifact, source_text, bind. rewrite Hct.
  destruct (download_file_from_s3 E (s3_file_key p) w) as [[path | e] w1]; simpl;
    [| discriminate].
  destruct (extract_text_from_file E path w1) as [[text | e] w2]; simpl;
    [| discriminate].
  intros [= ->] ->. reflexivity.
Qed.

Lemma ai_calls_set_contents f w : ai_calls (set_contents f w) = ai_calls w.
Proof. reflexivity. Qed.

(* ===================================================================== *)
(** * The generation job: terminal states *)
(* ===================================================================== *)

(** C1, as amended. Once the job has found its row, the row's project and
    the owner's profile, it ends in a status write: when the pipeline from
    the download to the upload raises, the row is written back with status
    failure and nothing else changed (the URL is as it was) and the same
    exception leaves the job; when the pipeline returns, the row is
    written back with status success and the new URL. In neither case is
    the row left in pending. *)
Theorem generate_content_task_terminal (E : env) (i : nat) (options : dict)
    (w : world) (c : GeneratedContent) (p : Project) :
  table_ok (contents w) ->
  fst (objects_get i w) = Ok c ->
  fst (get_project (project_id c) w) = Ok p ->
  profile_query_fault E (user p) = None ->
  let out := generate_content_task E i options w in
  let pipeline :=
    fst (produce_artifact E p (user p) c options (pipeline_start E c p w)) in
  match pipeline with
  | Raise e =>
      fst out = Raise e
      /\ content_row (snd out) i = Some (with_task_status FAILURE c)
  | Ok (final_file_path, generated_s3_key) =>
      fst out = Ok "Task Completed Successfully"
      /\ content_row (snd out) i
         = Some (with_task_status SUCCESS
                   (with_s3_url (Some (public_url E generated_s3_key)) c))
  end
  /\ (exists r, content_row (snd out) i = Some r /\ task_status r <> PENDING).
Proof.
  intros Hok Hget Hproj Hfault out pipeline.
  destruct (generate_content_task_run E i options w c p Hok Hget Hproj Hfault)
    as [Hdb Hrun].
  destruct (objects_get_Ok _ _ _ Hget) as (_ & Hfil & Hid & _).
  pose proof (db_produce_artifact E p (user p) c options
                (snd (get_or_create E (user p) (snd (delete_old_object E c w)))))
    as Hdb3.
  unfold out, pipeline, pipeline_start. rewrite Hrun. clear Hrun.
  destruct (produce_artifact E p (user p) c options _) as [[[path key] | e] w3];
    cbn [fst snd] in *;
    (assert (Hcw : contents w3 = contents w)
      by (assert (H : db w3 = db w) by congruence; injection H; auto)).
  - assert (Hc : content_row
                   (set_files (delete path)
                      (set_contents
                         (replace_row
                            (with_task_status SUCCESS
                               (with_s3_url (Some (public_url E key)) c))) w3)) i
                 = Some (with_task_status SUCCESS
                           (with_s3_url (Some (public_url E key)) c))).
    { rewrite <- Hid.
      apply (content_row_replace
               (with_task_status SUCCESS (with_s3_url (Some (public_url E key)) c)) c).
      simpl. rewrite Hid.
      rewrite Hcw. exact Hfil. }
    split; [split; [reflexivity | exact Hc] |].
    eexists. split; [exact Hc | discriminate].
  - assert (Hc : content_row
                   (set_contents (replace_row (with_task_status FAILURE c)) w3) i
                 = Some (with_task_status FAILURE c)).
    { rewrite <- Hid.
      apply (content_row_replace (with_task_status FAILURE c) c).
      simpl. rewrite Hid.
      rewrite Hcw. exact Hfil. }
    split; [split; [reflexivity | exact Hc] |].
    eexists. split; [exact Hc | discriminate].
Qed.

Lemma generate_content_task_terminal_witness :
  fst (generate_content_task upload_down_env 1 (presentation_request 8) requested_world)
  = Raise (ServiceError "s3")
  /\ task_status <$> content_row
       (snd (generate_content_task upload_down_env 1 (presentation_request 8)
               requested_world)) 1 = Some FAILURE.
Proof.
  pose proof (generate_content_task_terminal upload_down_env 1 (presentation_request 8)
                requested_world
                {| gc_id := 1; project_id := 1; content_type := PRESENTATION;
                   s3_url := None; task_id := Some "task-0"; task_status := PENDING |}
                example_project) as H.
  assert (Hok : table_ok (contents requested_world)).
  { split; apply (bool_decide_unpack _); vm_compute; exact I. }
  specialize (H Hok eq_refl eq_refl eq_refl).
  destruct H as [H _].
  assert (Hp : fst (produce_artifact upload_down_env example_project 7
                      {| gc_id := 1; project_id := 1; content_type := PRESENTATION;
                         s3_url := None; task_id := Some "task-0";
                         task_status := PENDING |}
                      (presentation_request 8)
                      (pipeline_start upload_down_env
                         {| gc_id := 1; project_id := 1; content_type := PRESENTATION;
                            s3_url := None; task_id := Some "task-0";
                            task_status := PENDING |}
                         example_project requested_world))
               = Raise (ServiceError "s3")) by (vm_compute; reflexivity).
  cbv zeta in H. simpl user in H. rewrite Hp in H.
  destruct H as [H1 H2]. split; [exact H1 |]. rewrite H2. reflexivity.
Defined.

(** C1 as stated fails at the profile fetch: [get_or_create] runs before
    the [try], so an exception of the database there leaves the job with
    the row still pending. *)
Lemma profile_fetch_failure_leaves_pending :
  task_status <$> content_row requested_world 1 = Some PENDING
  /\ fst (generate_content_task database_down_env 1 (presentation_request 8)
            requested_world) = Raise (ServiceError "database")
  /\ task_status <$> content_row
       (snd (generate_content_task database_down_env 1 (presentation_request 8)
               requested_world)) 1 = Some PENDING.
Proof. vm_compute. auto. Qed.

(* ===================================================================== *)
(** * Cleanup of the prior artifact *)
(* ===================================================================== *)

Lemma delete_old_object_failed (E : env) (c : GeneratedContent) (w : world) (e : exn) :
  (forall k, split1_tail ".com/" (default EmptyString (s3_url c)) = Some k ->
             s3_delete_fault E k = Some e) ->
  bucket (snd (delete_old_object E c w)) = bucket w.
Proof.
  intros Hfail. unfold delete_old_object.
  destruct (str_truthy (s3_url c)); [| reflexivity].
  unfold try_except, bind, s3_delete_object, emit, modify, fault, raise, ret.
  destruct (split1_tail ".com/" (default EmptyString (s3_url c))) as [k |] eqn:Hk;
    simpl; [| reflexivity].
  rewrite (Hfail k eq_refl). reflexivity.
Qed.

(** C4. When the row has a URL and the deletion of the old object raises,
    the exception is swallowed: the cleanup itself returns normally and
    deletes nothing, and if the steps after it succeed the job returns
    normally with the row in status success and the new URL. *)
Theorem cleanup_failure_does_not_block (E : env) (i : nat) (options : dict)
    (w : world) (c : GeneratedContent) (p : Project) (e : exn)
    (final_file_path generated_s3_key : string) :
  table_ok (contents w) ->
  fst (objects_get i w) = Ok c ->
  str_truthy (s3_url c) = true ->
  (forall k, split1_tail ".com/" (default EmptyString (s3_url c)) = Some k ->
             s3_delete_fault E k = Some e) ->
  fst (get_project (project_id c) w) = Ok p ->
  profile_query_fault E (user p) = None ->
  fst (produce_artifact E p (user p) c options (pipeline_start E c p w))
  = Ok (final_file_path, generated_s3_key) ->
  let out := generate_content_task E i options w in
  fst (delete_old_object E c w) = Ok tt
  /\ bucket (snd (delete_old_object E c w)) = bucket w
  /\ fst out = Ok "Task Completed Successfully"
  /\ content_row (snd out) i
     = Some (with_task_status SUCCESS
               (with_s3_url (Some (public_url E generated_s3_key)) c)).
Proof.
  intros Hok Hget Hurl Hfail Hproj Hfault Hpipe out.
  split; [rewrite delete_old_object_Ok; reflexivity |].
  split; [exact (delete_old_object_failed E c w e Hfail) |].
  destruct (generate_content_task_run E i options w c p Hok Hget Hproj Hfault)
    as [Hdb Hrun].
  destruct (objects_get_Ok _ _ _ Hget) as (_ & Hfil & Hid & _).
  pose proof (db_produce_artifact E p (user p) c options (pipeline_start E c p w))
    as Hdb3.
  unfold out. rewrite Hrun. clear Hrun. fold (pipeline_start E c p w) in *.
  destruct (produce_artifact E p (user p) c options (pipeline_start E c p w))
    as [[[path key] | e'] w3]; cbn [fst snd] in *; [| discriminate].
  injection Hpipe as -> ->.
  split; [reflexivity |].
  rewrite <- Hid.
  apply (content_row_replace
           (with_task_status SUCCESS
              (with_s3_url (Some (public_url E generated_s3_key)) c)) c).
  simpl. rewrite Hid.
  assert (H : db w3 = db w) by congruence. injection H as _ -> _. exact Hfil.
Qed.

Lemma cleanup_failure_does_not_block_witness :
  content_row delivered_world 1 ≫= s3_url
  = Some "https://edugen.s3.amazonaws.com/generated/1/1_presentation.pptx"
  /\ fst (generate_content_task delete_down_env 1 (presentation_request 8)
            delivered_world) = Ok "Task Completed Successfully"
  /\ task_status <$> content_row
       (snd (generate_content_task delete_down_env 1 (presentation_request 8)
               delivered_world)) 1 = Some SUCCESS.
Proof.
  pose proof (cleanup_failure_does_not_block delete_down_env 1 (presentation_request 8)
                delivered_world
                {| gc_id := 1; project_id := 1; content_type := PRESENTATION;
                   s3_url := Some "https://edugen.s3.amazonaws.com/generated/1/1_presentation.pptx";
                   task_id := Some "task-0"; task_status := SUCCESS |}
                example_project (ServiceError "s3")
                "/tmp/presentations/presentation.pptx"
                "generated/1/1_presentation.pptx") as H.
  assert (Hok : table_ok (contents delivered_world)).
  { split; apply (bool_decide_unpack _); vm_compute; exact I. }
  specialize (H Hok).
  assert (H1 : fst (objects_get 1 delivered_world)
               = Ok {| gc_id := 1; project_id := 1; content_type := PRESENTATION;
                       s3_url := Some "https://edugen.s3.amazonaws.com/generated/1/1_presentation.pptx";
                       task_id := Some "task-0"; task_status := SUCCESS |})
    by (vm_compute; reflexivity).
  specialize (H H1 eq_refl (fun _ _ => eq_refl)).
  assert (H2 : fst (get_project 1 delivered_world) = Ok example_project)
    by (vm_compute; reflexivity).
  specialize (H H2 eq_refl).
  assert (H3 : fst (produce_artifact delete_down_env example_project (user example_project)
                      {| gc_id := 1; project_id := 1; content_type := PRESENTATION;
                         s3_url := Some "https://edugen.s3.amazonaws.com/generated/1/1_presentation.pptx";
                         task_id := Some "task-0"; task_status := SUCCESS |}
                      (presentation_request 8)
                      (pipeline_start delete_down_env
                         {| gc_id := 1; project_id := 1; content_type := PRESENTATION;
                            s3_url := Some "https://edugen.s3.amazonaws.com/generated/1/1_presentation.pptx";
                            task_id := Some "task-0"; task_status := SUCCESS |}
                         example_project delivered_world))
               = Ok ("/tmp/presentations/presentation.pptx",
                     "generated/1/1_presentation.pptx"))
    by (vm_compute; reflexivity).
  specialize (H H3). destruct H as (_ & _ & Ha & Hb).
  split; [vm_compute; reflexivity |]. split; [exact Ha |].
  rewrite Hb. reflexivity.
Defined.

(* ===================================================================== *)
(** * Text extraction *)
(* ===================================================================== *)

Lemma extract_text_from_file_other (E : env) (file_path : string) (w : world) :
  endswith file_path ".pdf" = false ->
  endswith file_path ".docx" = false ->
  endswith file_path ".txt" = false ->
  extract_text_from_file E file_path w = (Ok EmptyString, set_files (delete file_path) w).
Proof.
  intros H1 H2 H3. unfold extract_text_from_file. rewrite H1, H2, H3. reflexivity.
Qed.

Lemma extract_text_from_file_pdf (E : env) (file_path f : string) (w : world) :
  endswith file_path ".pdf" = true ->
  files w !! file_path = Some f ->
  extract_text_from_file E file_path w
  = ((fun pages => String.concat EmptyString (map (default EmptyString) pages))
       <$> PdfReader_pages E f,
     set_files (delete file_path) w).
Proof.
  intros H1 Hf. unfold extract_text_from_file. rewrite H1.
  unfold read_file, remove_if_exists.
  unfold try_finally, bind, gets, of_result, ret, modify.
  cbv beta. rewrite Hf. destruct (PdfReader_pages E f); reflexivity.
Qed.

Lemma extract_text_from_file_docx (E : env) (file_path f : string) (w : world) :
  endswith file_path ".pdf" = false ->
  endswith file_path ".docx" = true ->
  files w !! file_path = Some f ->
  extract_text_from_file E file_path w
  = ((fun paragraphs =>
        String.concat EmptyString (map (fun para => para +:+ newline) paragraphs))
       <$> Document_paragraphs E f,
     set_files (delete file_path) w).
Proof.
  intros H1 H2 Hf. unfold extract_text_from_file. rewrite H1, H2.
  unfold read_file, remove_if_exists.
  unfold try_finally, bind, gets, of_result, ret, modify.
  cbv beta. rewrite Hf. destruct (Document_paragraphs E f); reflexivity.
Qed.

Lemma extract_text_from_file_txt (E : env) (file_path f : string) (w : world) :
  endswith file_path ".pdf" = false ->
  endswith file_path ".docx" = false ->
  endswith file_path ".txt" = true ->
  files w !! file_path = Some f ->
  extract_text_from_file E file_path w
  = (decode_utf8 E f, set_files (delete file_path) w).
Proof.
  intros H1 H2 H3 Hf. unfold extract_text_from_file. rewrite H1, H2, H3.
  unfold read_file, remove_if_exists.
  unfold try_finally, bind, gets, of_result, ret, modify.
  cbv beta. rewrite Hf. destruct (decode_utf8 E f); reflexivity.
Qed.

(** C7, as amended. Extraction dispatches on the extension: a path ending
    in none of .pdf, .docx, .txt yields the empty string without raising;
    a .pdf, .docx or .txt file is parsed, and the outcome of extraction is
    the outcome of the parser: its text, or the exception it raised
    (extraction has a [finally] that removes the file, and no [except]).
    In the job, when extraction yields no text (blank text, or an
    exception), the job ends in status failure and has not called the
    language model. *)
Theorem text_extraction (E : env) :
  (forall file_path w,
      endswith file_path ".pdf" = false ->
      endswith file_path ".docx" = false ->
      endswith file_path ".txt" = false ->
      extract_text_from_file E file_path w
      = (Ok EmptyString, set_files (delete file_path) w))
  /\ (forall file_path f w,
      files w !! file_path = Some f ->
      fst (extract_text_from_file E file_path w)
      = if endswith file_path ".pdf" then
          (fun pages => String.concat EmptyString (map (default EmptyString) pages))
            <$> PdfReader_pages E f
        else if endswith file_path ".docx" then
          (fun paragraphs =>
             String.concat EmptyString (map (fun para => para +:+ newline) paragraphs))
            <$> Document_paragraphs E f
        else if endswith file_path ".txt" then decode_utf8 E f
        else Ok EmptyString)
  /\ (forall i options w c p,
      table_ok (contents w) ->
      fst (objects_get i w) = Ok c ->
      fst (get_project (project_id c) w) = Ok p ->
      profile_query_fault E (user p) = None ->
      match fst (source_text E p (pipeline_start E c p w)) with
      | Ok text_content => strip_is_empty text_content = true
      | Raise _ => True
      end ->
      let out := generate_content_task E i options w in
      (exists e, fst out = Raise e)
      /\ content_row (snd out) i = Some (with_task_status FAILURE c)
      /\ ai_calls (snd out) = ai_calls w).
Proof.
  split; [| split].
  - apply extract_text_from_file_other.
  - intros file_path f w Hf.
    destruct (endswith file_path ".pdf") eqn:H1.
    { rewrite (extract_text_from_file_pdf E file_path f w H1 Hf). reflexivity. }
    destruct (endswith file_path ".docx") eqn:H2.
    { rewrite (extract_text_from_file_docx E file_path f w H1 H2 Hf). reflexivity. }
    destruct (endswith file_path ".txt") eqn:H3.
    { rewrite (extract_text_from_file_txt E file_path f w H1 H2 H3 Hf). reflexivity. }
    rewrite (extract_text_from_file_other E file_path w H1 H2 H3). reflexivity.
  - intros i options w c p Hok Hget Hproj Hfault Htext out.
    destruct (generate_content_task_run E i options w c p Hok Hget Hproj Hfault)
      as [Hdb Hrun].
    destruct (objects_get_Ok _ _ _ Hget) as (_ & Hfil & Hid & _).
    fold (pipeline_start E c p w) in *.
    destruct (produce_artifact_no_text E p (user p) c options
                (pipeline_start E c p w) Htext) as [e He].
    unfold out. rewrite Hrun, He. cbn [fst snd].
    split; [eauto |]. split.
    + rewrite <- Hid. apply (content_row_replace (with_task_status FAILURE c) c).
      simpl. rewrite Hid.
      assert (H : db (snd (source_text E p (pipeline_start E c p w))) = db w).
      { rewrite <- Hdb. unfold source_text.
        apply stable_bind; [apply db_download_file_from_s3 |].
        intros. apply db_extract_text_from_file. }
      injection H as _ -> _. exact Hfil.
    + rewrite ai_calls_set_contents, ai_source_text. apply ai_pipeline_start.
Qed.

Lemma text_extraction_witness :
  extract_text_from_file calm_env "/tmp/downloads/photo.png" (example_world 50000)
  = (Ok EmptyString, set_files (delete "/tmp/downloads/photo.png") (example_world 50000))
  /\ task_status <$> content_row
       (snd (generate_content_task calm_env 1 ∅ (pdf_world "   "))) 1 = Some FAILURE.
Proof.
  split.
  - apply (proj1 (text_extraction calm_env)); reflexivity.
  - pose proof (proj2 (proj2 (text_extraction calm_env)) 1 ∅ (pdf_world "   ")
                  {| gc_id := 1; project_id := 2; content_type := FLASHCARDS;
                     s3_url := None; task_id := Some "task-0";
                     task_status := PENDING |} pdf_project) as H.
    assert (Hok : table_ok (contents (pdf_world "   "))).
    { split; apply (bool_decide_unpack _); vm_compute; exact I. }
    specialize (H Hok eq_refl eq_refl eq_refl).
    assert (Htext : match fst (source_text calm_env pdf_project
                                 (pipeline_start calm_env
                                    {| gc_id := 1; project_id := 2;
                                       content_type := FLASHCARDS; s3_url := None;
                                       task_id := Some "task-0";
                                       task_status := PENDING |}
                                    pdf_project (pdf_world "   "))) with
                    | Ok text_content => strip_is_empty text_content = true
                    | Raise _ => True
                    end) by (vm_compute; reflexivity).
    specialize (H Htext). destruct H as (_ & H & _). rewrite H. reflexivity.
Defined.

(** C7 as stated fails on an internal failure: when the PDF parser raises,
    extraction raises too instead of returning the empty string. *)
Lemma extraction_raises_on_parser_failure :
  fst (extract_text_from_file broken_pdf_env "/tmp/downloads/scan.pdf"
         (set_files (fun m => <["/tmp/downloads/scan.pdf" := "%PDF-1.7 ..."]> m)
            (example_world 50000)))
  = Raise (ServiceError "PyPDF2").
Proof. vm_compute. reflexivity. Qed.

(* ===================================================================== *)
(** * The invariant of the content table *)
(* ===================================================================== *)

Lemma has_pk_true (i : nat) (r : GeneratedContent) : has_pk i r = true <-> gc_id r = i.
Proof. unfold has_pk. apply Nat.eqb_eq. Qed.

Lemma has_key_true (k : nat * ContentType) (r : GeneratedContent) :
  has_key k r = true <-> unique_key r = k.
Proof. unfold has_key. apply bool_decide_eq_true. Qed.

Lemma filter_none {A} (P : A -> Prop) `{forall x, Decision (P x)} (l : list A) :
  (forall x, x ∈ l -> ~ P x) -> filter P l = [].
Proof.
  induction l as [| x l IH]; intros Hl; [reflexivity |].
  rewrite filter_cons_False by (apply Hl; left).
  apply IH. intros y Hy. apply Hl. right. exact Hy.
Qed.

Lemma elem_of_map {A B} (f : A -> B) (l : list A) (x : A) : x ∈ l -> f x ∈ map f l.
Proof. intros H. apply list_elem_of_In, in_map, list_elem_of_In, H. Qed.

Lemma elem_of_map_inv {A B} (f : A -> B) (l : list A) (y : B) :
  y ∈ map f l -> exists x, f x = y /\ x ∈ l.
Proof.
  intros H. apply list_elem_of_In, in_map_iff in H as (x & Hx & Hin).
  exists x. split; [exact Hx | apply list_elem_of_In, Hin].
Qed.

(** With [f] injective on the list, the rows with a given [f] are at most
    one. *)
Lemma filter_unique {A B} (f : A -> B) (P : A -> Prop) `{forall x, Decision (P x)}
    (b : B) (l : list A) (x0 : A) :
  (forall x, P x <-> f x = b) ->
  NoDup (map f l) -> x0 ∈ l -> f x0 = b -> filter P l = [x0].
Proof.
  intros HP. induction l as [| x l IH]; simpl; intros Hnd Hin Hb.
  - inversion Hin.
  - apply NoDup_cons in Hnd as [Hx Hnd].
    apply elem_of_cons in Hin as [<- | Hin].
    + rewrite filter_cons_True by (apply HP, Hb).
      rewrite filter_none; [reflexivity |].
      intros y Hy Hpy. apply Hx. apply HP in Hpy. rewrite Hb, <- Hpy.
      apply elem_of_map, Hy.
    + rewrite filter_cons_False.
      * apply IH; assumption.
      * intros Hpx. apply HP in Hpx. apply Hx. rewrite Hpx, <- Hb.
        apply elem_of_map, Hin.
Qed.

Lemma filter_at_most_one {A B} (f : A -> B) (P : A -> Prop) `{forall x, Decision (P x)}
    (b : B) (l : list A) :
  (forall x, P x <-> f x = b) ->
  NoDup (map f l) -> length (filter P l) <= 1.
Proof.
  intros HP Hnd.
  destruct (filter P l) as [| x0 l'] eqn:Hf; [simpl; lia |].
  assert (Hin : x0 ∈ filter P l) by (rewrite Hf; left).
  apply list_elem_of_filter in Hin as [Hp Hin].
  rewrite (filter_unique f P b l x0 HP Hnd Hin) in Hf by (apply HP, Hp).
  injection Hf as <-. simpl. lia.
Qed.

Lemma map_gc_id_replace_row (r : GeneratedContent) (rows : list GeneratedContent) :
  map gc_id (replace_row r rows) = map gc_id rows.
Proof.
  induction rows as [| x rows IH]; [reflexivity |].
  unfold replace_row in *. simpl. rewrite IH. f_equal.
  destruct (has_pk (gc_id r) x) eqn:Hx; [| reflexivity].
  apply has_pk_true in Hx. congruence.
Qed.

Lemma length_replace_row (r : GeneratedContent) (rows : list GeneratedContent) :
  length (replace_row r rows) = length rows.
Proof. unfold replace_row. apply length_map. Qed.

Lemma replace_row_absent (r : GeneratedContent) (rows : list GeneratedContent) :
  gc_id r ∉ map gc_id rows -> replace_row r rows = rows.
Proof.
  induction rows as [| x rows IH]; simpl; intros Hr; [reflexivity |].
  apply not_elem_of_cons in Hr as [Hne Hr].
  unfold replace_row in *. simpl. rewrite (IH Hr).
  destruct (has_pk (gc_id r) x) eqn:Hx; [| reflexivity].
  apply has_pk_true in Hx. congruence.
Qed.

Lemma elem_of_replace_row (r z : GeneratedContent) (rows : list GeneratedContent) :
  z ∈ replace_row r rows -> z = r \/ z ∈ rows.
Proof.
  induction rows as [| x rows IH]; simpl; intros Hz; [inversion Hz |].
  apply elem_of_cons in Hz as [-> | Hz].
  - destruct (has_pk (gc_id r) x); [left; reflexivity | right; left].
  - destruct (IH Hz) as [-> | Hin]; [left; reflexivity | right; right; exact Hin].
Qed.

Lemma replace_row_idem (r r' : GeneratedContent) (rows : list GeneratedContent) :
  gc_id r' = gc_id r -> replace_row r' (replace_row r rows) = replace_row r' rows.
Proof.
  intros Hid. unfold replace_row. rewrite map_map. apply map_ext. intros x.
  rewrite Hid. destruct (has_pk (gc_id r) x) eqn:Hx; [| rewrite Hx; reflexivity].
  unfold has_pk. rewrite Nat.eqb_refl. reflexivity.
Qed.

Lemma table_ok_replace_row (r : GeneratedContent) (rows : list GeneratedContent) :
  table_ok rows ->
  (forall x, x ∈ rows -> gc_id x = gc_id r \/ unique_key x <> unique_key r) ->
  table_ok (replace_row r rows).
Proof.
  intros [Hids Hkeys] Hadm. split; [rewrite map_gc_id_replace_row; exact Hids |].
  induction rows as [| x rows IH]; [constructor |].
  simpl in *. apply NoDup_cons in Hids as [Hxid Hids].
  apply NoDup_cons in Hkeys as [Hxkey Hkeys].
  assert (Hadm' : forall y, y ∈ rows -> gc_id y = gc_id r \/ unique_key y <> unique_key r)
    by (intros y Hy; apply Hadm; right; exact Hy).
  destruct (has_pk (gc_id r) x) eqn:Hx.
  - apply has_pk_true in Hx.
    fold (replace_row r rows). rewrite replace_row_absent by congruence.
    apply NoDup_cons. split; [| exact Hkeys].
    intros Hin. apply elem_of_map_inv in Hin as (y & Hky & Hy).
    destruct (Hadm' y Hy) as [Hyid | Hyk]; [| congruence].
    apply Hxid. rewrite Hx, <- Hyid. apply elem_of_map, Hy.
  - apply NoDup_cons. split; [| apply IH; assumption].
    intros Hin. apply elem_of_map_inv in Hin as (z & Hkz & Hz).
    apply elem_of_replace_row in Hz as [-> | Hz].
    + destruct (Hadm x) as [Hid | Hk]; [left | | congruence].
      apply has_pk_true in Hid. congruence.
    + apply Hxkey. rewrite <- Hkz. apply elem_of_map, Hz.
Qed.

Lemma table_ok_snoc (r : GeneratedContent) (rows : list GeneratedContent) :
  table_ok rows ->
  gc_id r ∉ map gc_id rows -> unique_key r ∉ map unique_key rows ->
  table_ok (rows ++ [r]).
Proof.
  intros [Hids Hkeys] Hid Hkey. split; rewrite map_app; simpl;
    apply NoDup_app; (split; [assumption |]); (split; [| apply NoDup_singleton]);
    intros y Hy Hy'; apply list_elem_of_singleton in Hy'; subst y; contradiction.
Qed.

Lemma table_ok_filter (P : GeneratedContent -> Prop) `{forall x, Decision (P x)}
    (rows : list GeneratedContent) :
  table_ok rows -> table_ok (filter P rows).
Proof.
  assert (Hgen : forall B (f : GeneratedContent -> B),
             NoDup (map f rows) -> NoDup (map f (filter P rows))).
  { intros B f. induction rows as [| x rows IH]; simpl; intros Hnd; [constructor |].
    apply NoDup_cons in Hnd as [Hx Hnd]. rewrite filter_cons.
    destruct (decide (P x)); [| apply IH, Hnd].
    simpl. apply NoDup_cons. split; [| apply IH, Hnd].
    intros Hin. apply Hx. apply elem_of_map_inv in Hin as (y & Hy & Hin).
    rewrite <- Hy. apply elem_of_map.
    apply list_elem_of_filter in Hin as [_ Hin]. exact Hin. }
  intros [Hids Hkeys]. split; apply Hgen; assumption.
Qed.

Lemma row_admissible_spec (r : GeneratedContent) (w : world) :
  row_admissible r w = true ->
  (exists p, p ∈ projects w /\ pid p = project_id r)
  /\ forall x, x ∈ contents w -> gc_id x = gc_id r \/ unique_key x <> unique_key r.
Proof.
  unfold row_admissible. intros H. apply andb_true_iff in H as [Hfk Hun]. split.
  - apply existsb_exists in Hfk as (p & Hp & Hpid).
    exists p. split; [apply list_elem_of_In, Hp | apply Nat.eqb_eq, Hpid].
  - intros x Hx. rewrite forallb_forall in Hun.
    specialize (Hun x (proj1 (list_elem_of_In _ _) Hx)).
    apply orb_true_iff in Hun as [Hpk | Hk].
    + left. apply has_pk_true, Hpk.
    + right. intros Heq. apply negb_true_iff in Hk.
      apply (proj2 (has_key_true _ _)) in Heq. congruence.
Qed.

Lemma save_table_ok (r : GeneratedContent) :
  preserves (fun w => table_ok (contents w)) (save r).
Proof.
  intros w Hok. unfold save.
  destruct (row_admissible r w) eqn:Hadm; [| exact Hok].
  apply row_admissible_spec in Hadm as [_ Hun].
  destruct (existsb (has_pk (gc_id r)) (contents w)) eqn:Hex; simpl.
  - apply table_ok_replace_row; assumption.
  - assert (Hfresh : forall x, x ∈ contents w -> gc_id x <> gc_id r).
    { intros x Hx Hid.
      assert (existsb (has_pk (gc_id r)) (contents w) = true); [| congruence].
      apply existsb_exists. exists x.
      split; [apply list_elem_of_In, Hx | apply has_pk_true, Hid]. }
    apply table_ok_snoc; [exact Hok | |].
    + intros Hin. apply elem_of_map_inv in Hin as (x & Hid & Hx).
      exact (Hfresh x Hx Hid).
    + intros Hin. apply elem_of_map_inv in Hin as (x & Hk & Hx).
      destruct (Hun x Hx) as [Hid | Hne]; [exact (Hfresh x Hx Hid) | congruence].
Qed.

Section Preserves.
Context {S : Type} (I : S -> Prop).

Lemma preserves_ret {A} (a : A) : preserves I (ret a).
Proof. intros s H. exact H. Qed.

Lemma preserves_raise {A} (e : exn) : preserves I (@raise S A e).
Proof. intros s H. exact H. Qed.

Lemma preserves_bind {A B} (m : M S A) (k : A -> M S B) :
  preserves I m -> (forall a, preserves I (k a)) -> preserves I (bind m k).
Proof.
  intros Hm Hk s H. unfold bind. specialize (Hm s H).
  destruct (m s) as [[a | e] s1]; simpl in *; [apply Hk, Hm | exact Hm].
Qed.

Lemma preserves_try_except {A} (m : M S A) (h : exn -> M S A) :
  preserves I m -> (forall e, preserves I (h e)) -> preserves I (try_except m h).
Proof.
  intros Hm Hh s H. unfold try_except. specialize (Hm s H).
  destruct (m s) as [[a | e] s1]; simpl in *; [exact Hm | apply Hh, Hm].
Qed.

Lemma preserves_stable {A X} (f : S -> X) (J : X -> Prop) (m : M S A) :
  (forall s, I s <-> J (f s)) -> stable f m -> preserves I m.
Proof. intros HI Hm s H. apply HI. rewrite Hm. apply HI, H. Qed.
End Preserves.

Lemma preserves_liftW {W L A} (I : W -> Prop) (m : M W A) :
  preserves I m -> preserves (fun s : W * L => I (fst s)) (liftW m).
Proof.
  intros Hm s H. unfold liftW. specialize (Hm (fst s) H).
  destruct (m (fst s)) as [r w']. exact Hm.
Qed.

Lemma preserves_set_local {W L} (I : W -> Prop) (f : L -> L) :
  preserves (fun s : W * L => I (fst s)) (set_local f).
Proof. intros s H. exact H. Qed.

Lemma preserves_get_local {W L} (I : W -> Prop) :
  preserves (fun s : W * L => I (fst s)) (@get_local W L).
Proof. intros s H. exact H. Qed.

Lemma preserves_with_local {W L A} (I : W -> Prop) (l : L) (m : M (W * L) A) :
  preserves (fun s : W * L => I (fst s)) m -> preserves I (with_local l m).
Proof.
  intros Hm w H. unfold with_local. specialize (Hm (w, l) H).
  destruct (m (w, l)) as [r s']. exact Hm.
Qed.

(** Whatever leaves the database alone keeps the invariant. *)
Lemma preserves_db {A} (m : M world A) :
  stable db m -> preserves (fun w => table_ok (contents w)) m.
Proof.
  apply (preserves_stable _ db (fun d => table_ok (snd (fst d)))). intros s. reflexivity.
Qed.

Lemma set_next_pk_table_ok (f : nat -> nat) :
  preserves content_table_ok (modify (set_next_pk f)).
Proof. intros w H. exact H. Qed.

Ltac db_solve :=
  first
    [ apply db_objects_get | apply db_get_project | apply db_get_object
    | apply db_get_or_create | apply db_delete_old_object
    | apply db_produce_artifact | apply db_delay | apply db_remove_if_exists
    | apply db_remove_file | apply db_s3_upload_file | apply db_s3_delete_object
    | apply db_generate_podcast_audio_from_script
    | apply stable_gets | apply stable_of_result
    | apply stable_modify; intros; reflexivity ].

Ltac preserves_step :=
  first
    [ apply preserves_ret | apply preserves_raise | apply save_table_ok
    | apply set_next_pk_table_ok
    | apply (preserves_set_local content_table_ok)
    | apply (preserves_get_local content_table_ok)
    | apply preserves_db; db_solve
    | apply (preserves_liftW content_table_ok)
    | apply (preserves_with_local content_table_ok)
    | apply preserves_bind; [| intros]
    | apply preserves_try_except; [| intros]
    | match goal with
      | |- preserves _ (match ?x with _ => _ end) => destruct x
      | |- preserves _ (if ?b then _ else _) => destruct b
      end ].

Section TableInvariant.
Context (E : env).

Lemma update_or_create_table_ok p ct :
  preserves content_table_ok (update_or_create p ct).
Proof. unfold update_or_create. repeat preserves_step. Qed.

Lemma delete_project_table_ok p : preserves content_table_ok (delete_project p).
Proof.
  intros w Hok. unfold delete_project, bind, modify, content_table_ok. simpl.
  apply table_ok_filter, Hok.
Qed.

Lemma mark_failure_table_ok {A} e :
  preserves (fun s : world * GeneratedContent => content_table_ok (fst s))
    (@mark_failure_and_reraise A e).
Proof. unfold mark_failure_and_reraise. repeat preserves_step. Qed.

Lemma generate_content_task_table_ok i options :
  preserves content_table_ok (generate_content_task E i options).
Proof.
  unfold generate_content_task.
  repeat first [apply mark_failure_table_ok | preserves_step].
Qed.

Lemma generate_audio_task_table_ok i options :
  preserves content_table_ok (generate_audio_task E i options).
Proof.
  unfold generate_audio_task.
  repeat first [apply mark_failure_table_ok | preserves_step].
Qed.

Lemma generate_content_table_ok u pk request_data :
  preserves content_table_ok (generate_content E u pk request_data).
Proof.
  unfold generate_content.
  repeat first [apply update_or_create_table_ok | preserves_step].
Qed.

Lemma generate_podcast_audio_table_ok u pk request_data :
  preserves content_table_ok (generate_podcast_audio E u pk request_data).
Proof.
  unfold generate_podcast_audio.
  repeat first [apply update_or_create_table_ok | preserves_step].
Qed.

Lemma destroy_table_ok u pk : preserves content_table_ok (destroy E u pk).
Proof.
  unfold destroy.
  repeat first [apply delete_project_table_ok | preserves_step].
Qed.
End TableInvariant.

Lemma step_table_ok (w : world) (a : env * action) :
  content_table_ok w -> content_table_ok (step w a).
Proof.
  destruct a as [E [u pk d | u pk d | u pk | [i o | i o]]]; simpl.
  - apply generate_content_table_ok.
  - apply generate_podcast_audio_table_ok.
  - apply destroy_table_ok.
  - apply generate_content_task_table_ok.
  - apply generate_audio_task_table_ok.
Qed.

Lemma run_table_ok (l : list (env * action)) :
  forall w, content_table_ok w -> content_table_ok (run w l).
Proof.
  induction l as [| a l IH]; intros w Hok; simpl; [exact Hok |].
  apply IH, step_table_ok, Hok.
Qed.

Lemma count_content_le_1 (w : world) (p : nat) (k : ContentType) :
  content_table_ok w -> count_content w p k <= 1.
Proof.
  intros [_ Hkeys]. unfold count_content.
  apply (filter_at_most_one unique_key _ (p, k)); [| exact Hkeys].
  intros x. apply has_key_true.
Qed.

(* ===================================================================== *)
(** * The request handler, when it accepts *)
(* ===================================================================== *)

Lemma get_or_create_balance (E : env) (u : nat) (w : world) :
  profile_query_fault E u = None ->
  exists created,
    get_or_create E u w
    = (Ok (default default_token_balance (profiles w !! u), created),
       snd (get_or_create E u w)).
Proof.
  intros Hf. unfold get_or_create, bind, fault, gets, modify, ret. rewrite Hf. simpl.
  destruct (profiles w !! u) as [b |] eqn:Hb; simpl; rewrite ?Hb; eauto.
Qed.

Lemma update_or_create_existing (p : Project) (ct : ContentType) (w : world)
    (r0 : GeneratedContent) :
  NoDup (map unique_key (contents w)) ->
  p ∈ projects w -> r0 ∈ contents w -> unique_key r0 = (pid p, ct) ->
  let r := with_s3_url None (with_task_status PENDING r0) in
  update_or_create p ct w = (Ok (r, false), set_contents (replace_row r) w).
Proof.
  intros Hkeys Hp Hr0 Hk r. unfold update_or_create.
  unfold bind at 1, gets at 1.
  rewrite (filter_unique unique_key _ (pid p, ct) (contents w) r0
             (fun x => has_key_true (pid p, ct) x) Hkeys Hr0 Hk).
  fold r.
  rewrite (run_bind_Ok _ _ _ _ _ (save_update r r0 w
             (row_admissible_update r r0 p w Hp (f_equal fst (eq_sym Hk)) Hr0
                eq_refl eq_refl Hkeys) Hr0 eq_refl)).
  reflexivity.
Qed.

Lemma update_or_create_new (p : Project) (ct : ContentType) (w : world) :
  sequence_ok w -> p ∈ projects w ->
  (forall x, x ∈ contents w -> unique_key x <> (pid p, ct)) ->
  let r := {| gc_id := next_pk w; project_id := pid p; content_type := ct;
              s3_url := None; task_id := None; task_status := PENDING |} in
  update_or_create p ct w
  = (Ok (r, true), set_contents (fun l => (l ++ [r])%list) (set_next_pk S w)).
Proof.
  intros Hseq Hp Hnone r. unfold update_or_create.
  unfold bind at 1, gets at 1.
  rewrite filter_none
    by (intros x Hx Hkx; apply has_key_true in Hkx; exact (Hnone x Hx Hkx)).
  assert (Hfresh : existsb (has_pk (next_pk w)) (contents w) = false).
  { apply not_true_is_false. intros Hex.
    apply existsb_exists in Hex as (x & Hx & Hpk). apply has_pk_true in Hpk.
    unfold sequence_ok in Hseq. rewrite Forall_forall in Hseq.
    specialize (Hseq x (proj2 (list_elem_of_In _ _) Hx)). lia. }
  unfold bind, gets, modify, ret. cbv beta. rewrite Hfresh. fold r.
  unfold save.
  assert (Hadm : row_admissible r (set_next_pk S w) = true).
  { unfold row_admissible. apply andb_true_iff. split.
    - apply existsb_exists. exists p.
      split; [apply list_elem_of_In, Hp | apply Nat.eqb_refl].
    - apply forallb_forall. intros x Hx. apply list_elem_of_In in Hx.
      apply orb_true_iff. right. apply negb_true_iff, not_true_is_false.
      intros Hkx. apply has_key_true in Hkx. exact (Hnone x Hx Hkx). }
  rewrite Hadm. simpl contents. simpl gc_id. rewrite Hfresh. reflexivity.
Qed.

Lemma filter_pk_snoc_fresh (r : GeneratedContent) (rows : list GeneratedContent) :
  (forall x, x ∈ rows -> gc_id x <> gc_id r) ->
  filter (fun x => has_pk (gc_id r) x = true) (rows ++ [r])%list = [r].
Proof.
  intros Hfresh. rewrite filter_app.
  rewrite filter_none
    by (intros x Hx Hpk; apply has_pk_true in Hpk; exact (Hfresh x Hx Hpk)).
  simpl. rewrite filter_cons_True by (apply has_pk_true; reflexivity).
  reflexivity.
Qed.

Lemma replace_row_snoc (r r' : GeneratedContent) (rows : list GeneratedContent) :
  gc_id r' = gc_id r -> (forall x, x ∈ rows -> gc_id x <> gc_id r) ->
  replace_row r' (rows ++ [r])%list = (rows ++ [r'])%list.
Proof.
  intros Hid Hfresh. unfold replace_row. rewrite map_app. simpl.
  unfold has_pk at 2. rewrite Hid, Nat.eqb_refl.
  rewrite <- Hid. fold (replace_row r' rows).
  rewrite replace_row_absent; [reflexivity |].
  intros Hin. apply elem_of_map_inv in Hin as (x & Hx & Hin).
  apply (Hfresh x Hin). congruence.
Qed.

Lemma delay_run (E : env) (t : task) (w : world) :
  delay E t w
  = (Ok (uuid4 E (length (queue w))),
     set_queue (fun q => (q ++ [t])%list)
       (set_trace (fun tr => (tr ++ [EvDelay t])%list) w)).
Proof. reflexivity. Qed.

Lemma generate_content_accepted (E : env) (request_user pk : nat) (request_data : dict)
    (w : world) (p : Project) (ct : ContentType)
    (serializer_class : env -> dict -> result dict) (vd : dict) :
  world_ok w ->
  fst (get_object request_user pk w) = Ok p ->
  profile_query_fault E (user p) = None ->
  below_minimum_balance (default default_token_balance (profiles w !! user p)) = false ->
  serializer_map (dict_get_none request_data "content_type") = Some (ct, serializer_class) ->
  serializer_class E request_data = Ok vd ->
  let out := generate_content E request_user pk request_data w in
  let task_id_ := uuid4 E (length (queue w)) in
  exists r,
    fst out
    = Ok (accepted_response
            ("Content generation for '"
             +:+ py_str (dict_get_none request_data "content_type") +:+ "' started.")
            task_id_ (gc_id r))
    /\ queue (snd out) = (queue w ++ [GenerateContentTask (gc_id r) vd])%list
    /\ content_row (snd out) (gc_id r) = Some r
    /\ unique_key r = (pid p, ct)
    /\ task_status r = PENDING /\ s3_url r = None /\ task_id r = Some task_id_
    /\ ((exists r0, r0 ∈ contents w /\ unique_key r0 = (pid p, ct)
                    /\ gc_id r = gc_id r0
                    /\ contents (snd out) = replace_row r (contents w))
        \/ ((forall x, x ∈ contents w -> unique_key x <> (pid p, ct))
            /\ contents (snd out) = (contents w ++ [r])%list)).
Proof.
  intros [[Hids Hkeys] Hseq] Hobj Hfault Hbal Hser Hvd out task_id_.
  destruct (get_object_run _ _ _ _ Hobj) as (Hrun & Hp & _ & _).
  destruct (get_or_create_balance E (user p) w Hfault) as [created Hprof].
  pose proof (db_get_or_create E (user p) w) as Hdb.
  set (w1 := snd (get_or_create E (user p) w)) in *.
  injection Hdb as Hprojects Hcontents Hnext.
  assert (Hqueue : queue w1 = queue w).
  { unfold w1, get_or_create, bind, fault, gets, modify, ret. rewrite Hfault. simpl.
    destruct (profiles w !! user p); reflexivity. }
  assert (Hstart : out
                   = (let* (content_record, created) := update_or_create p ct in
                      let* task_id_ := delay E (GenerateContentTask (gc_id content_record) vd) in
                      save (with_task_id (Some task_id_) content_record) >>
                      ret (accepted_response
                             ("Content generation for '"
                              +:+ py_str (dict_get_none request_data "content_type")
                              +:+ "' started.")
                             task_id_ (gc_id content_record))) w1).
  { unfold out, generate_content.
    rewrite (run_bind_Ok _ _ _ _ _ Hrun).
    rewrite (run_bind_Ok _ _ _ _ _ Hprof).
    rewrite Hbal, Hser.
    unfold of_result. unfold bind at 1. rewrite Hvd. reflexivity. }
  rewrite Hstart. clear Hstart.
  destruct (filter (fun x => has_key (pid p, ct) x = true) (contents w))
    as [| r0 rest] eqn:Hfil.
  - (* no row yet: one is created *)
    assert (Hnone : forall x, x ∈ contents w1 -> unique_key x <> (pid p, ct)).
    { rewrite Hcontents. intros x Hx Hkx.
      apply (filter_nil_not_elem_of _ _ x Hfil); [apply has_key_true, Hkx | exact Hx]. }
    assert (Hseq1 : sequence_ok w1).
    { unfold sequence_ok. rewrite Hcontents, Hnext. exact Hseq. }
    rewrite (run_bind_Ok _ _ _ _ _
               (update_or_create_new p ct w1 Hseq1
                  (eq_ind_r (fun l => p ∈ l) Hp Hprojects) Hnone)).
    set (r := {| gc_id := next_pk w1; project_id := pid p; content_type := ct;
                 s3_url := None; task_id := None; task_status := PENDING |}).
    set (w2 := set_contents (fun l => (l ++ [r])%list) (set_next_pk S w1)).
    rewrite (run_bind_Ok _ _ _ _ _ (delay_run E (GenerateContentTask (gc_id r) vd) w2)).
    set (t := GenerateContentTask (gc_id r) vd).
    set (w3 := set_queue (fun q => (q ++ [t])%list)
                 (set_trace (fun tr => (tr ++ [EvDelay t])%list) w2)).
    set (r' := with_task_id (Some (uuid4 E (length (queue w2)))) r).
    assert (Hfresh : forall x, x ∈ contents w1 -> gc_id x <> gc_id r).
    { intros x Hx. unfold sequence_ok in Hseq1. rewrite Forall_forall in Hseq1.
      specialize (Hseq1 x Hx). simpl. lia. }
    assert (Hsave : save r' w3 = (Ok tt, set_contents (replace_row r') w3)).
    { apply (save_update r' r w3); [| | reflexivity].
      - apply (row_admissible_update r' r p w3); try reflexivity.
        + simpl. rewrite Hprojects. exact Hp.
        + simpl. apply elem_of_app. right. left.
        + simpl. rewrite map_app. simpl. apply NoDup_app.
          split; [rewrite Hcontents; exact Hkeys |].
          split; [| apply NoDup_singleton].
          intros k Hk Hk'. apply list_elem_of_singleton in Hk'. subst k.
          apply elem_of_map_inv in Hk as (x & Hkx & Hx).
          exact (Hnone x Hx Hkx).
      - simpl. apply elem_of_app. right. left. }
    rewrite (run_bind_Ok _ _ _ _ _ Hsave).
    exists r'. unfold ret. cbn [fst snd].
    assert (Hq2 : length (queue w2) = length (queue w)) by (simpl; rewrite Hqueue; reflexivity).
    assert (Hrows : contents (set_contents (replace_row r') w3) = (contents w ++ [r'])%list).
    { change (replace_row r' (contents w1 ++ [r])%list = (contents w ++ [r'])%list).
      rewrite (replace_row_snoc r r' (contents w1) eq_refl Hfresh), Hcontents.
      reflexivity. }
    split; [unfold task_id_; rewrite <- Hq2; reflexivity |].
    split; [simpl; rewrite Hqueue; reflexivity |].
    split.
    { unfold content_row. rewrite Hrows.
      rewrite (filter_pk_snoc_fresh r' (contents w)); [reflexivity |].
      rewrite <- Hcontents. exact Hfresh. }
    split; [reflexivity |]. split; [reflexivity |]. split; [reflexivity |].
    split; [unfold task_id_; simpl; rewrite Hqueue; reflexivity |].
    right. split; [rewrite <- Hcontents; exact Hnone | exact Hrows].
  - (* a row exists: it is updated in place *)
    assert (Hr0 : r0 ∈ filter (fun x => has_key (pid p, ct) x = true) (contents w))
      by (rewrite Hfil; left).
    apply list_elem_of_filter in Hr0 as [Hk0 Hr0]. apply has_key_true in Hk0.
    rewrite (run_bind_Ok _ _ _ _ _
               (update_or_create_existing p ct w1 r0
                  (eq_ind_r (fun l => NoDup (map unique_key l)) Hkeys Hcontents)
                  (eq_ind_r (fun l => p ∈ l) Hp Hprojects)
                  (eq_ind_r (fun l => r0 ∈ l) Hr0 Hcontents) Hk0)).
    set (r := with_s3_url None (with_task_status PENDING r0)).
    set (w2 := set_contents (replace_row r) w1).
    rewrite (run_bind_Ok _ _ _ _ _ (delay_run E (GenerateContentTask (gc_id r) vd) w2)).
    set (t := GenerateContentTask (gc_id r) vd).
    set (w3 := set_queue (fun q => (q ++ [t])%list)
                 (set_trace (fun tr => (tr ++ [EvDelay t])%list) w2)).
    set (r' := with_task_id (Some (uuid4 E (length (queue w2)))) r).
    assert (Hok2 : table_ok (contents w2)).
    { simpl. rewrite Hcontents. apply table_ok_replace_row; [split; assumption |].
      intros x Hx. destruct (decide (unique_key x = unique_key r0)) as [Heq | Hne].
      - left. rewrite (unique_key_inj (contents w) x r0 Hkeys Hx Hr0 Heq). reflexivity.
      - right. exact Hne. }
    assert (Hr2 : r ∈ contents w2).
    { simpl. rewrite Hcontents. unfold replace_row.
      apply (elem_of_map (fun x => if has_pk (gc_id r) x then r else x)
               (contents w) r0) in Hr0.
      simpl in Hr0. unfold has_pk at 1 in Hr0. rewrite Nat.eqb_refl in Hr0.
      exact Hr0. }
    assert (Hsave : save r' w3 = (Ok tt, set_contents (replace_row r') w3)).
    { apply (save_update r' r w3); [| exact Hr2 | reflexivity].
      apply (row_admissible_update r' r p w3); try reflexivity.
      - simpl. rewrite Hprojects. exact Hp.
      - simpl. symmetry. exact (f_equal fst Hk0).
      - exact Hr2.
      - exact (proj2 Hok2). }
    rewrite (run_bind_Ok _ _ _ _ _ Hsave).
    exists r'. unfold ret. cbn [fst snd].
    assert (Hq2 : length (queue w2) = length (queue w)) by (simpl; rewrite Hqueue; reflexivity).
    assert (Hrows : contents (set_contents (replace_row r') w3)
                    = replace_row r' (contents w)).
    { simpl. rewrite Hcontents. apply replace_row_idem. reflexivity. }
    split; [unfold task_id_; rewrite <- Hq2; reflexivity |].
    split; [simpl; rewrite Hqueue; reflexivity |].
    split.
    { unfold content_row. rewrite Hrows.
      rewrite filter_replace_row.
      rewrite (filter_unique gc_id _ (gc_id r') (contents w) r0
                 (fun x => has_pk_true (gc_id r') x) Hids Hr0 eq_refl).
      reflexivity. }
    split; [exact Hk0 |]. split; [reflexivity |]. split; [reflexivity |].
    split; [unfold task_id_; simpl; rewrite Hqueue; reflexivity |].
    left. exists r0. auto.
Qed.

(* ===================================================================== *)
(** * One row per project and content kind *)
(* ===================================================================== *)

(** C2. Through any sequence of requests and task runs, there is at most
    one [GeneratedContent] row per project and content kind. A generation
    request that is accepted for a project and kind that already have a
    row (a success row included) writes over that row: the row keeps its
    primary key, its status becomes pending and its URL null, the table
    keeps its length, and the count for the pair is 1. *)
Theorem one_row_per_project_and_kind :
  (forall (w : world) (actions : list (env * action)) (p : nat) (k : ContentType),
      content_table_ok w -> count_content (run w actions) p k <= 1)
  /\ (forall (E : env) (request_user pk : nat) (request_data : dict) (w : world)
        (p : Project) (ct : ContentType)
        (serializer_class : env -> dict -> result dict) (vd : dict)
        (r0 : GeneratedContent),
      world_ok w ->
      fst (get_object request_user pk w) = Ok p ->
      profile_query_fault E (user p) = None ->
      below_minimum_balance (default default_token_balance (profiles w !! user p))
      = false ->
      serializer_map (dict_get_none request_data "content_type")
      = Some (ct, serializer_class) ->
      serializer_class E request_data = Ok vd ->
      r0 ∈ contents w -> unique_key r0 = (pid p, ct) ->
      let w' := snd (generate_content E request_user pk request_data w) in
      exists r,
        contents w' = replace_row r (contents w)
        /\ content_row w' (gc_id r0) = Some r
        /\ gc_id r = gc_id r0
        /\ task_status r = PENDING /\ s3_url r = None
        /\ length (contents w') = length (contents w)
        /\ count_content w' (pid p) ct = 1).
Proof.
  split.
  - intros w actions p k Hok. apply count_content_le_1, run_table_ok, Hok.
  - intros E request_user pk request_data w p ct serializer_class vd r0
      Hok Hobj Hfault Hbal Hser Hvd Hr0 Hk0 w'.
    pose proof (generate_content_table_ok E request_user pk request_data w (proj1 Hok))
      as Hok'.
    destruct (generate_content_accepted E request_user pk request_data w p ct
                serializer_class vd Hok Hobj Hfault Hbal Hser Hvd)
      as (r & _ & _ & Hrow & Hkey & Hst & Hurl & _ & Hcase).
    fold w' in Hrow, Hcase, Hok'.
    destruct Hcase as [(r1 & Hr1 & Hk1 & Hid & Hrows) | [Hnone _]];
      [| exfalso; exact (Hnone r0 Hr0 Hk0)].
    assert (r1 = r0) as ->
      by (apply (unique_key_inj (contents w)); [apply Hok | | | congruence]; assumption).
    exists r. split; [exact Hrows |]. rewrite <- Hid.
    split; [exact Hrow |]. split; [reflexivity |].
    split; [exact Hst |]. split; [exact Hurl |].
    split; [rewrite Hrows; apply length_replace_row |].
    unfold count_content.
    assert (Hin : r ∈ contents w').
    { unfold content_row in Hrow.
      destruct (filter (fun x => has_pk (gc_id r) x = true) (contents w'))
        as [| y l] eqn:Hf; [discriminate |].
      injection Hrow as ->.
      assert (H : r ∈ filter (fun x => has_pk (gc_id r) x = true) (contents w'))
        by (rewrite Hf; left).
      apply list_elem_of_filter in H as [_ H]. exact H. }
    rewrite (filter_unique unique_key _ (pid p, ct) (contents w') r
               (fun x => has_key_true (pid p, ct) x) (proj2 Hok') Hin Hkey).
    reflexivity.
Qed.

Lemma world_ok_delivered : world_ok delivered_world.
Proof.
  split; [split |]; apply (bool_decide_unpack _); vm_compute; exact I.
Qed.

Lemma one_row_per_project_and_kind_witness :
  count_content
    (run (example_world 50000)
       [(calm_env, GenerateContent 7 1 (presentation_request 8));
        (calm_env, RunTask (GenerateContentTask 1 (presentation_request 8)));
        (calm_env, GenerateContent 7 1 (presentation_request 12));
        (upload_down_env, RunTask (GenerateContentTask 1 (presentation_request 12)))])
    1 PRESENTATION <= 1
  /\ (task_status <$> content_row delivered_world 1 = Some SUCCESS
      /\ exists r,
        content_row (snd (generate_content calm_env 7 1 (presentation_request 12)
                            delivered_world)) 1 = Some r
        /\ task_status r = PENDING /\ s3_url r = None
        /\ count_content (snd (generate_content calm_env 7 1 (presentation_request 12)
                                 delivered_world)) 1 PRESENTATION = 1).
Proof.
  split.
  - apply (proj1 one_row_per_project_and_kind).
    split; apply (bool_decide_unpack _); vm_compute; exact I.
  - split; [vm_compute; reflexivity |].
    destruct (proj2 one_row_per_project_and_kind calm_env 7 1 (presentation_request 12)
                delivered_world example_project PRESENTATION
                PresentationGenerateSerializer
                (<["content_type" := VStr "PPT"]>
                   (<["slides_count" := VInt 12]>
                      (<["include_images" := VBool false]> ∅)))
                {| gc_id := 1; project_id := 1; content_type := PRESENTATION;
                   s3_url := Some "https://edugen.s3.amazonaws.com/generated/1/1_presentation.pptx";
                   task_id := Some "task-0"; task_status := SUCCESS |}
                world_ok_delivered)
      as (r & _ & Hrow & _ & Hst & Hurl & _ & Hcount);
      try (vm_compute; reflexivity).
    + vm_compute. left.
    + exists r. auto.
Defined.

(* ===================================================================== *)
(** * A podcast requested through the generic handler *)
(* ===================================================================== *)

(** C10. A request of kind podcast through [generate_content] is accepted:
    the podcast row is pending and a [generate_content_task] is handed to
    the broker. That task has no generator for the podcast kind: once it
    has extracted non-blank text it raises "Content generation failed."
    without having called the language model, and the row ends in status
    failure. *)
Theorem podcast_through_generic_handler (E : env) :
  (forall (request_user pk : nat) (request_data : dict) (w : world) (p : Project)
      (vd : dict),
      world_ok w ->
      fst (get_object request_user pk w) = Ok p ->
      profile_query_fault E (user p) = None ->
      below_minimum_balance (default default_token_balance (profiles w !! user p))
      = false ->
      dict_get_none request_data "content_type" = VStr (ContentType_value PODCAST) ->
      PodcastGenerateSerializer E request_data = Ok vd ->
      let out := generate_content E request_user pk request_data w in
      exists r,
        status_code <$> fst out = Ok 202
        /\ queue (snd out) = (queue w ++ [GenerateContentTask (gc_id r) vd])%list
        /\ content_row (snd out) (gc_id r) = Some r
        /\ content_type r = PODCAST /\ project_id r = pid p
        /\ task_status r = PENDING)
  /\ (forall (i : nat) (options : dict) (w : world) (c : GeneratedContent)
        (p : Project) (text_content : string),
      content_table_ok w ->
      fst (objects_get i w) = Ok c ->
      content_type c = PODCAST ->
      fst (get_project (project_id c) w) = Ok p ->
      profile_query_fault E (user p) = None ->
      fst (source_text E p (pipeline_start E c p w)) = Ok text_content ->
      strip_is_empty text_content = false ->
      let out := generate_content_task E i options w in
      fst out = Raise (ValueError "Content generation failed.")
      /\ content_row (snd out) i = Some (with_task_status FAILURE c)
      /\ ai_calls (snd out) = ai_calls w).
Proof.
  split.
  - intros request_user pk request_data w p vd Hok Hobj Hfault Hbal Hct Hvd out.
    destruct (generate_content_accepted E request_user pk request_data w p PODCAST
                PodcastGenerateSerializer vd Hok Hobj Hfault Hbal)
      as (r & Hres & Hq & Hrow & Hkey & Hst & _); [rewrite Hct; reflexivity | exact Hvd |].
    fold out in Hres, Hq, Hrow.
    exists r. rewrite Hres. split; [reflexivity |]. split; [exact Hq |].
    split; [exact Hrow |].
    injection Hkey as Hp Hk. auto.
  - intros i options w c p text_content Hok Hget Hct Hproj Hfault Htext Hblank out.
    destruct (generate_content_task_run E i options w c p Hok Hget Hproj Hfault)
      as [Hdb Hrun].
    destruct (objects_get_Ok _ _ _ Hget) as (_ & Hfil & Hid & _).
    fold (pipeline_start E c p w) in *.
    unfold out. rewrite Hrun.
    rewrite (produce_artifact_podcast E p (user p) c options (pipeline_start E c p w)
               text_content Hct Htext Hblank).
    cbn [fst snd]. split; [reflexivity |]. split.
    + rewrite <- Hid. apply (content_row_replace (with_task_status FAILURE c) c).
      simpl. rewrite Hid.
      assert (H : db (snd (source_text E p (pipeline_start E c p w))) = db w).
      { rewrite <- Hdb. unfold source_text.
        apply stable_bind; [apply db_download_file_from_s3 |].
        intros. apply db_extract_text_from_file. }
      injection H as _ -> _. exact Hfil.
    + rewrite ai_calls_set_contents, ai_source_text. apply ai_pipeline_start.
Qed.

Lemma podcast_through_generic_handler_witness :
  status_code <$> fst (generate_content calm_env 7 1 podcast_request (example_world 50000))
  = Ok 202
  /\ fst (generate_content_task calm_env 1 ∅ podcast_requested_world)
     = Raise (ValueError "Content generation failed.")
  /\ task_status <$> content_row
       (snd (generate_content_task calm_env 1 ∅ podcast_requested_world)) 1
     = Some FAILURE.
Proof.
  assert (Hok : world_ok (example_world 50000)).
  { split; [split |]; apply (bool_decide_unpack _); vm_compute; exact I. }
  assert (Hok' : content_table_ok podcast_requested_world).
  { split; apply (bool_decide_unpack _); vm_compute; exact I. }
  split.
  - destruct (proj1 (podcast_through_generic_handler calm_env) 7 1 podcast_request
                (example_world 50000) example_project
                (<["content_type" := VStr "POD"]>
                   (<["podcast_length" := VStr "medium"]>
                      (<["content_focus" := VStr "full_document"]>
                         (<["voice_style" := VStr "neutral"]>
                            (<["voice_gender" := VStr "female"]>
                               (<["voice_accent" := VStr "american"]> ∅))))))
                Hok
                ltac:(vm_compute; reflexivity) ltac:(vm_compute; reflexivity)
                ltac:(vm_compute; reflexivity) ltac:(vm_compute; reflexivity)
                ltac:(vm_compute; reflexivity))
      as (r & H & _).
    exact H.
  - destruct (proj2 (podcast_through_generic_handler calm_env) 1 ∅
                podcast_requested_world
                {| gc_id := 1; project_id := 1; content_type := PODCAST;
                   s3_url := None; task_id := Some "task-0"; task_status := PENDING |}
                example_project "Light becomes sugar."
                Hok'
                ltac:(vm_compute; reflexivity) ltac:(vm_compute; reflexivity)
                ltac:(vm_compute; reflexivity) ltac:(vm_compute; reflexivity)
                ltac:(vm_compute; reflexivity) ltac:(vm_compute; reflexivity))
      as (H1 & H2 & _).
    split; [exact H1 |]. rewrite H2. reflexivity.
Defined.

(* ===================================================================== *)
(** * The job and the token balance *)
(* ===================================================================== *)

Section Related.
Context {S : Type} (RS : S -> S -> Prop).

Lemma related_ret {A} (RA : A -> A -> Prop) a1 a2 :
  RA a1 a2 -> related RS RA (ret a1) (ret a2).
Proof. intros H s1 s2 Hs. simpl. auto. Qed.

Lemma related_raise {A} (RA : A -> A -> Prop) e :
  related RS RA (raise e) (raise e).
Proof. intros s1 s2 Hs. simpl. auto. Qed.

Lemma related_of_result {A} (r : result A) :
  related RS eq (of_result r) (of_result r).
Proof. intros s1 s2 Hs. unfold of_result. destruct r; auto. Qed.

Lemma related_fault (o : option exn) : related RS eq (fault o) (fault o).
Proof. intros s1 s2 Hs. destruct o; simpl; auto. Qed.

Lemma related_gets {A} (f : S -> A) :
  (forall s1 s2, RS s1 s2 -> f s1 = f s2) -> related RS eq (gets f) (gets f).
Proof. intros Hf s1 s2 Hs. simpl. auto. Qed.

Lemma related_modify (f : S -> S) :
  (forall s1 s2, RS s1 s2 -> RS (f s1) (f s2)) ->
  related RS eq (modify f) (modify f).
Proof. intros Hf s1 s2 Hs. simpl. auto. Qed.

Lemma related_bind {A B} (RA : A -> A -> Prop) (RB : B -> B -> Prop)
    (m1 m2 : M S A) (k1 k2 : A -> M S B) :
  related RS RA m1 m2 ->
  (forall a1 a2, RA a1 a2 -> related RS RB (k1 a1) (k2 a2)) ->
  related RS RB (bind m1 k1) (bind m2 k2).
Proof.
  intros Hm Hk s1 s2 Hs. unfold bind. specialize (Hm s1 s2 Hs).
  destruct (m1 s1) as [[a1 | e1] s1'], (m2 s2) as [[a2 | e2] s2'];
    try contradiction.
  - destruct Hm as [Ha Hs']. exact (Hk a1 a2 Ha s1' s2' Hs').
  - exact Hm.
Qed.

Lemma related_try_except {A} (RA : A -> A -> Prop)
    (m1 m2 : M S A) (h1 h2 : exn -> M S A) :
  related RS RA m1 m2 ->
  (forall e, related RS RA (h1 e) (h2 e)) ->
  related RS RA (try_except m1 h1) (try_except m2 h2).
Proof.
  intros Hm Hh s1 s2 Hs. unfold try_except. specialize (Hm s1 s2 Hs).
  destruct (m1 s1) as [[a1 | e1] s1'], (m2 s2) as [[a2 | e2] s2'];
    try contradiction.
  - exact Hm.
  - destruct Hm as [-> Hs']. exact (Hh e2 s1' s2' Hs').
Qed.

Lemma related_try_finally {A} (RA : A -> A -> Prop)
    (m1 m2 : M S A) (c : M S unit) :
  related RS RA m1 m2 -> related RS eq c c ->
  related RS RA (try_finally m1 c) (try_finally m2 c).
Proof.
  intros Hm Hc s1 s2 Hs. unfold try_finally. specialize (Hm s1 s2 Hs).
  destruct (m1 s1) as [[a1 | e1] s1'], (m2 s2) as [[a2 | e2] s2'];
    try contradiction; destruct Hm as [Hr Hs']; specialize (Hc s1' s2' Hs');
    destruct (c s1') as [[[] | x1] t1], (c s2') as [[[] | x2] t2];
    try contradiction; destruct Hc; auto.
Qed.
End Related.

Lemma related_liftW {W L A} (RW : W -> W -> Prop) (RA : A -> A -> Prop)
    (m1 m2 : M W A) :
  related RW RA m1 m2 ->
  related (fun s1 s2 : W * L => RW (fst s1) (fst s2) /\ snd s1 = snd s2) RA
    (liftW m1) (liftW m2).
Proof.
  intros Hm s1 s2 [Hw Hl]. unfold liftW. specialize (Hm (fst s1) (fst s2) Hw).
  destruct (m1 (fst s1)) as [[a1 | e1] w1], (m2 (fst s2)) as [[a2 | e2] w2];
    try contradiction; destruct Hm; simpl; auto.
Qed.

Lemma related_with_local {W L A} (RW : W -> W -> Prop) (RA : A -> A -> Prop)
    (l : L) (m1 m2 : M (W * L) A) :
  related (fun s1 s2 : W * L => RW (fst s1) (fst s2) /\ snd s1 = snd s2) RA m1 m2 ->
  related RW RA (with_local l m1) (with_local l m2).
Proof.
  intros Hm w1 w2 Hw. unfold with_local. specialize (Hm (w1, l) (w2, l) (conj Hw eq_refl)).
  destruct (m1 (w1, l)) as [[a1 | e1] s1], (m2 (w2, l)) as [[a2 | e2] s2];
    try contradiction; destruct Hm as [Hr [Hs _]]; auto.
Qed.

Ltac blind_step :=
  first
    [ apply related_ret; reflexivity
    | apply related_raise
    | apply related_of_result
    | apply related_fault
    | apply related_gets; intros ? ? (? & ? & ? & ? & ? & ? & ? & ?); congruence
    | apply related_modify; intros ? ? (? & ? & ? & ? & ? & ? & ? & ?);
      unfold same_but_balances; simpl; repeat split; congruence
    | apply (related_bind _ eq); [| intros ? ? <-]
    | apply related_try_except; [| intros]
    | apply related_try_finally
    | match goal with
      | |- related _ _ (match ?x with _ => _ end) (match ?x with _ => _ end) => destruct x
      | |- related _ _ (if ?b then _ else _) (if ?b then _ else _) => destruct b
      end ].

Section BalanceBlind.
Context (E : env).

Lemma blind_objects_get i : balance_blind (objects_get i).
Proof.
  intros w1 w2 Hw. pose proof Hw as (_ & Hc & _). unfold objects_get. rewrite Hc.
  destruct (filter _ (contents w2)) as [| r [| r' l]]; auto.
Qed.

Lemma blind_get_project i : balance_blind (get_project i).
Proof.
  intros w1 w2 Hw. pose proof Hw as (Hp & _). unfold get_project. rewrite Hp.
  destruct (filter _ (projects w2)); auto.
Qed.

Lemma blind_save r : balance_blind (save r).
Proof.
  intros w1 w2 Hw. pose proof Hw as (Hp & Hc & Hn & Hb & Hf & Hq & Ht & Hd).
  unfold save, row_admissible. rewrite Hp, Hc.
  destruct (_ && _); [| auto].
  destruct (existsb _ _); (split; [reflexivity |]);
    unfold same_but_balances; simpl; repeat split; congruence.
Qed.

(** The profile fetch: the balance it returns is the only thing that
    depends on the balances. *)
Lemma related_get_or_create u :
  related same_but_balances (fun _ _ => True) (get_or_create E u) (get_or_create E u).
Proof.
  intros w1 w2 Hw. pose proof Hw as (Hp & Hc & Hn & Hb & Hf & Hq & Ht & Hd).
  unfold get_or_create, bind, fault, gets, modify, ret, raise.
  destruct (profile_query_fault E u); simpl; [auto |].
  assert (Hsome : is_Some (profiles w1 !! u) <-> is_Some (profiles w2 !! u)).
  { rewrite <- !elem_of_dom, Hd. reflexivity. }
  destruct (profiles w1 !! u) as [b1 |] eqn:H1, (profiles w2 !! u) as [b2 |] eqn:H2;
    simpl.
  - auto.
  - exfalso. destruct (proj1 Hsome (ex_intro _ b1 eq_refl)). discriminate.
  - exfalso. destruct (proj2 Hsome (ex_intro _ b2 eq_refl)). discriminate.
  - split; [exact I |]. unfold same_but_balances. simpl.
    repeat split; try congruence. rewrite !dom_insert_L, Hd. reflexivity.
Qed.

(** The settlement subtracts in the database: it never reads the
    balance into the job. *)
Lemma blind_deduct_tokens u c : balance_blind (deduct_tokens E u c).
Proof.
  intros w1 w2 Hw. pose proof Hw as (Hp & Hc & Hn & Hb & Hf & Hq & Ht & Hd).
  unfold deduct_tokens, bind, fault, gets, modify, ret, raise.
  destruct (profile_save_fault E u); simpl; [auto |].
  assert (Hsome : is_Some (profiles w1 !! u) <-> is_Some (profiles w2 !! u)).
  { rewrite <- !elem_of_dom, Hd. reflexivity. }
  destruct (profiles w1 !! u) as [b1 |] eqn:H1, (profiles w2 !! u) as [b2 |] eqn:H2;
    simpl.
  - split; [reflexivity |]. unfold same_but_balances. simpl.
    repeat split; try congruence. rewrite !dom_insert_L, Hd. reflexivity.
  - exfalso. destruct (proj1 Hsome (ex_intro _ b1 eq_refl)). discriminate.
  - exfalso. destruct (proj2 Hsome (ex_intro _ b2 eq_refl)). discriminate.
  - auto.
Qed.

Lemma blind_add_slides i slides : forall c, balance_blind (add_slides E i c slides).
Proof.
  induction slides as [| s slides IH]; intros c; simpl.
  - apply related_ret. reflexivity.
  - apply (related_bind _ eq); [| intros ? ? <-; apply IH].
    unfold add_slide, generate_image_for_slide, emit. repeat blind_step.
Qed.

Lemma blind_delete_old_object c : balance_blind (delete_old_object E c).
Proof.
  unfold balance_blind, delete_old_object, s3_delete_object, emit.
  repeat blind_step.
Qed.

Lemma blind_produce_artifact p owner c options :
  balance_blind (produce_artifact E p owner c options).
Proof.
  unfold balance_blind, produce_artifact, download_file_from_s3,
    extract_text_from_file, generate_ppt_from_text, generate_flashcards_from_text,
    generate_mcqs_from_text, chat_completion, s3_download_file, s3_upload_file,
    read_file, write_file, remove_if_exists, emit.
  repeat first [apply blind_deduct_tokens | apply blind_add_slides | blind_step].
Qed.

Lemma blind_generate_content_task i options :
  balance_blind (generate_content_task E i options).
Proof.
  unfold balance_blind, generate_content_task.
  eapply related_bind; [apply blind_objects_get | intros c ? <-].
  eapply related_bind; [apply blind_delete_old_object | intros _ _ _].
  eapply related_bind; [apply blind_get_project | intros p ? <-].
  eapply related_bind; [apply related_get_or_create | intros [b1 c1] [b2 c2] _].
  apply related_with_local.
  apply related_try_except.
  - eapply related_bind;
      [apply related_liftW, blind_produce_artifact | intros [path key] ? <-].
    unfold set_local, get_local.
    eapply related_bind;
      [apply related_modify; intros s1 s2 [Hw Hl]; simpl; split; [exact Hw | congruence]
      | intros _ _ _].
    eapply related_bind;
      [apply related_modify; intros s1 s2 [Hw Hl]; simpl; split; [exact Hw | congruence]
      | intros _ _ _].
    eapply related_bind;
      [apply related_gets; intros s1 s2 [Hw Hl]; exact Hl | intros saved ? <-].
    eapply related_bind; [apply related_liftW, blind_save | intros _ _ _].
    eapply related_bind; [apply related_liftW | intros _ _ _].
    + unfold remove_if_exists. blind_step.
    + apply related_ret. reflexivity.
  - intros e. unfold mark_failure_and_reraise, set_local, get_local.
    eapply related_bind;
      [apply related_modify; intros s1 s2 [Hw Hl]; simpl; split; [exact Hw | congruence]
      | intros _ _ _].
    eapply related_bind;
      [apply related_gets; intros s1 s2 [Hw Hl]; exact Hl | intros saved ? <-].
    eapply related_bind; [apply related_liftW, blind_save | intros _ _ _].
    apply related_raise.
Qed.
End BalanceBlind.

(* ===================================================================== *)
(** * The profiles a job leaves *)
(* ===================================================================== *)

(** The users who have a profile. *)
Section StableOwners.
Context (E : env).

Local Abbreviation owners := (fun w : world => dom (profiles w)).

Lemma owners_delete_old_object c : stable owners (delete_old_object E c).
Proof. unfold delete_old_object, s3_delete_object, emit. stable_auto. Qed.

Lemma owners_save r : stable owners (save r).
Proof.
  intros w. unfold save. destruct (row_admissible r w); [| reflexivity].
  destruct (existsb _ (contents w)); reflexivity.
Qed.

(** A deduction writes the balance of a profile that exists. *)
Lemma owners_deduct_tokens u c : stable owners (deduct_tokens E u c).
Proof.
  intros w. unfold deduct_tokens, bind, fault, gets, modify, raise, ret.
  destruct (profile_save_fault E u); simpl; [reflexivity |].
  destruct (profiles w !! u) as [b |] eqn:Hb; simpl; [| reflexivity].
  apply dom_insert_lookup_L. rewrite Hb. eauto.
Qed.

Lemma owners_add_slides i slides : forall c, stable owners (add_slides E i c slides).
Proof.
  induction slides as [| s slides IH]; intros c; simpl.
  - apply stable_ret.
  - apply stable_bind; [| intros; apply IH].
    unfold add_slide, generate_image_for_slide, emit. stable_auto.
Qed.

Lemma owners_produce_artifact p owner c options :
  stable owners (produce_artifact E p owner c options).
Proof.
  unfold produce_artifact, download_file_from_s3, extract_text_from_file,
    generate_ppt_from_text, generate_flashcards_from_text, generate_mcqs_from_text,
    chat_completion, s3_download_file, s3_upload_file, read_file, write_file,
    remove_if_exists, emit.
  repeat first [apply owners_deduct_tokens | apply owners_add_slides | stable_step];
    eauto.
Qed.

Lemma owners_get_or_create u w :
  profile_query_fault E u = None ->
  owners (snd (get_or_create E u w)) = {[u]} ∪ owners w.
Proof.
  intros Hf. unfold get_or_create, bind, fault, gets, modify, ret. rewrite Hf. simpl.
  destruct (profiles w !! u) as [b |] eqn:Hb; simpl.
  - symmetry. apply subseteq_union_1_L, singleton_subseteq_l, elem_of_dom.
    rewrite Hb. eauto.
  - apply dom_insert_L.
Qed.

(** The job from its [try] on. *)
Lemma owners_with_local {A} (c : GeneratedContent)
    (m : M (world * GeneratedContent) A) :
  stable (fun s => owners (fst s)) m -> stable owners (with_local c m).
Proof.
  intros Hm w. unfold with_local. specialize (Hm (w, c)).
  destruct (m (w, c)) as [r s']. exact Hm.
Qed.
End StableOwners.

(** The start of [generate_content_task]: with the row and its project
    found, an exception of the profile query ends the job after the
    cleanup, and otherwise the job leaves a profile of the owner next to
    the profiles there were. *)
Lemma generate_content_task_fetch (E : env) (i : nat) (options : dict) (w : world)
    (c : GeneratedContent) (p : Project) :
  fst (objects_get i w) = Ok c ->
  fst (get_project (project_id c) w) = Ok p ->
  (forall e, profile_query_fault E (user p) = Some e ->
     generate_content_task E i options w = (Raise e, snd (delete_old_object E c w)))
  /\ (profile_query_fault E (user p) = None ->
      dom (profiles (snd (generate_content_task E i options w)))
      = {[user p]} ∪ dom (profiles w)).
Proof.
  intros Hget Hproj.
  destruct (objects_get_Ok _ _ _ Hget) as (Hrun & _).
  destruct (get_project_Ok _ _ _ Hproj) as (_ & _ & Hproj').
  pose proof (delete_old_object_Ok E c w) as Hdel.
  set (w1 := snd (delete_old_object E c w)) in *.
  assert (Hdb1 : db w1 = db w) by apply db_delete_old_object.
  unfold generate_content_task.
  rewrite (run_bind_Ok _ _ _ _ _ Hrun).
  rewrite (run_bind_Ok _ _ _ _ _ Hdel).
  rewrite (run_bind_Ok _ _ _ _ _ (Hproj' w1 (f_equal (fun d => fst (fst d)) Hdb1))).
  split.
  - intros e Hf.
    rewrite (run_bind_Raise _ _ _ _ _ (get_or_create_Raise E (user p) w1 e Hf)).
    reflexivity.
  - intros Hf.
    destruct (get_or_create_Ok E (user p) w1 Hf) as (b & created & Hprof & _).
    rewrite (run_bind_Ok _ _ _ _ _ Hprof).
    match goal with
    | |- dom (profiles (snd (with_local c ?m ?s))) = _ =>
        assert (Htail : stable (fun w => dom (profiles w)) (with_local c m))
    end.
    { apply owners_with_local.
      unfold mark_failure_and_reraise, set_local, get_local.
      repeat first
        [ apply (stable_liftW (fun w : world => dom (profiles w)));
          first [apply owners_produce_artifact | apply owners_save
                | unfold remove_if_exists; stable_auto]
        | stable_step ]. }
    rewrite Htail, owners_get_or_create by exact Hf.
    unfold w1. rewrite (owners_delete_old_object E c w). reflexivity.
Qed.

(** C6, as amended. After the cleanup of the prior artifact and before
    its pipeline the job fetches the owner's profile with an idempotent
    get-or-create: a second fetch returns the same balance, creates
    nothing and changes nothing; an exception of the fetch ends the job
    in the state the cleanup left, before any paid work; and when the
    fetch succeeds the owner has a profile when the pipeline starts, the
    pipeline (from the download to the upload) runs from the state the
    fetch left, and the job leaves that profile next to those there
    were. The job makes
    no balance check: run in two worlds that differ only in the balances,
    it has the same outcome and leaves worlds that again differ only in
    the balances, with the same content rows, the same stored objects and
    the same external calls. *)
Theorem job_fetches_profile_and_ignores_balance (E : env) :
  (forall u w b created w1,
      get_or_create E u w = (Ok (b, created), w1) ->
      get_or_create E u w1 = (Ok (b, false), w1))
  /\ (forall i options w c p,
      fst (objects_get i w) = Ok c ->
      fst (get_project (project_id c) w) = Ok p ->
      (forall e, profile_query_fault E (user p) = Some e ->
         generate_content_task E i options w
         = (Raise e, snd (delete_old_object E c w)))
      /\ (profile_query_fault E (user p) = None ->
          dom (profiles (snd (generate_content_task E i options w)))
          = {[user p]} ∪ dom (profiles w)))
  /\ (forall c p w,
      profile_query_fault E (user p) = None ->
      is_Some (profiles (pipeline_start E c p w) !! user p))
  /\ (forall i options w c p,
      table_ok (contents w) ->
      fst (objects_get i w) = Ok c ->
      fst (get_project (project_id c) w) = Ok p ->
      profile_query_fault E (user p) = None ->
      generate_content_task E i options w
      = match produce_artifact E p (user p) c options (pipeline_start E c p w) with
        | (Ok (final_file_path, generated_s3_key), w3) =>
            (Ok "Task Completed Successfully",
             set_files (delete final_file_path)
               (set_contents
                  (replace_row
                     (with_task_status SUCCESS
                        (with_s3_url (Some (public_url E generated_s3_key)) c)))
                  w3))
        | (Raise e, w3) =>
            (Raise e, set_contents (replace_row (with_task_status FAILURE c)) w3)
        end)
  /\ (forall i options w1 w2,
      same_but_balances w1 w2 ->
      fst (generate_content_task E i options w1)
      = fst (generate_content_task E i options w2)
      /\ same_but_balances (snd (generate_content_task E i options w1))
           (snd (generate_content_task E i options w2))).
Proof.
  split; [| split; [| split; [| split]]].
  - intros u w b created w1. unfold get_or_create, bind, fault, gets, modify, ret, raise.
    destruct (profile_query_fault E u); simpl; [discriminate |].
    destruct (profiles w !! u) as [b0 |] eqn:Hb; simpl.
    + intros [= <- <- <-]. rewrite Hb. reflexivity.
    + intros [= <- <- <-]. simpl. rewrite lookup_insert_eq. reflexivity.
  - intros i options w c p. apply generate_content_task_fetch.
  - intros c p w Hfault. unfold pipeline_start.
    destruct (get_or_create_Ok E (user p) (snd (delete_old_object E c w)) Hfault)
      as (b & created & _ & H). exact H.
  - intros i options w c p Hok Hget Hproj Hfault.
    exact (proj2 (generate_content_task_run E i options w c p Hok Hget Hproj Hfault)).
  - intros i options w1 w2 Hw.
    pose proof (blind_generate_content_task E i options w1 w2 Hw) as H.
    destruct (generate_content_task E i options w1) as [[a1 | e1] s1],
             (generate_content_task E i options w2) as [[a2 | e2] s2];
      try contradiction; destruct H as [-> Hs]; auto.
Qed.

Lemma job_fetches_profile_and_ignores_balance_witness :
  generate_content_task database_down_env 1 (presentation_request 8) requested_world
  = (Raise (ServiceError "database"), requested_world)
  /\ fst (generate_content_task calm_env 1 (presentation_request 8) overdrawn_world)
     = fst (generate_content_task calm_env 1 (presentation_request 8) requested_world)
  /\ same_but_balances
       (snd (generate_content_task calm_env 1 (presentation_request 8) overdrawn_world))
       (snd (generate_content_task calm_env 1 (presentation_request 8) requested_world)).
Proof.
  split.
  - apply (proj1 (proj1 (proj2 (job_fetches_profile_and_ignores_balance
                                  database_down_env))
                    1 (presentation_request 8) requested_world
                    {| gc_id := 1; project_id := 1; content_type := PRESENTATION;
                       s3_url := None; task_id := Some "task-0";
                       task_status := PENDING |}
                    example_project
                    ltac:(vm_compute; reflexivity) ltac:(vm_compute; reflexivity))
             (ServiceError "database")).
    vm_compute. reflexivity.
  - apply (proj2 (proj2 (proj2 (proj2
             (job_fetches_profile_and_ignores_balance calm_env))))).
    unfold same_but_balances. repeat split; vm_compute; reflexivity.
Defined.

(** C6 as stated fails: the job repeats no balance check. With the balance
    at zero, below the threshold, it still calls the language model,
    delivers, and settles the cost, which takes the balance below zero. *)
Lemma job_proceeds_below_threshold :
  profiles overdrawn_world !! 7%nat = Some 0%Z
  /\ below_minimum_balance 0 = true
  /\ fst (generate_content_task calm_env 1 (presentation_request 8) overdrawn_world)
     = Ok "Task Completed Successfully"
  /\ length (ai_calls (snd (generate_content_task calm_env 1 (presentation_request 8)
                              overdrawn_world))) = 1
  /\ profiles (snd (generate_content_task calm_env 1 (presentation_request 8)
                      overdrawn_world)) !! 7%nat = Some (-5)%Z.
Proof. vm_compute. auto 10. Qed.

(* ===================================================================== *)
(** * Well-formed worlds are closed under every action *)
(* ===================================================================== *)

Lemma world_ok_db (w w' : world) : db w' = db w -> world_ok w -> world_ok w'.
Proof.
  intros H [Ht Hs]. injection H as _ Hc Hn.
  unfold world_ok, sequence_ok. rewrite Hc, Hn. auto.
Qed.

Lemma issued_db (i : nat) (w w' : world) : db w' = db w -> issued i w -> issued i w'.
Proof.
  intros H [Hok Hi]. split; [exact (world_ok_db w w' H Hok) |].
  injection H as _ _ ->. exact Hi.
Qed.

Lemma issued_elem_of (r : GeneratedContent) (w : world) :
  world_ok w -> r ∈ contents w -> issued (gc_id r) w.
Proof.
  intros Hok Hr. split; [exact Hok |].
  destruct Hok as [_ Hseq]. unfold sequence_ok in Hseq.
  rewrite Forall_forall in Hseq. exact (Hseq r Hr).
Qed.

Lemma save_world_ok (r : GeneratedContent) (w : world) :
  issued (gc_id r) w -> issued (gc_id r) (snd (save r w)).
Proof.
  intros [[Ht Hs] Hi].
  split; [split |].
  - exact (save_table_ok r w Ht).
  - unfold save, sequence_ok in *.
    destruct (row_admissible r w); [| exact Hs].
    destruct (existsb (has_pk (gc_id r)) (contents w)); simpl.
    + apply Forall_forall. intros x Hx.
      apply elem_of_replace_row in Hx as [-> | Hx]; [exact Hi |].
      rewrite Forall_forall in Hs. exact (Hs x Hx).
    + apply Forall_app. split; [exact Hs |]. apply Forall_singleton. exact Hi.
  - unfold save. destruct (row_admissible r w); [| exact Hi].
    destruct (existsb (has_pk (gc_id r)) (contents w)); exact Hi.
Qed.

Lemma triple_of_stable {A} (P : world -> Prop) (m : M world A) :
  stable db m -> (forall w w', db w' = db w -> P w -> P w') ->
  triple P m (fun _ => P) (fun _ => P).
Proof.
  intros Hm HP w H. specialize (Hm w).
  destruct (m w) as [[a | e] w']; simpl in Hm; exact (HP w w' Hm H).
Qed.

Lemma triple_issued_stable {A} (i : nat) (m : M world A) :
  stable db m ->
  triple (issued i) m (fun _ => issued i) (fun _ => world_ok).
Proof.
  intros Hm w H. specialize (Hm w).
  destruct (m w) as [[a | e] w']; simpl in Hm;
    [exact (issued_db i w w' Hm H) | exact (proj1 (issued_db i w w' Hm H))].
Qed.

Lemma triple_liftW_stable {A} (i : nat) (m : M world A) :
  stable db m ->
  triple (issued_local i) (liftW m) (fun _ => issued_local i) (fun _ => issued_local i).
Proof.
  intros Hm [w l] [Hw Hl]. unfold liftW. simpl in *. specialize (Hm w).
  destruct (m w) as [[a | e] w']; simpl in *;
    (split; [exact (issued_db i w w' Hm Hw) | exact Hl]).
Qed.

Lemma triple_set_local (i : nat) (f : GeneratedContent -> GeneratedContent) :
  (forall l, gc_id (f l) = gc_id l) ->
  triple (issued_local i) (set_local f) (fun _ => issued_local i)
    (fun _ => issued_local i).
Proof.
  intros Hf [w l] [Hw Hl]. unfold set_local, modify, issued_local in *. simpl in *.
  split; [exact Hw | rewrite Hf; exact Hl].
Qed.

Lemma triple_save_local {A} (i : nat) (k : unit -> M (world * GeneratedContent) A)
    (Q : A -> world * GeneratedContent -> Prop)
    (X : exn -> world * GeneratedContent -> Prop) :
  (forall u, triple (issued_local i) (k u) Q X) ->
  (forall e s, issued_local i s -> X e s) ->
  triple (issued_local i)
    (let* saved := get_local in liftW (save saved) >> k tt) Q X.
Proof.
  intros Hk HX [w l] [Hw Hl]. unfold bind, get_local, gets, liftW. simpl in *.
  subst i. pose proof (save_world_ok l w Hw) as Hs.
  destruct (save l w) as [[[] | e] w']; simpl in *.
  - exact (Hk tt (w', l) (conj Hs eq_refl)).
  - apply HX. split; [exact Hs | reflexivity].
Qed.

Lemma triple_with_local {W L A} (l : L) (m : M (W * L) A) (P : W -> Prop)
    (Q : A -> W -> Prop) (X : exn -> W -> Prop) :
  triple (fun s => P (fst s) /\ snd s = l) m
    (fun a s => Q a (fst s)) (fun e s => X e (fst s)) ->
  triple P (with_local l m) Q X.
Proof.
  intros Hm w H. unfold with_local. specialize (Hm (w, l) (conj H eq_refl)).
  destruct (m (w, l)) as [[a | e] s']; exact Hm.
Qed.

Lemma issued_local_world_ok (i : nat) (s : world * GeneratedContent) :
  issued_local i s -> world_ok (fst s).
Proof. intros [[H _] _]. exact H. Qed.

Lemma mark_failure_world_ok {A} (i : nat) (e : exn) :
  triple (issued_local i) (@mark_failure_and_reraise A e)
    (fun _ s => world_ok (fst s)) (fun _ s => world_ok (fst s)).
Proof.
  unfold mark_failure_and_reraise.
  eapply (triple_bind _ _ _ (fun _ => issued_local i));
    [apply triple_set_local; reflexivity | intros []].
  apply (triple_save_local i (fun _ => raise e)).
  - intros _ s H. exact (issued_local_world_ok i s H).
  - intros e' s H. exact (issued_local_world_ok i s H).
Qed.

Section WorldInvariant.
Context (E : env).

Lemma objects_get_issued i :
  triple world_ok (objects_get i) (fun c w => issued (gc_id c) w) (fun _ => world_ok).
Proof.
  intros w Hok.
  destruct (objects_get i w) as [[c | e] w'] eqn:Hget.
  - destruct (objects_get_Ok i w c) as (Hrun & _ & _ & Hin); [rewrite Hget; reflexivity |].
    rewrite Hrun in Hget. injection Hget as <-. exact (issued_elem_of c w Hok Hin).
  - pose proof (db_objects_get i w) as Hdb. rewrite Hget in Hdb.
    exact (world_ok_db w w' Hdb Hok).
Qed.

Lemma generate_content_task_world_ok i options :
  keeps_world_ok world_ok (generate_content_task E i options).
Proof.
  unfold keeps_world_ok, generate_content_task.
  eapply triple_bind; [apply objects_get_issued | intros c].
  eapply (triple_bind _ _ _ (fun _ => issued (gc_id c)));
    [apply triple_issued_stable, (db_delete_old_object E c) |].
  intros _.
  eapply (triple_bind _ _ _ (fun _ => issued (gc_id c)));
    [apply triple_issued_stable, db_get_project |].
  intros p.
  eapply (triple_bind _ _ _ (fun _ => issued (gc_id c)));
    [apply triple_issued_stable, db_get_or_create |].
  intros [b created].
  apply (triple_with_local c).
  apply (triple_weaken _ _ (issued_local (gc_id c))
           _ (fun _ s => world_ok (fst s)) _ (fun _ s => world_ok (fst s)));
    [| intros [w0 l0] [H Hl]; simpl in *; subst l0; split; [exact H | reflexivity]
     | auto | auto].
  eapply triple_try_except with (Y := fun _ => issued_local (gc_id c));
    [| intros e; apply mark_failure_world_ok].
  eapply (triple_bind _ _ _ (fun _ => issued_local (gc_id c)));
    [apply triple_liftW_stable, db_produce_artifact | intros [path key]].
  eapply (triple_bind _ _ _ (fun _ => issued_local (gc_id c)));
    [apply triple_set_local; reflexivity | intros []].
  eapply (triple_bind _ _ _ (fun _ => issued_local (gc_id c)));
    [apply triple_set_local; reflexivity | intros []].
  apply (triple_save_local (gc_id c)
           (fun _ => liftW (remove_if_exists path) >> ret "Task Completed Successfully")).
  - intros _. eapply (triple_bind _ _ _ (fun _ => issued_local (gc_id c)));
      [apply triple_liftW_stable, db_remove_if_exists | intros []].
    intros s H. exact (issued_local_world_ok _ s H).
  - auto.
Qed.

Lemma generate_audio_task_world_ok i options :
  keeps_world_ok world_ok (generate_audio_task E i options).
Proof.
  unfold keeps_world_ok, generate_audio_task.
  eapply triple_bind; [apply objects_get_issued | intros c].
  eapply (triple_bind _ _ _ (fun _ => issued (gc_id c)));
    [apply triple_issued_stable, (db_delete_old_object E c) |].
  intros _.
  apply (triple_with_local c).
  apply (triple_weaken _ _ (issued_local (gc_id c))
           _ (fun _ s => world_ok (fst s)) _ (fun _ s => world_ok (fst s)));
    [| intros [w0 l0] [H Hl]; simpl in *; subst l0; split; [exact H | reflexivity]
     | auto | auto].
  eapply triple_try_except with (Y := fun _ => issued_local (gc_id c));
    [| intros e; apply mark_failure_world_ok].
  destruct (negb (truthy (dict_get_none options "script_text"))).
  { intros s H. exact H. }
  eapply (triple_bind _ _ _ (fun _ => issued_local (gc_id c)));
    [apply triple_liftW_stable, db_generate_podcast_audio_from_script | intros path].
  eapply (triple_bind _ _ _ (fun _ => issued_local (gc_id c)));
    [apply triple_liftW_stable, db_get_project | intros p].
  eapply (triple_bind _ _ _ (fun _ => issued_local (gc_id c)));
    [apply triple_liftW_stable, db_s3_upload_file | intros []].
  eapply (triple_bind _ _ _ (fun _ => issued_local (gc_id c)));
    [apply triple_set_local; reflexivity | intros []].
  eapply (triple_bind _ _ _ (fun _ => issued_local (gc_id c)));
    [apply triple_set_local; reflexivity | intros []].
  apply (triple_save_local (gc_id c)
           (fun _ => liftW (remove_file path) >> ret "Audio task completed.")).
  - intros _. eapply (triple_bind _ _ _ (fun _ => issued_local (gc_id c)));
      [apply triple_liftW_stable, db_remove_file | intros []].
    intros s H. exact (issued_local_world_ok _ s H).
  - auto.
Qed.

Lemma update_or_create_issued p ct :
  triple world_ok (update_or_create p ct)
    (fun rc w => issued (gc_id (fst rc)) w) (fun _ => world_ok).
Proof.
  intros w Hok. unfold update_or_create, bind, gets, modify, ret, raise. cbv beta.
  destruct (filter (fun r => has_key (pid p, ct) r = true) (contents w))
    as [| r0 [| r1 l]] eqn:Hf.
  - destruct (existsb (has_pk (next_pk w)) (contents w)); [exact Hok |].
    set (r := {| gc_id := next_pk w; project_id := pid p; content_type := ct;
                 s3_url := None; task_id := None; task_status := PENDING |}).
    assert (Hi : issued (gc_id r) (set_next_pk S w)).
    { destruct Hok as [Ht Hs]. split; [split; [exact Ht |] | simpl; lia].
      unfold sequence_ok in *. simpl. eapply Forall_impl; [exact Hs |].
      simpl. intros x Hx. lia. }
    pose proof (save_world_ok r _ Hi) as Hs.
    destruct (save r (set_next_pk S w)) as [[[] | e] w']; simpl in *;
      [exact Hs | exact (proj1 Hs)].
  - assert (Hin : r0 ∈ contents w).
    { assert (H : r0 ∈ filter (fun r => has_key (pid p, ct) r = true) (contents w))
        by (rewrite Hf; left).
      apply list_elem_of_filter in H as [_ H]. exact H. }
    pose proof (save_world_ok (with_s3_url None (with_task_status PENDING r0)) w
                  (issued_elem_of r0 w Hok Hin)) as Hs.
    destruct (save _ w) as [[[] | e] w']; simpl in *; [exact Hs | exact (proj1 Hs)].
  - exact Hok.
Qed.

Lemma dispatch_world_ok (rc : GeneratedContent * bool) (t : task)
    (resp : string -> Response) :
  keeps_world_ok (issued (gc_id (fst rc)))
    (let* task_id_ := delay E t in
     save (with_task_id (Some task_id_) (fst rc)) >> ret (resp task_id_)).
Proof.
  unfold keeps_world_ok.
  eapply (triple_bind _ _ _ (fun _ => issued (gc_id (fst rc))));
    [apply triple_issued_stable, (db_delay E t) |].
  intros tid w Hi.
  pose proof (save_world_ok (with_task_id (Some tid) (fst rc)) w Hi) as Hs.
  unfold bind, ret.
  destruct (save _ w) as [[[] | e] w']; simpl in *; exact (proj1 Hs).
Qed.

Lemma generate_content_world_ok u pk request_data :
  keeps_world_ok world_ok (generate_content E u pk request_data).
Proof.
  unfold keeps_world_ok, generate_content.
  eapply triple_bind;
    [apply (triple_of_stable world_ok _ (db_get_object u pk) world_ok_db) | intros p].
  eapply triple_bind;
    [apply (triple_of_stable world_ok _ (db_get_or_create E (user p)) world_ok_db)
    | intros [b created]].
  destruct (below_minimum_balance b); [intros w H; exact H |].
  destruct (serializer_map _) as [[ct ser] |]; [| intros w H; exact H].
  eapply triple_bind;
    [apply (triple_of_stable world_ok _ (stable_of_result db _) world_ok_db)
    | intros vd].
  eapply triple_bind; [apply update_or_create_issued | intros [r created']].
  apply (dispatch_world_ok (r, created')
           (GenerateContentTask (gc_id r) vd)
           (fun tid => accepted_response _ tid (gc_id r))).
Qed.

Lemma generate_podcast_audio_world_ok u pk request_data :
  keeps_world_ok world_ok (generate_podcast_audio E u pk request_data).
Proof.
  unfold keeps_world_ok, generate_podcast_audio.
  eapply triple_bind;
    [apply (triple_of_stable world_ok _ (db_get_object u pk) world_ok_db) | intros p].
  eapply triple_bind;
    [apply (triple_of_stable world_ok _ (stable_of_result db _) world_ok_db)
    | intros vd].
  eapply triple_bind; [apply update_or_create_issued | intros [r created']].
  apply (dispatch_world_ok (r, created')
           (GenerateAudioTask (gc_id r) vd)
           (fun tid => accepted_response _ tid (gc_id r))).
Qed.

Lemma destroy_world_ok u pk : keeps_world_ok world_ok (destroy E u pk).
Proof.
  unfold keeps_world_ok, destroy.
  eapply triple_bind;
    [apply (triple_of_stable world_ok _ (db_get_object u pk) world_ok_db) | intros p].
  eapply triple_bind.
  { apply (triple_of_stable world_ok); [| exact world_ok_db].
    destruct (negb _); [| apply stable_ret].
    apply stable_try_except; [apply db_s3_delete_object | intros; apply stable_ret]. }
  intros _ w [Ht Hs]. unfold delete_project, bind, modify, ret. simpl.
  split; [apply table_ok_filter, Ht |].
  unfold sequence_ok in *. simpl. rewrite Forall_forall in *.
  intros x Hx. apply list_elem_of_filter in Hx as [_ Hx]. exact (Hs x Hx).
Qed.
End WorldInvariant.

Lemma keeps_world_ok_snd {A} (m : M world A) (w : world) :
  keeps_world_ok world_ok m -> world_ok w -> world_ok (snd (m w)).
Proof.
  intros Hm Hok. specialize (Hm w Hok). destruct (m w) as [[a | e] w']; exact Hm.
Qed.

Lemma step_world_ok (w : world) (a : env * action) :
  world_ok w -> world_ok (step w a).
Proof.
  destruct a as [E [u pk d | u pk d | u pk | [i o | i o]]]; simpl;
    apply keeps_world_ok_snd.
  - apply generate_content_world_ok.
  - apply generate_podcast_audio_world_ok.
  - apply destroy_world_ok.
  - apply generate_content_task_world_ok.
  - apply generate_audio_task_world_ok.
Qed.

(** Every world reached from the empty database, with any projects and
    profiles, by requests and task runs is well formed. *)
Lemma run_world_ok (l : list (env * action)) :
  forall w, world_ok w -> world_ok (run w l).
Proof.
  induction l as [| a l IH]; intros w Hok; simpl; [exact Hok |].
  apply IH, step_world_ok, Hok.
Qed.

Lemma world_ok_empty : world_ok empty_world.
Proof. split; [split; constructor | constructor]. Qed.

(* ===================================================================== *)
(** * Cost accounting: sign and failure *)
(* ===================================================================== *)

(** X1. With a price pair of prices that are not negative and token
    counts that are not negative, a cost that [calculate_cost] returns is
    a float that is not negative; and for token counts below [2 ^ 53] it
    does return one. *)
Theorem calculate_cost_not_negative (table : pricing_table) model_name pricing
    price_in price_out (u : Usage) :
  table !! model_name = Some pricing ->
  pricing !! "input" = Some price_in ->
  pricing !! "output" = Some price_out ->
  SFltb price_in (S754_zero false) = false ->
  SFltb price_out (S754_zero false) = false ->
  (0 <= prompt_tokens u)%Z -> (0 <= completion_tokens u)%Z ->
  (forall cost, calculate_cost table model_name u = Ok cost ->
     exists x, cost = NFloat x /\ SFltb x (S754_zero false) = false)
  /\ ((prompt_tokens u < 2 ^ 53)%Z -> (completion_tokens u < 2 ^ 53)%Z ->
      exists x, calculate_cost table model_name u = Ok (NFloat x)).
Proof.
  intros Hm Hin Hout Hpi Hpo Hp0 Hc0.
  rewrite (calculate_cost_price_pair _ _ _ _ _ u Hm Hin Hout).
  split.
  - intros cost.
    destruct (float_of_int (prompt_tokens u)) as [p | e] eqn:Hp; [| discriminate].
    destruct (float_of_int (completion_tokens u)) as [c | e] eqn:Hc; [| discriminate].
    intros [= <-]. eexists. split; [reflexivity |].
    apply float_add_not_neg; apply float_mul_not_neg;
      eauto using float_of_int_not_neg.
  - intros Hp Hc.
    destruct (float_of_int_small (prompt_tokens u)) as (p & -> & _); [lia |].
    destruct (float_of_int_small (completion_tokens u)) as (c & -> & _); [lia |].
    eauto.
Qed.

Lemma calculate_cost_not_negative_witness :
  (forall cost,
      calculate_cost example_pricing "gpt-5-nano"
        {| prompt_tokens := 2000; completion_tokens := 1000 |} = Ok cost ->
      exists x, cost = NFloat x /\ SFltb x (S754_zero false) = false)
  /\ ((2000 < 2 ^ 53)%Z -> (1000 < 2 ^ 53)%Z ->
      exists x,
        calculate_cost example_pricing "gpt-5-nano"
          {| prompt_tokens := 2000; completion_tokens := 1000 |} = Ok (NFloat x)).
Proof.
  apply (calculate_cost_not_negative example_pricing "gpt-5-nano"
           (<["input" := price_5e_8]> (<["output" := price_4e_7]> ∅))
           price_5e_8 price_4e_7
           {| prompt_tokens := 2000; completion_tokens := 1000 |});
    try (vm_compute; reflexivity); simpl; lia.
Defined.

(** X2. [calculate_cost] raises nothing but [KeyError] and
    [OverflowError]: [KeyError] for a model whose entry in the price
    table is not empty and lacks the input price, or has it and (the
    first product formed) lacks the output price; [OverflowError] for a
    token count whose conversion to a float overflows, which takes a
    count of [2 ^ 53] or more in magnitude. The first product is formed
    before the output price is looked up. *)
Theorem calculate_cost_failure (table : pricing_table) model_name (u : Usage) (e : exn) :
  calculate_cost table model_name u = Raise e ->
  let p := binary_normalize 53 1024 (prompt_tokens u) 0 false in
  let c := binary_normalize 53 1024 (completion_tokens u) 0 false in
  exists pricing,
    table !! model_name = Some pricing /\ pricing <> ∅
    /\ ((pricing !! "input" = None /\ e = KeyError "input")
        \/ (pricing !! "input" <> None
            /\ (exists s, p = S754_infinity s)
            /\ (2 ^ 53 <= Z.abs (prompt_tokens u))%Z /\ e = OverflowError)
        \/ (pricing !! "input" <> None
            /\ (forall s, p <> S754_infinity s)
            /\ pricing !! "output" = None /\ e = KeyError "output")
        \/ (pricing !! "input" <> None /\ pricing !! "output" <> None
            /\ (forall s, p <> S754_infinity s)
            /\ (exists s, c = S754_infinity s)
            /\ (2 ^ 53 <= Z.abs (completion_tokens u))%Z /\ e = OverflowError)).
Proof.
  intros H p c. unfold calculate_cost, int_mul_float in H.
  destruct (table !! model_name) as [pricing |]; [| discriminate].
  exists pricing. split; [reflexivity |].
  destruct (bool_decide (pricing = ∅)) eqn:Hempty; [discriminate |].
  apply bool_decide_eq_false in Hempty. split; [exact Hempty |].
  destruct (pricing !! "input") as [pin |]; [| injection H as <-; left; auto].
  right.
  destruct (float_of_int (prompt_tokens u)) as [p' | e1] eqn:Hp.
  - right. apply float_of_int_Ok in Hp as [Hp Hfin]. fold p in Hp. subst p'.
    destruct (pricing !! "output") as [pout |];
      [| injection H as <-; left; repeat split; auto; discriminate].
    right.
    destruct (float_of_int (completion_tokens u)) as [c' | e2] eqn:Hc; [discriminate |].
    injection H as <-. destruct (float_of_int_Raise _ _ Hc) as [-> Hbig].
    apply float_of_int_infinity in Hc.
    repeat split; auto; discriminate.
  - injection H as <-. destruct (float_of_int_Raise _ _ Hp) as [-> Hbig].
    apply float_of_int_infinity in Hp.
    left. repeat split; auto; discriminate.
Qed.

Lemma calculate_cost_failure_witness :
  exists pricing,
    example_pricing !! "gpt-5-nano" = Some pricing /\ pricing <> ∅
    /\ ((pricing !! "input" = None /\ OverflowError = KeyError "input")
        \/ (pricing !! "input" <> None
            /\ (exists s, binary_normalize 53 1024 (2 ^ 1024) 0 false = S754_infinity s)
            /\ (2 ^ 53 <= Z.abs (2 ^ 1024))%Z /\ OverflowError = OverflowError)
        \/ (pricing !! "input" <> None
            /\ (forall s, binary_normalize 53 1024 (2 ^ 1024) 0 false <> S754_infinity s)
            /\ pricing !! "output" = None /\ OverflowError = KeyError "output")
        \/ (pricing !! "input" <> None /\ pricing !! "output" <> None
            /\ (forall s, binary_normalize 53 1024 (2 ^ 1024) 0 false <> S754_infinity s)
            /\ (exists s, binary_normalize 53 1024 1 0 false = S754_infinity s)
            /\ (2 ^ 53 <= Z.abs 1)%Z /\ OverflowError = OverflowError)).
Proof.
  apply (calculate_cost_failure example_pricing "gpt-5-nano"
           {| prompt_tokens := 2 ^ 1024; completion_tokens := 1 |}).
  vm_compute. reflexivity.
Defined.

(* ===================================================================== *)
(** * The downloaded document *)
(* ===================================================================== *)

Lemma extract_text_from_file_snd (E : env) (file_path : string) (w : world) :
  snd (extract_text_from_file E file_path w) = set_files (delete file_path) w.
Proof.
  unfold extract_text_from_file, try_finally, remove_if_exists, read_file,
    bind, gets, of_result, ret, raise, modify.
  destruct (endswith file_path ".pdf"); [| destruct (endswith file_path ".docx");
    [| destruct (endswith file_path ".txt")]]; cbv beta;
    try (destruct (files w !! file_path) as [f |]; cbn [fst snd]; [| reflexivity]).
  - destruct (PdfReader_pages E f); reflexivity.
  - destruct (Document_paragraphs E f); reflexivity.
  - destruct (decode_utf8 E f); reflexivity.
  - reflexivity.
Qed.

(** X3. Whatever the extension, and whether the parser returns or raises, or
    the file is missing, extraction ends with the file removed and with
    nothing else changed. *)
Theorem extract_text_from_file_removes_file (E : env) (file_path : string) (w : world) :
  let w' := snd (extract_text_from_file E file_path w) in
  files w' !! file_path = None
  /\ (forall other, other <> file_path -> files w' !! other = files w !! other)
  /\ db w' = db w /\ bucket w' = bucket w /\ profiles w' = profiles w
  /\ queue w' = queue w /\ trace w' = trace w.
Proof.
  intros w'. unfold w'. rewrite extract_text_from_file_snd. simpl.
  split; [apply lookup_delete_eq |].
  split; [| repeat split].
  intros other Hne. apply lookup_delete_ne. congruence.
Qed.

Lemma download_file_from_s3_files (E : env) (s3_key : string) (w : world) :
  match download_file_from_s3 E s3_key w with
  | (Ok local_path, w') =>
      exists b, files w' = <[local_path := b]> (files w)
  | (Raise _, w') => files w' = files w
  end
  /\ bucket (snd (download_file_from_s3 E s3_key w)) = bucket w
  /\ profiles (snd (download_file_from_s3 E s3_key w)) = profiles w
  /\ queue (snd (download_file_from_s3 E s3_key w)) = queue w.
Proof.
  unfold download_file_from_s3, s3_download_file, emit, fault, bind, gets, modify,
    ret, raise.
  destruct (startswith s3_key "http").
  - destruct (split1_tail ".com/" s3_key) as [k |]; simpl; [| auto].
    destruct (s3_download_fault E k); simpl; [auto |].
    destruct (bucket w !! k) as [b |]; simpl; [| auto].
    split; [exists b; reflexivity | auto].
  - simpl.
    destruct (s3_download_fault E s3_key); simpl; [auto |].
    destruct (bucket w !! s3_key) as [b |]; simpl; [| auto].
    split; [exists b; reflexivity | auto].
Qed.

Lemma source_text_frame (E : env) (project : Project) (w : world) :
  let w' := snd (source_text E project w) in
  files w' ⊆ files w
  /\ bucket w' = bucket w /\ profiles w' = profiles w /\ queue w' = queue w
  /\ db w' = db w.
Proof.
  cbv zeta.
  assert (Hdb : db (snd (source_text E project w)) = db w).
  { unfold source_text. apply stable_bind.
    - apply db_download_file_from_s3.
    - intros a. apply db_extract_text_from_file. }
  destruct (download_file_from_s3_files E (s3_file_key project) w)
    as (Hfiles & Hb & Hp & Hq).
  revert Hdb. unfold source_text, bind.
  destruct (download_file_from_s3 E (s3_file_key project) w) as [[path | e] w1];
    cbn [fst snd] in *.
  - rewrite extract_text_from_file_snd. simpl. intros Hdb.
    destruct Hfiles as [b Hfiles]. rewrite Hfiles.
    split; [| auto].
    rewrite delete_insert_eq. apply delete_subseteq.
  - intros Hdb. rewrite Hfiles. auto.
Qed.

(** X4. Steps 1 and 2 of the pipeline together leave no file behind: after
    the download and the extraction, whether they return or raise, every
    local file was there before, and the bucket, the balances and the
    queue are as they were. *)
Theorem source_text_leaves_no_file (E : env) (project : Project) (w : world) :
  let w' := snd (source_text E project w) in
  files w' ⊆ files w
  /\ bucket w' = bucket w /\ profiles w' = profiles w /\ queue w' = queue w
  /\ db w' = db w.
Proof. apply source_text_frame. Qed.

(* ===================================================================== *)
(** * Slide images *)
(* ===================================================================== *)

Lemma generate_image_for_slide_fst (E : env) (slide_title slide_content : json)
    (w : world) :
  fst (generate_image_for_slide E slide_title slide_content w) = Ok (None, NInt 0).
Proof.
  unfold generate_image_for_slide, try_except, bind, emit, modify, fault, ret, raise.
  destruct slide_content as [| | | | items |]; simpl; try reflexivity.
  - destruct (images_generate_fault E "dall-e-3"); reflexivity.
  - destruct (forallb is_JStr (take 2 items)); simpl; [| reflexivity].
    destruct (images_generate_fault E "dall-e-3"); reflexivity.
Qed.

(** X5. [generate_image_for_slide] never raises and never yields an image or a
    cost: whatever the slide and whatever the image service answers, it
    returns [(None, 0)], and it writes neither the database, nor the
    bucket, nor a file, nor a balance. *)
Theorem generate_image_for_slide_yields_nothing (E : env)
    (slide_title slide_content : json) (w : world) :
  let out := generate_image_for_slide E slide_title slide_content w in
  fst out = Ok (None, NInt 0)
  /\ db (snd out) = db w /\ bucket (snd out) = bucket w
  /\ files (snd out) = files w /\ profiles (snd out) = profiles w.
Proof.
  cbv zeta. split; [apply generate_image_for_slide_fst |].
  unfold generate_image_for_slide, try_except, bind, emit, modify, fault, ret, raise.
  destruct slide_content as [| | | | items |]; simpl; auto.
  - destruct (images_generate_fault E "dall-e-3"); simpl; auto.
  - destruct (forallb is_JStr (take 2 items)); simpl; auto.
    destruct (images_generate_fault E "dall-e-3"); simpl; auto.
Qed.

(** Adding the [0] of a slide without image leaves a cost as it is; on a
    float it is the addition of [0.0], which turns the negative zero into
    the positive one. *)
Lemma num_add_zero (total_cost : number) :
  exists c, num_add total_cost (NInt 0) = Ok c
            /\ (c = total_cost
                \/ (total_cost = NFloat (S754_zero true) /\ c = NFloat (S754_zero false))).
Proof.
  destruct total_cost as [n | x]; simpl.
  - exists (NInt n). rewrite Z.add_0_r. auto.
  - change (float_of_int 0) with (Ok (A := float) (S754_zero false)).
    exists (NFloat (float_add x (S754_zero false))). split; [reflexivity |].
    destruct x as [[|] | [|] | | [|] m e]; auto.
Qed.

Lemma add_slide_cost (E : env) (include_images : bool) (total_cost : number)
    (slide_info : json) (w : world) :
  match fst (add_slide E include_images total_cost slide_info w) with
  | Ok c =>
      c = total_cost
      \/ (total_cost = NFloat (S754_zero true) /\ c = NFloat (S754_zero false))
  | Raise _ => True
  end.
Proof.
  unfold add_slide. destruct include_images.
  - unfold bind at 1. unfold bind at 1. unfold of_result at 1.
    destruct (json_get slide_info "title" JNull) as [t | e]; [| exact I].
    unfold bind at 1. unfold of_result at 1.
    destruct (json_get slide_info "content" (JArr [])) as [c | e]; [| exact I].
    unfold bind at 1.
    pose proof (generate_image_for_slide_fst E t c w) as Him.
    destruct (generate_image_for_slide E t c w) as [[im | e] w1]; simpl in Him;
      [| discriminate].
    injection Him as ->. cbn [snd].
    destruct (num_add_zero total_cost) as (c' & -> & Hc').
    unfold of_result at 1. unfold fault, bind, ret, raise.
    destruct (pptx_add_slide E slide_info); simpl; [exact I | exact Hc'].
  - unfold bind, fault, ret, raise.
    destruct (pptx_add_slide E slide_info); simpl; [exact I | auto].
Qed.

Lemma add_slides_cost (E : env) (include_images : bool) (slides : list json) :
  forall total_cost w,
    match fst (add_slides E include_images total_cost slides w) with
    | Ok c =>
        c = total_cost
        \/ (total_cost = NFloat (S754_zero true) /\ c = NFloat (S754_zero false))
    | Raise _ => True
    end.
Proof.
  induction slides as [| slide_info slides IH]; intros total_cost w; simpl.
  - auto.
  - unfold bind at 1.
    pose proof (add_slide_cost E include_images total_cost slide_info w) as H1.
    destruct (add_slide E include_images total_cost slide_info w) as [[c | e] w1];
      simpl in *; [| exact I].
    specialize (IH c w1).
    destruct (fst (add_slides E include_images c slides w1)) as [c' |]; [| exact I].
    destruct H1 as [-> | [-> ->]]; [exact IH |].
    destruct IH as [-> | [[=] _]]. auto.
Qed.

(** X6. What a presentation costs is what its text completion costs: with or
    without [include_images], a run of [generate_ppt_from_text] that
    returns reports the cost of the one completion it asked for (the same
    number; the additions of the images' [0] turn a negative zero into
    the positive one). *)
Theorem presentation_cost_is_text_cost (E : env) (text_content : string)
    (options : dict) (w w' : world) (path : string) (total_cost : number) :
  generate_ppt_from_text E text_content options w = (Ok (path, total_cost), w') ->
  exists response text_cost,
    chat_completions_create E "gpt-5-nano"
      (ppt_prompt (dict_get options "slide_count" (VInt 8)) text_content)
    = Ok response
    /\ calculate_cost (OPENAI_PRICING E) "gpt-5-nano" (usage response) = Ok text_cost
    /\ (total_cost = text_cost
        \/ (text_cost = NFloat (S754_zero true) /\ total_cost = NFloat (S754_zero false)))
    /\ path = presentation_path.
Proof.
  unfold generate_ppt_from_text, chat_completion.
  unfold bind at 1. unfold bind at 1. unfold emit, modify. cbn [fst snd].
  set (w1 := set_trace _ w). clearbody w1.
  unfold of_result at 1.
  destruct (chat_completions_create E "gpt-5-nano" _) as [response | e];
    [| discriminate].
  unfold bind at 1. unfold of_result at 1.
  destruct (json_loads E (message_content response)) as [j | e]; [| discriminate].
  unfold bind at 1. unfold of_result at 1.
  destruct (json_get j "slides" (JArr [])) as [sd | e]; [| discriminate].
  unfold bind at 1. unfold of_result at 1.
  destruct (calculate_cost _ _ _) as [c | e] eqn:Hc; [| discriminate].
  unfold bind at 1. unfold of_result at 1.
  destruct (json_iter sd) as [slides | e]; [| discriminate].
  unfold bind at 1.
  pose proof (add_slides_cost E (truthy (dict_get options "include_images" (VBool false)))
                slides c w1) as Hcost.
  destruct (add_slides E _ c slides w1) as [[c' | e] w2]; [| discriminate].
  unfold write_file, bind, modify, ret. cbn [fst snd] in *.
  intros H. injection H as <- <- _.
  exists response, c. auto.
Qed.

Lemma presentation_cost_is_text_cost_witness :
  exists response text_cost,
    chat_completions_create calm_env "gpt-5-nano"
      (ppt_prompt (dict_get images_request "slide_count" (VInt 8)) "Light becomes sugar.")
    = Ok response
    /\ calculate_cost (OPENAI_PRICING calm_env) "gpt-5-nano" (usage response)
       = Ok text_cost
    /\ (NFloat (S754_finite false 4611686018427388 (-63)) = text_cost
        \/ (text_cost = NFloat (S754_zero true)
            /\ NFloat (S754_finite false 4611686018427388 (-63)) = NFloat (S754_zero false)))
    /\ presentation_path = presentation_path.
Proof.
  apply (presentation_cost_is_text_cost calm_env "Light becomes sugar."
           images_request (example_world 50000)
           (snd (generate_ppt_from_text calm_env "Light becomes sugar."
                   images_request (example_world 50000)))
           presentation_path (NFloat (S754_finite false 4611686018427388 (-63)))).
  vm_compute. reflexivity.
Defined.

(* ===================================================================== *)
(** * Flashcards and questions: the options reach the prompt *)
(* ===================================================================== *)

Lemma ChoiceField_Ok (choices : list string) (dflt : option string) (name : string)
    (data : dict) (v : pyvalue) :
  ChoiceField choices dflt name data = Ok v ->
  (forall d, dflt = Some d -> d ∈ choices) ->
  exists s, v = VStr s /\ s ∈ choices
            /\ (forall x, data !! name = Some x -> s = py_str x)
            /\ (data !! name = None -> dflt = Some s).
Proof.
  unfold ChoiceField. intros H Hd.
  destruct (data !! name) as [x |].
  - assert (Hx : (if bool_decide (py_str x ∈ choices) then Ok (VStr (py_str x))
                  else Raise (ValidationError name)) = Ok v).
    { destruct x; [discriminate | exact H | exact H | exact H]. }
    clear H. destruct (bool_decide (py_str x ∈ choices)) eqn:Hin; [| discriminate].
    apply bool_decide_eq_true in Hin. injection Hx as <-.
    exists (py_str x). split; [reflexivity |]. split; [exact Hin |].
    split; [intros y Hy; congruence | intros Hn; discriminate].
  - destruct dflt as [d |]; [| discriminate]. injection H as <-.
    exists d. split; [reflexivity |]. split; [auto |].
    split; [intros y Hy; discriminate | reflexivity].
Qed.

Lemma generate_flashcards_from_text_trace (E : env) (text_content : string)
    (options : dict) (w : world) :
  trace (snd (generate_flashcards_from_text E text_content options w))
  = (trace w
     ++ [EvChatCompletion "gpt-5-nano"
           (flashcards_prompt (dict_get options "cards_count" (VInt 20))
              (dict_get options "card_type" (VStr "qa"))
              (dict_get options "difficulty" (VStr "mixed")) text_content)])%list.
Proof.
  unfold generate_flashcards_from_text.
  unfold chat_completion, bind, emit, modify, of_result, write_file, ret.
  cbn [fst snd].
  set (w1 := set_trace _ w).
  assert (Ht1 : trace w1
                = (trace w
                   ++ [EvChatCompletion "gpt-5-nano"
                         (flashcards_prompt (dict_get options "cards_count" (VInt 20))
                            (dict_get options "card_type" (VStr "qa"))
                            (dict_get options "difficulty" (VStr "mixed"))
                            text_content)])%list)
    by reflexivity.
  clearbody w1.
  destruct (chat_completions_create E "gpt-5-nano" _) as [response | e];
    [| exact Ht1].
  destruct (json_loads E (message_content response)) as [j | e]; [| exact Ht1].
  destruct (calculate_cost _ _ _) as [c | e]; [| exact Ht1].
  exact Ht1.
Qed.

Lemma generate_mcqs_from_text_trace (E : env) (text_content : string)
    (options : dict) (w : world) :
  trace (snd (generate_mcqs_from_text E text_content options w))
  = (trace w
     ++ [EvChatCompletion "gpt-5-nano"
           (mcqs_prompt (dict_get options "questions_count" (VInt 15))
              (dict_get options "questions_type" (VStr "single_correct"))
              (dict_get options "difficulty" (VStr "mixed")) text_content)])%list.
Proof.
  unfold generate_mcqs_from_text.
  unfold chat_completion, bind, emit, modify, of_result, write_file, ret.
  cbn [fst snd].
  set (w1 := set_trace _ w).
  assert (Ht1 : trace w1
                = (trace w
                   ++ [EvChatCompletion "gpt-5-nano"
                         (mcqs_prompt (dict_get options "questions_count" (VInt 15))
                            (dict_get options "questions_type" (VStr "single_correct"))
                            (dict_get options "difficulty" (VStr "mixed"))
                            text_content)])%list)
    by reflexivity.
  clearbody w1.
  destruct (chat_completions_create E "gpt-5-nano" _) as [response | e];
    [| exact Ht1].
  destruct (json_loads E (message_content response)) as [j | e]; [| exact Ht1].
  destruct (calculate_cost _ _ _) as [c | e]; [| exact Ht1].
  exact Ht1.
Qed.

(** X7. A validated flashcard request reaches the model as asked: the number
    of cards of the request (between 5 and 50, or 20 when it gives none),
    its card type (or [qa]) and its difficulty (or [mixed]) are the
    validated options and those of the prompt, and the completion request
    with that prompt is the one external call of
    [generate_flashcards_from_text]. *)
Theorem flashcards_prompt_follows_request (E : env) (request_data vd : dict) :
  FlashcardGenerateSerializer E request_data = Ok vd ->
  exists n t d,
    (5 <= n <= 50)%Z
    /\ (forall m, request_data !! "cards_count" = Some (VInt m) -> n = m)
    /\ (request_data !! "cards_count" = None -> n = 20%Z)
    /\ t ∈ ["qa"; "true_false"; "fill_blank"] /\ d ∈ difficulties
    /\ (forall x, request_data !! "card_type" = Some x -> t = py_str x)
    /\ (request_data !! "card_type" = None -> t = "qa")
    /\ (forall x, request_data !! "difficulty" = Some x -> d = py_str x)
    /\ (request_data !! "difficulty" = None -> d = "mixed")
    /\ vd !! "cards_count" = Some (VInt n)
    /\ vd !! "card_type" = Some (VStr t) /\ vd !! "difficulty" = Some (VStr d)
    /\ forall text_content w,
         trace (snd (generate_flashcards_from_text E text_content vd w))
         = (trace w
            ++ [EvChatCompletion "gpt-5-nano"
                  (flashcards_prompt (VInt n) (VStr t) (VStr d) text_content)])%list.
Proof.
  unfold FlashcardGenerateSerializer. intros H.
  destruct (ChoiceField _ None "content_type" request_data) as [ct | e1] eqn:H1;
    [| discriminate].
  destruct (IntegerField E 5 50 20 "cards_count" request_data) as [cc | e2] eqn:H2;
    [| discriminate].
  destruct (ChoiceField _ (Some "qa") "card_type" request_data) as [t | e3] eqn:H3;
    [| discriminate].
  destruct (ChoiceField difficulties (Some "mixed") "difficulty" request_data)
    as [d | e4] eqn:H4; [| discriminate].
  injection H as <-.
  assert (Hdflt : request_data !! "cards_count" = None -> cc = VInt 20).
  { intros Hn. unfold IntegerField in H2. rewrite Hn in H2. congruence. }
  apply IntegerField_Ok in H2 as (n & -> & Hn & Hm); [| lia].
  destruct (ChoiceField_Ok _ _ _ _ _ H3) as (ts & -> & Ht & Ht1 & Ht2);
    [intros ? [= <-]; repeat constructor |].
  destruct (ChoiceField_Ok _ _ _ _ _ H4) as (ds & -> & Hd & Hd1 & Hd2);
    [intros ? [= <-]; unfold difficulties; repeat constructor |].
  exists n, ts, ds.
  split; [exact Hn |]. split; [exact Hm |].
  split; [intros Hnone; specialize (Hdflt Hnone); congruence |].
  split; [exact Ht |]. split; [exact Hd |].
  split; [exact Ht1 |].
  split; [intros Hnone; specialize (Ht2 Hnone); congruence |].
  split; [exact Hd1 |].
  split; [intros Hnone; specialize (Hd2 Hnone); congruence |].
  split; [reflexivity |]. split; [reflexivity |]. split; [reflexivity |].
  intros text_content w.
  rewrite generate_flashcards_from_text_trace. reflexivity.
Qed.

Lemma flashcards_prompt_follows_request_witness :
  exists n t d,
    (5 <= n <= 50)%Z
    /\ (forall m, full_flashcards_request !! "cards_count" = Some (VInt m) -> n = m)
    /\ (full_flashcards_request !! "cards_count" = None -> n = 20%Z)
    /\ t ∈ ["qa"; "true_false"; "fill_blank"] /\ d ∈ difficulties
    /\ (forall x, full_flashcards_request !! "card_type" = Some x -> t = py_str x)
    /\ (full_flashcards_request !! "card_type" = None -> t = "qa")
    /\ (forall x, full_flashcards_request !! "difficulty" = Some x -> d = py_str x)
    /\ (full_flashcards_request !! "difficulty" = None -> d = "mixed")
    /\ full_flashcards_request !! "cards_count" = Some (VInt n)
    /\ full_flashcards_request !! "card_type" = Some (VStr t)
    /\ full_flashcards_request !! "difficulty" = Some (VStr d)
    /\ forall text_content w,
         trace (snd (generate_flashcards_from_text calm_env text_content
                       (full_flashcards_request) w))
         = (trace w
            ++ [EvChatCompletion "gpt-5-nano"
                  (flashcards_prompt (VInt n) (VStr t) (VStr d) text_content)])%list.
Proof.
  apply (flashcards_prompt_follows_request calm_env full_flashcards_request).
  vm_compute. reflexivity.
Defined.

(** X8. The same for a validated question request: the number of questions
    (between 5 and 30, or 15 when the request gives none), the question
    type (or [single_correct]) and the difficulty (or [mixed]) of the
    request are the validated options and those of the prompt of the one
    completion request of [generate_mcqs_from_text]. *)
Theorem mcqs_prompt_follows_request (E : env) (request_data vd : dict) :
  MCQGenerateSerializer E request_data = Ok vd ->
  exists n t d,
    (5 <= n <= 30)%Z
    /\ (forall m, request_data !! "questions_count" = Some (VInt m) -> n = m)
    /\ (request_data !! "questions_count" = None -> n = 15%Z)
    /\ t ∈ ["single_correct"; "multiple_correct"; "true_false"] /\ d ∈ difficulties
    /\ (forall x, request_data !! "questions_type" = Some x -> t = py_str x)
    /\ (request_data !! "questions_type" = None -> t = "single_correct")
    /\ (forall x, request_data !! "difficulty" = Some x -> d = py_str x)
    /\ (request_data !! "difficulty" = None -> d = "mixed")
    /\ vd !! "questions_count" = Some (VInt n)
    /\ vd !! "questions_type" = Some (VStr t) /\ vd !! "difficulty" = Some (VStr d)
    /\ forall text_content w,
         trace (snd (generate_mcqs_from_text E text_content vd w))
         = (trace w
            ++ [EvChatCompletion "gpt-5-nano"
                  (mcqs_prompt (VInt n) (VStr t) (VStr d) text_content)])%list.
Proof.
  unfold MCQGenerateSerializer. intros H.
  destruct (ChoiceField _ None "content_type" request_data) as [ct | e1] eqn:H1;
    [| discriminate].
  destruct (IntegerField E 5 30 15 "questions_count" request_data)
    as [cc | e2] eqn:H2; [| discriminate].
  destruct (ChoiceField _ (Some "single_correct") "questions_type" request_data)
    as [t | e3] eqn:H3; [| discriminate].
  destruct (ChoiceField difficulties (Some "mixed") "difficulty" request_data)
    as [d | e4] eqn:H4; [| discriminate].
  injection H as <-.
  assert (Hdflt : request_data !! "questions_count" = None -> cc = VInt 15).
  { intros Hn. unfold IntegerField in H2. rewrite Hn in H2. congruence. }
  apply IntegerField_Ok in H2 as (n & -> & Hn & Hm); [| lia].
  destruct (ChoiceField_Ok _ _ _ _ _ H3) as (ts & -> & Ht & Ht1 & Ht2);
    [intros ? [= <-]; repeat constructor |].
  destruct (ChoiceField_Ok _ _ _ _ _ H4) as (ds & -> & Hd & Hd1 & Hd2);
    [intros ? [= <-]; unfold difficulties; repeat constructor |].
  exists n, ts, ds.
  split; [exact Hn |]. split; [exact Hm |].
  split; [intros Hnone; specialize (Hdflt Hnone); congruence |].
  split; [exact Ht |]. split; [exact Hd |].
  split; [exact Ht1 |].
  split; [intros Hnone; specialize (Ht2 Hnone); congruence |].
  split; [exact Hd1 |].
  split; [intros Hnone; specialize (Hd2 Hnone); congruence |].
  split; [reflexivity |]. split; [reflexivity |]. split; [reflexivity |].
  intros text_content w.
  rewrite generate_mcqs_from_text_trace. reflexivity.
Qed.

Lemma mcqs_prompt_follows_request_witness :
  exists n t d,
    (5 <= n <= 30)%Z
    /\ (forall m, full_mcq_request !! "questions_count" = Some (VInt m) -> n = m)
    /\ (full_mcq_request !! "questions_count" = None -> n = 15%Z)
    /\ t ∈ ["single_correct"; "multiple_correct"; "true_false"] /\ d ∈ difficulties
    /\ (forall x, full_mcq_request !! "questions_type" = Some x -> t = py_str x)
    /\ (full_mcq_request !! "questions_type" = None -> t = "single_correct")
    /\ (forall x, full_mcq_request !! "difficulty" = Some x -> d = py_str x)
    /\ (full_mcq_request !! "difficulty" = None -> d = "mixed")
    /\ full_mcq_request !! "questions_count" = Some (VInt n)
    /\ full_mcq_request !! "questions_type" = Some (VStr t)
    /\ full_mcq_request !! "difficulty" = Some (VStr d)
    /\ forall text_content w,
         trace (snd (generate_mcqs_from_text calm_env text_content
                       (full_mcq_request) w))
         = (trace w
            ++ [EvChatCompletion "gpt-5-nano"
                  (mcqs_prompt (VInt n) (VStr t) (VStr d) text_content)])%list.
Proof.
  apply (mcqs_prompt_follows_request calm_env full_mcq_request).
  vm_compute. reflexivity.
Defined.

(* ===================================================================== *)
(** * Every validated voice has an entry *)
(* ===================================================================== *)

Lemma voice_map_total :
  forallb (fun a =>
    forallb (fun g =>
      forallb (fun s =>
        bool_decide (is_Some (literal_lookup (a, g, s) voice_map)))
        voice_styles) voice_genders) voice_accents = true.
Proof. vm_compute. reflexivity. Qed.

Lemma literal_lookup_Some {K V} `{EqDecision K} (k : K) (v : V) (l : list (K * V)) :
  literal_lookup k l = Some v -> (k, v) ∈ l.
Proof.
  induction l as [| [k' v'] l IH]; simpl; [discriminate |].
  destruct (literal_lookup k l) as [x |].
  - intros [= <-]. apply elem_of_cons. right. apply IH. reflexivity.
  - destruct (decide (k = k')) as [-> |]; [| discriminate].
    intros [= <-]. apply elem_of_cons. left. reflexivity.
Qed.

(** X9. The voice table covers the serializer: for every accent, gender and
    style that [PodcastAudioGenerateSerializer] lets through (defaults
    included) the table has an entry, so the voice of a validated request
    is that entry and never the fallback of [voice_map.get]. *)
Theorem validated_voice_has_entry (E : env) (request_data vd : dict) :
  PodcastAudioGenerateSerializer E request_data = Ok vd ->
  exists a g s,
    a ∈ voice_accents /\ g ∈ voice_genders /\ s ∈ voice_styles
    /\ (forall x, request_data !! "voice_accent" = Some x -> a = py_str x)
    /\ (forall x, request_data !! "voice_gender" = Some x -> g = py_str x)
    /\ (forall x, request_data !! "voice_style" = Some x -> s = py_str x)
    /\ ((a, g, s), select_voice vd) ∈ voice_map.
Proof.
  unfold PodcastAudioGenerateSerializer. intros H.
  destruct (ChoiceField _ None "content_type" request_data) as [ct | e1] eqn:H1;
    [| discriminate].
  destruct (CharField "script_text" request_data) as [t | e2] eqn:H2;
    [| discriminate].
  destruct (ChoiceField voice_styles _ "voice_style" request_data)
    as [s | e3] eqn:H3; [| discriminate].
  destruct (ChoiceField voice_genders _ "voice_gender" request_data)
    as [g | e4] eqn:H4; [| discriminate].
  destruct (ChoiceField voice_accents _ "voice_accent" request_data)
    as [a | e5] eqn:H5; [| discriminate].
  injection H as <-.
  destruct (ChoiceField_Ok _ _ _ _ _ H3) as (ss & -> & Hs & Hs' & _);
    [intros ? [= <-]; unfold voice_styles; repeat constructor |].
  destruct (ChoiceField_Ok _ _ _ _ _ H4) as (gs & -> & Hg & Hg' & _);
    [intros ? [= <-]; unfold voice_genders; repeat constructor |].
  destruct (ChoiceField_Ok _ _ _ _ _ H5) as (accent & -> & Ha & Ha' & _);
    [intros ? [= <-]; unfold voice_accents; repeat constructor |].
  exists accent, gs, ss.
  split; [exact Ha |]. split; [exact Hg |]. split; [exact Hs |].
  split; [exact Ha' |]. split; [exact Hg' |]. split; [exact Hs' |].
  assert (Hv : select_voice
                 (<["content_type" := ct]>
                    (<["script_text" := t]>
                       (<["voice_style" := VStr ss]>
                          (<["voice_gender" := VStr gs]>
                             (<["voice_accent" := VStr accent]> ∅)))))
               = default default_voice (literal_lookup (accent, gs, ss) voice_map)).
  { unfold select_voice, dict_get.
    rewrite (lookup_insert_ne _ "content_type" "voice_style") by discriminate.
    rewrite (lookup_insert_ne _ "script_text" "voice_style") by discriminate.
    rewrite lookup_insert_eq.
    rewrite (lookup_insert_ne _ "content_type" "voice_gender") by discriminate.
    rewrite (lookup_insert_ne _ "script_text" "voice_gender") by discriminate.
    rewrite (lookup_insert_ne _ "voice_style" "voice_gender") by discriminate.
    rewrite lookup_insert_eq.
    rewrite (lookup_insert_ne _ "content_type" "voice_accent") by discriminate.
    rewrite (lookup_insert_ne _ "script_text" "voice_accent") by discriminate.
    rewrite (lookup_insert_ne _ "voice_style" "voice_accent") by discriminate.
    rewrite (lookup_insert_ne _ "voice_gender" "voice_accent") by discriminate.
    rewrite lookup_insert_eq. reflexivity. }
  rewrite Hv.
  pose proof voice_map_total as Htot.
  rewrite forallb_forall in Htot.
  specialize (Htot accent (proj1 (list_elem_of_In _ _) Ha)).
  rewrite forallb_forall in Htot.
  specialize (Htot gs (proj1 (list_elem_of_In _ _) Hg)).
  rewrite forallb_forall in Htot.
  specialize (Htot ss (proj1 (list_elem_of_In _ _) Hs)).
  apply bool_decide_eq_true in Htot. destruct Htot as [v Hv'].
  rewrite Hv'. simpl. apply literal_lookup_Some. exact Hv'.
Qed.

Lemma validated_voice_has_entry_witness :
  exists a g s,
    a ∈ voice_accents /\ g ∈ voice_genders /\ s ∈ voice_styles
    /\ (forall x, audio_request "Welcome." !! "voice_accent" = Some x -> a = py_str x)
    /\ (forall x, audio_request "Welcome." !! "voice_gender" = Some x -> g = py_str x)
    /\ (forall x, audio_request "Welcome." !! "voice_style" = Some x -> s = py_str x)
    /\ ((a, g, s),
        select_voice
          (<["content_type" := VStr "POD"]>
             (<["script_text" := VStr "Welcome."]>
                (<["voice_style" := VStr "neutral"]>
                   (<["voice_gender" := VStr "male"]>
                      (<["voice_accent" := VStr "indian"]> ∅)))))) ∈ voice_map.
Proof.
  apply (validated_voice_has_entry calm_env (audio_request "Welcome.")).
  vm_compute. reflexivity.
Defined.

(* ===================================================================== *)
(** * The audio job *)
(* ===================================================================== *)

Lemma generate_audio_task_run (E : env) (i : nat) (options : dict) (w : world)
    (c : GeneratedContent) (p : Project) :
  table_ok (contents w) ->
  fst (objects_get i w) = Ok c ->
  fst (get_project (project_id c) w) = Ok p ->
  let w1 := snd (delete_old_object E c w) in
  let key := "generated/" +:+ str_nat (pid p) +:+ "/" +:+ str_nat (gc_id c)
             +:+ "_podcast.mp3" in
  let script := dict_get_none options "script_text" in
  let voice := select_voice options in
  let failed (w' : world) :=
    set_contents (replace_row (with_task_status FAILURE c)) w' in
  generate_audio_task E i options w
  = if truthy script then
      let w2 := set_trace (fun t => (t ++ [EvSpeech voice])%list) w1 in
      match edge_tts_save E script voice with
      | Raise e => (Raise e, failed w2)
      | Ok mp3 =>
          let w3 := set_trace (fun t => (t ++ [EvS3Upload key])%list)
                      (set_files (fun m => <[podcast_path := mp3]> m) w2) in
          match s3_upload_fault E key with
          | Some e => (Raise e, failed w3)
          | None =>
              (Ok "Audio task completed.",
               set_files (delete podcast_path)
                 (set_contents
                    (replace_row (with_task_status SUCCESS
                                    (with_s3_url (Some (public_url E key)) c)))
                    (set_bucket (fun m => <[key := mp3]> m) w3)))
          end
      end
    else (Raise (ValueError "Script text cannot be empty."), failed w1).
Proof.
  intros [_ Hkeys] Hget Hproj w1 key script voice failed.
  destruct (objects_get_Ok _ _ _ Hget) as (Hrun & Hfil & Hid & Hin).
  destruct (get_project_Ok _ _ _ Hproj) as (Hp & Hpid & Hproj').
  pose proof (delete_old_object_Ok E c w) as Hdel. fold w1 in Hdel.
  assert (Hdb1 : db w1 = db w) by apply db_delete_old_object.
  assert (Hps1 : projects w1 = projects w) by (injection Hdb1; auto).
  assert (Hsave : forall r w',
             db w' = db w -> gc_id r = gc_id c -> unique_key r = unique_key c ->
             save r w' = (Ok tt, set_contents (replace_row r) w')).
  { intros r w' Hdb Hr Hk.
    assert (Hc : contents w' = contents w) by (injection Hdb; auto).
    assert (Hps : projects w' = projects w) by (injection Hdb; auto).
    apply (save_update r c w'); [| rewrite Hc; exact Hin | exact Hr].
    apply (row_admissible_update r c p); rewrite ?Hc, ?Hps; auto.
    rewrite Hpid. symmetry.
    exact (f_equal fst Hk). }
  unfold generate_audio_task.
  rewrite (run_bind_Ok _ _ _ _ _ Hrun).
  rewrite (run_bind_Ok _ _ _ _ _ Hdel).
  fold script. fold voice.
  unfold with_local, try_except.
  destruct (truthy script) eqn:Hscript; cbn [negb].
  - unfold generate_podcast_audio_from_script. fold voice.
    unfold liftW at 1. unfold bind at 1. unfold bind at 1. unfold bind at 1.
    unfold emit, modify. cbn [fst snd].
    set (w2 := set_trace (fun t => (t ++ [EvSpeech voice])%list) w1).
    unfold of_result at 1.
    destruct (edge_tts_save E script voice) as [mp3 | e].
    + unfold write_file, bind at 1, modify, ret. cbn [fst snd].
      set (w2' := set_files (fun m => <[podcast_path := mp3]> m) w2).
      unfold bind at 1. unfold liftW at 1. cbn [fst snd].
      rewrite (Hproj' w2' Hps1).
      cbn [fst snd].
      unfold bind at 1. unfold liftW at 1. cbn [fst snd].
      unfold s3_upload_file, bind at 1, gets at 1.
      assert (Hfile : files w2' !! podcast_path = Some mp3) by apply lookup_insert_eq.
      rewrite Hfile. unfold bind at 1, emit, modify. cbn [fst snd].
      fold key.
      set (w3 := set_trace (fun t => (t ++ [EvS3Upload key])%list) w2').
      unfold bind at 1, fault.
      destruct (s3_upload_fault E key) as [e |].
      * unfold raise. cbn [fst snd].
        unfold mark_failure_and_reraise, set_local, get_local, gets, modify, raise,
          liftW, bind. cbn [fst snd].
        rewrite (Hsave (with_task_status FAILURE c) w3 Hdb1 eq_refl eq_refl).
        reflexivity.
      * unfold ret at 1. cbn [fst snd].
        unfold set_local, get_local, gets, modify, bind, liftW, ret. cbn [fst snd].
        rewrite (Hsave (with_task_status SUCCESS (with_s3_url (Some (public_url E key)) c))
                   (set_bucket (fun m => <[key := mp3]> m) w3) Hdb1 eq_refl eq_refl).
        cbn [fst snd]. unfold remove_file, bind, gets, modify, raise. cbn [fst snd].
        change (files (set_contents _ (set_bucket _ w3))) with (files w2').
        rewrite Hfile. reflexivity.
    + cbn [fst snd].
      unfold mark_failure_and_reraise, set_local, get_local, gets, modify, raise,
        liftW, bind. cbn [fst snd].
      rewrite (Hsave (with_task_status FAILURE c) w2 Hdb1 eq_refl eq_refl).
      reflexivity.
  - unfold raise at 1. cbn [fst snd].
    unfold mark_failure_and_reraise, set_local, get_local, gets, modify, raise,
      liftW, bind. cbn [fst snd].
    rewrite (Hsave (with_task_status FAILURE c) w1 Hdb1 eq_refl eq_refl).
    reflexivity.
Qed.

(** X10. Once the audio job has found its row and the row's project, it ends
    in a status write. When it returns, the MP3 the speech engine made of
    the script is in the bucket under
    [generated/<project>/<row>_podcast.mp3], the row is written back with
    status success and the URL of that object, and the local MP3 is gone.
    When it raises (no script, a failure of the speech engine or of the
    upload), the row is written back with status failure and its URL as
    it was. In neither case is the row left pending. *)
Theorem generate_audio_task_terminal (E : env) (i : nat) (options : dict)
    (w : world) (c : GeneratedContent) (p : Project) :
  table_ok (contents w) ->
  fst (objects_get i w) = Ok c ->
  fst (get_project (project_id c) w) = Ok p ->
  let out := generate_audio_task E i options w in
  let key := "generated/" +:+ str_nat (pid p) +:+ "/" +:+ str_nat i
             +:+ "_podcast.mp3" in
  match fst out with
  | Ok _ =>
      content_row (snd out) i
      = Some (with_task_status SUCCESS (with_s3_url (Some (public_url E key)) c))
      /\ (exists mp3,
             edge_tts_save E (dict_get_none options "script_text") (select_voice options)
             = Ok mp3
             /\ bucket (snd out) !! key = Some mp3)
      /\ files (snd out) !! podcast_path = None
  | Raise _ =>
      content_row (snd out) i = Some (with_task_status FAILURE c)
  end
  /\ (exists r, content_row (snd out) i = Some r /\ task_status r <> PENDING).
Proof.
  intros Hok Hget Hproj out key.
  pose proof (generate_audio_task_run E i options w c p Hok Hget Hproj) as Hrun.
  destruct (objects_get_Ok _ _ _ Hget) as (_ & Hfil & Hid & _).
  cbv zeta in Hrun. rewrite Hid in Hrun. fold key in Hrun.
  assert (Hdb1 : db (snd (delete_old_object E c w)) = db w)
    by apply db_delete_old_object.
  assert (Hc1 : contents (snd (delete_old_object E c w)) = contents w)
    by (injection Hdb1; auto).
  set (w1 := snd (delete_old_object E c w)) in *. clearbody w1.
  assert (Hrow : forall r w', gc_id r = i -> contents w' = contents w ->
             content_row (set_contents (replace_row r) w') i = Some r).
  { intros r w' Hr Hw'. rewrite <- Hr. apply (content_row_replace r c).
    rewrite Hr, Hw'. exact Hfil. }
  unfold out. rewrite Hrun. clear Hrun.
  destruct (truthy (dict_get_none options "script_text")).
  - destruct (edge_tts_save E _ _) as [mp3 | e] eqn:Htts.
    + destruct (s3_upload_fault E key) as [e |]; cbn [fst snd].
      * split; [apply Hrow; [exact Hid | exact Hc1] |].
        eexists. split; [apply Hrow; [exact Hid | exact Hc1] | discriminate].
      * assert (Hr : content_row
                       (set_files (delete podcast_path)
                          (set_contents
                             (replace_row
                                (with_task_status SUCCESS
                                   (with_s3_url (Some (public_url E key)) c)))
                             (set_bucket (fun m => <[key := mp3]> m)
                                (set_trace (fun t => (t ++ [EvS3Upload key])%list)
                                   (set_files (fun m => <[podcast_path := mp3]> m)
                                      (set_trace
                                         (fun t =>
                                            (t ++ [EvSpeech (select_voice options)])%list)
                                         w1)))))) i
                     = Some (with_task_status SUCCESS
                               (with_s3_url (Some (public_url E key)) c))).
        { apply (Hrow (with_task_status SUCCESS
                         (with_s3_url (Some (public_url E key)) c))
                   (set_bucket (fun m => <[key := mp3]> m)
                      (set_trace (fun t => (t ++ [EvS3Upload key])%list)
                         (set_files (fun m => <[podcast_path := mp3]> m)
                            (set_trace
                               (fun t => (t ++ [EvSpeech (select_voice options)])%list)
                               w1)))));
            [exact Hid | exact Hc1]. }
        split; [| eexists; split; [exact Hr | discriminate]].
        split; [exact Hr |].
        split; [exists mp3; split; [reflexivity | apply lookup_insert_eq] |].
        apply lookup_delete_eq.
    + cbn [fst snd].
      split; [apply Hrow; [exact Hid | exact Hc1] |].
      eexists. split; [apply Hrow; [exact Hid | exact Hc1] | discriminate].
  - cbn [fst snd].
    split; [apply Hrow; [exact Hid | exact Hc1] |].
    eexists. split; [apply Hrow; [exact Hid | exact Hc1] | discriminate].
Qed.

Lemma table_ok_audio_requested : table_ok (contents audio_requested_world).
Proof. split; apply (bool_decide_unpack _); vm_compute; exact I. Qed.

Lemma generate_audio_task_terminal_witness :
  content_row (snd (generate_audio_task calm_env 1 (audio_options "Welcome.")
                      audio_requested_world)) 1
  = Some (with_task_status SUCCESS
            (with_s3_url
               (Some (public_url calm_env "generated/1/1_podcast.mp3")) podcast_row))
  /\ content_row (snd (generate_audio_task upload_down_env 1 (audio_options "Welcome.")
                         audio_requested_world)) 1
     = Some (with_task_status FAILURE podcast_row).
Proof.
  split.
  - pose proof (generate_audio_task_terminal calm_env 1 (audio_options "Welcome.")
                  audio_requested_world podcast_row example_project
                  table_ok_audio_requested eq_refl eq_refl) as [H _].
    assert (Hfst : fst (generate_audio_task calm_env 1 (audio_options "Welcome.")
                          audio_requested_world) = Ok "Audio task completed.")
      by (vm_compute; reflexivity).
    cbv zeta in H. rewrite Hfst in H. exact (proj1 H).
  - pose proof (generate_audio_task_terminal upload_down_env 1 (audio_options "Welcome.")
                  audio_requested_world podcast_row example_project
                  table_ok_audio_requested eq_refl eq_refl) as [H _].
    assert (Hfst : fst (generate_audio_task upload_down_env 1 (audio_options "Welcome.")
                          audio_requested_world) = Raise (ServiceError "s3"))
      by (vm_compute; reflexivity).
    cbv zeta in H. rewrite Hfst in H. exact H.
Defined.

Lemma speech_emit (e : event) : is_speech_call e = false -> stable speech_calls (emit e).
Proof.
  intros He w. unfold speech_calls, emit, modify. simpl.
  rewrite List.filter_app. simpl. rewrite He. apply app_nil_r.
Qed.

Lemma speech_delete_old_object (E : env) (c : GeneratedContent) :
  stable speech_calls (delete_old_object E c).
Proof.
  unfold delete_old_object, s3_delete_object. stable_auto.
  apply speech_emit. reflexivity.
Qed.

Lemma files_delete_old_object (E : env) (c : GeneratedContent) :
  stable files (delete_old_object E c).
Proof. unfold delete_old_object, s3_delete_object, emit. stable_auto. Qed.

(** X11. An audio job whose options hold no script, or an empty one, does not
    call the speech engine: it raises "Script text cannot be empty.", the
    row is written back with status failure, and no file was written. *)
Theorem audio_task_without_script (E : env) (i : nat) (options : dict)
    (w : world) (c : GeneratedContent) (p : Project) :
  table_ok (contents w) ->
  fst (objects_get i w) = Ok c ->
  fst (get_project (project_id c) w) = Ok p ->
  truthy (dict_get_none options "script_text") = false ->
  let out := generate_audio_task E i options w in
  fst out = Raise (ValueError "Script text cannot be empty.")
  /\ content_row (snd out) i = Some (with_task_status FAILURE c)
  /\ speech_calls (snd out) = speech_calls w
  /\ files (snd out) = files w.
Proof.
  intros Hok Hget Hproj Hscript out.
  pose proof (generate_audio_task_run E i options w c p Hok Hget Hproj) as Hrun.
  destruct (objects_get_Ok _ _ _ Hget) as (_ & Hfil & Hid & _).
  cbv zeta in Hrun. rewrite Hscript in Hrun.
  unfold out. rewrite Hrun. cbn [fst snd].
  split; [reflexivity |]. split; [| split].
  - rewrite <- Hid. apply (content_row_replace (with_task_status FAILURE c) c).
    simpl gc_id. rewrite Hid.
    assert (Hdb1 : db (snd (delete_old_object E c w)) = db w)
      by apply db_delete_old_object.
    injection Hdb1 as _ -> _. exact Hfil.
  - apply (speech_delete_old_object E c w).
  - apply (files_delete_old_object E c w).
Qed.

Lemma audio_task_without_script_witness :
  fst (generate_audio_task calm_env 1 ∅ audio_requested_world)
  = Raise (ValueError "Script text cannot be empty.")
  /\ content_row (snd (generate_audio_task calm_env 1 ∅ audio_requested_world)) 1
     = Some (with_task_status FAILURE podcast_row)
  /\ speech_calls (snd (generate_audio_task calm_env 1 ∅ audio_requested_world))
     = speech_calls audio_requested_world
  /\ files (snd (generate_audio_task calm_env 1 ∅ audio_requested_world))
     = files audio_requested_world.
Proof.
  apply (audio_task_without_script calm_env 1 ∅ audio_requested_world podcast_row
           example_project table_ok_audio_requested);
    vm_compute; reflexivity.
Defined.

(* ===================================================================== *)
(** * Handing a job to the worker *)
(* ===================================================================== *)

(** The three statements both generation handlers end with: the row is
    brought to pending, the task is handed to the broker, the task's
    identifier is saved on the row. *)
Lemma dispatch_accepted (E : env) (p : Project) (ct : ContentType)
    (mk : nat -> task) (resp : string -> nat -> Response) (w : world) :
  world_ok w -> p ∈ projects w ->
  let out :=
    (let* (content_record, created) := update_or_create p ct in
     let* task_id_ := delay E (mk (gc_id content_record)) in
     save (with_task_id (Some task_id_) content_record) >>
     ret (resp task_id_ (gc_id content_record))) w in
  let task_id_ := uuid4 E (length (queue w)) in
  exists r,
    fst out = Ok (resp task_id_ (gc_id r))
    /\ queue (snd out) = (queue w ++ [mk (gc_id r)])%list
    /\ trace (snd out) = (trace w ++ [EvDelay (mk (gc_id r))])%list
    /\ content_row (snd out) (gc_id r) = Some r
    /\ unique_key r = (pid p, ct)
    /\ task_status r = PENDING /\ s3_url r = None /\ task_id r = Some task_id_
    /\ profiles (snd out) = profiles w /\ bucket (snd out) = bucket w
    /\ files (snd out) = files w /\ projects (snd out) = projects w
    /\ ((exists r0, r0 ∈ contents w /\ unique_key r0 = (pid p, ct)
                    /\ gc_id r = gc_id r0
                    /\ contents (snd out) = replace_row r (contents w))
        \/ ((forall x, x ∈ contents w -> unique_key x <> (pid p, ct))
            /\ gc_id r = next_pk w
            /\ contents (snd out) = (contents w ++ [r])%list)).
Proof.
  intros [[Hids Hkeys] Hseq] Hp out task_id_. unfold out. clear out.
  destruct (filter (fun x => has_key (pid p, ct) x = true) (contents w))
    as [| r0 rest] eqn:Hfil.
  - (* no row yet: one is created *)
    assert (Hnone : forall x, x ∈ contents w -> unique_key x <> (pid p, ct)).
    { intros x Hx Hkx.
      apply (filter_nil_not_elem_of _ _ x Hfil); [apply has_key_true, Hkx | exact Hx]. }
    rewrite (run_bind_Ok _ _ _ _ _ (update_or_create_new p ct w Hseq Hp Hnone)).
    set (r := {| gc_id := next_pk w; project_id := pid p; content_type := ct;
                 s3_url := None; task_id := None; task_status := PENDING |}).
    set (w2 := set_contents (fun l => (l ++ [r])%list) (set_next_pk S w)).
    rewrite (run_bind_Ok _ _ _ _ _ (delay_run E (mk (gc_id r)) w2)).
    set (t := mk (gc_id r)).
    set (w3 := set_queue (fun q => (q ++ [t])%list)
                 (set_trace (fun tr => (tr ++ [EvDelay t])%list) w2)).
    set (r' := with_task_id (Some (uuid4 E (length (queue w2)))) r).
    assert (Hfresh : forall x, x ∈ contents w -> gc_id x <> gc_id r).
    { intros x Hx. unfold sequence_ok in Hseq. rewrite Forall_forall in Hseq.
      specialize (Hseq x Hx). simpl. lia. }
    assert (Hsave : save r' w3 = (Ok tt, set_contents (replace_row r') w3)).
    { apply (save_update r' r w3); [| | reflexivity].
      - apply (row_admissible_update r' r p w3); try reflexivity.
        + exact Hp.
        + simpl. apply elem_of_app. right. left.
        + simpl. rewrite map_app. simpl. apply NoDup_app.
          split; [exact Hkeys |].
          split; [| apply NoDup_singleton].
          intros k Hk Hk'. apply list_elem_of_singleton in Hk'. subst k.
          apply elem_of_map_inv in Hk as (x & Hkx & Hx).
          exact (Hnone x Hx Hkx).
      - simpl. apply elem_of_app. right. left. }
    rewrite (run_bind_Ok _ _ _ _ _ Hsave).
    exists r'. unfold ret. cbn [fst snd].
    assert (Hrows : contents (set_contents (replace_row r') w3) = (contents w ++ [r'])%list).
    { change (replace_row r' (contents w ++ [r])%list = (contents w ++ [r'])%list).
      exact (replace_row_snoc r r' (contents w) eq_refl Hfresh). }
    split; [reflexivity |]. split; [reflexivity |]. split; [reflexivity |].
    split.
    { unfold content_row. rewrite Hrows.
      rewrite (filter_pk_snoc_fresh r' (contents w)); [reflexivity | exact Hfresh]. }
    split; [reflexivity |]. split; [reflexivity |]. split; [reflexivity |].
    split; [reflexivity |]. split; [reflexivity |]. split; [reflexivity |].
    split; [reflexivity |]. split; [reflexivity |].
    right. split; [exact Hnone |]. split; [reflexivity | exact Hrows].
  - (* a row exists: it is updated in place *)
    assert (Hr0 : r0 ∈ filter (fun x => has_key (pid p, ct) x = true) (contents w))
      by (rewrite Hfil; left).
    apply list_elem_of_filter in Hr0 as [Hk0 Hr0]. apply has_key_true in Hk0.
    rewrite (run_bind_Ok _ _ _ _ _ (update_or_create_existing p ct w r0 Hkeys Hp Hr0 Hk0)).
    set (r := with_s3_url None (with_task_status PENDING r0)).
    set (w2 := set_contents (replace_row r) w).
    rewrite (run_bind_Ok _ _ _ _ _ (delay_run E (mk (gc_id r)) w2)).
    set (t := mk (gc_id r)).
    set (w3 := set_queue (fun q => (q ++ [t])%list)
                 (set_trace (fun tr => (tr ++ [EvDelay t])%list) w2)).
    set (r' := with_task_id (Some (uuid4 E (length (queue w2)))) r).
    assert (Hok2 : table_ok (contents w2)).
    { simpl. apply table_ok_replace_row; [split; assumption |].
      intros x Hx. destruct (decide (unique_key x = unique_key r0)) as [Heq | Hne].
      - left. rewrite (unique_key_inj (contents w) x r0 Hkeys Hx Hr0 Heq). reflexivity.
      - right. exact Hne. }
    assert (Hr2 : r ∈ contents w2).
    { simpl. unfold replace_row.
      apply (elem_of_map (fun x => if has_pk (gc_id r) x then r else x)
               (contents w) r0) in Hr0.
      simpl in Hr0. unfold has_pk at 1 in Hr0. rewrite Nat.eqb_refl in Hr0.
      exact Hr0. }
    assert (Hsave : save r' w3 = (Ok tt, set_contents (replace_row r') w3)).
    { apply (save_update r' r w3); [| exact Hr2 | reflexivity].
      apply (row_admissible_update r' r p w3); try reflexivity.
      - exact Hp.
      - simpl. symmetry. exact (f_equal fst Hk0).
      - exact Hr2.
      - exact (proj2 Hok2). }
    rewrite (run_bind_Ok _ _ _ _ _ Hsave).
    exists r'. unfold ret. cbn [fst snd].
    assert (Hrows : contents (set_contents (replace_row r') w3)
                    = replace_row r' (contents w)).
    { simpl. apply replace_row_idem. reflexivity. }
    split; [reflexivity |]. split; [reflexivity |]. split; [reflexivity |].
    split.
    { unfold content_row. rewrite Hrows.
      rewrite filter_replace_row.
      rewrite (filter_unique gc_id _ (gc_id r') (contents w) r0
                 (fun x => has_pk_true (gc_id r') x) Hids Hr0 eq_refl).
      reflexivity. }
    split; [exact Hk0 |]. split; [reflexivity |]. split; [reflexivity |].
    split; [reflexivity |]. split; [reflexivity |]. split; [reflexivity |].
    split; [reflexivity |]. split; [reflexivity |].
    left. exists r0. auto.
Qed.

Lemma str_Z_nonempty (n : Z) : str_Z n <> EmptyString.
Proof.
  unfold str_Z, NilZero.string_of_int.
  destruct (Z.to_int n) as [d | d]; [| discriminate].
  unfold NilZero.string_of_uint. destruct d; discriminate.
Qed.

Lemma lstrip_nonblank (s : string) :
  all_space s = false ->
  exists ch s', lstrip s = String ch s' /\ py_isspace ch = false.
Proof.
  induction s as [| ch s IH]; simpl; [discriminate |].
  destruct (py_isspace ch) eqn:Hc; simpl; [exact IH |].
  intros _. exists ch, s. auto.
Qed.

Lemma rstrip_nonblank (ch : ascii) (s : string) :
  py_isspace ch = false -> rstrip (String ch s) <> EmptyString.
Proof.
  intros Hc. simpl. destruct (rstrip s); [rewrite Hc |]; discriminate.
Qed.

Lemma CharField_Ok (name : string) (data : dict) (v : pyvalue) :
  CharField name data = Ok v -> exists s, v = VStr s /\ s <> EmptyString.
Proof.
  unfold CharField. intros H.
  destruct (data !! name) as [[| b | n | s] |]; try discriminate.
  - injection H as <-. exists (str_Z n). split; [reflexivity | apply str_Z_nonempty].
  - destruct (strip_is_empty s) eqn:Hs; [discriminate |]. injection H as <-.
    exists (rstrip (lstrip s)). split; [reflexivity |].
    destruct (lstrip_nonblank s Hs) as (ch & s' & -> & Hc).
    apply rstrip_nonblank. exact Hc.
Qed.

(** X12. An audio request that passes validation is accepted whatever the
    balance of the owner: the handler answers 202 with the key of the
    podcast row and the identifier of the task, the row is pending with a
    null URL, one [generate_audio_task] for that row is handed to the
    broker, and the balances are as they were. The script the task is
    given is never empty, so that task will not stop at its script check. *)
Theorem podcast_audio_request_accepted (E : env) (request_user pk : nat)
    (request_data vd : dict) (w : world) (p : Project) :
  world_ok w ->
  fst (get_object request_user pk w) = Ok p ->
  PodcastAudioGenerateSerializer E request_data = Ok vd ->
  let out := generate_podcast_audio E request_user pk request_data w in
  let task_id_ := uuid4 E (length (queue w)) in
  exists r,
    fst out = Ok (accepted_response "Podcast audio generation started." task_id_ (gc_id r))
    /\ queue (snd out) = (queue w ++ [GenerateAudioTask (gc_id r) vd])%list
    /\ content_row (snd out) (gc_id r) = Some r
    /\ unique_key r = (pid p, PODCAST)
    /\ task_status r = PENDING /\ s3_url r = None /\ task_id r = Some task_id_
    /\ profiles (snd out) = profiles w
    /\ truthy (dict_get_none vd "script_text") = true.
Proof.
  intros Hok Hobj Hvd out task_id_.
  destruct (get_object_run _ _ _ _ Hobj) as (Hrun & Hp & _ & _).
  assert (Hstart : out
                   = (let* (content_record, created) := update_or_create p PODCAST in
                      let* task_id_ :=
                        delay E ((fun i => GenerateAudioTask i vd) (gc_id content_record)) in
                      save (with_task_id (Some task_id_) content_record) >>
                      ret (accepted_response "Podcast audio generation started."
                             task_id_ (gc_id content_record))) w).
  { unfold out, generate_podcast_audio.
    rewrite (run_bind_Ok _ _ _ _ _ Hrun).
    unfold of_result. unfold bind at 1. rewrite Hvd. reflexivity. }
  destruct (dispatch_accepted E p PODCAST (fun i => GenerateAudioTask i vd)
              (accepted_response "Podcast audio generation started.") w Hok Hp)
    as (r & Hfst & Hq & _ & Hrow & Hkey & Hst & Hurl & Htid & Hprof & _).
  rewrite <- Hstart in Hfst, Hq, Hrow, Hprof.
  exists r. split; [exact Hfst |]. split; [exact Hq |]. split; [exact Hrow |].
  split; [exact Hkey |]. split; [exact Hst |]. split; [exact Hurl |].
  split; [exact Htid |]. split; [exact Hprof |].
  unfold PodcastAudioGenerateSerializer in Hvd.
  destruct (ChoiceField _ None "content_type" request_data) as [ct | e1];
    [| discriminate].
  destruct (CharField "script_text" request_data) as [t | e2] eqn:H2;
    [| discriminate].
  destruct (ChoiceField voice_styles _ "voice_style" request_data) as [s | e3];
    [| discriminate].
  destruct (ChoiceField voice_genders _ "voice_gender" request_data) as [g | e4];
    [| discriminate].
  destruct (ChoiceField voice_accents _ "voice_accent" request_data) as [a | e5];
    [| discriminate].
  injection Hvd as <-.
  apply CharField_Ok in H2 as (script & -> & Hne).
  unfold dict_get_none, dict_get.
  rewrite lookup_insert_ne by discriminate. rewrite lookup_insert_eq. simpl.
  apply negb_true_iff. apply String.eqb_neq. exact Hne.
Qed.

Lemma podcast_audio_request_accepted_witness :
  exists r,
    fst (generate_podcast_audio calm_env 7 1 (audio_request "Welcome.") (example_world 0))
    = Ok (accepted_response "Podcast audio generation started."
            (uuid4 calm_env (length (queue (example_world 0)))) (gc_id r))
    /\ queue (snd (generate_podcast_audio calm_env 7 1 (audio_request "Welcome.")
                     (example_world 0)))
       = (queue (example_world 0)
          ++ [GenerateAudioTask (gc_id r) (audio_options "Welcome.")])%list
    /\ content_row (snd (generate_podcast_audio calm_env 7 1 (audio_request "Welcome.")
                           (example_world 0))) (gc_id r) = Some r
    /\ unique_key r = (pid example_project, PODCAST)
    /\ task_status r = PENDING /\ s3_url r = None
    /\ task_id r = Some (uuid4 calm_env (length (queue (example_world 0))))
    /\ profiles (snd (generate_podcast_audio calm_env 7 1 (audio_request "Welcome.")
                        (example_world 0))) = profiles (example_world 0)
    /\ truthy (dict_get_none (audio_options "Welcome.") "script_text") = true.
Proof.
  apply (podcast_audio_request_accepted calm_env 7 1 (audio_request "Welcome.")
           (audio_options "Welcome.") (example_world 0) example_project).
  - split; [split |]; apply (bool_decide_unpack _); vm_compute; exact I.
  - vm_compute. reflexivity.
  - vm_compute. reflexivity.
Defined.

(* ===================================================================== *)
(** * Deleting a project *)
(* ===================================================================== *)

Lemma get_object_absent (request_user pk : nat) (w : world) :
  (forall p, p ∈ projects w -> pid p = pk -> user p <> request_user) ->
  get_object request_user pk w = (Raise Http404, w).
Proof.
  intros H. unfold get_object.
  rewrite filter_none; [reflexivity |].
  intros p Hp [Hu Hpk]. exact (H p Hp Hpk Hu).
Qed.

Lemma destroy_frame (E : env) (request_user pk : nat) (w : world) (p : Project) :
  fst (get_object request_user pk w) = Ok p ->
  let out := destroy E request_user pk w in
  fst out = Ok {| status_code := 204; data := ∅ |}
  /\ contents (snd out) = filter (fun r => project_id r <> pk) (contents w)
  /\ projects (snd out) = filter (fun q => pid q <> pk) (projects w)
  /\ fst (get_object request_user pk (snd out)) = Raise Http404
  /\ (forall key, key <> s3_file_key p -> bucket (snd out) !! key = bucket w !! key)
  /\ (s3_file_key p <> EmptyString -> s3_delete_fault E (s3_file_key p) = None ->
      bucket (snd out) !! s3_file_key p = None)
  /\ profiles (snd out) = profiles w /\ queue (snd out) = queue w.
Proof.
  intros Hobj out.
  destruct (get_object_run _ _ _ _ Hobj) as (Hrun & Hp & Hu & Hpk).
  unfold out, destroy. rewrite (run_bind_Ok _ _ _ _ _ Hrun).
  assert (Hgone : forall w',
             projects w' = filter (fun q => pid q <> pk) (projects w) ->
             fst (get_object request_user pk w') = Raise Http404).
  { intros w' Hw'. rewrite get_object_absent; [reflexivity |].
    rewrite Hw'. intros q Hq Hqpk. apply list_elem_of_filter in Hq as [Hne _].
    contradiction. }
  unfold delete_project, s3_delete_object, try_except, bind, emit, modify, fault,
    ret, raise.
  rewrite Hpk.
  destruct (String.eqb (s3_file_key p) EmptyString) eqn:Hkey; cbn [negb fst snd].
  - apply String.eqb_eq in Hkey.
    split; [reflexivity |]. split; [reflexivity |]. split; [reflexivity |].
    split; [apply Hgone; reflexivity |].
    split; [reflexivity |]. split; [intros Hne; contradiction | auto].
  - destruct (s3_delete_fault E (s3_file_key p)) as [e |]; cbn [fst snd].
    + split; [reflexivity |]. split; [reflexivity |]. split; [reflexivity |].
      split; [apply Hgone; reflexivity |].
      split; [reflexivity |]. split; [intros _ Hf; discriminate | auto].
    + split; [reflexivity |]. split; [reflexivity |]. split; [reflexivity |].
      split; [apply Hgone; reflexivity |].
      split; [intros key Hne; simpl; apply lookup_delete_ne; congruence |].
      split; [intros _ _; simpl; apply lookup_delete_eq | auto].
Qed.

(** X13. Deleting a project the caller owns answers 204, removes the project
    and every content row of it, and leaves the rows of all other
    projects as they were, in their order; afterwards the project is not
    found. This holds whether or not the delete call to the object store
    succeeds. In the bucket only the uploaded document is deleted: every
    other object, the generated artifacts of the project among them,
    stays. *)
Theorem destroy_cascades (E : env) (request_user pk : nat) (w : world) (p : Project) :
  fst (get_object request_user pk w) = Ok p ->
  let out := destroy E request_user pk w in
  fst out = Ok {| status_code := 204; data := ∅ |}
  /\ contents (snd out) = filter (fun r => project_id r <> pk) (contents w)
  /\ projects (snd out) = filter (fun q => pid q <> pk) (projects w)
  /\ fst (get_object request_user pk (snd out)) = Raise Http404
  /\ (forall key, key <> s3_file_key p -> bucket (snd out) !! key = bucket w !! key)
  /\ (s3_file_key p <> EmptyString -> s3_delete_fault E (s3_file_key p) = None ->
      bucket (snd out) !! s3_file_key p = None)
  /\ profiles (snd out) = profiles w /\ queue (snd out) = queue w.
Proof. apply destroy_frame. Qed.

Lemma destroy_cascades_witness :
  contents (snd (destroy delete_down_env 7 1 shared_world))
  = filter (fun r => project_id r <> 1) (contents shared_world)
  /\ bucket (snd (destroy calm_env 7 1 shared_world)) !! "generated/1/1_presentation.pptx"
     = Some "PK...".
Proof.
  split.
  - apply (destroy_cascades delete_down_env 7 1 shared_world example_project).
    vm_compute. reflexivity.
  - destruct (destroy_cascades calm_env 7 1 shared_world example_project)
      as (_ & _ & _ & _ & Hb & _); [vm_compute; reflexivity |].
    rewrite (Hb "generated/1/1_presentation.pptx") by discriminate.
    vm_compute. reflexivity.
Defined.

(* ===================================================================== *)
(** * Projects of other users *)
(* ===================================================================== *)

(** X14. Every handler that takes a project key looks the project up among
    those of the caller: for a key that is not the caller's (another
    user's project, or none at all) each of them answers 404 and leaves
    the world exactly as it was: no profile is created, no row written,
    no task queued, no external call made. *)
Theorem foreign_project_not_found (E : env) (request_user pk : nat) (w : world)
    (request_data : dict) :
  (forall p, p ∈ projects w -> pid p = pk -> user p <> request_user) ->
  generate_content E request_user pk request_data w = (Raise Http404, w)
  /\ generate_podcast_script E request_user pk request_data w = (Raise Http404, w)
  /\ generate_podcast_audio E request_user pk request_data w = (Raise Http404, w)
  /\ destroy E request_user pk w = (Raise Http404, w).
Proof.
  intros H. pose proof (get_object_absent request_user pk w H) as Hget.
  unfold generate_content, generate_podcast_script, generate_podcast_audio, destroy.
  rewrite !(run_bind_Raise _ _ _ _ _ Hget). auto.
Qed.

Lemma foreign_project_not_found_witness :
  generate_content calm_env 7 2 (presentation_request 8) shared_world
  = (Raise Http404, shared_world)
  /\ generate_podcast_script calm_env 7 2 (presentation_request 8) shared_world
     = (Raise Http404, shared_world)
  /\ generate_podcast_audio calm_env 7 2 (presentation_request 8) shared_world
     = (Raise Http404, shared_world)
  /\ destroy calm_env 7 2 shared_world = (Raise Http404, shared_world).
Proof.
  apply (foreign_project_not_found calm_env 7 2 shared_world (presentation_request 8)).
  intros p Hp Hpid.
  apply list_elem_of_In in Hp. vm_compute in Hp.
  destruct Hp as [<- | [<- | []]]; [discriminate Hpid | discriminate].
Defined.

(** X15. The polling endpoint reads through the caller's queryset: a row it
    returns belongs to a project of the caller, and the key of a row
    whose project belongs to somebody else is answered with 404. *)
Theorem content_retrieve_own_rows (request_user pk : nat) (w : world) :
  match fst (content_retrieve request_user pk w) with
  | Ok r =>
      r ∈ contents w /\ gc_id r = pk
      /\ exists p, p ∈ projects w /\ pid p = project_id r /\ user p = request_user
  | Raise e =>
      e = Http404
      /\ forall r p, r ∈ contents w -> gc_id r = pk ->
                     p ∈ projects w -> pid p = project_id r -> user p <> request_user
  end
  /\ snd (content_retrieve request_user pk w) = w.
Proof.
  unfold content_retrieve, content_queryset.
  destruct (filter _ (filter _ (contents w))) as [| r l] eqn:Hf; cbn [fst snd].
  - split; [| reflexivity]. split; [reflexivity |].
    intros r p Hr Hid Hp Hpid Hu.
    apply (filter_nil_not_elem_of _ _ r Hf); [exact Hid |].
    apply list_elem_of_filter. split; [| exact Hr].
    apply Exists_exists. exists p. auto.
  - split; [| reflexivity].
    assert (Hin : r ∈ filter (fun r => gc_id r = pk)
                        (filter (fun r => Exists (fun p => pid p = project_id r
                                                           /\ user p = request_user)
                                            (projects w))
                           (contents w)))
      by (rewrite Hf; left).
    apply list_elem_of_filter in Hin as [Hid Hin].
    apply list_elem_of_filter in Hin as [Hex Hin].
    apply Exists_exists in Hex as (p & Hp & Hpid & Hu).
    split; [exact Hin |]. split; [exact Hid |]. exists p. auto.
Qed.

(* ===================================================================== *)
(** * The handlers leave the work to the worker *)
(* ===================================================================== *)

Section StableIo.
Context (E : env).

Lemma io_get_object u pk : stable io_state (get_object u pk).
Proof. intros w. unfold get_object. destruct (filter _ (projects w)); reflexivity. Qed.

Lemma io_get_or_create u : stable io_state (get_or_create E u).
Proof. unfold get_or_create. stable_auto. Qed.

Lemma io_save r : stable io_state (save r).
Proof.
  intros w. unfold save.
  destruct (row_admissible r w); [| reflexivity].
  destruct (existsb (has_pk (gc_id r)) (contents w)); reflexivity.
Qed.

Lemma io_update_or_create p ct : stable io_state (update_or_create p ct).
Proof. unfold update_or_create. stable_auto; apply io_save. Qed.

Lemma io_delay t : stable io_state (delay E t).
Proof.
  intros w. unfold delay, io_state, io_calls, bind, gets, emit, modify, ret. simpl.
  rewrite List.filter_app. simpl. rewrite app_nil_r. reflexivity.
Qed.
End StableIo.

(** X16. Both generation handlers leave all the work to the worker: whatever
    the request and whatever they answer, they make no call to the object
    store, the language model or the speech engine, and write neither the
    bucket nor a local file. The hand-over of the task is their only
    external call. *)
Theorem generation_handlers_defer_io (E : env) (request_user pk : nat)
    (request_data : dict) (w : world) :
  io_state (snd (generate_content E request_user pk request_data w)) = io_state w
  /\ io_state (snd (generate_podcast_audio E request_user pk request_data w))
     = io_state w.
Proof.
  split.
  - revert w. change (stable io_state (generate_content E request_user pk request_data)).
    unfold generate_content.
    apply stable_bind; [apply io_get_object | intros p].
    apply stable_bind; [apply io_get_or_create | intros [b created]].
    destruct (below_minimum_balance b); [apply stable_ret |].
    destruct (serializer_map _) as [[ct ser] |]; [| apply stable_ret].
    apply stable_bind; [apply stable_of_result | intros vd].
    apply stable_bind; [apply io_update_or_create | intros [r created']].
    apply stable_bind; [apply io_delay | intros tid].
    apply stable_bind; [apply io_save | intros _]. apply stable_ret.
  - revert w.
    change (stable io_state (generate_podcast_audio E request_user pk request_data)).
    unfold generate_podcast_audio.
    apply stable_bind; [apply io_get_object | intros p].
    apply stable_bind; [apply stable_of_result | intros vd].
    apply stable_bind; [apply io_update_or_create | intros [r created']].
    apply stable_bind; [apply io_delay | intros tid].
    apply stable_bind; [apply io_save | intros _]. apply stable_ret.
Qed.

(* ===================================================================== *)
(** * Referential integrity *)
(* ===================================================================== *)

Lemma references_ok_db (w w' : world) :
  db w' = db w -> references_ok w -> references_ok w'.
Proof.
  intros H. injection H as Hp Hc _. unfold references_ok. rewrite Hp, Hc. auto.
Qed.

Lemma row_admissible_reference (r : GeneratedContent) (w : world) :
  row_admissible r w = true -> Exists (fun p => pid p = project_id r) (projects w).
Proof.
  unfold row_admissible. intros H. apply andb_true_iff in H as [H _].
  apply existsb_exists in H as (p & Hp & Heq). apply Nat.eqb_eq in Heq.
  apply Exists_exists. exists p. split; [apply list_elem_of_In, Hp | exact Heq].
Qed.

Lemma save_references_ok (r : GeneratedContent) : preserves references_ok (save r).
Proof.
  intros w Hok. unfold save.
  destruct (row_admissible r w) eqn:Hadm; [| exact Hok].
  apply row_admissible_reference in Hadm.
  destruct (existsb (has_pk (gc_id r)) (contents w)); unfold references_ok in *; simpl.
  - apply Forall_forall. intros x Hx.
    apply elem_of_replace_row in Hx as [-> | Hx]; [exact Hadm |].
    rewrite Forall_forall in Hok. exact (Hok x Hx).
  - apply Forall_app. split; [exact Hok |]. apply Forall_singleton. exact Hadm.
Qed.

Lemma preserves_references_db {A} (m : M world A) :
  stable db m -> preserves references_ok m.
Proof. intros Hm w H. exact (references_ok_db w _ (Hm w) H). Qed.

Lemma set_next_pk_references_ok (f : nat -> nat) :
  preserves references_ok (modify (set_next_pk f)).
Proof. intros w H. exact H. Qed.

Lemma delete_project_references_ok (p : Project) :
  preserves references_ok (delete_project p).
Proof.
  intros w Hok. unfold delete_project, bind, modify, references_ok in *. simpl.
  rewrite Forall_forall in *. intros r Hr.
  apply list_elem_of_filter in Hr as [Hne Hr].
  specialize (Hok r Hr). apply Exists_exists in Hok as (q & Hq & Hpid).
  apply Exists_exists. exists q. split; [| exact Hpid].
  apply list_elem_of_filter. split; [congruence | exact Hq].
Qed.

Ltac references_step :=
  first
    [ apply preserves_ret | apply preserves_raise | apply save_references_ok
    | apply set_next_pk_references_ok | apply delete_project_references_ok
    | apply (preserves_set_local references_ok)
    | apply (preserves_get_local references_ok)
    | apply preserves_references_db; db_solve
    | apply (preserves_liftW references_ok)
    | apply (preserves_with_local references_ok)
    | apply preserves_bind; [| intros]
    | apply preserves_try_except; [| intros]
    | match goal with
      | |- preserves _ (match ?x with _ => _ end) => destruct x
      | |- preserves _ (if ?b then _ else _) => destruct b
      end ].

Section ReferencesInvariant.
Context (E : env).

Lemma update_or_create_references_ok p ct :
  preserves references_ok (update_or_create p ct).
Proof. unfold update_or_create. repeat references_step. Qed.

Lemma mark_failure_references_ok {A} e :
  preserves (fun s : world * GeneratedContent => references_ok (fst s))
    (@mark_failure_and_reraise A e).
Proof. unfold mark_failure_and_reraise. repeat references_step. Qed.

Lemma generate_content_task_references_ok i options :
  preserves references_ok (generate_content_task E i options).
Proof.
  unfold generate_content_task.
  repeat first [apply mark_failure_references_ok | references_step].
Qed.

Lemma generate_audio_task_references_ok i options :
  preserves references_ok (generate_audio_task E i options).
Proof.
  unfold generate_audio_task.
  repeat first [apply mark_failure_references_ok | references_step].
Qed.

Lemma generate_content_references_ok u pk request_data :
  preserves references_ok (generate_content E u pk request_data).
Proof.
  unfold generate_content.
  repeat first [apply update_or_create_references_ok | references_step].
Qed.

Lemma generate_podcast_audio_references_ok u pk request_data :
  preserves references_ok (generate_podcast_audio E u pk request_data).
Proof.
  unfold generate_podcast_audio.
  repeat first [apply update_or_create_references_ok | references_step].
Qed.

Lemma destroy_references_ok u pk : preserves references_ok (destroy E u pk).
Proof. unfold destroy. repeat references_step. Qed.
End ReferencesInvariant.

Lemma step_references_ok (w : world) (a : env * action) :
  references_ok w -> references_ok (step w a).
Proof.
  destruct a as [E [u pk d | u pk d | u pk | [i o | i o]]]; simpl.
  - apply generate_content_references_ok.
  - apply generate_podcast_audio_references_ok.
  - apply destroy_references_ok.
  - apply generate_content_task_references_ok.
  - apply generate_audio_task_references_ok.
Qed.

Lemma run_references_ok (l : list (env * action)) :
  forall w, references_ok w -> references_ok (run w l).
Proof.
  induction l as [| a l IH]; intros w H; [exact H |].
  simpl. apply IH, step_references_ok, H.
Qed.

(** X17. No sequence of requests and task runs leaves a content row without
    its project: a project is deleted together with its rows, and a row
    is only written for a project that exists. So a task that finds its
    row finds the row's project. *)
Theorem references_ok_reachable (w : world) (actions : list (env * action)) :
  references_ok w ->
  references_ok (run w actions)
  /\ forall i c, fst (objects_get i (run w actions)) = Ok c ->
       exists p, fst (get_project (project_id c) (run w actions)) = Ok p
                 /\ pid p = project_id c.
Proof.
  intros Hok. pose proof (run_references_ok actions w Hok) as Hrun.
  split; [exact Hrun |].
  intros i c Hget. destruct (objects_get_Ok _ _ _ Hget) as (_ & _ & _ & Hin).
  unfold references_ok in Hrun. rewrite Forall_forall in Hrun.
  specialize (Hrun c Hin). apply Exists_exists in Hrun as (q & Hq & Hpid).
  unfold get_project.
  destruct (filter (fun p => pid p = project_id c) (projects (run w actions)))
    as [| p l] eqn:Hf.
  - exfalso. exact (filter_nil_not_elem_of _ _ q Hf Hpid Hq).
  - exists p. split; [reflexivity |].
    assert (Hp : p ∈ filter (fun p => pid p = project_id c) (projects (run w actions)))
      by (rewrite Hf; left).
    apply list_elem_of_filter in Hp as [Hp _]. exact Hp.
Qed.

Lemma references_ok_reachable_witness :
  references_ok
    (run (example_world 50000)
       [(calm_env, GenerateContent 7 1 (presentation_request 8));
        (calm_env, Destroy 7 1);
        (calm_env, RunTask (GenerateContentTask 1 (presentation_request 8)))])
  /\ contents
       (run (example_world 50000)
          [(calm_env, GenerateContent 7 1 (presentation_request 8));
           (calm_env, Destroy 7 1);
           (calm_env, RunTask (GenerateContentTask 1 (presentation_request 8)))])
     = [].
Proof.
  split; [| vm_compute; reflexivity].
  apply (references_ok_reachable (example_world 50000)).
  apply Forall_nil. exact I.
Defined.

(* ===================================================================== *)
(** * A task writes its own row and no other *)
(* ===================================================================== *)

Lemma filter_pk_replace_row_other (r : GeneratedContent) (j : nat)
    (rows : list GeneratedContent) :
  j <> gc_id r ->
  filter (fun x => has_pk j x = true) (replace_row r rows)
  = filter (fun x => has_pk j x = true) rows.
Proof.
  intros Hj. induction rows as [| x rows IH]; [reflexivity |].
  unfold replace_row in *. simpl. rewrite !filter_cons, IH.
  destruct (has_pk (gc_id r) x) eqn:Hx; [| reflexivity].
  apply has_pk_true in Hx.
  assert (H1 : has_pk j r = false)
    by (unfold has_pk; apply Nat.eqb_neq; congruence).
  assert (H2 : has_pk j x = false)
    by (unfold has_pk; apply Nat.eqb_neq; congruence).
  rewrite H1, H2. reflexivity.
Qed.

Section LocalInvariant.
Context (E : env) (i : nat) (P0 P : world -> Prop).
Hypothesis P0_db : forall w w', db w' = db w -> P0 w -> P0 w'.
Hypothesis P_db : forall w w', db w' = db w -> P w -> P w'.
Hypothesis P_P0 : forall w, P w -> P0 w.
Hypothesis P_start : forall w c, c ∈ contents w -> gc_id c = i -> P0 w -> P w.
Hypothesis P_save : forall r w, gc_id r = i -> P w -> P (snd (save r w)).

Local Abbreviation PL := (fun s : world * GeneratedContent => P (fst s) /\ gc_id (snd s) = i).

Lemma local_liftW {A} (m : M world A) :
  stable db m -> triple PL (liftW m) (fun _ => PL) (fun _ => PL).
Proof.
  intros Hm [w l] [Hw Hl]. unfold liftW. simpl in *. specialize (Hm w).
  destruct (m w) as [[a | e] w']; simpl in *;
    (split; [exact (P_db w w' Hm Hw) | exact Hl]).
Qed.

Lemma local_set_local (f : GeneratedContent -> GeneratedContent) :
  (forall l, gc_id (f l) = gc_id l) ->
  triple PL (set_local f) (fun _ => PL) (fun _ => PL).
Proof.
  intros Hf [w l] [Hw Hl]. unfold set_local, modify. simpl in *.
  split; [exact Hw | rewrite Hf; exact Hl].
Qed.

Lemma local_save {A} (k : unit -> M (world * GeneratedContent) A)
    (Q : A -> world * GeneratedContent -> Prop)
    (X : exn -> world * GeneratedContent -> Prop) :
  (forall u, triple PL (k u) Q X) ->
  (forall e s, PL s -> X e s) ->
  triple PL (let* saved := get_local in liftW (save saved) >> k tt) Q X.
Proof.
  intros Hk HX [w l] [Hw Hl]. unfold bind, get_local, gets, liftW. simpl in *.
  pose proof (P_save l w Hl Hw) as Hs.
  destruct (save l w) as [[[] | e] w']; simpl in *.
  - exact (Hk tt (w', l) (conj Hs Hl)).
  - apply HX. split; [exact Hs | exact Hl].
Qed.

Lemma local_mark_failure {A} (e : exn) :
  triple PL (@mark_failure_and_reraise A e)
    (fun _ s => P0 (fst s)) (fun _ s => P0 (fst s)).
Proof.
  unfold mark_failure_and_reraise.
  eapply (triple_bind _ _ _ (fun _ => PL));
    [apply local_set_local; reflexivity | intros []].
  apply (local_save (fun _ => raise e)).
  - intros _ s H. apply P_P0. exact (proj1 H).
  - intros e' s H. apply P_P0. exact (proj1 H).
Qed.

Lemma local_objects_get :
  triple P0 (objects_get i) (fun c w => P w /\ gc_id c = i) (fun _ => P0).
Proof.
  intros w H0.
  destruct (objects_get i w) as [[c | e] w'] eqn:Hget.
  - destruct (objects_get_Ok i w c) as (Hrun & _ & Hid & Hin);
      [rewrite Hget; reflexivity |].
    rewrite Hrun in Hget. injection Hget as <-.
    split; [exact (P_start w c Hin Hid H0) | exact Hid].
  - pose proof (db_objects_get i w) as Hdb. rewrite Hget in Hdb.
    exact (P0_db w w' Hdb H0).
Qed.

Lemma local_stable {A} (m : M world A) :
  stable db m -> triple P m (fun _ => P) (fun _ => P0).
Proof.
  intros Hm w H. specialize (Hm w).
  destruct (m w) as [[a | e] w']; simpl in Hm;
    [exact (P_db w w' Hm H) | exact (P_P0 _ (P_db w w' Hm H))].
Qed.

Lemma local_with_local {A} (c : GeneratedContent)
    (m : M (world * GeneratedContent) A) :
  gc_id c = i ->
  triple PL m (fun _ s => P0 (fst s)) (fun _ s => P0 (fst s)) ->
  triple P (with_local c m) (fun _ => P0) (fun _ => P0).
Proof.
  intros Hc Hm. apply (triple_with_local c).
  apply (triple_weaken _ _ PL _ (fun _ s => P0 (fst s)) _ (fun _ s => P0 (fst s)));
    [exact Hm | | auto | auto].
  intros [w0 l0] [H Hl]. simpl in *. subst l0. auto.
Qed.

Lemma generate_content_task_local options :
  triple P0 (generate_content_task E i options) (fun _ => P0) (fun _ => P0).
Proof.
  unfold generate_content_task.
  eapply triple_bind; [apply local_objects_get | intros c].
  apply (triple_weaken _ (fun w => P w /\ gc_id c = i)
           (fun w => gc_id c = i /\ P w) _ (fun _ => P0) _ (fun _ => P0));
    [| tauto | auto | auto].
  intros w [Hc Hw]. revert w Hw.
  change (triple P (let* _ := delete_old_object E c in
                    let* project := get_project (project_id c) in
                    let* (user_profile, created) := get_or_create E (user project) in
                    with_local c
                      (try_except
                         (let* (final_file_path, generated_s3_key) :=
                            liftW (produce_artifact E project (user project) c options) in
                          set_local (with_s3_url (Some (public_url E generated_s3_key))) >>
                          set_local (with_task_status SUCCESS) >>
                          let* saved := get_local in
                          liftW (save saved) >>
                          liftW (remove_if_exists final_file_path) >>
                          ret "Task Completed Successfully")
                         mark_failure_and_reraise))
            (fun _ => P0) (fun _ => P0)).
  eapply (triple_bind _ _ _ (fun _ => P));
    [apply local_stable, (db_delete_old_object E c) | intros _].
  eapply (triple_bind _ _ _ (fun _ => P));
    [apply local_stable, db_get_project | intros p].
  eapply (triple_bind _ _ _ (fun _ => P));
    [apply local_stable, db_get_or_create | intros [b created]].
  apply (local_with_local c _ Hc).
  eapply triple_try_except with (Y := fun _ => PL);
    [| intros e; apply local_mark_failure].
  eapply (triple_bind _ _ _ (fun _ => PL));
    [apply local_liftW, db_produce_artifact | intros [path key]].
  eapply (triple_bind _ _ _ (fun _ => PL));
    [apply local_set_local; reflexivity | intros []].
  eapply (triple_bind _ _ _ (fun _ => PL));
    [apply local_set_local; reflexivity | intros []].
  apply (local_save
           (fun _ => liftW (remove_if_exists path) >> ret "Task Completed Successfully")).
  - intros _. eapply (triple_bind _ _ _ (fun _ => PL));
      [apply local_liftW, db_remove_if_exists | intros []].
    intros s H. apply P_P0. exact (proj1 H).
  - auto.
Qed.

Lemma generate_audio_task_local options :
  triple P0 (generate_audio_task E i options) (fun _ => P0) (fun _ => P0).
Proof.
  unfold generate_audio_task.
  eapply triple_bind; [apply local_objects_get | intros c].
  apply (triple_weaken _ (fun w => P w /\ gc_id c = i)
           (fun w => gc_id c = i /\ P w) _ (fun _ => P0) _ (fun _ => P0));
    [| tauto | auto | auto].
  intros w [Hc Hw]. revert w Hw.
  match goal with
  | |- forall w, P w -> match ?m w with _ => _ end =>
      change (triple P m (fun _ => P0) (fun _ => P0))
  end.
  eapply (triple_bind _ _ _ (fun _ => P));
    [apply local_stable, (db_delete_old_object E c) | intros _].
  apply (local_with_local c _ Hc).
  eapply triple_try_except with (Y := fun _ => PL);
    [| intros e; apply local_mark_failure].
  destruct (negb (truthy (dict_get_none options "script_text"))).
  { intros s H. exact H. }
  eapply (triple_bind _ _ _ (fun _ => PL));
    [apply local_liftW, db_generate_podcast_audio_from_script | intros path].
  eapply (triple_bind _ _ _ (fun _ => PL));
    [apply local_liftW, db_get_project | intros p].
  eapply (triple_bind _ _ _ (fun _ => PL));
    [apply local_liftW, db_s3_upload_file | intros []].
  eapply (triple_bind _ _ _ (fun _ => PL));
    [apply local_set_local; reflexivity | intros []].
  eapply (triple_bind _ _ _ (fun _ => PL));
    [apply local_set_local; reflexivity | intros []].
  apply (local_save
           (fun _ => liftW (remove_file path) >> ret "Audio task completed.")).
  - intros _. eapply (triple_bind _ _ _ (fun _ => PL));
      [apply local_liftW, db_remove_file | intros []].
    intros s H. apply P_P0. exact (proj1 H).
  - auto.
Qed.
End LocalInvariant.

Lemma differs_in_row_ids (i : nat) (w0 w : world) :
  differs_in_row i w0 w -> map gc_id (contents w) = map gc_id (contents w0).
Proof.
  intros (_ & _ & [-> | (r & _ & ->)]); [reflexivity | apply map_gc_id_replace_row].
Qed.

Lemma differs_in_row_db (i : nat) (w0 w w' : world) :
  db w' = db w -> differs_in_row i w0 w -> differs_in_row i w0 w'.
Proof.
  intros H. injection H as Hp Hc Hn. unfold differs_in_row.
  rewrite Hp, Hc, Hn. auto.
Qed.

Lemma differs_in_row_save (i : nat) (w0 w : world) (r : GeneratedContent) :
  gc_id r = i -> i ∈ map gc_id (contents w0) ->
  differs_in_row i w0 w -> differs_in_row i w0 (snd (save r w)).
Proof.
  intros Hr Hi Hd. pose proof (differs_in_row_ids i w0 w Hd) as Hids.
  destruct Hd as (Hp & Hn & Hc). unfold save.
  destruct (row_admissible r w); [| split; [| split]; assumption].
  assert (Hex : existsb (has_pk (gc_id r)) (contents w) = true).
  { rewrite <- Hids in Hi. apply elem_of_map_inv in Hi as (x & Hx & Hin).
    apply existsb_exists. exists x. split; [apply list_elem_of_In, Hin |].
    apply has_pk_true. congruence. }
  rewrite Hex. simpl. split; [exact Hp |]. split; [exact Hn |].
  right. exists r. split; [exact Hr |].
  change (replace_row r (contents w) = replace_row r (contents w0)).
  destruct Hc as [-> | (r1 & Hr1 & ->)]; [reflexivity |].
  apply replace_row_idem. congruence.
Qed.

(** X18. A task writes the row it was queued for and no other: after a run of
    either task, whatever the environment does and however the run ends,
    the projects and the key sequence are as before, and the content
    table is as before or differs from it in the one row with the task's
    key. So every other row is untouched, and no row is added or removed. *)
Theorem task_writes_only_its_row (E : env) (t : task) (w : world) :
  let w' := snd (run_task E t w) in
  differs_in_row (task_row t) w w'
  /\ (forall j, j <> task_row t -> content_row w' j = content_row w j)
  /\ length (contents w') = length (contents w).
Proof.
  cbv zeta.
  assert (H : differs_in_row (task_row t) w (snd (run_task E t w))).
  { assert (Hrefl : differs_in_row (task_row t) w w)
      by (split; [| split]; auto).
    assert (Htriple : triple (differs_in_row (task_row t) w) (run_task E t)
                        (fun _ => differs_in_row (task_row t) w)
                        (fun _ => differs_in_row (task_row t) w)).
    { set (i := task_row t) in *.
      set (P := fun w' : world => i ∈ map gc_id (contents w) /\ differs_in_row i w w').
      assert (H1 : forall w1 w2, db w2 = db w1 ->
                     differs_in_row i w w1 -> differs_in_row i w w2)
        by (intros w1 w2 Hdb Hd; exact (differs_in_row_db i w w1 w2 Hdb Hd)).
      assert (H2 : forall w1 w2, db w2 = db w1 -> P w1 -> P w2)
        by (intros w1 w2 Hdb [Hi Hd]; split; [exact Hi | exact (H1 w1 w2 Hdb Hd)]).
      assert (H3 : forall w1, P w1 -> differs_in_row i w w1)
        by (intros w1 [_ Hd]; exact Hd).
      assert (H4 : forall w1 c, c ∈ contents w1 -> gc_id c = i ->
                     differs_in_row i w w1 -> P w1).
      { intros w1 c Hc Hid Hd. split; [| exact Hd].
        rewrite <- (differs_in_row_ids i w w1 Hd), <- Hid.
        apply elem_of_map. exact Hc. }
      assert (H5 : forall r w1, gc_id r = i -> P w1 -> P (snd (save r w1))).
      { intros r w1 Hr [Hi Hd]. split; [exact Hi |].
        apply differs_in_row_save; assumption. }
      clearbody P. subst i.
      destruct t as [i o | i o]; simpl in *.
      - exact (generate_content_task_local E i _ P H1 H2 H3 H4 H5 o).
      - exact (generate_audio_task_local E i _ P H1 H2 H3 H4 H5 o). }
    specialize (Htriple w Hrefl).
    destruct (run_task E t w) as [[a | e] w']; exact Htriple. }
  split; [exact H |].
  destruct H as (_ & _ & [Hc | (r & Hr & Hc)]).
  - unfold content_row. rewrite Hc. auto.
  - unfold content_row. rewrite Hc.
    split; [| apply length_replace_row].
    intros j Hj.
    rewrite filter_pk_replace_row_other by congruence. reflexivity.
Qed.

(* ===================================================================== *)
(** * The script handler *)
(* ===================================================================== *)

Lemma get_or_create_profile (E : env) (u : nat) (w : world) :
  profile_query_fault E u = None ->
  profiles (snd (get_or_create E u w)) !! u
  = Some (default default_token_balance (profiles w !! u)).
Proof.
  intros Hf. unfold get_or_create, bind, fault, gets, modify, ret. rewrite Hf. simpl.
  destruct (profiles w !! u) as [b |] eqn:Hb; simpl; [exact Hb |].
  apply lookup_insert_eq.
Qed.

Lemma stable_get_object {X} (f : world -> X) u pk : stable f (get_object u pk).
Proof. intros w. unfold get_object. destruct (filter _ (projects w)); reflexivity. Qed.

Section StableFrame.
Context (E : env).

Lemma frame_get_or_create u : stable handler_frame (get_or_create E u).
Proof. unfold get_or_create. stable_auto. Qed.

Lemma frame_download_file_from_s3 key :
  stable handler_frame (download_file_from_s3 E key).
Proof. unfold download_file_from_s3, s3_download_file, emit. stable_auto. Qed.

Lemma frame_extract_text_from_file path :
  stable handler_frame (extract_text_from_file E path).
Proof.
  unfold extract_text_from_file, read_file, remove_if_exists. stable_auto.
Qed.

Lemma frame_generate_podcast_script_from_text text options title :
  stable handler_frame (generate_podcast_script_from_text E text options title).
Proof.
  unfold generate_podcast_script_from_text.
  generalize (podcast_script_prompt
                (length_instruction_of (dict_get options "podcast_length" (VStr "medium")))
                (focus_instruction_of
                   (dict_get options "content_focus" (VStr "full_document")))
                title text).
  intros prompt. unfold chat_completion, emit. stable_auto.
Qed.

Lemma frame_fetch_profile u : stable handler_frame (fetch_profile E u).
Proof. unfold fetch_profile. stable_auto. Qed.

Lemma frame_deduct_tokens u c : stable handler_frame (deduct_tokens E u c).
Proof. unfold deduct_tokens. stable_auto. Qed.
End StableFrame.

(** X19. The script handler writes no content row and hands nothing to the
    broker: whatever the request and however it ends, the tables of the
    projects app, the key sequence, the queue and the bucket are as they
    were. *)
Theorem script_request_writes_no_row (E : env) (request_user pk : nat)
    (request_data : dict) (w : world) :
  let w' := snd (generate_podcast_script E request_user pk request_data w) in
  db w' = db w /\ queue w' = queue w /\ bucket w' = bucket w.
Proof.
  cbv zeta.
  assert (H : stable handler_frame
                (generate_podcast_script E request_user pk request_data)).
  { unfold generate_podcast_script.
    apply stable_bind; [apply stable_get_object | intros p].
    apply stable_bind; [apply stable_of_result | intros vd].
    apply stable_bind; [apply frame_get_or_create | intros [b created]].
    destruct (below_minimum_balance b); [apply stable_ret |].
    apply stable_bind; [apply frame_download_file_from_s3 | intros path].
    apply stable_bind; [apply frame_extract_text_from_file | intros text].
    apply stable_bind;
      [apply frame_generate_podcast_script_from_text | intros [sd u]].
    apply stable_bind; [apply stable_of_result | intros cost].
    apply stable_bind; [apply frame_fetch_profile | intros _].
    apply stable_bind; [apply frame_deduct_tokens | intros _].
    apply stable_ret. }
  specialize (H w). unfold handler_frame in H.
  split; [exact (f_equal (fun t => fst (fst t)) H) |].
  split; [exact (f_equal (fun t => snd (fst t)) H) | exact (f_equal snd H)].
Qed.

(** X20. In the script handler the request is validated before the balance is
    looked at: an invalid request is refused with the validation error and
    the world untouched (no profile is created), and a valid request of an
    owner whose balance is below the minimum is answered with 400
    "Insufficient tokens", again with the world untouched: nothing was
    downloaded and the language model was not called. *)
Theorem script_request_checks (E : env) (request_user pk : nat)
    (request_data : dict) (w : world) (p : Project) :
  fst (get_object request_user pk w) = Ok p ->
  (forall e, PodcastScriptGenerateSerializer E request_data = Raise e ->
     generate_podcast_script E request_user pk request_data w = (Raise e, w))
  /\ (forall vd b,
        PodcastScriptGenerateSerializer E request_data = Ok vd ->
        profile_query_fault E (user p) = None ->
        profiles w !! user p = Some b ->
        below_minimum_balance b = true ->
        generate_podcast_script E request_user pk request_data w
        = (Ok (ScriptRejected (error_response "Insufficient tokens")), w)).
Proof.
  intros Hobj. destruct (get_object_run _ _ _ _ Hobj) as (Hrun & _).
  split.
  - intros e He. unfold generate_podcast_script.
    rewrite (run_bind_Ok _ _ _ _ _ Hrun).
    unfold of_result, bind. rewrite He. reflexivity.
  - intros vd b Hvd Hfault Hb Hlow. unfold generate_podcast_script.
    rewrite (run_bind_Ok _ _ _ _ _ Hrun).
    unfold of_result at 1. unfold bind at 1. rewrite Hvd.
    rewrite (run_bind_Ok _ _ _ _ _ (get_or_create_existing E (user p) w b Hfault Hb)).
    rewrite Hlow. reflexivity.
Qed.

Lemma script_request_checks_witness :
  generate_podcast_script calm_env 7 1 script_request (example_world 800)
  = (Ok (ScriptRejected (error_response "Insufficient tokens")), example_world 800).
Proof.
  apply (proj2 (script_request_checks calm_env 7 1 script_request (example_world 800)
                  example_project eq_refl) script_options 800%Z);
    vm_compute; reflexivity.
Defined.

Lemma bind_assoc {S A B C} (m : M S A) (f : A -> M S B) (k : B -> M S C) (s : S) :
  bind (bind m f) k s = bind m (fun a => bind (f a) k) s.
Proof. unfold bind. destruct (m s) as [[a | e] s1]; reflexivity. Qed.

Lemma generate_podcast_script_from_text_run (E : env) (text_content : string)
    (options : dict) (document_title : option string) (w : world) :
  let prompt :=
    podcast_script_prompt
      (length_instruction_of (dict_get options "podcast_length" (VStr "medium")))
      (focus_instruction_of (dict_get options "content_focus" (VStr "full_document")))
      document_title text_content in
  generate_podcast_script_from_text E text_content options document_title w
  = (match chat_completions_create E "gpt-5-nano" prompt with
     | Ok response =>
         match json_loads E (message_content response) with
         | Ok parsed =>
             match json_get parsed "script" (JObj []) with
             | Ok script_data => Ok (script_data, usage response)
             | Raise e => Raise e
             end
         | Raise e => Raise e
         end
     | Raise e => Raise e
     end,
     set_trace (fun t => (t ++ [EvChatCompletion "gpt-5-nano" prompt])%list) w).
Proof.
  intros prompt. unfold generate_podcast_script_from_text. fold prompt.
  unfold chat_completion, bind, emit, modify, of_result, ret. cbn [fst snd].
  destruct (chat_completions_create E "gpt-5-nano" prompt) as [response | e];
    [| reflexivity].
  destruct (json_loads E (message_content response)) as [parsed | e]; [| reflexivity].
  destruct (json_get parsed "script" (JObj [])) as [sd | e]; reflexivity.
Qed.

(** X21. A script request that passes validation and the balance check always
    reaches the language model, whatever text the extraction returned,
    the empty text of an unsupported file type included: the handler has
    no guard on the text. When it answers with a script, that script is
    the [script] member of the completion and the owner's balance has been
    lowered by the cost of that completion (also when the cost is zero);
    when it raises, the balance is as it was. *)
Theorem script_request_outcome (E : env) (request_user pk : nat)
    (request_data vd : dict) (w : world) (p : Project) (text_content : string) :
  fst (get_object request_user pk w) = Ok p ->
  PodcastScriptGenerateSerializer E request_data = Ok vd ->
  profile_query_fault E request_user = None ->
  below_minimum_balance (default default_token_balance (profiles w !! request_user))
  = false ->
  let w1 := snd (get_or_create E request_user w) in
  fst (source_text E p w1) = Ok text_content ->
  let prompt :=
    podcast_script_prompt
      (length_instruction_of (dict_get vd "podcast_length" (VStr "medium")))
      (focus_instruction_of (dict_get vd "content_focus" (VStr "full_document")))
      (original_file_name p) text_content in
  let out := generate_podcast_script E request_user pk request_data w in
  ai_calls (snd out) = (ai_calls w ++ [EvChatCompletion "gpt-5-nano" prompt])%list
  /\ match fst out with
     | Ok (ScriptOk script_data) =>
         exists response parsed cost,
           chat_completions_create E "gpt-5-nano" prompt = Ok response
           /\ json_loads E (message_content response) = Ok parsed
           /\ json_get parsed "script" (JObj []) = Ok script_data
           /\ calculate_cost (OPENAI_PRICING E) "gpt-5-nano" (usage response) = Ok cost
           /\ profiles (snd out)
              = <[request_user :=
                    decimal_sub E
                      (default default_token_balance (profiles w !! request_user))
                      cost]> (profiles w1)
     | Ok (ScriptRejected _) => False
     | Raise _ => profiles (snd out) = profiles w1
     end.
Proof.
  intros Hobj Hvd Hfault Hbal w1 Hsrc prompt out.
  destruct (get_object_run _ _ _ _ Hobj) as (Hrun & _ & Hu & _).
  subst request_user.
  destruct (get_or_create_balance E (user p) w Hfault) as [created Hprof].
  fold w1 in Hprof.
  pose proof (get_or_create_profile E (user p) w Hfault) as Hb1. fold w1 in Hb1.
  assert (Hai1 : ai_calls w1 = ai_calls w) by apply ai_get_or_create.
  set (b := default default_token_balance (profiles w !! user p)) in *.
  destruct (source_text_frame E p w1) as (_ & _ & Hp3 & _).
  pose proof (ai_source_text E p w1) as Hai3.
  destruct (source_text E p w1) as [[t | e] w3] eqn:Hsrc'; cbn [fst snd] in *;
    [| discriminate].
  injection Hsrc as ->.
  assert (Hstart : out
                   = (let* (script_data, usage_) :=
                        generate_podcast_script_from_text E text_content vd
                          (original_file_name p) in
                      let* cost :=
                        of_result (calculate_cost (OPENAI_PRICING E) "gpt-5-nano" usage_) in
                      fetch_profile E (user p) >>
                      deduct_tokens E (user p) cost >>
                      ret (ScriptOk script_data)) w3).
  { unfold out, generate_podcast_script.
    rewrite (run_bind_Ok _ _ _ _ _ Hrun).
    unfold of_result at 1. unfold bind at 1. rewrite Hvd.
    rewrite (run_bind_Ok _ _ _ _ _ Hprof). rewrite Hbal.
    rewrite <- (bind_assoc (download_file_from_s3 E (s3_file_key p))
                  (extract_text_from_file E)).
    change (bind (download_file_from_s3 E (s3_file_key p)) (extract_text_from_file E))
      with (source_text E p).
    rewrite (run_bind_Ok _ _ _ _ _ Hsrc'). reflexivity. }
  clearbody out. subst out.
  match goal with
  | |- context [snd (?m w3)] => set (o := m w3); assert (Ho : o = m w3) by reflexivity
  end.
  clearbody o.
  unfold bind at 1 in Ho. rewrite generate_podcast_script_from_text_run in Ho.
  fold prompt in Ho.
  set (w4 := set_trace (fun t => (t ++ [EvChatCompletion "gpt-5-nano" prompt])%list) w3)
    in Ho.
  assert (Hai4 : ai_calls w4
                 = (ai_calls w ++ [EvChatCompletion "gpt-5-nano" prompt])%list).
  { unfold w4, ai_calls. simpl. rewrite List.filter_app. simpl.
    fold (ai_calls w3). rewrite Hai3, Hai1. reflexivity. }
  assert (Hp4 : profiles w4 = profiles w1) by exact Hp3.
  clearbody w4.
  destruct (chat_completions_create E "gpt-5-nano" prompt) as [response | e] eqn:Hchat;
    [| subst o; split; [exact Hai4 | exact Hp4]].
  destruct (json_loads E (message_content response)) as [parsed | e] eqn:Hload;
    [| subst o; split; [exact Hai4 | exact Hp4]].
  destruct (json_get parsed "script" (JObj [])) as [sd | e] eqn:Hget;
    [| subst o; split; [exact Hai4 | exact Hp4]].
  cbv beta iota in Ho.
  unfold of_result at 1 in Ho. unfold bind at 1 in Ho.
  destruct (calculate_cost (OPENAI_PRICING E) "gpt-5-nano" (usage response))
    as [cost | e] eqn:Hcost; [| subst o; split; [exact Hai4 | exact Hp4]].
  unfold fetch_profile, deduct_tokens, bind, fault, gets, modify, ret, raise in Ho.
  rewrite Hfault in Ho. cbn [fst snd] in Ho. rewrite Hp4, Hb1 in Ho.
  cbn [fst snd] in Ho.
  destruct (profile_save_fault E (user p)); cbn [fst snd] in Ho;
    [subst o; split; [exact Hai4 | exact Hp4] |].
  rewrite Hp4, Hb1 in Ho. cbn [fst snd] in Ho. subst o. cbn [fst snd].
  split; [exact Hai4 |].
  exists response, parsed, cost. simpl. rewrite Hp4. auto.
Qed.

Lemma script_request_outcome_witness :
  ai_calls (snd (generate_podcast_script calm_env 7 3 script_request image_world))
  = (ai_calls image_world
     ++ [EvChatCompletion "gpt-5-nano"
           (podcast_script_prompt
              (length_instruction_of (dict_get script_options "podcast_length"
                                        (VStr "medium")))
              (focus_instruction_of (dict_get script_options "content_focus"
                                       (VStr "full_document")))
              (original_file_name image_project) EmptyString)])%list.
Proof.
  pose proof (script_request_outcome calm_env 7 3 script_request script_options
                image_world image_project EmptyString
                ltac:(vm_compute; reflexivity) ltac:(vm_compute; reflexivity)
                ltac:(vm_compute; reflexivity) ltac:(vm_compute; reflexivity)
                ltac:(vm_compute; reflexivity)) as H.
  cbv zeta in H. exact (proj1 H).
Defined.

(* ===================================================================== *)
(** * Keys and URLs *)
(* ===================================================================== *)

Lemma append_nil (t : string) : EmptyString +:+ t = t.
Proof. reflexivity. Qed.

Lemma append_cons (ch : ascii) (s t : string) :
  String ch s +:+ t = String ch (s +:+ t).
Proof. reflexivity. Qed.

Lemma no_slash_app (s t : string) :
  no_slash (s +:+ t) = no_slash s && no_slash t.
Proof.
  induction s as [| ch s IH]; [reflexivity |].
  rewrite append_cons. simpl. rewrite IH. apply andb_assoc.
Qed.

Lemma prefix_cons (a b : ascii) (s1 s2 : string) :
  String.prefix (String a s1) (String b s2)
  = if ascii_dec a b then String.prefix s1 s2 else false.
Proof. reflexivity. Qed.

Ltac prefix_step :=
  rewrite ?append_cons, ?append_nil; rewrite prefix_cons;
  match goal with
  | |- (if ascii_dec ?a ?b then _ else _) = false =>
      let Heq := fresh "Heq" in
      destruct (ascii_dec a b) as [Heq |]; [| reflexivity];
      try discriminate Heq; try subst
  end.

Lemma prefix_com_no_slash (s t : string) :
  s <> EmptyString -> no_slash s = true ->
  String.prefix ".com/" (s +:+ ".com/" +:+ t) = false.
Proof.
  intros Hne Hs.
  destruct s as [| c0 s]; [contradiction |]. clear Hne. prefix_step.
  destruct s as [| c1 s]; prefix_step.
  destruct s as [| c2 s]; prefix_step.
  destruct s as [| c3 s]; prefix_step.
  destruct s as [| c4 s]; prefix_step.
  simpl in Hs. discriminate Hs.
Qed.

Lemma split1_tail_unfold (sep s : string) :
  split1_tail sep s
  = if String.prefix sep s then Some (string_drop (String.length sep) s)
    else match s with
         | EmptyString => None
         | String _ s' => split1_tail sep s'
         end.
Proof. destruct s; reflexivity. Qed.

Lemma prefix_app (s t : string) : String.prefix s (s +:+ t) = true.
Proof.
  induction s as [| ch s IH]; [destruct t; reflexivity |].
  rewrite append_cons, prefix_cons.
  destruct (ascii_dec ch ch); [exact IH | contradiction].
Qed.

Lemma string_drop_app (s t : string) : string_drop (String.length s) (s +:+ t) = t.
Proof.
  induction s as [| ch s IH]; [destruct t; reflexivity |].
  rewrite append_cons. exact IH.
Qed.

Lemma split1_tail_com (s t : string) :
  no_slash s = true -> split1_tail ".com/" (s +:+ ".com/" +:+ t) = Some t.
Proof.
  induction s as [| ch s IH]; intros Hs.
  - rewrite append_nil, split1_tail_unfold, prefix_app, string_drop_app.
    reflexivity.
  - rewrite split1_tail_unfold.
    rewrite prefix_com_no_slash by (auto; discriminate).
    rewrite append_cons. apply IH.
    simpl in Hs. apply andb_true_iff in Hs. tauto.
Qed.

Lemma append_assoc (s t u : string) : (s +:+ t) +:+ u = s +:+ (t +:+ u).
Proof.
  induction s as [| ch s IH]; [reflexivity |].
  rewrite !append_cons, IH. reflexivity.
Qed.

Lemma split1_tail_public_url (E : env) (key : string) :
  no_slash (AWS_STORAGE_BUCKET_NAME E) = true ->
  split1_tail ".com/" (public_url E key) = Some key.
Proof.
  intros Hb. unfold public_url.
  change (split1_tail ".com/"
            ("https://" +:+ AWS_STORAGE_BUCKET_NAME E +:+ ".s3.amazonaws.com/" +:+ key))
    with (split1_tail ".com/"
            (AWS_STORAGE_BUCKET_NAME E +:+ ".s3.amazonaws.com/" +:+ key)).
  change (".s3.amazonaws.com/" +:+ key) with (".s3.amazonaws" +:+ ".com/" +:+ key).
  rewrite <- append_assoc.
  apply split1_tail_com. rewrite no_slash_app, Hb. reflexivity.
Qed.

(** X22. The URL a task stores on its row names the object it uploaded: for a
    bucket name without a slash, the key the next run's cleanup derives
    from the stored URL is the key of the upload, so the cleanup asks the
    object store to delete exactly that object, and with the delete
    succeeding the object is gone from the bucket. *)
Theorem cleanup_deletes_stored_object (E : env) (c : GeneratedContent)
    (key : string) (w : world) :
  no_slash (AWS_STORAGE_BUCKET_NAME E) = true ->
  s3_url c = Some (public_url E key) ->
  split1_tail ".com/" (public_url E key) = Some key
  /\ trace (snd (delete_old_object E c w)) = (trace w ++ [EvS3Delete key])%list
  /\ (s3_delete_fault E key = None ->
      bucket (snd (delete_old_object E c w)) !! key = None).
Proof.
  intros Hb Hurl. pose proof (split1_tail_public_url E key Hb) as Hsplit.
  split; [exact Hsplit |].
  unfold delete_old_object. rewrite Hurl.
  change (str_truthy (Some (public_url E key))) with true. cbv iota.
  simpl default. rewrite Hsplit.
  unfold try_except, s3_delete_object, bind, emit, modify, fault, ret, raise.
  cbn [fst snd].
  destruct (s3_delete_fault E key); cbn [fst snd].
  - split; [reflexivity | discriminate].
  - split; [reflexivity |]. intros _. apply lookup_delete_eq.
Qed.

Lemma cleanup_deletes_stored_object_witness :
  split1_tail ".com/" (public_url calm_env "generated/1/1_presentation.pptx")
  = Some "generated/1/1_presentation.pptx"
  /\ trace (snd (delete_old_object calm_env
                   {| gc_id := 1; project_id := 1; content_type := PRESENTATION;
                      s3_url := Some (public_url calm_env "generated/1/1_presentation.pptx");
                      task_id := Some "task-0"; task_status := SUCCESS |}
                   delivered_world))
     = (trace delivered_world ++ [EvS3Delete "generated/1/1_presentation.pptx"])%list
  /\ (s3_delete_fault calm_env "generated/1/1_presentation.pptx" = None ->
      bucket (snd (delete_old_object calm_env
                     {| gc_id := 1; project_id := 1; content_type := PRESENTATION;
                        s3_url := Some (public_url calm_env
                                          "generated/1/1_presentation.pptx");
                        task_id := Some "task-0"; task_status := SUCCESS |}
                     delivered_world)) !! "generated/1/1_presentation.pptx" = None).
Proof.
  apply (cleanup_deletes_stored_object calm_env
           {| gc_id := 1; project_id := 1; content_type := PRESENTATION;
              s3_url := Some (public_url calm_env "generated/1/1_presentation.pptx");
              task_id := Some "task-0"; task_status := SUCCESS |}
           "generated/1/1_presentation.pptx" delivered_world);
    reflexivity.
Defined.

(* ===================================================================== *)
(** * From the upload to the pipeline *)
(* ===================================================================== *)

Lemma basename_go_no_slash (name : string) :
  no_slash name = true -> forall acc, basename_go acc name = acc +:+ name.
Proof.
  induction name as [| ch name IH]; intros Hn acc.
  - simpl. clear. induction acc as [| a acc IH]; [reflexivity |].
    rewrite append_cons, <- IH. reflexivity.
  - simpl in Hn. apply andb_true_iff in Hn as [Hc Hn].
    simpl. apply negb_true_iff in Hc. rewrite Hc.
    rewrite (IH Hn). rewrite append_assoc. reflexivity.
Qed.

Lemma basename_go_slash (name : string) :
  no_slash name = true ->
  forall pre acc, basename_go acc (pre +:+ String "/" name) = name.
Proof.
  intros Hn. induction pre as [| ch pre IH]; intros acc.
  - rewrite append_nil. simpl. apply (basename_go_no_slash name Hn).
  - rewrite append_cons. simpl. destruct (Ascii.eqb ch "/"); apply IH.
Qed.

Lemma split1_tail_upload_url (bucket_name region key : string) :
  no_slash bucket_name = true -> no_slash region = true ->
  split1_tail ".com/"
    ("https://" +:+ bucket_name +:+ ".s3." +:+ region +:+ ".amazonaws.com/" +:+ key)
  = Some key.
Proof.
  intros Hb Hr.
  change (split1_tail ".com/"
            ("https://" +:+ bucket_name +:+ ".s3." +:+ region
             +:+ ".amazonaws.com/" +:+ key))
    with (split1_tail ".com/"
            (bucket_name +:+ ".s3." +:+ region +:+ ".amazonaws" +:+ ".com/" +:+ key)).
  rewrite <- (append_assoc region), <- (append_assoc ".s3."),
    <- (append_assoc bucket_name).
  apply split1_tail_com.
  rewrite !no_slash_app, Hb, Hr. reflexivity.
Qed.

(** X23. What [upload_file] stores is what the pipeline reads. For a bucket
    name, a region and a file name without a slash, an upload of a named,
    non-empty file that the object store accepts answers 200 with a URL,
    and the bytes are in the bucket under [uploads/<user>/<name>]; handed
    that URL, [download_file_from_s3] asks for that very key and puts the
    bytes of the upload in [/tmp/downloads/<name>]. When the object store
    refuses the upload the handler answers 500 and the bucket is as it
    was. *)
Theorem uploaded_document_is_downloaded (E : env) (region : string)
    (request_user : nat) (f : UploadedFile) (w : world) :
  no_slash (AWS_STORAGE_BUCKET_NAME E) = true ->
  no_slash region = true ->
  no_slash (file_name f) = true ->
  file_name f <> EmptyString -> file_content f <> EmptyString ->
  let key := "uploads/" +:+ str_nat request_user +:+ "/" +:+ file_name f in
  let url := "https://" +:+ AWS_STORAGE_BUCKET_NAME E +:+ ".s3." +:+ region
             +:+ ".amazonaws.com/" +:+ key in
  let out := upload_file E region request_user (Some f) w in
  (s3_upload_fault E key = None ->
   fst out = Ok {| status_code := 200;
                   data := <["s3_file_key" := VStr url]>
                           (<["original_file_name" := VStr (file_name f)]> ∅) |}
   /\ bucket (snd out) !! key = Some (file_content f)
   /\ forall E' w',
        s3_download_fault E' key = None ->
        bucket w' !! key = Some (file_content f) ->
        fst (download_file_from_s3 E' url w')
        = Ok ("/tmp/downloads/" +:+ file_name f)
        /\ files (snd (download_file_from_s3 E' url w'))
           !! ("/tmp/downloads/" +:+ file_name f) = Some (file_content f))
  /\ (forall e, s3_upload_fault E key = Some e ->
        status_code <$> fst out = Ok 500 /\ bucket (snd out) = bucket w).
Proof.
  intros Hb Hr Hn Hname Hcontent key url out.
  assert (Hfield : FileField "file" (Some f) = Ok f).
  { unfold FileField.
    destruct (String.eqb (file_name f) EmptyString) eqn:H1;
      [apply String.eqb_eq in H1; contradiction |].
    destruct (String.eqb (file_content f) EmptyString) eqn:H2;
      [apply String.eqb_eq in H2; contradiction | reflexivity]. }
  assert (Hout : out
                 = match s3_upload_fault E key with
                   | Some e =>
                       (Ok {| status_code := 500;
                              data := <["error" :=
                                          VStr ("Failed to upload to S3: " +:+ exn_str e)]> ∅ |},
                        set_trace (fun t => (t ++ [EvS3Upload key])%list) w)
                   | None =>
                       (Ok {| status_code := 200;
                              data := <["s3_file_key" := VStr url]>
                                      (<["original_file_name" := VStr (file_name f)]> ∅) |},
                        set_bucket (fun m => <[key := file_content f]> m)
                          (set_trace (fun t => (t ++ [EvS3Upload key])%list) w))
                   end).
  { unfold out, upload_file. unfold of_result at 1. unfold bind at 1.
    rewrite Hfield. fold key. fold url.
    unfold s3_upload_fileobj, try_except, bind, emit, modify, fault, ret, raise.
    cbn [fst snd]. destruct (s3_upload_fault E key); reflexivity. }
  rewrite Hout. clear Hout. split.
  - intros Hfault. rewrite Hfault. cbn [fst snd].
    split; [reflexivity |]. split; [apply lookup_insert_eq |].
    intros E' w' Hdl Hblob.
    assert (Hsplit : split1_tail ".com/" url = Some key)
      by (apply split1_tail_upload_url; assumption).
    assert (Hbase : basename key = file_name f).
    { unfold basename, key. rewrite <- (append_assoc "uploads/").
      apply (basename_go_slash (file_name f) Hn). }
    unfold download_file_from_s3.
    change (startswith url "http") with true. cbv iota.
    rewrite Hsplit.
    unfold s3_download_file, bind, emit, modify, fault, gets, ret, raise.
    cbv beta. rewrite Hbase, Hdl. cbn [fst snd].
    change (bucket (set_trace _ w')) with (bucket w'). rewrite Hblob. cbn [fst snd].
    split; [reflexivity | apply lookup_insert_eq].
  - intros e Hfault. rewrite Hfault. cbn [fst snd]. split; reflexivity.
Qed.

Lemma uploaded_document_is_downloaded_witness :
  fst (upload_file calm_env "eu-west-1" 7 (Some example_upload) empty_world)
  = Ok {| status_code := 200;
          data := <["s3_file_key" := VStr (s3_file_key url_project)]>
                  (<["original_file_name" := VStr "notes.txt"]> ∅) |}
  /\ fst (download_file_from_s3 calm_env (s3_file_key url_project) url_world)
     = Ok "/tmp/downloads/notes.txt".
Proof.
  destruct (uploaded_document_is_downloaded calm_env "eu-west-1" 7 example_upload
              empty_world eq_refl eq_refl eq_refl
              ltac:(discriminate) ltac:(discriminate)) as [H _].
  destruct (H eq_refl) as (Hup & _ & Hdown).
  split; [exact Hup |].
  exact (proj1 (Hdown calm_env url_world eq_refl ltac:(vm_compute; reflexivity))).
Defined.

(* ===================================================================== *)
(** * A project that holds a URL *)
(* ===================================================================== *)

Lemma prefix_length (sep s : string) :
  String.prefix sep s = true -> String.length sep <= String.length s.
Proof.
  revert s. induction sep as [| a sep IH]; intros s H; [simpl; lia |].
  destruct s as [| b s]; [discriminate H |].
  rewrite prefix_cons in H. destruct (ascii_dec a b); [| discriminate H].
  simpl. specialize (IH s H). lia.
Qed.

Lemma length_string_drop (n : nat) (s : string) :
  String.length (string_drop n s) = String.length s - n.
Proof.
  revert s. induction n as [| n IH]; intros s; [simpl; lia |].
  destruct s as [| ch s]; [reflexivity |]. simpl. apply IH.
Qed.

Lemma split1_tail_length (sep s k : string) :
  split1_tail sep s = Some k ->
  String.length k + String.length sep <= String.length s.
Proof.
  induction s as [| ch s IH]; rewrite split1_tail_unfold;
    destruct (String.prefix sep _) eqn:Hp; intros H; try discriminate H.
  - injection H as <-. apply prefix_length in Hp. rewrite length_string_drop. lia.
  - injection H as <-. apply prefix_length in Hp. rewrite length_string_drop. lia.
  - specialize (IH H). simpl. lia.
Qed.

(** X24. For a project whose [s3_file_key] is a URL (the form [upload_file]
    answers with), the pipeline and the deletion do not name the same
    object: the download asks for the key that follows [.com/] in the
    URL, while [destroy] asks the object store to delete the key that is
    the whole URL. So the document the pipeline reads is still in the
    bucket after its project has been deleted. *)
Theorem destroy_keeps_document_named_by_url (E : env) (request_user pk : nat)
    (w : world) (p : Project) (key : string) :
  fst (get_object request_user pk w) = Ok p ->
  startswith (s3_file_key p) "http" = true ->
  split1_tail ".com/" (s3_file_key p) = Some key ->
  (forall E' w',
      trace (snd (download_file_from_s3 E' (s3_file_key p) w'))
      = (trace w' ++ [EvS3Download key])%list)
  /\ trace (snd (destroy E request_user pk w))
     = (trace w ++ [EvS3Delete (s3_file_key p)])%list
  /\ key <> s3_file_key p
  /\ bucket (snd (destroy E request_user pk w)) !! key = bucket w !! key.
Proof.
  intros Hobj Hhttp Hsplit.
  assert (Hne : key <> s3_file_key p).
  { intros Heq. apply split1_tail_length in Hsplit. rewrite Heq in Hsplit.
    simpl in Hsplit. lia. }
  split; [| split; [| split; [exact Hne |]]].
  - intros E' w'. unfold download_file_from_s3. rewrite Hhttp, Hsplit.
    unfold s3_download_file, bind, emit, modify, fault, gets, ret, raise.
    cbv beta. destruct (s3_download_fault E' key); cbn [fst snd]; [reflexivity |].
    change (bucket (set_trace _ w')) with (bucket w').
    destruct (bucket w' !! key); reflexivity.
  - destruct (get_object_run _ _ _ _ Hobj) as (Hrun & _).
    unfold destroy. rewrite (run_bind_Ok _ _ _ _ _ Hrun).
    assert (Hkey : String.eqb (s3_file_key p) EmptyString = false).
    { destruct (s3_file_key p); [discriminate Hhttp | reflexivity]. }
    rewrite Hkey. cbn [negb].
    unfold delete_project, s3_delete_object, try_except, bind, emit, modify, fault,
      ret, raise.
    cbn [fst snd]. destruct (s3_delete_fault E (s3_file_key p)); reflexivity.
  - destruct (destroy_frame E request_user pk w p Hobj) as (_ & _ & _ & _ & Hb & _).
    apply Hb. exact Hne.
Qed.

Lemma destroy_keeps_document_named_by_url_witness :
  bucket (snd (destroy calm_env 7 4 url_world)) !! "uploads/7/notes.txt"
  = Some "Light becomes sugar.".
Proof.
  destruct (destroy_keeps_document_named_by_url calm_env 7 4 url_world url_project
              "uploads/7/notes.txt" eq_refl eq_refl
              ltac:(vm_compute; reflexivity)) as (_ & _ & _ & H).
  rewrite H. vm_compute. reflexivity.
Defined.

(* ===================================================================== *)
(** * The cost is settled before the upload *)
(* ===================================================================== *)

Lemma profiles_delete_old_object (E : env) (c : GeneratedContent) :
  stable profiles (delete_old_object E c).
Proof. unfold delete_old_object, s3_delete_object, emit. stable_auto. Qed.

Lemma deduct_tokens_run (E : env) (u : nat) (total_cost : number) (w : world) (b : Z) :
  profile_save_fault E u = None -> profiles w !! u = Some b ->
  deduct_tokens E u total_cost w
  = (Ok tt, set_profiles (fun m => <[u := decimal_sub E b total_cost]> m) w).
Proof.
  intros Hf Hb. unfold deduct_tokens, bind, fault, gets, modify, ret.
  rewrite Hf. cbn [fst snd]. rewrite Hb. reflexivity.
Qed.

Lemma generate_flashcards_from_text_run (E : env) (text_content : string)
    (options : dict) (w : world) (response : ChatCompletion) (j : json) (cost : number) :
  let prompt :=
    flashcards_prompt (dict_get options "cards_count" (VInt 20))
      (dict_get options "card_type" (VStr "qa"))
      (dict_get options "difficulty" (VStr "mixed")) text_content in
  chat_completions_create E "gpt-5-nano" prompt = Ok response ->
  json_loads E (message_content response) = Ok j ->
  calculate_cost (OPENAI_PRICING E) "gpt-5-nano" (usage response) = Ok cost ->
  generate_flashcards_from_text E text_content options w
  = (Ok (flashcards_path, cost),
     set_files (fun m => <[flashcards_path := json_dump E j]> m)
       (set_trace (fun t => (t ++ [EvChatCompletion "gpt-5-nano" prompt])%list) w)).
Proof.
  intros prompt Hchat Hload Hcost. unfold generate_flashcards_from_text.
  fold prompt. unfold chat_completion, bind, emit, modify, of_result, write_file, ret.
  cbn [fst snd]. rewrite Hchat, Hload, Hcost. reflexivity.
Qed.

(** X25. The job settles the cost before it uploads the artifact, and its
    failure handler does not give it back: when a flashcard job has
    extracted text, received its completion and charged a positive cost,
    and the upload then fails, the job raises the upload's exception, the
    row ends in status failure, and the owner's balance stays lowered by
    the cost of the completion. *)
Theorem failed_upload_is_still_charged (E : env) (i : nat) (options : dict)
    (w : world) (c : GeneratedContent) (p : Project) (text_content : string)
    (response : ChatCompletion) (j : json) (cost : number) (e : exn) :
  table_ok (contents w) ->
  fst (objects_get i w) = Ok c ->
  fst (get_project (project_id c) w) = Ok p ->
  profile_query_fault E (user p) = None ->
  content_type c = FLASHCARDS ->
  fst (source_text E p (pipeline_start E c p w)) = Ok text_content ->
  strip_is_empty text_content = false ->
  chat_completions_create E "gpt-5-nano"
    (flashcards_prompt (dict_get options "cards_count" (VInt 20))
       (dict_get options "card_type" (VStr "qa"))
       (dict_get options "difficulty" (VStr "mixed")) text_content) = Ok response ->
  json_loads E (message_content response) = Ok j ->
  calculate_cost (OPENAI_PRICING E) "gpt-5-nano" (usage response) = Ok cost ->
  num_gt_zero cost = true ->
  profile_save_fault E (user p) = None ->
  s3_upload_fault E ("generated/" +:+ str_nat (pid p) +:+ "/" +:+ str_nat i
                     +:+ "_" +:+ basename flashcards_path) = Some e ->
  let out := generate_content_task E i options w in
  fst out = Raise e
  /\ content_row (snd out) i = Some (with_task_status FAILURE c)
  /\ profiles (snd out) !! user p
     = Some (decimal_sub E (default default_token_balance (profiles w !! user p)) cost).
Proof.
  intros Hok Hget Hproj Hfault Hct Hsrc Hblank Hchat Hload Hcost Hpos Hsave Hup out.
  destruct (generate_content_task_run E i options w c p Hok Hget Hproj Hfault)
    as [Hdb Hrun].
  destruct (objects_get_Ok _ _ _ Hget) as (_ & Hfil & Hid & _).
  unfold pipeline_start in Hsrc.
  pose proof (get_or_create_profile E (user p) (snd (delete_old_object E c w)) Hfault)
    as Hb2.
  rewrite (profiles_delete_old_object E c w) in Hb2.
  set (w2 := snd (get_or_create E (user p) (snd (delete_old_object E c w)))) in *.
  set (b := default default_token_balance (profiles w !! user p)) in *.
  destruct (source_text_frame E p w2) as (_ & _ & Hp3 & _ & Hdb3).
  destruct (source_text E p w2) as [[t | e'] w3] eqn:Hsrc'; cbn [fst snd] in *;
    [| discriminate].
  injection Hsrc as ->.
  set (prompt := flashcards_prompt (dict_get options "cards_count" (VInt 20))
                   (dict_get options "card_type" (VStr "qa"))
                   (dict_get options "difficulty" (VStr "mixed")) text_content) in *.
  set (key := "generated/" +:+ str_nat (pid p) +:+ "/" +:+ str_nat i
              +:+ "_" +:+ basename flashcards_path) in *.
  set (w4 := set_files (fun m => <[flashcards_path := json_dump E j]> m)
               (set_trace (fun t => (t ++ [EvChatCompletion "gpt-5-nano" prompt])%list)
                  w3)).
  set (w5 := set_profiles (fun m => <[user p := decimal_sub E b cost]> m) w4).
  assert (Hpipe : produce_artifact E p (user p) c options w2
                  = (Raise e, set_trace (fun t => (t ++ [EvS3Upload key])%list) w5)).
  { unfold produce_artifact.
    rewrite <- (bind_assoc (download_file_from_s3 E (s3_file_key p))
                  (extract_text_from_file E)).
    change (bind (download_file_from_s3 E (s3_file_key p)) (extract_text_from_file E))
      with (source_text E p).
    rewrite (run_bind_Ok _ _ _ _ _ Hsrc'). rewrite Hblank, Hct.
    rewrite bind_assoc.
    rewrite (run_bind_Ok _ _ _ _ _
               (generate_flashcards_from_text_run E text_content options w3
                  response j cost Hchat Hload Hcost)).
    fold prompt. fold w4. unfold bind at 1, ret at 1. cbn [fst snd].
    rewrite Hpos.
    rewrite (run_bind_Ok _ _ _ _ _
               (deduct_tokens_run E (user p) cost w4 b Hsave
                  (eq_trans (f_equal (fun m => m !! user p) Hp3) Hb2))).
    fold w5.
    change (negb (str_truthy (Some flashcards_path))) with false. cbv iota.
    change (default EmptyString (Some flashcards_path)) with flashcards_path.
    rewrite Hid. fold key.
    unfold s3_upload_file, bind, gets, emit, modify, fault, raise.
    change (files w5 !! flashcards_path)
      with ((<[flashcards_path := json_dump E j]> (files w3)) !! flashcards_path).
    rewrite lookup_insert_eq. cbn [fst snd]. rewrite Hup. reflexivity. }
  unfold out. rewrite Hrun, Hpipe. cbn [fst snd].
  split; [reflexivity |]. split.
  - rewrite <- Hid. apply (content_row_replace (with_task_status FAILURE c) c).
    simpl gc_id. rewrite Hid.
    change (contents (set_trace _ w5)) with (contents w3).
    assert (Hc3 : contents w3 = contents w).
    { assert (H : db w3 = db w) by congruence. injection H; auto. }
    rewrite Hc3. exact Hfil.
  - simpl. apply lookup_insert_eq.
Qed.

Lemma table_ok_flashcards_requested : table_ok (contents flashcards_requested_world).
Proof. split; apply (bool_decide_unpack _); vm_compute; exact I. Qed.

Lemma failed_upload_is_still_charged_witness :
  fst (generate_content_task upload_down_env 1 (flashcards_request 12)
         flashcards_requested_world) = Raise (ServiceError "s3")
  /\ content_row (snd (generate_content_task upload_down_env 1 (flashcards_request 12)
                         flashcards_requested_world)) 1
     = Some (with_task_status FAILURE flashcards_row)
  /\ profiles (snd (generate_content_task upload_down_env 1 (flashcards_request 12)
                      flashcards_requested_world)) !! 7
     = Some 49995%Z.
Proof.
  pose proof (failed_upload_is_still_charged upload_down_env 1 (flashcards_request 12)
                flashcards_requested_world flashcards_row example_project
                "Light becomes sugar."
                {| message_content := "{...}";
                   usage := {| prompt_tokens := 2000; completion_tokens := 1000 |} |}
                example_slides
                (NFloat (S754_finite false 4611686018427388 (-63)))
                (ServiceError "s3")
                table_ok_flashcards_requested
                ltac:(vm_compute; reflexivity) ltac:(vm_compute; reflexivity)
                ltac:(vm_compute; reflexivity) ltac:(vm_compute; reflexivity)
                ltac:(vm_compute; reflexivity) ltac:(vm_compute; reflexivity)
                ltac:(vm_compute; reflexivity) ltac:(vm_compute; reflexivity)
                ltac:(vm_compute; reflexivity) ltac:(vm_compute; reflexivity)
                ltac:(vm_compute; reflexivity) ltac:(vm_compute; reflexivity)) as H.
  cbv zeta in H. destruct H as (H1 & H2 & H3).
  split; [exact H1 |]. split; [exact H2 |].
  etransitivity; [exact H3 | vm_compute; reflexivity].
Defined.

(* ===================================================================== *)
(** * Requests in reachable worlds *)
(* ===================================================================== *)

Lemma objects_get_content_row (w : world) (r : GeneratedContent) :
  NoDup (map gc_id (contents w)) ->
  content_row w (gc_id r) = Some r -> objects_get (gc_id r) w = (Ok r, w).
Proof.
  intros Hids Hrow. unfold content_row in Hrow. unfold objects_get.
  destruct (filter (fun x => has_pk (gc_id r) x = true) (contents w))
    as [| y l] eqn:Hf; [discriminate Hrow |].
  injection Hrow as ->.
  assert (Hin : r ∈ filter (fun x => has_pk (gc_id r) x = true) (contents w))
    by (rewrite Hf; left).
  apply list_elem_of_filter in Hin as [_ Hin].
  rewrite (filter_unique gc_id _ (gc_id r) (contents w) r
             (fun x => has_pk_true (gc_id r) x) Hids Hin eq_refl) in Hf.
  injection Hf as <-. reflexivity.
Qed.

(** X26. In every world reached by requests and task runs from a well-formed
    one, a generation request of the project's owner that passes the
    balance check and validation is accepted: the handler does not fail
    on the database, it answers 202 and queues one task for the row. The
    row that task will find is pending with a null URL, so the task's
    cleanup of the prior artifact does nothing when the task runs next:
    the handler has already forgotten the URL of the earlier artifact. *)
Theorem request_accepted_when_reachable (E : env) (request_user pk : nat)
    (request_data vd : dict) (w0 : world) (actions : list (env * action))
    (p : Project) (ct : ContentType) (serializer_class : env -> dict -> result dict) :
  world_ok w0 ->
  let w := run w0 actions in
  fst (get_object request_user pk w) = Ok p ->
  profile_query_fault E (user p) = None ->
  below_minimum_balance (default default_token_balance (profiles w !! user p)) = false ->
  serializer_map (dict_get_none request_data "content_type")
  = Some (ct, serializer_class) ->
  serializer_class E request_data = Ok vd ->
  let out := generate_content E request_user pk request_data w in
  exists r,
    fst out
    = Ok (accepted_response
            ("Content generation for '"
             +:+ py_str (dict_get_none request_data "content_type") +:+ "' started.")
            (uuid4 E (length (queue w))) (gc_id r))
    /\ queue (snd out) = (queue w ++ [GenerateContentTask (gc_id r) vd])%list
    /\ objects_get (gc_id r) (snd out) = (Ok r, snd out)
    /\ unique_key r = (pid p, ct) /\ task_status r = PENDING /\ s3_url r = None
    /\ forall E', delete_old_object E' r (snd out) = (Ok tt, snd out).
Proof.
  intros Hok0 w Hobj Hfault Hbal Hser Hvd out.
  pose proof (run_world_ok actions w0 Hok0) as Hok. fold w in Hok.
  destruct (generate_content_accepted E request_user pk request_data w p ct
              serializer_class vd Hok Hobj Hfault Hbal Hser Hvd)
    as (r & Hfst & Hq & Hrow & Hkey & Hst & Hurl & _ & _).
  fold out in Hfst, Hq, Hrow.
  pose proof (generate_content_table_ok E request_user pk request_data w (proj1 Hok))
    as Hok'.
  fold out in Hok'.
  exists r. split; [exact Hfst |]. split; [exact Hq |].
  split; [apply objects_get_content_row; [exact (proj1 Hok') | exact Hrow] |].
  split; [exact Hkey |]. split; [exact Hst |]. split; [exact Hurl |].
  intros E'. unfold delete_old_object. rewrite Hurl. reflexivity.
Qed.

Lemma request_accepted_when_reachable_witness :
  exists r,
    fst (generate_content calm_env 7 1 (presentation_request 12) delivered_world)
    = Ok (accepted_response "Content generation for 'PPT' started."
            (uuid4 calm_env (length (queue delivered_world))) (gc_id r))
    /\ s3_url r = None
    /\ forall E', delete_old_object E' r
                    (snd (generate_content calm_env 7 1 (presentation_request 12)
                            delivered_world))
                  = (Ok tt, snd (generate_content calm_env 7 1 (presentation_request 12)
                                   delivered_world)).
Proof.
  destruct (request_accepted_when_reachable calm_env 7 1 (presentation_request 12)
              (<["content_type" := VStr "PPT"]>
                 (<["slides_count" := VInt 12]>
                    (<["include_images" := VBool false]> ∅)))
              (example_world 50000)
              [(calm_env, GenerateContent 7 1 (presentation_request 8));
               (calm_env, RunTask (GenerateContentTask 1 (presentation_request 8)))]
              example_project PRESENTATION PresentationGenerateSerializer)
    as (r & Hfst & _ & _ & _ & _ & Hurl & Hclean);
    try (vm_compute; reflexivity).
  - split; [split |]; apply (bool_decide_unpack _); vm_compute; exact I.
  - exists r. split; [exact Hfst |]. split; [exact Hurl | exact Hclean].
Defined.

(* ===================================================================== *)
(** * The chat app *)
(* ===================================================================== *)

Lemma run_liftW {W L A} (m : M W A) (w w' : W) (l : L) (r : result A) :
  m w = (r, w') -> liftW m (w, l) = (r, (w', l)).
Proof. intros H. unfold liftW. simpl. rewrite H. reflexivity. Qed.

(** X27. [post_message] takes the project by its key alone: whoever the caller
    is, the owner or not, a valid message about an existing project that
    has no chat session yet is accepted. A session of the caller on that
    project is created, the message is stored as the user's, one chat
    task is queued for the session, and the answer is 202 with the
    session's key. (When the project already has a session of another
    user, the insert violates the one-to-one constraint and the handler
    raises with nothing written.) *)
Theorem post_message_ignores_ownership (E : env) (request_user : nat)
    (request_data : dict) (w : world) (d : chat_db) (n : nat) (message_text : string) :
  PostMessageSerializer E request_data = Ok (Z.of_nat n, message_text) ->
  (exists p, p ∈ projects w /\ pid p = n) ->
  Forall (fun s => cs_id s < next_session d) (sessions d) ->
  let s := {| cs_id := next_session d; cs_project := n; cs_user := request_user |} in
  ((forall s0, s0 ∈ sessions d -> cs_project s0 <> n) ->
   post_message E request_user request_data (w, d)
   = (Ok {| status_code := 202;
            data := <["message" := VStr "Message received, AI is responding."]>
                    (<["session_id" := VInt (Z.of_nat (next_session d))]> ∅) |},
      (w, enqueue_chat (next_session d, message_text)
            (add_message {| cm_session := next_session d; cm_sender := USER;
                            cm_message := message_text |}
               (add_session s d)))))
  /\ (forall s0, s0 ∈ sessions d -> cs_project s0 = n ->
      (forall s1, s1 ∈ sessions d -> cs_project s1 = n -> cs_user s1 <> request_user) ->
      post_message E request_user request_data (w, d) = (Raise IntegrityError, (w, d))).
Proof.
  intros Hvd (p & Hp & Hpid) Hseq s.
  assert (Hknown : existsb (fun p => (Z.of_nat (pid p) =? Z.of_nat n)%Z) (projects w)
                   = true).
  { apply existsb_exists. exists p. split; [apply list_elem_of_In, Hp |].
    apply Z.eqb_eq. congruence. }
  assert (Hused : existsb (fun s => (cs_id s =? next_session d)%nat) (sessions d) = false).
  { apply not_true_is_false. intros Hex.
    apply existsb_exists in Hex as (x & Hx & Heq). apply Nat.eqb_eq in Heq.
    rewrite Forall_forall in Hseq.
    specialize (Hseq x (proj2 (list_elem_of_In _ _) Hx)). lia. }
  split.
  - intros Hnone.
    assert (Hfil : filter (fun s => Z.of_nat (cs_project s) = Z.of_nat n
                                    /\ cs_user s = request_user) (sessions d) = []).
    { apply filter_none. intros x Hx [Hproj _]. apply (Hnone x Hx). lia. }
    assert (Htaken : existsb (fun s => (Z.of_nat (cs_project s) =? Z.of_nat n)%Z)
                       (sessions d) = false).
    { apply not_true_is_false. intros Hex.
      apply existsb_exists in Hex as (x & Hx & Heq). apply Z.eqb_eq in Heq.
      apply (Hnone x (proj2 (list_elem_of_In _ _) Hx)). lia. }
    unfold post_message. unfold of_result at 1. unfold bind at 1. rewrite Hvd.
    unfold session_get_or_create.
    unfold bind at 1. unfold bind at 1. unfold get_local at 1, gets at 1.
    cbn [fst snd]. rewrite Hfil.
    unfold bind at 1. unfold liftW at 1, gets at 1. cbn [fst snd].
    rewrite Hknown, Htaken, Hused. cbn [andb negb].
    rewrite Nat2Z.id. fold s.
    unfold set_local, bind, modify, ret. cbn [fst snd]. reflexivity.
  - intros s0 Hs0 Hproj0 Hothers.
    assert (Hfil : filter (fun s => Z.of_nat (cs_project s) = Z.of_nat n
                                    /\ cs_user s = request_user) (sessions d) = []).
    { apply filter_none. intros x Hx [Hproj Hu].
      apply (Hothers x Hx); [lia | exact Hu]. }
    assert (Htaken : existsb (fun s => (Z.of_nat (cs_project s) =? Z.of_nat n)%Z)
                       (sessions d) = true).
    { apply existsb_exists. exists s0. split; [apply list_elem_of_In, Hs0 |].
      apply Z.eqb_eq. congruence. }
    unfold post_message. unfold of_result at 1. unfold bind at 1. rewrite Hvd.
    unfold session_get_or_create.
    unfold bind at 1. unfold bind at 1. unfold get_local at 1, gets at 1.
    cbn [fst snd]. rewrite Hfil.
    unfold bind at 1. unfold liftW at 1, gets at 1. cbn [fst snd].
    rewrite Hknown, Htaken. reflexivity.
Qed.

Lemma post_message_ignores_ownership_witness :
  user example_project <> 8
  /\ fst (post_message calm_env 8 (chat_request 1 "What is light?")
            (example_world 50000, empty_chat))
     = Ok {| status_code := 202;
             data := <["message" := VStr "Message received, AI is responding."]>
                     (<["session_id" := VInt 1]> ∅) |}
  /\ sessions asked_chat = [ {| cs_id := 1; cs_project := 1; cs_user := 8 |} ].
Proof.
  destruct (post_message_ignores_ownership calm_env 8 (chat_request 1 "What is light?")
              (example_world 50000) empty_chat 1 "What is light?"
              ltac:(vm_compute; reflexivity)
              ltac:(exists example_project; split; [left | reflexivity])
              ltac:(constructor)) as [H _].
  cbv zeta in H.
  assert (Hnone : forall s0, s0 ∈ sessions empty_chat -> cs_project s0 <> 1)
    by (intros s0 Hs0; inversion Hs0).
  specialize (H Hnone).
  split; [discriminate |]. split.
  - rewrite H. reflexivity.
  - unfold asked_chat. rewrite H. reflexivity.
Defined.

(** X28. The chat task answers from the project's document, whoever opened the
    session: it does not compare the session's user with the project's
    owner, it has no guard on the extracted text and no balance check.
    With the session and its project found, the text extracted and the
    completion returned, the prompt sent to the model holds the first
    6000 characters of the document and the question, the completion is
    stored as the AI's message in the session, and no balance changes. *)
Theorem chat_task_answers_from_document (E : env) (chat_session_id : nat)
    (user_message : string) (w w1 : world) (d : chat_db) (s : ChatSession)
    (p : Project) (document_context : string) (response : ChatCompletion) :
  filter (fun x => cs_id x = chat_session_id) (sessions d) = [s] ->
  fst (get_project (cs_project s) w) = Ok p ->
  source_text E p w = (Ok document_context, w1) ->
  chat_completions_create E "gpt-5-nano" (chat_prompt document_context user_message)
  = Ok response ->
  get_ai_chat_response_task E chat_session_id user_message (w, d)
  = (Ok "AI response generated successfully.",
     (set_trace
        (fun t => (t ++ [EvChatCompletion "gpt-5-nano"
                           (chat_prompt document_context user_message)])%list) w1,
      add_message {| cm_session := cs_id s; cm_sender := AI;
                     cm_message := message_content response |} d))
  /\ profiles w1 = profiles w.
Proof.
  intros Hfil Hproj Hsrc Hchat.
  destruct (get_project_Ok _ _ _ Hproj) as (_ & _ & Hrun).
  specialize (Hrun w eq_refl).
  destruct (source_text_frame E p w) as (_ & _ & Hprof & _).
  rewrite Hsrc in Hprof. cbn [snd] in Hprof.
  split; [| exact Hprof].
  unfold source_text in Hsrc. unfold bind in Hsrc.
  destruct (download_file_from_s3 E (s3_file_key p) w) as [[path | e] w0] eqn:Hdl;
    [| discriminate Hsrc].
  unfold get_ai_chat_response_task.
  unfold bind at 1. unfold get_local at 1, gets at 1. cbn [fst snd]. rewrite Hfil.
  rewrite (run_bind_Ok _ _ _ _ _ (run_liftW _ w w d _ Hrun)).
  rewrite (run_bind_Ok _ _ _ _ _ (run_liftW _ w w0 d _ Hdl)).
  rewrite (run_bind_Ok _ _ _ _ _ (run_liftW _ w0 w1 d _ Hsrc)).
  assert (Hcall : chat_completion E "gpt-5-nano"
                    (chat_prompt document_context user_message) w1
                  = (Ok response,
                     set_trace
                       (fun t => (t ++ [EvChatCompletion "gpt-5-nano"
                                          (chat_prompt document_context user_message)])%list)
                       w1)).
  { unfold chat_completion, bind, emit, modify, of_result. cbn [fst snd].
    rewrite Hchat. reflexivity. }
  rewrite (run_bind_Ok _ _ _ _ _ (run_liftW _ _ _ d _ Hcall)).
  reflexivity.
Qed.

Lemma chat_task_answers_from_document_witness :
  fst (get_ai_chat_response_task calm_env 1 "What is light?"
         (example_world 50000, asked_chat))
  = Ok "AI response generated successfully."
  /\ chat_messages (snd (snd (get_ai_chat_response_task calm_env 1 "What is light?"
                                (example_world 50000, asked_chat))))
     = [ {| cm_session := 1; cm_sender := USER; cm_message := "What is light?" |};
         {| cm_session := 1; cm_sender := AI; cm_message := "{...}" |} ].
Proof.
  destruct (chat_task_answers_from_document calm_env 1 "What is light?"
              (example_world 50000)
              (snd (source_text calm_env example_project (example_world 50000)))
              asked_chat {| cs_id := 1; cs_project := 1; cs_user := 8 |}
              example_project "Light becomes sugar."
              {| message_content := "{...}";
                 usage := {| prompt_tokens := 2000; completion_tokens := 1000 |} |}
              ltac:(vm_compute; reflexivity) ltac:(vm_compute; reflexivity)
              ltac:(vm_compute; reflexivity) ltac:(vm_compute; reflexivity))
    as [H _].
  rewrite H. split; [reflexivity | vm_compute; reflexivity].
Defined.

Section StableLedger.
Context (E : env).

Lemma ledger_get_project i : stable ledger (get_project i).
Proof. intros w. unfold get_project. destruct (filter _ (projects w)); reflexivity. Qed.

Lemma ledger_download_file_from_s3 key : stable ledger (download_file_from_s3 E key).
Proof. unfold download_file_from_s3, s3_download_file, emit. stable_auto. Qed.

Lemma ledger_extract_text_from_file path :
  stable ledger (extract_text_from_file E path).
Proof.
  unfold extract_text_from_file, read_file, remove_if_exists. stable_auto.
Qed.

Lemma ledger_chat_completion model prompt :
  stable ledger (chat_completion E model prompt).
Proof. unfold chat_completion, emit. stable_auto. Qed.
End StableLedger.

Lemma chat_extends_refl (d : chat_db) : chat_extends d d.
Proof. split; [| split]; reflexivity. Qed.

Lemma chat_extends_trans (d0 d1 d2 : chat_db) :
  chat_extends d0 d1 -> chat_extends d1 d2 -> chat_extends d0 d2.
Proof.
  intros (H1 & H2 & H3) (H4 & H5 & H6).
  split; [| split]; etransitivity; eassumption.
Qed.

Lemma chat_extends_add_session s d : chat_extends d (add_session s d).
Proof.
  split; [apply prefix_app_r; reflexivity | split; reflexivity].
Qed.

Lemma chat_extends_add_message m d : chat_extends d (add_message m d).
Proof.
  split; [reflexivity | split; [apply prefix_app_r; reflexivity | reflexivity]].
Qed.

Lemma chat_extends_enqueue_chat t d : chat_extends d (enqueue_chat t d).
Proof.
  split; [reflexivity | split; [reflexivity | apply prefix_app_r; reflexivity]].
Qed.

Section ChatInvariant.
Context (E : env) (w0 : world) (d0 : chat_db).

Local Abbreviation kept :=
  (fun s : world * chat_db => ledger (fst s) = ledger w0 /\ chat_extends d0 (snd s)).

Lemma kept_liftW {A} (m : M world A) : stable ledger m -> preserves kept (liftW m).
Proof.
  intros Hm [w d] [Hl Hd]. unfold liftW. simpl in *. specialize (Hm w).
  destruct (m w) as [r w']. simpl in *. split; [congruence | exact Hd].
Qed.

Lemma kept_set_local (f : chat_db -> chat_db) :
  (forall d, chat_extends d (f d)) -> preserves kept (set_local f).
Proof.
  intros Hf [w d] [Hl Hd]. unfold set_local, modify. simpl in *.
  split; [exact Hl | exact (chat_extends_trans d0 d (f d) Hd (Hf d))].
Qed.

Lemma kept_get_local : preserves kept (@get_local world chat_db).
Proof. intros s H. exact H. Qed.
Lemma kept_of_result {A} (r : result A) : preserves kept (of_result r).
Proof. intros s H. exact H. Qed.

Lemma post_message_kept u request_data :
  preserves kept (post_message E u request_data).
Proof.
  unfold post_message.
  apply preserves_bind; [apply kept_of_result | intros [n msg]].
  apply preserves_bind.
  - unfold session_get_or_create.
    apply preserves_bind; [apply kept_get_local | intros d1].
    destruct (filter _ (sessions d1)) as [| s1 [| s2 l]];
      [| apply preserves_ret | apply preserves_raise].
    apply preserves_bind; [apply kept_liftW, stable_gets | intros known].
    destruct (known && _ && _); [| apply preserves_raise].
    apply preserves_bind;
      [apply kept_set_local; intros; apply chat_extends_add_session | intros _].
    apply preserves_ret.
  - intros [session created].
    apply preserves_bind;
      [apply kept_set_local; intros; apply chat_extends_add_message | intros _].
    apply preserves_bind;
      [apply kept_set_local; intros; apply chat_extends_enqueue_chat | intros _].
    apply preserves_ret.
Qed.

Lemma get_ai_chat_response_task_kept chat_session_id user_message :
  preserves kept (get_ai_chat_response_task E chat_session_id user_message).
Proof.
  unfold get_ai_chat_response_task.
  apply preserves_bind; [apply kept_get_local | intros d1].
  destruct (filter _ (sessions d1)) as [| s1 [| s2 l]];
    [apply preserves_raise | | apply preserves_raise].
  apply preserves_bind; [apply kept_liftW, ledger_get_project | intros p].
  apply preserves_bind;
    [apply kept_liftW, ledger_download_file_from_s3 | intros path].
  apply preserves_bind;
    [apply kept_liftW, ledger_extract_text_from_file | intros text].
  apply preserves_bind; [apply kept_liftW, ledger_chat_completion | intros response].
  apply preserves_bind;
    [apply kept_set_local; intros; apply chat_extends_add_message | intros _].
  apply preserves_ret.
Qed.
End ChatInvariant.


(** X29. The chat app only ever appends: whatever the request or the task run
    and however it ends, the sessions, messages and queued chat tasks
    that were there are still there, unchanged and in the same order, and
    the tables of the projects app, the balances and the queue of
    generation tasks are as they were. In particular a chat is never
    charged and never refused for want of balance. *)
Theorem chat_only_appends (E : env) (request_user : nat) (request_data : dict)
    (chat_session_id : nat) (user_message : string) (w : world) (d : chat_db) :
  let posted := snd (post_message E request_user request_data (w, d)) in
  let answered :=
    snd (get_ai_chat_response_task E chat_session_id user_message (w, d)) in
  (ledger (fst posted) = ledger w /\ chat_extends d (snd posted))
  /\ (ledger (fst answered) = ledger w /\ chat_extends d (snd answered)).
Proof.
  cbv zeta. split.
  - apply (post_message_kept E w d request_user request_data (w, d)).
    split; [reflexivity | apply chat_extends_refl].
  - apply (get_ai_chat_response_task_kept E w d chat_session_id user_message (w, d)).
    split; [reflexivity | apply chat_extends_refl].
Qed.
